(** * Brick Viewer firmware transfer engine (brickv/flashing.py)

    A shallow embedding of the Bricklet flashing routines of
    [brickv/flashing.py]: the Co-MCU bootloader protocol
    ([write_bricklet_plugin_comcu] with its two polling helpers), the TNG
    protocol ([write_bricklet_plugin_tng]), the classic EEPROM plugin
    protocol ([write_bricklet_plugin_classic]) and the UID writer
    ([uid_save_clicked]).

    The Python methods talk to a device through generated bindings and to
    the user through a progress dialog and message boxes.  Both are effects:
    the device is an abstract state machine [Device D] whose methods may
    return or raise, and every call, sleep, dialog update and message box is
    appended to an event trace.  Python exceptions, [return] inside loops,
    [break] and [continue] are written out explicitly. *)

From Stdlib Require Import ZArith List String Ascii Bool Lia DecimalString.
From Stdlib.Strings Require Import Byte.
Import ListNotations.
Open Scope Z_scope.

Set Implicit Arguments.

(** ** Python values and helpers *)

Module Py.

Definition bytes := list byte.

(** [str(n)] for an [int]. *)
Definition str (z : Z) : string := NilZero.string_of_int (Z.to_int z).

(** [len(l)]. *)
Definition len {A} (l : list A) : Z := Z.of_nat (List.length l).

(** [l[i:j]] for [0 <= i]; Python clamps both ends to [len(l)].  The
    engine only slices at non-negative offsets. *)
Definition slice {A} (l : list A) (i j : Z) : list A :=
  firstn (Z.to_nat (j - i)) (skipn (Z.to_nat i) l).

(** [l[i]] for [0 <= i < len(l)]; [None] stands for the [IndexError] (or
    the wrap-around of a negative index), which the engine never reaches. *)
Definition index {A} (l : list A) (i : Z) : option A :=
  if i <? 0 then None else nth_error l (Z.to_nat i).

(** [range(a, b, step)] for [0 < step]. *)
Definition range_step (a b step : Z) : list Z :=
  map (fun k => a + step * Z.of_nat k)
      (seq 0 (Z.to_nat ((b - a + step - 1) / step))).

(** [range(a, b)]. *)
Definition range (a b : Z) : list Z :=
  map (fun k => a + Z.of_nat k) (seq 0 (Z.to_nat (b - a))).

(** [s.endswith(suffix)]. *)
Definition endswith (s suffix : string) : bool :=
  let n := String.length s in
  let m := String.length suffix in
  (m <=? n)%nat && String.eqb (substring (n - m) m s) suffix.

(** [c in s] for a one-character [c]. *)
Definition char_in (c : ascii) (s : string) : bool :=
  existsb (Ascii.eqb c) (list_ascii_of_string s).

(** [a == b] on [bytes]. *)
Definition bytes_eqb (a b : bytes) : bool :=
  if list_eq_dec byte_eq_dec a b then true else false.

(** [b'\0' * n]. *)
Definition zeros (n : Z) : bytes := repeat x00 (Z.to_nat n).

(** [all(b == 0 for b in l)]. *)
Definition all_zero (l : bytes) : bool := forallb (Byte.eqb x00) l.

End Py.

(** ** Exceptions of the bindings *)

(** The values of [Error.value] that [error_to_name] tells apart. *)
Inductive error_value :=
| TIMEOUT
| NOT_CONNECTED
| INVALID_PARAMETER
| NOT_SUPPORTED
| OTHER_ERROR (code : Z).

(** The bindings' own exception class [Error] as the engine reads it: its
    [value] and its rendering by [format].  The class derives from
    [Exception] and has no attribute [message]. *)
Record Error := {
  value : error_value;
  error_text : string
}.

(** A raised exception, with its rendering by [format]: an [Error], another
    exception derived from [Exception], or one outside [Exception]
    ([KeyboardInterrupt], [SystemExit]), which [except Exception] lets
    pass and a bare [except:] catches. *)
Inductive exn :=
| IsError (e : Error)
| Exception (text : string)
| BaseException (text : string).

Definition exn_text (e : exn) : string :=
  match e with
  | IsError e => error_text e
  | Exception t => t
  | BaseException t => t
  end.

(** [isinstance(e, Exception)]. *)
Definition is_Exception (e : exn) : bool :=
  match e with
  | IsError _ | Exception _ => true
  | BaseException _ => false
  end.

(** What a call into a binding does: return a value or raise. *)
Inductive reply (A : Type) :=
| Returns (a : A)
| Raises (e : exn).
Arguments Raises {A} e.

(** [error_to_name]: the last line, [return e.message], raises
    [AttributeError], since an [Error] has no such attribute. *)
Definition error_to_name (e : Error) : reply string :=
  match value e with
  | TIMEOUT => Returns "Timeout"%string
  | NOT_CONNECTED => Returns "No TCP/IP connection"%string
  | INVALID_PARAMETER => Returns "Invalid parameter"%string
  | NOT_SUPPORTED => Returns "Not supported"%string
  | OTHER_ERROR _ =>
      Raises (Exception "'Error' object has no attribute 'message'")
  end.

(** ** The device and the trace *)

(** Everything behind the TCP/IP connection: the Bricklet's own functions
    (Co-MCU and TNG), the parent Brick's plugin functions ([brick_...]),
    and the two UID helpers of the connection object ([ipcon_...]).  [D] is
    the hidden device state. *)
Record Device (D : Type) := {
  set_bootloader_mode : Z -> D -> reply Z * D;
  get_bootloader_mode : D -> reply Z * D;
  set_write_firmware_pointer : Z -> D -> reply unit * D;
  write_firmware : Py.bytes -> D -> reply Z * D;
  copy_firmware : D -> reply Z * D;
  reset : D -> reply unit * D;
  write_uid : Z -> D -> reply unit * D;
  read_uid : D -> reply Z * D;
  brick_write_bricklet_plugin : string -> Z -> Py.bytes -> D -> reply unit * D;
  brick_read_bricklet_plugin : string -> Z -> D -> reply Py.bytes * D;
  ipcon_write_bricklet_uid : string -> string -> D -> reply unit * D;
  ipcon_read_bricklet_uid : string -> D -> reply string * D
}.

(** A request sent to the device, with its arguments. *)
Inductive call :=
| CSetBootloaderMode (mode : Z)
| CGetBootloaderMode
| CSetWriteFirmwarePointer (pointer : Z)
| CWriteFirmware (data : Py.bytes)
| CCopyFirmware
| CReset
| CWriteUid (uid : Z)
| CReadUid
| CWriteBrickletPlugin (port : string) (position : Z) (chunk : Py.bytes)
| CReadBrickletPlugin (port : string) (position : Z)
| CWriteBrickletUid (port : string) (uid : string)
| CReadBrickletUid (port : string).

(** The methods of the progress dialog the engine uses. *)
Inductive progress_op :=
| setLabelText (text : string)
| setMaximum (n : Z)
| setValue (n : Z)
| show
| cancel.

(** Observable effects, in the order they happen.  [EvSleep] is in
    milliseconds. *)
Inductive event :=
| EvCall (c : call)
| EvProgress (p : progress_op)
| EvPopupFail (title message : string)
| EvPopupOk (title message : string)
| EvSleep (ms : Z)
| EvSetResponseExpected (function_id : Z) (flag : bool)
| EvProcessEvents
| EvExcepthook (e : exn).

(** ** The effect monad *)

(** A statement either completes with a value, raises, or (when a loop
    has used up its fuel) has not finished. *)
Inductive outcome (A : Type) :=
| Val (a : A)
| Raise (e : exn)
| Diverge.
Arguments Raise {A} e.
Arguments Diverge {A}.

Definition M (D A : Type) : Type := D -> outcome A * D * list event.

Definition ret {D A} (a : A) : M D A := fun d => (Val a, d, []).

Definition bind {D A B} (m : M D A) (k : A -> M D B) : M D B :=
  fun d =>
    match m d with
    | (Val a, d1, ev1) =>
        match k a d1 with
        | (r, d2, ev2) => (r, d2, ev1 ++ ev2)
        end
    | (Raise e, d1, ev1) => (Raise e, d1, ev1)
    | (Diverge, d1, ev1) => (Diverge, d1, ev1)
    end.

Notation "x <- m ;; k" := (bind m (fun x => k))
  (at level 61, m at next level, right associativity).
Notation "m ;;; k" := (bind m (fun _ => k))
  (at level 61, right associativity).
Notation "a +++ b" := (String.append a b)
  (at level 60, right associativity).

Definition raise {D A} (e : exn) : M D A := fun d => (Raise e, d, []).

Definition diverge {D A} : M D A := fun d => (Diverge, d, []).

Definition emit {D} (e : event) : M D unit := fun d => (Val tt, d, [e]).

(** [try: m  except: handler] with a handler for every exception. *)
Definition try_except {D A} (m : M D A) (handler : exn -> M D A) : M D A :=
  fun d =>
    match m d with
    | (Raise e, d1, ev1) =>
        match handler e d1 with
        | (r, d2, ev2) => (r, d2, ev1 ++ ev2)
        end
    | r => r
    end.

(** [try: m  except Error as e: handler]: other exceptions pass. *)
Definition try_except_Error {D A} (m : M D A)
  (handler : Error -> M D A) : M D A :=
  try_except m (fun e =>
    match e with
    | IsError err => handler err
    | _ => raise e
    end).

(** [try: m  except Exception as e: handler]: exceptions outside
    [Exception] pass. *)
Definition try_except_Exception {D A} (m : M D A)
  (handler : exn -> M D A) : M D A :=
  try_except m (fun e => if is_Exception e then handler e else raise e).

(** A value computed by an expression that may raise. *)
Definition eval {D A} (r : reply A) : M D A :=
  match r with
  | Returns a => ret a
  | Raises e => raise e
  end.

(** A call into a binding: logged, then answered by the device. *)
Definition request {D A} (c : call) (f : D -> reply A * D) : M D A :=
  fun d =>
    match f d with
    | (Returns a, d1) => (Val a, d1, [EvCall c])
    | (Raises e, d1) => (Raise e, d1, [EvCall c])
    end.

Definition sleep {D} (ms : Z) : M D unit := emit (EvSleep ms).
Definition progress {D} (p : progress_op) : M D unit := emit (EvProgress p).
Definition popup_fail {D} (title message : string) : M D unit :=
  emit (EvPopupFail title message).
Definition popup_ok {D} (title message : string) : M D unit :=
  emit (EvPopupOk title message).

(** How a loop body or a block ends: it falls through to the next
    statement, or the enclosing function returns. *)
Inductive flow (S R : Type) :=
| Next (s : S)
| Return (r : R).
Arguments Next {S R} s.
Arguments Return {S R} r.

(** The trace restricted to device requests. *)
Definition calls_of (evs : list event) : list call :=
  flat_map (fun e => match e with EvCall c => [c] | _ => [] end) evs.

(** The trace restricted to sleeps. *)
Definition sleeps_of (evs : list event) : list Z :=
  flat_map (fun e => match e with EvSleep ms => [ms] | _ => [] end) evs.

(** The message boxes reporting a failure. *)
Definition failures_of (evs : list event) : list (string * string) :=
  flat_map (fun e => match e with EvPopupFail t m => [(t, m)] | _ => [] end) evs.

(** ** The zip container *)

(** What [zipfile.ZipFile] offers the engine: the entry names in archive
    order and the reader of an entry (which may raise). *)
Record ZipFile := {
  namelist : list string;
  read : string -> reply Py.bytes
}.

(** ** The engine *)

Section Engine.

Context {D : Type}.
Variable dev : Device D.

(** Bound on the iterations of every [while] loop of the model; a loop
    that exhausts it ends in [Diverge]. *)
Variable fuel : nat.

(** [zipfile.ZipFile(io.BytesIO(zip_file), 'r')]. *)
Variable zipfile_ZipFile : Py.bytes -> reply ZipFile.

Definition BOOTLOADER_MODE_BOOTLOADER : Z := 0.
Definition BOOTLOADER_MODE_FIRMWARE : Z := 1.

(** *** Bootloader mode helpers *)

Fixpoint set_comcu_bootloader_mode_loop (n : nat) (mode counter : Z)
  : M D (option Z) :=
  match n with
  | O => diverge
  | S n' =>
      r <- try_except
             (status <- request (CSetBootloaderMode mode)
                                (set_bootloader_mode dev mode) ;;
              ret (Return status))
             (fun _ => ret (Next tt)) ;;
      match r with
      | Return status => ret (Some status)
      | Next _ =>
          if counter =? 10 then ret None
          else
            sleep 250 ;;;
            set_comcu_bootloader_mode_loop n' mode (counter + 1)
      end
  end.

Definition set_comcu_bootloader_mode (mode : Z) : M D (option Z) :=
  set_comcu_bootloader_mode_loop fuel mode 0.

Fixpoint wait_for_comcu_bootloader_mode_loop (n : nat) (mode counter : Z)
  : M D bool :=
  match n with
  | O => diverge
  | S n' =>
      r <- try_except
             (current <- request CGetBootloaderMode (get_bootloader_mode dev) ;;
              if current =? mode then ret (Return true) else ret (Next tt))
             (fun _ => ret (Next tt)) ;;
      match r with
      | Return b => ret b
      | Next _ =>
          if counter =? 10 then ret false
          else
            sleep 250 ;;;
            wait_for_comcu_bootloader_mode_loop n' mode (counter + 1)
      end
  end.

Definition wait_for_comcu_bootloader_mode (mode : Z) : M D bool :=
  wait_for_comcu_bootloader_mode_loop fuel mode 0.

(** *** Firmware extraction, shared by Co-MCU and TNG *)

(** [for name in zf.namelist(): if name.endswith('firmware.bin'): ...].
    The loop variable shadows the [name] parameter of the method, so the
    result also carries the value [name] has after the loop. *)
Fixpoint find_firmware (zf : ZipFile) (names : list string) (name : string)
  : reply (string * option Py.bytes) :=
  match names with
  | [] => Returns (name, None)
  | n :: rest =>
      if Py.endswith n "firmware.bin" then
        match read zf n with
        | Returns data => Returns (n, Some data)
        | Raises e => Raises e
        end
      else find_firmware zf rest n
  end.

(** *** Co-MCU Bricklets *)

Definition byte_is (b : option byte) (expected : byte) : bool :=
  match b with
  | Some x => Byte.eqb x expected
  | None => false
  end.

(** The test of line 1519 at index [i]. *)
Definition magic_at (plugin : Py.bytes) (i : Z) : bool :=
  byte_is (Py.index plugin i) x12 &&
  byte_is (Py.index plugin (i - 1)) x34 &&
  byte_is (Py.index plugin (i - 2)) x56 &&
  byte_is (Py.index plugin (i - 3)) x78.

Fixpoint scan_magic (plugin : Py.bytes) (indices : list Z)
  (regular_plugin_upto : Z) : Z :=
  match indices with
  | [] => regular_plugin_upto
  | i :: rest =>
      if magic_at plugin i then i
      else scan_magic plugin rest regular_plugin_upto
  end.

Definition find_regular_plugin_upto (plugin : Py.bytes) : Z :=
  scan_magic plugin (rev (Py.range 4 (Py.len plugin - 12))) (-1).

Definition XMC1_PAGE_SIZE : Z := 256.
Definition MAX_SKIPPED_ZERO_BYTES : Z := 20 * 1024.
(** Python computes the float [80.0]; it is only compared with integers. *)
Definition MAX_SKIPPED_PAGES : Z := MAX_SKIPPED_ZERO_BYTES / XMC1_PAGE_SIZE.

(** [for subpage_attempt in range(3)]: the value of [last_exception]
    after the loop. *)
Fixpoint write_block (attempts : list Z) (plugin : Py.bytes)
  (block_start block_end : Z) (last_exception : option exn)
  : M D (option exn) :=
  match attempts with
  | [] => ret last_exception
  | _ :: rest =>
      r <- try_except_Exception
             (request (CSetWriteFirmwarePointer block_start)
                      (set_write_firmware_pointer dev block_start) ;;;
              request (CWriteFirmware (Py.slice plugin block_start block_end))
                      (write_firmware dev (Py.slice plugin block_start block_end)) ;;;
              ret None)
             (fun e => ret (Some e)) ;;
      match r with
      | None => ret None
      | Some e => write_block rest plugin block_start block_end (Some e)
      end
  end.

(** [for block_offset in range(0, XMC1_PAGE_SIZE, 64)]. *)
Fixpoint write_page (block_offsets : list Z) (plugin : Py.bytes)
  (position : Z) : M D (flow unit bool) :=
  match block_offsets with
  | [] => ret (Next tt)
  | block_offset :: rest =>
      let block_start := position + block_offset in
      let block_end := block_start + 64 in
      last_exception <-
        write_block (Py.range 0 3) plugin block_start block_end None ;;
      match last_exception with
      | Some e =>
          progress cancel ;;;
          popup_fail "Bricklet" ("Could not write plugin: " +++ exn_text e) ;;;
          ret (Return false)
      | None => write_page rest plugin position
      end
  end.

(** The condition of line 1566. *)
Definition skip_page (allow_skipping : bool) (skipped_pages : Z)
  (plugin : Py.bytes) (plugin_len position : Z) : bool :=
  allow_skipping &&
  (skipped_pages <? MAX_SKIPPED_PAGES) &&
  (plugin_len - position >? XMC1_PAGE_SIZE) &&
  Py.all_zero (Py.slice plugin position (position + XMC1_PAGE_SIZE)).

(** [while position < plugin_len]. *)
Fixpoint write_pages (n : nat) (allow_skipping : bool) (plugin : Py.bytes)
  (plugin_len skipped_pages position : Z) : M D (flow unit bool) :=
  match n with
  | O => diverge
  | S n' =>
      if position <? plugin_len then
        if skip_page allow_skipping skipped_pages plugin plugin_len position
        then
          write_pages n' allow_skipping plugin plugin_len
                      (skipped_pages + 1) (position + XMC1_PAGE_SIZE)
        else
          r <- write_page (Py.range_step 0 XMC1_PAGE_SIZE 64) plugin position ;;
          match r with
          | Return b => ret (Return b)
          | Next _ =>
              let position := position + XMC1_PAGE_SIZE in
              progress (setValue position) ;;;
              write_pages n' allow_skipping plugin plugin_len 0 position
          end
      else ret (Next tt)
  end.

Definition attempt_str (attempt : Z) : string :=
  if attempt =? 0 then "" else " (attempt " +++ Py.str (attempt + 1) +++ ")".

Definition allow_skipping (attempt : Z) : bool := attempt =? 0.

(** Lines 1549-1596 of one attempt: enter the bootloader and write. *)
Definition comcu_write_attempt (plugin : Py.bytes) (plugin_len : Z)
  (name : string) (attempt : Z) : M D (flow unit bool) :=
  failed <-
    (mode_set <- set_comcu_bootloader_mode BOOTLOADER_MODE_BOOTLOADER ;;
     match mode_set with
     | None => ret true
     | Some _ =>
         entered <- wait_for_comcu_bootloader_mode BOOTLOADER_MODE_BOOTLOADER ;;
         ret (negb entered)
     end) ;;
  if failed : bool then
    progress cancel ;;;
    popup_fail "Bricklet"
      ("Device did not enter bootloader mode in 2.5 seconds" +++
       attempt_str attempt) ;;;
    ret (Return false)
  else
    progress (setLabelText
      ("Writing plugin" +++ attempt_str attempt +++ ": " +++ name)) ;;;
    progress (setMaximum plugin_len) ;;;
    progress (setValue 0) ;;;
    progress show ;;;
    write_pages fuel (allow_skipping attempt) plugin plugin_len
                (MAX_SKIPPED_PAGES + 1) 0.

(** The text for a status of the change to firmware mode. *)
Definition comcu_error_str (mode_ret : Z) : string :=
  if mode_ret =? 1 then "Invalid mode (Error 1)"
  else if mode_ret =? 3 then "Entry function not present (Error 3)"
  else if mode_ret =? 4 then "Device identifier incorrect (Error 4)"
  else if mode_ret =? 5 then "CRC Mismatch (Error 5)"
  else "Error " +++ Py.str mode_ret.

(** How one iteration of [for attempt in range(2)] ends. *)
Inductive attempt_end :=
| Continue (error_str : string)
| Break
| ReturnFrom (r : bool).

(** Lines 1605-1636: what the answer to the change to firmware mode
    leads to. *)
Definition comcu_check_mode_ret (mode_ret : option Z) : M D attempt_end :=
  match mode_ret with
  | None =>
      progress cancel ;;;
      popup_fail "Bricklet" "Device did not enter firmware mode in 2.5 seconds" ;;;
      ret (ReturnFrom false)
  | Some mode_ret =>
      if (mode_ret =? 0) || (mode_ret =? 2) then ret Break
      else
        let error_str := comcu_error_str mode_ret in
        if mode_ret =? 5 then ret (Continue error_str)
        else
          progress cancel ;;;
          popup_fail "Bricklet"
            ("Could not change from bootloader mode to firmware mode: " +++
             error_str) ;;;
          ret (ReturnFrom false)
  end.

(** The body of [for attempt in range(2)]. *)
Definition comcu_attempt (plugin : Py.bytes) (plugin_len : Z)
  (name : string) (attempt : Z) : M D attempt_end :=
  r <- comcu_write_attempt plugin plugin_len name attempt ;;
  match r with
  | Return b => ret (ReturnFrom b)
  | Next _ =>
      progress (setLabelText
        ("Changing from bootloader mode to firmware mode" +++
         attempt_str attempt)) ;;;
      progress (setMaximum 0) ;;;
      progress (setValue 0) ;;;
      progress show ;;;
      mode_ret <- set_comcu_bootloader_mode BOOTLOADER_MODE_FIRMWARE ;;
      comcu_check_mode_ret mode_ret
  end.

(** [for attempt in range(2)]: falls through with [flash_success] and
    [error_str] ([None] while it is unbound), or returns. *)
Fixpoint comcu_attempts (attempts : list Z) (plugin : Py.bytes)
  (plugin_len : Z) (name : string) (error_str : option string)
  : M D (flow (bool * option string) bool) :=
  match attempts with
  | [] => ret (Next (false, error_str))
  | attempt :: rest =>
      e <- comcu_attempt plugin plugin_len name attempt ;;
      match e with
      | Break => ret (Next (true, error_str))
      | Continue error_str' =>
          comcu_attempts rest plugin plugin_len name (Some error_str')
      | ReturnFrom b => ret (Return b)
      end
  end.

(** Lines 1638-1648: after the loop over the attempts. *)
Definition comcu_after_attempts (r : flow (bool * option string) bool)
  : M D bool :=
  match r with
  | Return b => ret b
  | Next (flash_success, error_str) =>
      if negb flash_success then
        progress cancel ;;;
        match error_str with
        | None => raise (Exception "UnboundLocalError")
        | Some error_str =>
            popup_fail "Bricklet"
              ("Could not change from bootloader mode to firmware mode: " +++
               error_str) ;;;
            ret false
        end
      else
        confirmed <- wait_for_comcu_bootloader_mode BOOTLOADER_MODE_FIRMWARE ;;
        if negb confirmed then
          progress cancel ;;;
          popup_fail "Bricklet"
            "Device did not enter firmware mode in 2.5 seconds" ;;;
          ret false
        else ret true
  end.

(** Lines 1515-1648: the method once the firmware has been extracted. *)
Definition comcu_flash (plugin : Py.bytes) (name : string) : M D bool :=
  let regular_plugin_upto := find_regular_plugin_upto plugin in
  if regular_plugin_upto =? -1 then
    progress cancel ;;;
    popup_fail "Bricklet" "Could not find magic number in firmware" ;;;
    ret false
  else
    let plugin_len := Py.len plugin in
    if negb (plugin_len mod XMC1_PAGE_SIZE =? 0) then
      progress cancel ;;;
      popup_fail "Bricklet" "Firmware size is not a multiple of the page size" ;;;
      ret false
    else
      r <- comcu_attempts (Py.range 0 2) plugin plugin_len name None ;;
      comcu_after_attempts r.

(** The handler of the method-wide [try: ... except:]. *)
Definition report_exception (e : exn) : M D bool :=
  progress cancel ;;;
  emit (EvExcepthook e) ;;;
  ret false.

Definition write_bricklet_plugin_comcu (plugin : Py.bytes) (name : string)
  : M D bool :=
  try_except
    (progress (setLabelText "Starting bootloader mode") ;;;
     progress (setMaximum 0) ;;;
     progress (setValue 0) ;;;
     progress show ;;;
     match zipfile_ZipFile plugin with
     | Raises e =>
         if is_Exception e then
           progress cancel ;;;
           popup_fail "Bricklet"
             ("Could not read *.zbin file: " +++ exn_text e) ;;;
           ret false
         else raise e
     | Returns zf =>
         match find_firmware zf (namelist zf) name with
         | Raises e => raise e
         | Returns (_, None) =>
             progress cancel ;;;
             popup_fail "Bricklet" "Could not find firmware in *.zbin file" ;;;
             ret false
         | Returns (name, Some plugin_data) => comcu_flash plugin_data name
         end
     end)
    report_exception.

(** *** TNG modules *)

(** One [bricklet.set_write_firmware_pointer(start)] followed by
    [bricklet.write_firmware(plugin[start:end])]. *)
Definition tng_write_block (plugin : Py.bytes) (start end_ : Z) : M D unit :=
  request (CSetWriteFirmwarePointer start)
          (set_write_firmware_pointer dev start) ;;;
  request (CWriteFirmware (Py.slice plugin start end_))
          (write_firmware dev (Py.slice plugin start end_)) ;;;
  ret tt.

(** [for position in index_list]. *)
Fixpoint tng_write_blocks (index_list : list Z) (plugin : Py.bytes)
  : M D (flow unit bool) :=
  match index_list with
  | [] => ret (Next tt)
  | position :: rest =>
      let start := position * 64 in
      let end_ := (position + 1) * 64 in
      r <- try_except
             (tng_write_block plugin start end_ ;;; ret (Next tt))
             (fun _ =>
                try_except_Exception
                  (tng_write_block plugin start end_ ;;; ret (Next tt))
                  (fun e =>
                     progress cancel ;;;
                     popup_fail "TNG Module"
                       ("Could not write firmware: " +++ exn_text e) ;;;
                     ret (Return false))) ;;
      match r with
      | Return b => ret (Return b)
      | Next _ =>
          progress (setValue position) ;;;
          tng_write_blocks rest plugin
      end
  end.

(** The text for a non-zero status of [copy_firmware]. *)
Definition tng_error_str (copy_status : Z) : string :=
  if copy_status =? 1 then "Device identifier incorrect (Error 1)"
  else if copy_status =? 2 then "Magic number incorrect (Error 2)"
  else if copy_status =? 3 then "Length malformed (Error 3)"
  else if copy_status =? 4 then "CRC mismatch (Error 4)"
  else "Error " +++ Py.str copy_status.

(** Lines 1427-1444: what the status of [copy_firmware] leads to. *)
Definition tng_check_copy_status (copy_status : Z) : M D bool :=
  if copy_status =? 0 then
    request CReset (reset dev) ;;;
    ret true
  else
    let error_str := tng_error_str copy_status in
    progress cancel ;;;
    popup_fail "Bricklet" ("Could not flash firmware: " +++ error_str) ;;;
    ret false.

(** Lines 1391-1424: padding and the block loop. *)
Definition tng_write_firmware (plugin : Py.bytes) (name : string)
  : M D (flow unit bool) :=
  let plugin_len_rest := Py.len plugin mod 64 in
  let plugin :=
    if negb (plugin_len_rest =? 0)
    then (plugin ++ Py.zeros (64 - plugin_len_rest))%list
    else plugin in
  let num_packets := Py.len plugin / 64 in
  let index_list := Py.range 0 num_packets in
  progress (setLabelText ("Writing plugin: " +++ name)) ;;;
  progress (setMaximum (Py.len index_list)) ;;;
  progress (setValue 0) ;;;
  progress show ;;;
  tng_write_blocks index_list plugin.

(** Lines 1391-1444: the method once the firmware has been extracted. *)
Definition tng_flash (plugin : Py.bytes) (name : string) : M D bool :=
  r <- tng_write_firmware plugin name ;;
  match r with
  | Return b => ret b
  | Next _ =>
      copy_status <- request CCopyFirmware (copy_firmware dev) ;;
      tng_check_copy_status copy_status
  end.

Definition write_bricklet_plugin_tng (plugin : Py.bytes) (name : string)
  : M D bool :=
  try_except
    (progress (setLabelText "Starting bootloader mode") ;;;
     progress (setMaximum 0) ;;;
     progress (setValue 0) ;;;
     progress show ;;;
     match zipfile_ZipFile plugin with
     | Raises e =>
         if is_Exception e then
           progress cancel ;;;
           popup_fail "Bricklet"
             ("Could not read *.zbin file: " +++ exn_text e) ;;;
           ret false
         else raise e
     | Returns zf =>
         match find_firmware zf (namelist zf) name with
         | Raises e => raise e
         | Returns (_, None) =>
             progress cancel ;;;
             popup_fail "TNG Module" "Could not find firmware in *.zbin file" ;;;
             ret false
         | Returns (name, Some plugin_data) => tng_flash plugin_data name
         end
     end)
    report_exception.

(** *** Classic Bricklets *)

(** [BrickMaster.FUNCTION_WRITE_BRICKLET_PLUGIN]; the source notes that it
    is function ID 246 on all Bricks. *)
Definition FUNCTION_WRITE_BRICKLET_PLUGIN : Z := 246.

Definition plugin_chunk_size : Z := 32.

(** One iteration of [while offset < len(plugin)]: the chunk at [offset],
    padded with zero bytes to [plugin_chunk_size]. *)
Definition chunk_at (plugin : Py.bytes) (offset : Z) : Py.bytes :=
  let chunk := Py.slice plugin offset (offset + plugin_chunk_size) in
  if Py.len chunk <? plugin_chunk_size
  then (chunk ++ Py.zeros (plugin_chunk_size - Py.len chunk))%list
  else chunk.

(** [while offset < len(plugin)]; [None] when the fuel runs out. *)
Fixpoint split_chunks (n : nat) (plugin : Py.bytes)
  (plugin_chunks : list Py.bytes) (offset : Z) : option (list Py.bytes) :=
  match n with
  | O => None
  | S n' =>
      if offset <? Py.len plugin then
        split_chunks n' plugin
          (plugin_chunks ++ [chunk_at plugin offset])%list
          (offset + plugin_chunk_size)
      else Some plugin_chunks
  end.

(** The first [for chunk in plugin_chunks]: write. *)
Fixpoint classic_write_chunks (plugin_chunks : list Py.bytes)
  (port : string) (position : Z) : M D (flow unit bool) :=
  match plugin_chunks with
  | [] => ret (Next tt)
  | chunk :: rest =>
      r <- try_except_Error
             (request (CWriteBrickletPlugin port position chunk)
                      (brick_write_bricklet_plugin dev port position chunk) ;;;
              ret (Next tt))
             (fun e =>
                progress cancel ;;;
                name <- eval (error_to_name e) ;;
                popup_fail "Bricklet"
                  ("Could not write Bricklet plugin: " +++ name) ;;;
                ret (Return false)) ;;
      match r with
      | Return b => ret (Return b)
      | Next _ =>
          let position := position + 1 in
          progress (setValue position) ;;;
          sleep 15 ;;;
          emit EvProcessEvents ;;;
          classic_write_chunks rest port position
      end
  end.

(** The second [for chunk in plugin_chunks]: read back and compare. *)
Fixpoint classic_verify_chunks (plugin_chunks : list Py.bytes)
  (port : string) (position : Z) : M D (flow unit bool) :=
  match plugin_chunks with
  | [] => ret (Next tt)
  | chunk :: rest =>
      r <- try_except_Error
             (read_chunk <- request (CReadBrickletPlugin port position)
                                    (brick_read_bricklet_plugin dev port position) ;;
              ret (Next read_chunk))
             (fun e =>
                progress cancel ;;;
                name <- eval (error_to_name e) ;;
                popup_fail "Bricklet"
                  ("Could not read Bricklet plugin back for verification: " +++
                   name) ;;;
                ret (Return false)) ;;
      match r with
      | Return b => ret (Return b)
      | Next read_chunk =>
          if negb (Py.bytes_eqb read_chunk chunk) then
            progress cancel ;;;
            popup_fail "Bricklet"
              "Could not flash Bricklet plugin: Verification error" ;;;
            ret (Return false)
          else
            let position := position + 1 in
            progress (setValue position) ;;;
            sleep 15 ;;;
            emit EvProcessEvents ;;;
            classic_verify_chunks rest port position
      end
  end.

(** The method returns [None] (a bare [return]), [False] or [True]. *)
Definition write_bricklet_plugin_classic (plugin : Py.bytes) (port : string)
  (name : string) : M D (option bool) :=
  if Py.len plugin >? 4084 then
    progress cancel ;;;
    popup_fail "Bricklet"
      "Could not write Bricklet plugin: Plugin is larger than 4084 bytes (the maximum plugin size for classic Bricklets)." ;;;
    ret None
  else
    progress (setLabelText ("Writing plugin: " +++ name)) ;;;
    progress (setMaximum 0) ;;;
    progress (setValue 0) ;;;
    progress show ;;;
    emit (EvSetResponseExpected FUNCTION_WRITE_BRICKLET_PLUGIN true) ;;;
    match split_chunks fuel plugin [] 0 with
    | None => diverge
    | Some plugin_chunks =>
        progress (setMaximum (Py.len plugin_chunks)) ;;;
        r <- classic_write_chunks plugin_chunks port 0 ;;
        match r with
        | Return b => ret (Some b)
        | Next _ =>
            sleep 100 ;;;
            progress (setLabelText ("Verifying written plugin: " +++ name)) ;;;
            progress (setMaximum (Py.len plugin_chunks)) ;;;
            progress (setValue 0) ;;;
            progress show ;;;
            sleep 100 ;;;
            r <- classic_verify_chunks plugin_chunks port 0 ;;
            match r with
            | Return b => ret (Some b)
            | Next _ => ret (Some true)
            end
        end
    end.

(** [write_bricklet_plugin]: the dispatch on the kind of Bricklet. *)
Definition write_bricklet_plugin (plugin : Py.bytes) (port name : string)
  (has_comcu current_bricklet_is_tng : bool) : M D (option bool) :=
  if has_comcu then
    b <- write_bricklet_plugin_comcu plugin name ;; ret (Some b)
  else if current_bricklet_is_tng then
    b <- write_bricklet_plugin_tng plugin name ;; ret (Some b)
  else write_bricklet_plugin_classic plugin port name.

(** *** UID *)

(** [BASE58], [base58decode] and [base58encode] are imported from
    [brickv.bindings.ip_connection]; the engine is stated over them. *)
Variable BASE58 : string.
Variable base58decode : string -> reply Z.
Variable base58encode : Z -> string.

Definition read_current_uid (port : string)
  (current_bricklet_has_comcu current_bricklet_is_tng : bool) : M D string :=
  if current_bricklet_has_comcu || current_bricklet_is_tng then
    uid <- request CReadUid (read_uid dev) ;;
    ret (base58encode uid)
  else
    request (CReadBrickletUid port) (ipcon_read_bricklet_uid dev port).

(** [for c in uid: if c not in BASE58]: the first offending character. *)
Fixpoint first_not_in_BASE58 (uid : list ascii) : option ascii :=
  match uid with
  | [] => None
  | c :: rest =>
      if negb (Py.char_in c BASE58) then Some c else first_not_in_BASE58 rest
  end.

Definition uid_save_clicked (uid port : string)
  (current_bricklet_has_comcu current_bricklet_is_tng : bool) : M D unit :=
  if Py.len (list_ascii_of_string uid) =? 0 then
    popup_fail "Bricklet" "UID cannot be empty"
  else
    match first_not_in_BASE58 (list_ascii_of_string uid) with
    | Some c =>
        popup_fail "Bricklet" ("UID cannot contain '" +++ String c "'")
    | None =>
        r <- try_except
               (decoded <- eval (base58decode uid) ;;
                if decoded >? 4294967295 then
                  popup_fail "Bricklet" "UID is too long" ;;;
                  ret (Return tt)
                else ret (Next tt))
               (fun _ =>
                  popup_fail "Bricklet" "UID is invalid" ;;;
                  ret (Return tt)) ;;
        match r with
        | Return _ => ret tt
        | Next _ =>
            r <- try_except_Error
                   ((if current_bricklet_has_comcu || current_bricklet_is_tng
                     then
                       decoded <- eval (base58decode uid) ;;
                       request (CWriteUid decoded) (write_uid dev decoded)
                     else
                       request (CWriteBrickletUid port uid)
                               (ipcon_write_bricklet_uid dev port uid)) ;;;
                    ret (Next tt))
                   (fun e =>
                      name <- eval (error_to_name e) ;;
                      popup_fail "Bricklet" ("Could not write UID: " +++ name) ;;;
                      ret (Return tt)) ;;
            match r with
            | Return _ => ret tt
            | Next _ =>
                r <- try_except_Error
                       (uid_read <- read_current_uid port
                                      current_bricklet_has_comcu
                                      current_bricklet_is_tng ;;
                        ret (Next uid_read))
                       (fun e =>
                          name <- eval (error_to_name e) ;;
                          popup_fail "Bricklet"
                            ("Could not read written UID: " +++ name) ;;;
                          ret (Return tt)) ;;
                match r with
                | Return _ => ret tt
                | Next uid_read =>
                    if String.eqb uid uid_read then
                      popup_ok "Bricklet"
                        "Successfully wrote UID.
New UID will be used after reset of the connected Brick."
                    else
                      popup_fail "Bricklet"
                        "Could not write UID: Verification failed"
                end
            end
        end
    end.

End Engine.

Arguments set_comcu_bootloader_mode {D} dev fuel mode.
Arguments wait_for_comcu_bootloader_mode {D} dev fuel mode.

(** ** Vocabulary of the statements *)

(** [k] attempts of request [c] with a 250 ms sleep between consecutive
    attempts. *)
Fixpoint attempts_trace (c : call) (k : nat) : list event :=
  match k with
  | O => []
  | S O => [EvCall c]
  | S k' => EvCall c :: EvSleep 250 :: attempts_trace c k'
  end.

(** The firmware pointers set in a trace, in order. *)
Definition pointers_of (evs : list event) : list Z :=
  flat_map (fun c => match c with CSetWriteFirmwarePointer p => [p] | _ => [] end)
           (calls_of evs).

(** The pages (by number) a trace writes into. *)
Definition pages_touched (evs : list event) : list Z :=
  nodup Z.eq_dec (map (fun p => p / XMC1_PAGE_SIZE) (pointers_of evs)).

(** The offsets of the four 64-byte blocks of a page. *)
Definition block_offsets : list Z := [0; 64; 128; 192].

(** The positions at which the loop of [write_pages] writes a page when no
    write fails: the loop itself, without the device. *)
Fixpoint page_plan (n : nat) (allow_skipping : bool) (plugin : Py.bytes)
  (plugin_len skipped_pages position : Z) : list Z :=
  match n with
  | O => []
  | S n' =>
      if position <? plugin_len then
        if skip_page allow_skipping skipped_pages plugin plugin_len position
        then
          page_plan n' allow_skipping plugin plugin_len
                    (skipped_pages + 1) (position + XMC1_PAGE_SIZE)
        else
          position ::
          page_plan n' allow_skipping plugin plugin_len 0
                    (position + XMC1_PAGE_SIZE)
      else []
  end.

(** The 64-byte block of [plugin] at [block_start] is sent: the pointer is
    set and the block follows. *)
Definition block_written (evs : list event) (plugin : Py.bytes)
  (block_start : Z) : Prop :=
  exists before after,
    evs = (before ++
           [EvCall (CSetWriteFirmwarePointer block_start);
            EvCall (CWriteFirmware
                      (Py.slice plugin block_start (block_start + 64)))] ++
           after)%list.

(** All four blocks of the page at [position] are sent. *)
Definition page_written (evs : list event) (plugin : Py.bytes)
  (position : Z) : Prop :=
  forall block_offset, In block_offset block_offsets ->
    block_written evs plugin (position + block_offset).

(** The dialog updates of an attempt between the page loop and the
    request for firmware mode. *)
Definition leaving_bootloader (attempt : Z) : list event :=
  [EvProgress (setLabelText
     ("Changing from bootloader mode to firmware mode" +++
      attempt_str attempt));
   EvProgress (setMaximum 0);
   EvProgress (setValue 0);
   EvProgress show].

(** The report of a CRC mismatch after the last attempt. *)
Definition crc_mismatch_report : list event :=
  [EvProgress cancel;
   EvPopupFail "Bricklet"
     "Could not change from bootloader mode to firmware mode: CRC Mismatch (Error 5)"].

(** The four bytes looked for in a Co-MCU firmware. *)
Definition magic : Py.bytes := [x78; x56; x34; x12].


(** The requests of a complete classic write pass, and of a complete
    read-back pass, over [chunks] starting at [position]. *)
Fixpoint classic_writes (port : string) (position : Z) (chunks : list Py.bytes)
  : list call :=
  match chunks with
  | [] => []
  | chunk :: rest =>
      CWriteBrickletPlugin port position chunk
        :: classic_writes port (position + 1) rest
  end.

Fixpoint classic_reads (port : string) (position : Z) (chunks : list Py.bytes)
  : list call :=
  match chunks with
  | [] => []
  | _ :: rest =>
      CReadBrickletPlugin port position :: classic_reads port (position + 1) rest
  end.

(** What the classic method does before the first write, and between the
    last write and the first read-back. *)
Definition classic_prologue (name : string) (count : Z) : list event :=
  [EvProgress (setLabelText ("Writing plugin: " +++ name));
   EvProgress (setMaximum 0);
   EvProgress (setValue 0);
   EvProgress show;
   EvSetResponseExpected FUNCTION_WRITE_BRICKLET_PLUGIN true;
   EvProgress (setMaximum count)].

Definition classic_interlude (name : string) (count : Z) : list event :=
  [EvSleep 100;
   EvProgress (setLabelText ("Verifying written plugin: " +++ name));
   EvProgress (setMaximum count);
   EvProgress (setValue 0);
   EvProgress show;
   EvSleep 100].

(** The report of a failed verification. *)
Definition verification_error_report : list event :=
  [EvProgress cancel;
   EvPopupFail "Bricklet" "Could not flash Bricklet plugin: Verification error"].

(** The entered UID passes the three checks of [uid_save_clicked]: not
    empty, over the alphabet, and decoding to at most [0xFFFFFFFF]. *)
Definition uid_valid (BASE58 : string) (base58decode : string -> reply Z)
  (uid : string) : Prop :=
  uid <> ""%string /\
  (forall c, In c (list_ascii_of_string uid) -> Py.char_in c BASE58 = true) /\
  exists decoded, base58decode uid = Returns decoded /\ decoded <= 4294967295.

(** The request that writes the UID, and the device function behind it:
    the Bricklet's own [write_uid] for Co-MCU and TNG, the connection's
    [write_bricklet_uid] otherwise. *)
Definition uid_write_call (uid port : string) (decoded : Z)
  (own_function : bool) : call :=
  if own_function then CWriteUid decoded else CWriteBrickletUid port uid.

Definition uid_write_reply {D : Type} (dev : Device D) (uid port : string)
  (decoded : Z) (own_function : bool) : D -> reply unit * D :=
  if own_function then write_uid dev decoded
  else ipcon_write_bricklet_uid dev port uid.

(** The two reports after the read-back. *)
Definition uid_written_report : event :=
  EvPopupOk "Bricklet"
    "Successfully wrote UID.
New UID will be used after reset of the connected Brick.".


(** [needle] occurs in [s]. *)
Fixpoint contains (s needle : string) : bool :=
  String.prefix needle s ||
  match s with
  | EmptyString => false
  | String _ rest => contains rest needle
  end.

(** A message names the chunk index [i]. *)
Definition mentions_index (message : string) (i : Z) : bool :=
  contains message (Py.str i).

(** ** A simulated device, to run the engine on examples *)

Module Sim.

Record state := {
  online : bool;                       (* false: every request times out *)
  mode : Z;                            (* the bootloader mode reported *)
  boots : bool;                        (* an accepted firmware starts *)
  statuses : list Z;                   (* answers to the next requests for
                                          firmware mode; 0 afterwards *)
  copy_status : Z;                     (* answer of copy_firmware *)
  memory : list (Z * Py.bytes);        (* classic plugin area, by position *)
  corrupt : option Z;                  (* a position read back wrong *)
  uid_int : Z;
  uid_text : string
}.

Definition timeout : exn :=
  IsError {| value := TIMEOUT;
             error_text := "Did not receive response in time (-1)" |}.

Definition guarded {A} (s : state) (r : reply A * state) : reply A * state :=
  if online s then r else (Raises timeout, s).

Definition with_mode (s : state) (m : Z) (rest : list Z) : state :=
  {| online := online s; mode := m; boots := boots s; statuses := rest;
     copy_status := copy_status s; memory := memory s; corrupt := corrupt s;
     uid_int := uid_int s; uid_text := uid_text s |}.

Definition with_memory (s : state) (mem : list (Z * Py.bytes)) : state :=
  {| online := online s; mode := mode s; boots := boots s;
     statuses := statuses s; copy_status := copy_status s; memory := mem;
     corrupt := corrupt s; uid_int := uid_int s; uid_text := uid_text s |}.

Definition with_uid (s : state) (u : Z) (t : string) : state :=
  {| online := online s; mode := mode s; boots := boots s;
     statuses := statuses s; copy_status := copy_status s;
     memory := memory s; corrupt := corrupt s; uid_int := u; uid_text := t |}.

Definition sim_set_bootloader_mode (m : Z) (s : state) : reply Z * state :=
  guarded s
    (if m =? BOOTLOADER_MODE_FIRMWARE then
       let status := hd 0 (statuses s) in
       let m' := if ((status =? 0) || (status =? 2)) && boots s
                 then BOOTLOADER_MODE_FIRMWARE else mode s in
       (Returns status, with_mode s m' (tl (statuses s)))
     else (Returns 0, with_mode s m (statuses s))).

Fixpoint lookup (mem : list (Z * Py.bytes)) (position : Z) : Py.bytes :=
  match mem with
  | [] => Py.zeros 32
  | (p, chunk) :: rest => if p =? position then chunk else lookup rest position
  end.

Definition sim_read_bricklet_plugin (port : string) (position : Z) (s : state)
  : reply Py.bytes * state :=
  guarded s
    (match corrupt s with
     | Some p =>
         if p =? position then (Returns (repeat xff 32), s)
         else (Returns (lookup (memory s) position), s)
     | None => (Returns (lookup (memory s) position), s)
     end).

Definition device : Device state := {|
  set_bootloader_mode := sim_set_bootloader_mode;
  get_bootloader_mode := fun s => guarded s (Returns (mode s), s);
  set_write_firmware_pointer := fun _ s => guarded s (Returns tt, s);
  write_firmware := fun _ s => guarded s (Returns 0, s);
  copy_firmware := fun s => guarded s (Returns (copy_status s), s);
  reset := fun s => guarded s (Returns tt, s);
  write_uid := fun u s => guarded s (Returns tt, with_uid s u (uid_text s));
  read_uid := fun s => guarded s (Returns (uid_int s), s);
  brick_write_bricklet_plugin := fun _ position chunk s =>
    guarded s (Returns tt, with_memory s ((position, chunk) :: memory s));
  brick_read_bricklet_plugin := sim_read_bricklet_plugin;
  ipcon_write_bricklet_uid := fun _ t s =>
    guarded s (Returns tt, with_uid s (uid_int s) t);
  ipcon_read_bricklet_uid := fun _ s => guarded s (Returns (uid_text s), s)
|}.

(** A healthy device in firmware mode. *)
Definition healthy : state :=
  {| online := true; mode := BOOTLOADER_MODE_FIRMWARE; boots := true;
     statuses := []; copy_status := 0; memory := []; corrupt := None;
     uid_int := 0; uid_text := "" |}.

(** A device that answers nothing. *)
Definition offline : state :=
  {| online := false; mode := BOOTLOADER_MODE_FIRMWARE; boots := true;
     statuses := []; copy_status := 0; memory := []; corrupt := None;
     uid_int := 0; uid_text := "" |}.

(** A device answering the requests for firmware mode with [l]. *)
Definition answering (l : list Z) : state :=
  {| online := true; mode := BOOTLOADER_MODE_FIRMWARE; boots := true;
     statuses := l; copy_status := 0; memory := []; corrupt := None;
     uid_int := 0; uid_text := "" |}.

(** A device whose [copy_firmware] answers [status]. *)
Definition copying (status : Z) : state :=
  {| online := true; mode := BOOTLOADER_MODE_FIRMWARE; boots := true;
     statuses := []; copy_status := status; memory := []; corrupt := None;
     uid_int := 0; uid_text := "" |}.

(** A device reading the chunk at [position] back wrong. *)
Definition corrupting (position : Z) : state :=
  {| online := true; mode := BOOTLOADER_MODE_FIRMWARE; boots := true;
     statuses := []; copy_status := 0; memory := [];
     corrupt := Some position; uid_int := 0; uid_text := "" |}.

(** An archive reader that finds [firmware] stored as
    [bricklet_firmware.bin], after a manifest. *)
Definition archive_of (firmware : Py.bytes) (_ : Py.bytes) : reply ZipFile :=
  Returns {| namelist := ["manifest.txt"; "bricklet_firmware.bin"]%string;
             read := fun n =>
               if String.eqb n "bricklet_firmware.bin"
               then Returns firmware else Returns [] |}.

(** A firmware image: [zero_pages] pages of zero bytes, then one page that
    starts with the magic marker and is filled with [0xff]. *)
Definition image (zero_pages : nat) : Py.bytes :=
  (repeat x00 (zero_pages * 256) ++ magic ++ repeat xff 252)%list.

(** A classic plugin of [n] bytes [0x2a]. *)
Definition plugin_of_size (n : nat) : Py.bytes := repeat x2a n.

(** Modelled from the spec: the Base58 codec of
    [brickv.bindings.ip_connection] (not under src/), which the spec only
    names ("UID: unique device address encoded in Base58 for display,
    integer on the wire").  It instantiates the engine's parameters on
    examples. *)
Definition BASE58 : string :=
  "123456789abcdefghijkmnopqrstuvwxyzABCDEFGHJKLMNPQRSTUVWXYZ".

Fixpoint column (alphabet : list ascii) (c : ascii) (k : Z) : option Z :=
  match alphabet with
  | [] => None
  | a :: rest => if Ascii.eqb a c then Some k else column rest c (k + 1)
  end.

Fixpoint decode_from (chars : list ascii) (value : Z) : reply Z :=
  match chars with
  | [] => Returns value
  | c :: rest =>
      match column (list_ascii_of_string BASE58) c 0 with
      | Some k => decode_from rest (value * 58 + k)
      | None => Raises (Exception "invalid character")
      end
  end.

Definition base58decode (encoded : string) : reply Z :=
  decode_from (list_ascii_of_string encoded) 0.

Fixpoint encode_to (n : nat) (value : Z) (encoded : string) : string :=
  let digit v := nth (Z.to_nat v) (list_ascii_of_string BASE58) "1"%char in
  match n with
  | O => encoded
  | S n' =>
      if value >=? 58
      then encode_to n' (value / 58) (String (digit (value mod 58)) encoded)
      else String (digit value) encoded
  end.

Definition base58encode (value : Z) : string := encode_to 64 value "".

End Sim.

(** ** Flashing a plugin from the Bricklet tab *)

(** What the handler does to the dialog besides the engine's own
    effects. *)
Inductive handler_event :=
| Engine (e : event)
| HideCancelButton.

(** The plugin chosen in [combo_plugin]: a custom file, or an official
    plugin with the name of its [plugin_info] and the version selected in
    [combo_plugin_version]. *)
Inductive plugin_choice :=
| CUSTOM (plugin_file_name : string)
| OFFICIAL (name : string) (version : Z * Z * Z).

Definition message_tail (has_comcu : bool) : string :=
  if has_comcu then ""
  else "
New plugin will be used after reset of the connected Brick.".

(** The text of the final message box. *)
Definition flashed_message (choice : plugin_choice) (has_comcu : bool)
  : string :=
  match choice with
  | CUSTOM _ => "Successfully flashed plugin." +++ message_tail has_comcu
  | OFFICIAL name (major, minor, revision) =>
      "Successfully flashed " +++ name +++ " Bricklet plugin " +++
      Py.str major +++ "." +++ Py.str minor +++ "." +++ Py.str revision +++
      "." +++ message_tail has_comcu
  end.

(** Lines 1761-1785 of [plugin_save_clicked]: the handler once the plugin
    has been read from the custom file or downloaded.  [basename] is
    [os.path.split(...)[-1]]; [if not self.write_bricklet_plugin(...)]
    takes [None] and [False] alike. *)
Definition plugin_save_flash {D : Type} (dev : Device D) (fuel : nat)
  (zipfile_ZipFile : Py.bytes -> reply ZipFile) (basename : string -> string)
  (choice : plugin_choice) (plugin : Py.bytes) (port : string)
  (has_comcu current_bricklet_is_tng : bool) (d : D)
  : outcome unit * D * list handler_event :=
  let name :=
    match choice with
    | CUSTOM plugin_file_name => basename plugin_file_name
    | OFFICIAL name _ => name
    end in
  match write_bricklet_plugin dev fuel zipfile_ZipFile plugin port name
          has_comcu current_bricklet_is_tng d with
  | (Val (Some true), d1, evs) =>
      (Val tt, d1,
       (HideCancelButton :: map Engine evs ++
        [Engine (EvProgress cancel);
         Engine (EvPopupOk "Bricklet" (flashed_message choice has_comcu))])%list)
  | (Val _, d1, evs) => (Val tt, d1, HideCancelButton :: map Engine evs)
  | (Raise e, d1, evs) => (Raise e, d1, HideCancelButton :: map Engine evs)
  | (Diverge, d1, evs) => (Diverge, d1, HideCancelButton :: map Engine evs)
  end.

(** The message boxes reporting success in a trace of the engine. *)
Definition oks_of (evs : list event) : list (string * string) :=
  flat_map (fun e => match e with EvPopupOk t m => [(t, m)] | _ => [] end) evs.

(** A computation that never reports success itself. *)
Definition quiet {D A : Type} (m : M D A) : Prop :=
  forall d, oks_of (snd (m d)) = [].

(** A computation all of whose events pass the test [allowed]. *)
Definition confined {D A : Type} (allowed : event -> bool) (m : M D A)
  : Prop :=
  forall d, forallb allowed (snd (m d)) = true.

(** The device functions each method is built on; events that are not
    requests pass. *)
Definition comcu_function (e : event) : bool :=
  match e with
  | EvCall (CSetBootloaderMode _) | EvCall CGetBootloaderMode
  | EvCall (CSetWriteFirmwarePointer _) | EvCall (CWriteFirmware _) => true
  | EvCall _ => false
  | _ => true
  end.

Definition tng_function (e : event) : bool :=
  match e with
  | EvCall (CSetWriteFirmwarePointer _) | EvCall (CWriteFirmware _)
  | EvCall CCopyFirmware | EvCall CReset => true
  | EvCall _ => false
  | _ => true
  end.

Definition classic_function (port : string) (e : event) : bool :=
  match e with
  | EvCall (CWriteBrickletPlugin p _ _) | EvCall (CReadBrickletPlugin p _) =>
      String.eqb p port
  | EvCall _ => false
  | _ => true
  end.

(** ** Further vocabulary *)

(** A request of the block loops: a pointer setting or a block of data. *)
Definition is_write_call (c : call) : Prop :=
  match c with
  | CSetWriteFirmwarePointer _ | CWriteFirmware _ => True
  | _ => False
  end.

(** The blocks of data sent in a trace, in order. *)
Definition firmware_writes_of (evs : list event) : list Py.bytes :=
  flat_map (fun c => match c with CWriteFirmware data => [data] | _ => [] end)
           (calls_of evs).

(** How the loops over the blocks and over the pages can end, and what
    they have reported by then. *)
Definition write_report (r : outcome (flow unit bool)) (evs : list event)
  : Prop :=
  (forall c, In c (calls_of evs) -> is_write_call c) /\
  (r = Val (Next tt) -> failures_of evs = []) /\
  (r = Val (Return false) ->
   exists before e,
     evs = (before ++
            [EvProgress cancel;
             EvPopupFail "Bricklet"
               ("Could not write plugin: " +++ exn_text e)])%list /\
     failures_of before = []).

(** The dialog updates of an attempt between entering the bootloader and
    the first page. *)
Definition writing_label (plugin_len : Z) (name : string) (attempt : Z)
  : list event :=
  [EvProgress (setLabelText
     ("Writing plugin" +++ attempt_str attempt +++ ": " +++ name));
   EvProgress (setMaximum plugin_len);
   EvProgress (setValue 0);
   EvProgress show].

(** The dialog updates with which the Co-MCU and TNG methods start. *)
Definition starting_bootloader_mode : list event :=
  [EvProgress (setLabelText "Starting bootloader mode");
   EvProgress (setMaximum 0);
   EvProgress (setValue 0);
   EvProgress show].

(** Cancelling the dialog and reporting [message] under [title]. *)
Definition failure_report (title message : string) : list event :=
  [EvProgress cancel; EvPopupFail title message].

(** How the block loop of the TNG method can end, and what it has sent
    and reported by then: only pointer settings and data, each block of
    [index_list] at most twice, every block when it gets through, and one
    message box when it does not. *)
Definition tng_report (index_list : list Z) (plugin : Py.bytes)
  (r : outcome (flow unit bool)) (evs : list event) : Prop :=
  (forall c, In c (calls_of evs) -> is_write_call c) /\
  (forall p,
     (count_occ Z.eq_dec (pointers_of evs) p
      <= 2 * count_occ Z.eq_dec (map (fun i : Z => (i * 64)%Z) index_list) p)%nat) /\
  (r = Val (Next tt) ->
   failures_of evs = [] /\
   forall i, In i index_list -> block_written evs plugin (i * 64)) /\
  (r = Val (Return false) ->
   exists before e,
     evs = (before ++
            failure_report "TNG Module"
              ("Could not write firmware: " +++ exn_text e))%list /\
     failures_of before = []).

(** The two requests of one try at the block [position] of a TNG image. *)
Definition tng_try_pointer (position : Z) : event :=
  EvCall (CSetWriteFirmwarePointer (position * 64)).

Definition tng_try_data (plugin : Py.bytes) (position : Z) : event :=
  EvCall (CWriteFirmware
            (Py.slice plugin (position * 64) ((position + 1) * 64))).

(** The dialog updates of the TNG method before the first block. *)
Definition tng_label (name : string) (blocks : Z) : list event :=
  [EvProgress (setLabelText ("Writing plugin: " +++ name));
   EvProgress (setMaximum blocks);
   EvProgress (setValue 0);
   EvProgress show].

(** ** Further simulated devices, and what the simulated device keeps *)

(** One try of the block loop of [write_block] (lines 1583-1584): the
    request that sets the pointer, then the request that sends the 64
    bytes. *)
Definition block_try {D : Type} (dev : Device D) (plugin : Py.bytes)
  (block_start : Z) : M D unit :=
  request (CSetWriteFirmwarePointer block_start)
          (set_write_firmware_pointer dev block_start) ;;;
  request (CWriteFirmware (Py.slice plugin block_start (block_start + 64)))
          (write_firmware dev (Py.slice plugin block_start (block_start + 64))) ;;;
  ret tt.

Module Bench.

(** [Sim.device], except that [copy_firmware] raises. *)
Definition copy_raises : Device Sim.state := {|
  set_bootloader_mode := set_bootloader_mode Sim.device;
  get_bootloader_mode := get_bootloader_mode Sim.device;
  set_write_firmware_pointer := set_write_firmware_pointer Sim.device;
  write_firmware := write_firmware Sim.device;
  copy_firmware := fun s => (Raises Sim.timeout, s);
  reset := reset Sim.device;
  write_uid := write_uid Sim.device;
  read_uid := read_uid Sim.device;
  brick_write_bricklet_plugin := brick_write_bricklet_plugin Sim.device;
  brick_read_bricklet_plugin := brick_read_bricklet_plugin Sim.device;
  ipcon_write_bricklet_uid := ipcon_write_bricklet_uid Sim.device;
  ipcon_read_bricklet_uid := ipcon_read_bricklet_uid Sim.device
|}.

(** [Sim.device], except that reading a plugin chunk back raises. *)
Definition read_back_raises : Device Sim.state := {|
  set_bootloader_mode := set_bootloader_mode Sim.device;
  get_bootloader_mode := get_bootloader_mode Sim.device;
  set_write_firmware_pointer := set_write_firmware_pointer Sim.device;
  write_firmware := write_firmware Sim.device;
  copy_firmware := copy_firmware Sim.device;
  reset := reset Sim.device;
  write_uid := write_uid Sim.device;
  read_uid := read_uid Sim.device;
  brick_write_bricklet_plugin := brick_write_bricklet_plugin Sim.device;
  brick_read_bricklet_plugin := fun _ _ s => (Raises Sim.timeout, s);
  ipcon_write_bricklet_uid := ipcon_write_bricklet_uid Sim.device;
  ipcon_read_bricklet_uid := ipcon_read_bricklet_uid Sim.device
|}.

(** [Sim.device], except that a data request is lost (it times out) as
    long as [Sim.statuses] holds an entry, and uses one entry up. *)
Definition loses_requests : Device Sim.state := {|
  set_bootloader_mode := set_bootloader_mode Sim.device;
  get_bootloader_mode := get_bootloader_mode Sim.device;
  set_write_firmware_pointer := set_write_firmware_pointer Sim.device;
  write_firmware := fun data s =>
    match Sim.statuses s with
    | [] => write_firmware Sim.device data s
    | _ :: rest => (Raises Sim.timeout, Sim.with_mode s (Sim.mode s) rest)
    end;
  copy_firmware := copy_firmware Sim.device;
  reset := reset Sim.device;
  write_uid := write_uid Sim.device;
  read_uid := read_uid Sim.device;
  brick_write_bricklet_plugin := brick_write_bricklet_plugin Sim.device;
  brick_read_bricklet_plugin := brick_read_bricklet_plugin Sim.device;
  ipcon_write_bricklet_uid := ipcon_write_bricklet_uid Sim.device;
  ipcon_read_bricklet_uid := ipcon_read_bricklet_uid Sim.device
|}.

(** [Sim.device], except that a data request is interrupted from the
    keyboard. *)
Definition interrupted : Device Sim.state := {|
  set_bootloader_mode := set_bootloader_mode Sim.device;
  get_bootloader_mode := get_bootloader_mode Sim.device;
  set_write_firmware_pointer := set_write_firmware_pointer Sim.device;
  write_firmware := fun _ s => (Raises (BaseException "KeyboardInterrupt"), s);
  copy_firmware := copy_firmware Sim.device;
  reset := reset Sim.device;
  write_uid := write_uid Sim.device;
  read_uid := read_uid Sim.device;
  brick_write_bricklet_plugin := brick_write_bricklet_plugin Sim.device;
  brick_read_bricklet_plugin := brick_read_bricklet_plugin Sim.device;
  ipcon_write_bricklet_uid := ipcon_write_bricklet_uid Sim.device;
  ipcon_read_bricklet_uid := ipcon_read_bricklet_uid Sim.device
|}.

(** An [Error] whose value [error_to_name] has no name for. *)
Definition unnamed_error : Error :=
  {| value := OTHER_ERROR (-13);
     error_text := "Device has been replaced (-13)" |}.

(** [Sim.device], except that [write_uid] raises [unnamed_error]. *)
Definition write_uid_raises : Device Sim.state := {|
  set_bootloader_mode := set_bootloader_mode Sim.device;
  get_bootloader_mode := get_bootloader_mode Sim.device;
  set_write_firmware_pointer := set_write_firmware_pointer Sim.device;
  write_firmware := write_firmware Sim.device;
  copy_firmware := copy_firmware Sim.device;
  reset := reset Sim.device;
  write_uid := fun _ s => (Raises (IsError unnamed_error), s);
  read_uid := read_uid Sim.device;
  brick_write_bricklet_plugin := brick_write_bricklet_plugin Sim.device;
  brick_read_bricklet_plugin := brick_read_bricklet_plugin Sim.device;
  ipcon_write_bricklet_uid := ipcon_write_bricklet_uid Sim.device;
  ipcon_read_bricklet_uid := ipcon_read_bricklet_uid Sim.device
|}.

(** The state [s] of a device that has stopped answering. *)
Definition silent (s : Sim.state) : Sim.state :=
  {| Sim.online := false; Sim.mode := Sim.mode s; Sim.boots := Sim.boots s;
     Sim.statuses := Sim.statuses s; Sim.copy_status := Sim.copy_status s;
     Sim.memory := Sim.memory s; Sim.corrupt := Sim.corrupt s;
     Sim.uid_int := Sim.uid_int s; Sim.uid_text := Sim.uid_text s |}.

(** [Sim.device], except that the change to firmware mode is answered
    with a CRC mismatch and nothing is answered afterwards. *)
Definition crc_then_silent : Device Sim.state := {|
  set_bootloader_mode := fun mode s =>
    if mode =? BOOTLOADER_MODE_FIRMWARE
    then Sim.guarded s (Returns 5, silent s)
    else set_bootloader_mode Sim.device mode s;
  get_bootloader_mode := get_bootloader_mode Sim.device;
  set_write_firmware_pointer := set_write_firmware_pointer Sim.device;
  write_firmware := write_firmware Sim.device;
  copy_firmware := copy_firmware Sim.device;
  reset := reset Sim.device;
  write_uid := write_uid Sim.device;
  read_uid := read_uid Sim.device;
  brick_write_bricklet_plugin := brick_write_bricklet_plugin Sim.device;
  brick_read_bricklet_plugin := brick_read_bricklet_plugin Sim.device;
  ipcon_write_bricklet_uid := ipcon_write_bricklet_uid Sim.device;
  ipcon_read_bricklet_uid := ipcon_read_bricklet_uid Sim.device
|}.

(** The archive [Sim.archive_of] opens. *)
Definition archive (firmware : Py.bytes) : ZipFile :=
  {| namelist := ["manifest.txt"; "bricklet_firmware.bin"]%string;
     read := fun n =>
       if String.eqb n "bricklet_firmware.bin"
       then Returns firmware else Returns [] |}.

(** An archive reader that fails. *)
Definition unreadable (_ : Py.bytes) : reply ZipFile :=
  Raises (Exception "File is not a zip file").

(** An archive reader that is interrupted from the keyboard. *)
Definition interrupted_open (_ : Py.bytes) : reply ZipFile :=
  Raises (BaseException "KeyboardInterrupt").

(** The states in which the simulated Brick answers and reads back what
    it holds, and what it holds for a position. *)
Definition keeps (s : Sim.state) : Prop :=
  Sim.online s = true /\ Sim.corrupt s = None.

Definition held (s : Sim.state) (position : Z) : Py.bytes :=
  Sim.lookup (Sim.memory s) position.

(** The states in which the simulated Bricklet answers, accepts every
    firmware and starts it. *)
Definition cooperates (s : Sim.state) : Prop :=
  Sim.online s = true /\ Sim.statuses s = [] /\ Sim.boots s = true /\
  Sim.copy_status s = 0.

End Bench.

(** The requests that send the page at [position], and those that send
    block [position] of a TNG image, when every request is answered. *)
Definition page_calls (plugin : Py.bytes) (position : Z) : list call :=
  flat_map
    (fun block_offset =>
       [CSetWriteFirmwarePointer (position + block_offset);
        CWriteFirmware (Py.slice plugin (position + block_offset)
                          (position + block_offset + 64))])
    block_offsets.

Definition tng_block_calls (plugin : Py.bytes) (position : Z) : list call :=
  [CSetWriteFirmwarePointer (position * 64);
   CWriteFirmware (Py.slice plugin (position * 64) ((position + 1) * 64))].

(** * Properties *)

Unset Implicit Arguments.

(** Runs the monad's plumbing, and nothing else. *)
Tactic Notation "run" :=
  cbv beta iota delta
    [ret bind try_except try_except_Error try_except_Exception request sleep
     emit progress popup_fail popup_ok raise diverge eval].
Tactic Notation "run" "in" hyp(H) :=
  cbv beta iota delta
    [ret bind try_except try_except_Error try_except_Exception request sleep
     emit progress popup_fail popup_ok raise diverge eval] in H.

(** ** Traces *)

Lemma calls_of_app evs1 evs2 :
  calls_of (evs1 ++ evs2) = (calls_of evs1 ++ calls_of evs2)%list.
Proof. unfold calls_of. apply flat_map_app. Qed.

Lemma calls_of_call c evs : calls_of (EvCall c :: evs) = c :: calls_of evs.
Proof. reflexivity. Qed.

Lemma calls_of_sleep ms evs : calls_of (EvSleep ms :: evs) = calls_of evs.
Proof. reflexivity. Qed.

Lemma calls_of_progress p evs : calls_of (EvProgress p :: evs) = calls_of evs.
Proof. reflexivity. Qed.

Lemma calls_of_popup_fail t m evs :
  calls_of (EvPopupFail t m :: evs) = calls_of evs.
Proof. reflexivity. Qed.

Lemma sleeps_of_call c evs : sleeps_of (EvCall c :: evs) = sleeps_of evs.
Proof. reflexivity. Qed.

Lemma sleeps_of_sleep ms evs :
  sleeps_of (EvSleep ms :: evs) = ms :: sleeps_of evs.
Proof. reflexivity. Qed.

Lemma attempts_trace_S c k :
  attempts_trace c (S (S k))
  = EvCall c :: EvSleep 250 :: attempts_trace c (S k).
Proof. reflexivity. Qed.

Lemma attempts_trace_calls c k :
  calls_of (attempts_trace c k) = repeat c k.
Proof.
  induction k as [|k IH]; [reflexivity|].
  destruct k as [|k]; [reflexivity|].
  rewrite attempts_trace_S, calls_of_call, calls_of_sleep, IH. reflexivity.
Qed.

Lemma attempts_trace_sleeps c k :
  sleeps_of (attempts_trace c k) = repeat 250 (pred k).
Proof.
  induction k as [|k IH]; [reflexivity|].
  destruct k as [|k]; [reflexivity|].
  rewrite attempts_trace_S, sleeps_of_call, sleeps_of_sleep, IH. reflexivity.
Qed.

(** ** The polling helpers *)

Section Polling.

Context {D : Type}.
Variable dev : Device D.

Lemma set_loop_trace n : forall mode counter d,
  0 <= counter <= 10 -> 11 - counter <= Z.of_nat n ->
  exists (r : option Z) d' (k : nat),
    set_comcu_bootloader_mode_loop dev n mode counter d
      = (Val r, d', attempts_trace (CSetBootloaderMode mode) (S k)) /\
    Z.of_nat (S k) <= 11 - counter /\
    (r = None -> Z.of_nat (S k) = 11 - counter).
Proof.
  induction n as [|n IH]; intros mode counter d Hc Hn; [lia|].
  cbn [set_comcu_bootloader_mode_loop]. run. cbn [app].
  destruct (set_bootloader_mode dev mode d) as [[status|e] d1] eqn:Hset.
  - exists (Some status), d1, O. repeat split; try lia; try discriminate.
  - destruct (counter =? 10) eqn:H10.
    + exists None, d1, O. apply Z.eqb_eq in H10. repeat split; lia.
    + apply Z.eqb_neq in H10.
      destruct (IH mode (counter + 1) d1) as (r & d' & k & Hrun & Hk & Hr);
        [lia|lia|].
      rewrite Hrun.
      exists r, d', (S k). repeat split; [lia|].
      intros ->. specialize (Hr eq_refl). lia.
Qed.

Lemma wait_loop_trace n : forall mode counter d,
  0 <= counter <= 10 -> 11 - counter <= Z.of_nat n ->
  exists (b : bool) d' (k : nat),
    wait_for_comcu_bootloader_mode_loop dev n mode counter d
      = (Val b, d', attempts_trace CGetBootloaderMode (S k)) /\
    Z.of_nat (S k) <= 11 - counter /\
    (b = false -> Z.of_nat (S k) = 11 - counter).
Proof.
  induction n as [|n IH]; intros mode counter d Hc Hn; [lia|].
  cbn [wait_for_comcu_bootloader_mode_loop]. run. cbn [app].
  assert (Hnext :
    exists (b : bool) d' (k : nat),
      (if counter =? 10 then (Val false, snd (get_bootloader_mode dev d),
                              [EvCall CGetBootloaderMode])
       else
         let '(r, d2, ev2) :=
           let '(r, d2, ev2) :=
             wait_for_comcu_bootloader_mode_loop dev n mode (counter + 1)
               (snd (get_bootloader_mode dev d)) in
           (r, d2, EvSleep 250 :: ev2) in
         (r, d2, EvCall CGetBootloaderMode :: ev2))
      = (Val b, d', attempts_trace CGetBootloaderMode (S k)) /\
      Z.of_nat (S k) <= 11 - counter /\
      (b = false -> Z.of_nat (S k) = 11 - counter)).
  { destruct (counter =? 10) eqn:H10.
    - exists false, (snd (get_bootloader_mode dev d)), O.
      apply Z.eqb_eq in H10. repeat split; lia.
    - apply Z.eqb_neq in H10.
      destruct (IH mode (counter + 1) (snd (get_bootloader_mode dev d)))
        as (b & d' & k & Hrun & Hk & Hb); [lia|lia|].
      rewrite Hrun.
      exists b, d', (S k). repeat split; [lia|].
      intros ->. specialize (Hb eq_refl). lia. }
  destruct (get_bootloader_mode dev d) as [[current|e] d1] eqn:Hget;
    cbn [snd] in Hnext.
  - destruct (current =? mode) eqn:Hmode.
    + exists true, d1, O. repeat split; try lia; try discriminate.
    + destruct (counter =? 10); exact Hnext.
  - destruct (counter =? 10); exact Hnext.
Qed.

End Polling.

Section ComcuEntry.

Context {D : Type}.
Variable dev : Device D.
Variable fuel : nat.

(** Passing the two checks before the attempts. *)
Lemma comcu_flash_attempts plugin name :
  find_regular_plugin_upto plugin <> -1 ->
  Py.len plugin mod XMC1_PAGE_SIZE = 0 ->
  comcu_flash dev fuel plugin name
  = (r <- comcu_attempts dev fuel [0; 1] plugin (Py.len plugin) name None ;;
     comcu_after_attempts dev fuel r).
Proof.
  intros Hmagic Hlen. unfold comcu_flash.
  apply Z.eqb_neq in Hmagic. rewrite Hmagic.
  apply Z.eqb_eq in Hlen. rewrite Hlen. reflexivity.
Qed.

(** The operation fails when the request for bootloader mode is never
    answered. *)
Lemma comcu_flash_no_answer plugin name d d1 e1 :
  find_regular_plugin_upto plugin <> -1 ->
  Py.len plugin mod XMC1_PAGE_SIZE = 0 ->
  set_comcu_bootloader_mode dev fuel BOOTLOADER_MODE_BOOTLOADER d
    = (Val None, d1, e1) ->
  comcu_flash dev fuel plugin name d
  = (Val false, d1,
     (e1 ++ [EvProgress cancel;
             EvPopupFail "Bricklet"
               "Device did not enter bootloader mode in 2.5 seconds"])%list).
Proof.
  intros Hmagic Hlen Hset.
  rewrite comcu_flash_attempts by assumption.
  cbn [comcu_attempts]. unfold comcu_attempt, comcu_write_attempt.
  unfold comcu_after_attempts.
  run. rewrite Hset. rewrite ?app_nil_r. reflexivity.
Qed.

(** The operation fails when the device never reports bootloader mode. *)
Lemma comcu_flash_never_confirms plugin name d status d1 e1 d2 e2 :
  find_regular_plugin_upto plugin <> -1 ->
  Py.len plugin mod XMC1_PAGE_SIZE = 0 ->
  set_comcu_bootloader_mode dev fuel BOOTLOADER_MODE_BOOTLOADER d
    = (Val (Some status), d1, e1) ->
  wait_for_comcu_bootloader_mode dev fuel BOOTLOADER_MODE_BOOTLOADER d1
    = (Val false, d2, e2) ->
  comcu_flash dev fuel plugin name d
  = (Val false, d2,
     (e1 ++ e2 ++
      [EvProgress cancel;
       EvPopupFail "Bricklet"
         "Device did not enter bootloader mode in 2.5 seconds"])%list).
Proof.
  intros Hmagic Hlen Hset Hwait.
  rewrite comcu_flash_attempts by assumption.
  cbn [comcu_attempts]. unfold comcu_attempt, comcu_write_attempt.
  unfold comcu_after_attempts.
  run. rewrite Hset, Hwait. cbn [negb]. rewrite ?app_nil_r.
  rewrite <- ?app_assoc. reflexivity.
Qed.

End ComcuEntry.

(** ** The page loop of the Co-MCU protocol *)

Lemma pointers_of_app evs1 evs2 :
  pointers_of (evs1 ++ evs2) = (pointers_of evs1 ++ pointers_of evs2)%list.
Proof. unfold pointers_of. rewrite calls_of_app. apply flat_map_app. Qed.

Lemma pointers_of_attempts_trace c k :
  (forall p, c <> CSetWriteFirmwarePointer p) ->
  pointers_of (attempts_trace c k) = [].
Proof.
  intros Hc. unfold pointers_of. rewrite attempts_trace_calls.
  induction k as [|k IH]; [reflexivity|].
  cbn [repeat flat_map]. rewrite IH.
  destruct c; try reflexivity. now destruct (Hc pointer).
Qed.

Lemma block_written_app_l evs1 evs2 plugin p :
  block_written evs2 plugin p -> block_written (evs1 ++ evs2) plugin p.
Proof.
  intros (before & after & ->). exists (evs1 ++ before)%list, after.
  now rewrite <- app_assoc.
Qed.

Lemma block_written_app_r evs1 evs2 plugin p :
  block_written evs1 plugin p -> block_written (evs1 ++ evs2) plugin p.
Proof.
  intros (before & after & ->). exists before, (after ++ evs2)%list.
  now rewrite <- !app_assoc.
Qed.

Lemma block_written_cons e evs plugin p :
  block_written evs plugin p -> block_written (e :: evs) plugin p.
Proof. apply (block_written_app_l [e]). Qed.

Lemma page_written_app_l evs1 evs2 plugin q :
  page_written evs2 plugin q -> page_written (evs1 ++ evs2) plugin q.
Proof. intros H o Ho. apply block_written_app_l, H, Ho. Qed.

Lemma page_written_app_r evs1 evs2 plugin q :
  page_written evs1 plugin q -> page_written (evs1 ++ evs2) plugin q.
Proof. intros H o Ho. apply block_written_app_r, H, Ho. Qed.

Section Pages.

Context {D : Type}.
Variable dev : Device D.
Variable plugin : Py.bytes.

(** A block is tried until a try raises nothing; the pointer is only ever
    set to the block's start.  Only an exception outside [Exception] gets
    out of the loop. *)
Lemma write_block_trace block_start :
  forall attempts last_exception d r d' evs,
  write_block dev attempts plugin block_start (block_start + 64)
              last_exception d
    = (r, d', evs) ->
  ((exists v, r = Val v) \/
   (exists e, r = Raise e /\ is_Exception e = false)) /\
  (forall p, In p (pointers_of evs) -> p = block_start) /\
  (attempts <> [] -> r = Val None -> block_written evs plugin block_start) /\
  (attempts <> [] ->
   exists rest, evs = EvCall (CSetWriteFirmwarePointer block_start) :: rest).
Proof.
  induction attempts as [|a attempts IH]; intros last_exception d r d' evs Hrun.
  - cbn [write_block] in Hrun. run in Hrun.
    assert (r = Val last_exception /\ evs = []) as [-> ->]
      by (split; congruence).
    split; [left; eexists; reflexivity|].
    split; [intros p []|]. split; intros H; congruence.
  - cbn [write_block] in Hrun. run in Hrun.
    assert (Hretry : forall e d0 prefix,
      (forall p, In p (pointers_of prefix) -> p = block_start) ->
      (exists rest,
         prefix = EvCall (CSetWriteFirmwarePointer block_start) :: rest) ->
      (if is_Exception e
       then
         let '(r2, d2, ev2) :=
           write_block dev attempts plugin block_start (block_start + 64)
                       (Some e) d0 in
         (r2, d2, (prefix ++ ev2)%list)
       else (Raise e, d0, prefix)) = (r, d', evs) ->
      ((exists v, r = Val v) \/
       (exists e, r = Raise e /\ is_Exception e = false)) /\
      (forall p, In p (pointers_of evs) -> p = block_start) /\
      (a :: attempts <> [] -> r = Val None ->
       block_written evs plugin block_start) /\
      (a :: attempts <> [] ->
       exists rest, evs = EvCall (CSetWriteFirmwarePointer block_start) :: rest)).
    { intros e d0 prefix Hprefix (rest0 & Hfirst) Heq.
      destruct (is_Exception e) eqn:Hclass.
      - destruct (write_block dev attempts plugin block_start
                    (block_start + 64) (Some e) d0) as [[r2 d2] ev2] eqn:Hrest.
        assert (r = r2 /\ evs = (prefix ++ ev2)%list) as [-> ->]
          by (split; congruence).
        destruct (IH _ _ _ _ _ Hrest) as (Hr & Hall & Hw & _).
        split; [exact Hr|]. split; [|split].
        + intros p Hp. rewrite pointers_of_app in Hp.
          apply in_app_or in Hp. destruct Hp as [Hp|Hp]; auto.
        + intros _ Hnone. apply block_written_app_l.
          destruct attempts as [|a' attempts'].
          * cbn [write_block] in Hrest. run in Hrest. congruence.
          * apply Hw; [discriminate|exact Hnone].
        + intros _. subst prefix. cbn [app]. eauto.
      - assert (r = Raise e /\ evs = prefix) as [-> ->]
          by (split; congruence).
        split; [right; exists e; split; [reflexivity|exact Hclass]|].
        split; [exact Hprefix|]. split; [discriminate|].
        intros _. eauto. }
    destruct (set_write_firmware_pointer dev block_start d)
      as [[[]|e] d1] eqn:Hptr.
    + destruct (write_firmware dev
                  (Py.slice plugin block_start (block_start + 64)) d1)
        as [[status|e] d2] eqn:Hwrite.
      * cbn [app] in Hrun.
        assert (r = Val None /\
                evs = [EvCall (CSetWriteFirmwarePointer block_start);
                       EvCall (CWriteFirmware
                                 (Py.slice plugin block_start
                                    (block_start + 64)))])
          as [-> ->] by (split; congruence).
        split; [left; eexists; reflexivity|]. split; [|split].
        -- intros p [<-|[]]. reflexivity.
        -- intros _ _. now exists [], [].
        -- intros _. eauto.
      * apply (Hretry e d2
                 [EvCall (CSetWriteFirmwarePointer block_start);
                  EvCall (CWriteFirmware
                            (Py.slice plugin block_start (block_start + 64)))]).
        -- intros p [<-|[]]. reflexivity.
        -- eauto.
        -- destruct (is_Exception e); [|exact Hrun].
           destruct (write_block dev attempts plugin block_start
                       (block_start + 64) (Some e) d2) as [[r2 d3] ev2].
           exact Hrun.
    + apply (Hretry e d1 [EvCall (CSetWriteFirmwarePointer block_start)]).
      * intros p [<-|[]]. reflexivity.
      * eauto.
      * destruct (is_Exception e); [|exact Hrun].
        destruct (write_block dev attempts plugin block_start
                    (block_start + 64) (Some e) d1) as [[r2 d3] ev2].
        exact Hrun.
Qed.

(** A page is written block by block; the loop ends at the first block
    that keeps failing. *)
Lemma write_page_trace position :
  forall offsets d r d' evs,
  write_page dev offsets plugin position d = (r, d', evs) ->
  (forall p, In p (pointers_of evs) ->
     exists o, In o offsets /\ p = position + o) /\
  (r = Val (Next tt) ->
   forall o, In o offsets -> block_written evs plugin (position + o)) /\
  (r = Val (Next tt) \/ r = Val (Return false) \/
   exists e, r = Raise e /\ is_Exception e = false) /\
  (forall o rest, offsets = o :: rest ->
     exists evs', evs = EvCall (CSetWriteFirmwarePointer (position + o)) :: evs').
Proof.
  induction offsets as [|o offsets IH]; intros d r d' evs Hrun.
  - cbn [write_page] in Hrun. run in Hrun.
    assert (r = Val (Next tt) /\ evs = []) as [-> ->] by (split; congruence).
    split; [intros p []|]. split; [intros _ o' []|].
    split; [now left|]. intros o' rest H. discriminate.
  - cbn [write_page] in Hrun. unfold bind at 1 in Hrun.
    destruct (write_block dev (Py.range 0 3) plugin (position + o)
                (position + o + 64) None d) as [[rb d1] evs1] eqn:Hblock.
    destruct (write_block_trace _ _ _ _ _ _ _ Hblock)
      as (Hrb & Hall & Hw & Hfirst).
    assert (Hne : Py.range 0 3 <> []) by (cbv; discriminate).
    destruct (Hfirst Hne) as (rest1 & Hrest1).
    destruct Hrb as [(v & ->)|(e & -> & Hclass)].
    + destruct v as [e|].
      * run in Hrun.
        assert (r = Val (Return false) /\
                evs = (evs1 ++
                       [EvProgress cancel] ++
                       [EvPopupFail "Bricklet"
                          ("Could not write plugin: " +++ exn_text e)] ++ [])%list)
          as [-> ->] by (split; congruence).
        split; [|split; [|split]].
        -- intros p Hp. rewrite pointers_of_app, app_nil_r in Hp.
           apply Hall in Hp. exists o. split; [now left|assumption].
        -- discriminate.
        -- right. now left.
        -- intros o' rest H. assert (o' = o) by congruence. subst.
           cbn [app]. eauto.
      * destruct (write_page dev offsets plugin position d1)
          as [[r2 d2] evs2] eqn:Hrest.
        assert (r = r2 /\ evs = (evs1 ++ evs2)%list) as [-> ->]
          by (split; congruence).
        destruct (IH _ _ _ _ Hrest) as (Hall2 & Hw2 & Hr2 & _).
        split; [|split; [|split]].
        -- intros p Hp. rewrite pointers_of_app in Hp.
           apply in_app_or in Hp. destruct Hp as [Hp|Hp].
           ++ apply Hall in Hp. exists o. split; [now left|assumption].
           ++ destruct (Hall2 _ Hp) as (o' & Ho' & ->).
              exists o'. split; [now right|reflexivity].
        -- intros Hnext o' [<-|Ho'].
           ++ apply block_written_app_r. apply Hw; [assumption|reflexivity].
           ++ apply block_written_app_l. now apply Hw2.
        -- exact Hr2.
        -- intros o' rest H. assert (o' = o) by congruence. subst.
           cbn [app]. eauto.
    + assert (r = Raise e /\ evs = evs1) as [-> ->] by (split; congruence).
      split; [|split; [|split]].
      * intros p Hp. apply Hall in Hp. exists o. split; [now left|assumption].
      * discriminate.
      * right. right. exists e. split; [reflexivity|exact Hclass].
      * intros o' rest H. assert (o' = o) by congruence. subst. eauto.
Qed.

(** The page loop against its plan: pointers are only set inside planned
    pages, a loop that runs to its end has sent every planned page, and
    with enough fuel the loop ends. *)
Lemma write_pages_trace plugin_len :
  forall n allow skipped position d r d' evs,
  write_pages dev n allow plugin plugin_len skipped position d = (r, d', evs) ->
  (forall p, In p (pointers_of evs) ->
     exists q o,
       In q (page_plan n allow plugin plugin_len skipped position) /\
       In o block_offsets /\ p = q + o) /\
  (r = Val (Next tt) ->
   forall q, In q (page_plan n allow plugin plugin_len skipped position) ->
     page_written evs plugin q) /\
  (r = Val (Next tt) \/ r = Val (Return false) \/ r = Diverge \/
   exists e, r = Raise e /\ is_Exception e = false) /\
  (Z.max 0 (plugin_len - position) <= XMC1_PAGE_SIZE * (Z.of_nat n - 1) ->
   r <> Diverge).
Proof.
  induction n as [|n IH]; intros allow skipped position d r d' evs Hrun.
  - cbn in Hrun. inversion Hrun; subst. cbn.
    repeat split; try contradiction; auto; try discriminate.
    unfold XMC1_PAGE_SIZE. lia.
  - cbn [write_pages page_plan] in *.
    destruct (position <? plugin_len) eqn:Hpos.
    2:{ cbn in Hrun. inversion Hrun; subst. cbn.
        repeat split; try contradiction; auto; discriminate. }
    apply Z.ltb_lt in Hpos.
    destruct (skip_page allow skipped plugin plugin_len position) eqn:Hskip.
    + destruct (IH _ _ _ _ _ _ _ Hrun) as (Hin & Hdone & Hr & Hfuel).
      repeat split; auto.
      intros Hlt. apply Hfuel. unfold XMC1_PAGE_SIZE in *. lia.
    + change (Py.range_step 0 XMC1_PAGE_SIZE 64) with block_offsets in Hrun.
      unfold bind at 1 in Hrun.
      destruct (write_page dev block_offsets plugin position d)
        as [[r1 d1] evs1] eqn:Hrun1.
      destruct (write_page_trace position _ _ _ _ _ Hrun1)
        as (Hin1 & Hdone1 & Hr1 & _).
      destruct Hr1 as [-> | [-> | (e & -> & Hclass)]].
      * run in Hrun.
        destruct (write_pages dev n allow plugin plugin_len 0
                    (position + XMC1_PAGE_SIZE) d1)
          as [[r2 d2] evs2] eqn:Hrun2.
        inversion Hrun; subst; clear Hrun.
        destruct (IH _ _ _ _ _ _ _ Hrun2) as (Hin & Hdone & Hr & Hfuel).
        repeat split; auto.
        -- intros p Hp. rewrite pointers_of_app in Hp.
           apply in_app_or in Hp. destruct Hp as [Hp|Hp].
           ++ destruct (Hin1 _ Hp) as (o & Ho & ->).
              exists position, o. repeat split; [now left|assumption].
           ++ change (pointers_of (EvProgress (setValue (position + XMC1_PAGE_SIZE)) :: evs2))
                with (pointers_of evs2) in Hp.
              destruct (Hin _ Hp) as (q & o & Hq & Ho & ->).
              exists q, o. repeat split; [now right|assumption].
        -- intros Hnext q [<-|Hq].
           ++ apply page_written_app_r. intros o Ho. now apply Hdone1.
           ++ apply page_written_app_l.
              apply (page_written_app_l [EvProgress (setValue (position + XMC1_PAGE_SIZE))]).
              now apply Hdone.
        -- intros Hlt. apply Hfuel. unfold XMC1_PAGE_SIZE in *. lia.
      * run in Hrun. inversion Hrun; subst; clear Hrun.
        repeat split; auto; try discriminate.
        intros p Hp. rewrite pointers_of_app, app_nil_r in Hp.
        destruct (Hin1 _ Hp) as (o & Ho & ->).
        exists position, o. repeat split; [now left|assumption].
      * inversion Hrun; subst; clear Hrun.
        repeat split; try discriminate.
        -- intros p Hp. destruct (Hin1 _ Hp) as (o & Ho & ->).
           exists position, o. repeat split; [now left|assumption].
        -- right. right. right. exists e. split; [reflexivity|exact Hclass].
Qed.

End Pages.

(** ** The plan of the page loop *)

Lemma skip_page_over_budget allow plugin plugin_len position :
  skip_page allow (MAX_SKIPPED_PAGES + 1) plugin plugin_len position = false.
Proof. destruct allow; reflexivity. Qed.

Lemma skip_page_disabled skipped plugin plugin_len position :
  skip_page false skipped plugin plugin_len position = false.
Proof. reflexivity. Qed.

Lemma skip_page_not_last allow skipped plugin plugin_len position :
  skip_page allow skipped plugin plugin_len position = true ->
  plugin_len - position > XMC1_PAGE_SIZE.
Proof.
  unfold skip_page. intros H.
  apply andb_prop in H. destruct H as [H _].
  apply andb_prop in H. destruct H as [_ H].
  now apply Z.gtb_gt.
Qed.

(** The first page is planned whatever it holds. *)
Lemma page_plan_first n allow plugin plugin_len :
  0 < plugin_len ->
  page_plan (S n) allow plugin plugin_len (MAX_SKIPPED_PAGES + 1) 0
  = 0 :: page_plan n allow plugin plugin_len 0 (0 + XMC1_PAGE_SIZE).
Proof.
  intros Hlen. cbn [page_plan].
  apply Z.ltb_lt in Hlen. rewrite Hlen.
  now rewrite skip_page_over_budget.
Qed.

(** The last page is planned whatever it holds. *)
Lemma page_plan_last plugin plugin_len allow :
  forall n k skipped position,
  (1 <= k <= n)%nat ->
  plugin_len - position = XMC1_PAGE_SIZE * Z.of_nat k ->
  In (plugin_len - XMC1_PAGE_SIZE)
     (page_plan n allow plugin plugin_len skipped position).
Proof.
  unfold XMC1_PAGE_SIZE.
  induction n as [|n IH]; intros k skipped position Hk Hlen; [lia|].
  cbn [page_plan].
  assert (Hpos : (position <? plugin_len) = true) by (apply Z.ltb_lt; lia).
  rewrite Hpos.
  destruct (skip_page allow skipped plugin plugin_len position) eqn:Hskip.
  - apply skip_page_not_last in Hskip. unfold XMC1_PAGE_SIZE in *.
    apply (IH (pred k)); lia.
  - destruct (Nat.eq_dec k 1) as [->|Hk1].
    + left. lia.
    + right. unfold XMC1_PAGE_SIZE. apply (IH (pred k)); lia.
Qed.

(** Without skipping every page is planned. *)
Lemma page_plan_no_skipping plugin plugin_len :
  forall n j skipped position,
  (j < n)%nat ->
  position + XMC1_PAGE_SIZE * Z.of_nat j < plugin_len ->
  In (position + XMC1_PAGE_SIZE * Z.of_nat j)
     (page_plan n false plugin plugin_len skipped position).
Proof.
  unfold XMC1_PAGE_SIZE.
  induction n as [|n IH]; intros j skipped position Hj Hlen; [lia|].
  cbn [page_plan]. rewrite skip_page_disabled.
  assert (Hpos : (position <? plugin_len) = true) by (apply Z.ltb_lt; lia).
  rewrite Hpos.
  destruct j as [|j].
  - left. lia.
  - right. unfold XMC1_PAGE_SIZE.
    replace (position + 256 * Z.of_nat (S j))
      with ((position + 256) + 256 * Z.of_nat j) by lia.
    apply IH; lia.
Qed.

(** ** One attempt of the Co-MCU protocol *)

Section ComcuAttempt.

Context {D : Type}.
Variable dev : Device D.
Variable fuel : nat.
Hypothesis Hfuel : (11 <= fuel)%nat.

(** An attempt either gives up before the first page, or is the page loop
    run after the bootloader has been entered. *)
Lemma comcu_write_attempt_cases plugin plugin_len name attempt d :
  (exists d1 e1,
     comcu_write_attempt dev fuel plugin plugin_len name attempt d
       = (Val (Return false), d1, e1) /\
     pointers_of e1 = []) \/
  (exists d1 e1,
     pointers_of e1 = [] /\
     forall r d' e2,
       write_pages dev fuel (allow_skipping attempt) plugin plugin_len
                   (MAX_SKIPPED_PAGES + 1) 0 d1 = (r, d', e2) ->
       comcu_write_attempt dev fuel plugin plugin_len name attempt d
         = (r, d', (e1 ++ e2)%list)).
Proof.
  unfold comcu_write_attempt, set_comcu_bootloader_mode,
    wait_for_comcu_bootloader_mode.
  destruct (set_loop_trace dev fuel BOOTLOADER_MODE_BOOTLOADER 0 d)
    as (r1 & d1 & k1 & Hset & _); [lia|lia|].
  run. rewrite Hset.
  assert (P1 : pointers_of
                 (attempts_trace (CSetBootloaderMode BOOTLOADER_MODE_BOOTLOADER)
                    (S k1)) = [])
    by (apply pointers_of_attempts_trace; discriminate).
  destruct r1 as [status|].
  - destruct (wait_loop_trace dev fuel BOOTLOADER_MODE_BOOTLOADER 0 d1)
      as (b & d2 & k2 & Hwait & _); [lia|lia|].
    rewrite Hwait.
    assert (P2 : pointers_of (attempts_trace CGetBootloaderMode (S k2)) = [])
      by (apply pointers_of_attempts_trace; discriminate).
    destruct b; cbn [negb].
    + right.
      exists d2,
        ((attempts_trace (CSetBootloaderMode BOOTLOADER_MODE_BOOTLOADER) (S k1) ++
          attempts_trace CGetBootloaderMode (S k2) ++ []) ++
         [EvProgress
            (setLabelText
               ("Writing plugin" +++ attempt_str attempt +++ ": " +++ name));
          EvProgress (setMaximum plugin_len);
          EvProgress (setValue 0); EvProgress show])%list.
      split.
      * rewrite !pointers_of_app, P1, P2. reflexivity.
      * intros r d' e2 Hpages. rewrite Hpages.
        rewrite <- (app_assoc _ _ e2). reflexivity.
    + left. eexists _, _. split; [reflexivity|].
      rewrite !pointers_of_app, P1, P2. reflexivity.
  - left. eexists _, _. split; [reflexivity|].
    rewrite !pointers_of_app, P1. reflexivity.
Qed.

End ComcuAttempt.

(** ** Skipping of zero pages *)

(** The plan for twenty pages of zeros followed by one more page: the
    first page and the last one. *)
Lemma page_plan_twenty_zero_pages last_page fuel :
  (22 <= fuel)%nat ->
  page_plan fuel true (repeat x00 (20 * 256) ++ last_page) 5376
            (MAX_SKIPPED_PAGES + 1) 0
  = [0; 5120].
Proof.
  intros Hfuel.
  replace fuel with (22 + (fuel - 22))%nat by lia.
  generalize (fuel - 22)%nat as m. intros m.
  vm_compute. reflexivity.
Qed.

Lemma pointer_in_two_pages p q o :
  In q [0; 5120] -> In o block_offsets -> p = q + o ->
  In (p / XMC1_PAGE_SIZE) [0; 20].
Proof.
  unfold block_offsets. cbn [In].
  intros Hq Ho ->.
  repeat match goal with H : _ \/ _ |- _ => destruct H end;
    subst; try contradiction; vm_compute; auto.
Qed.

Lemma pages_touched_nil evs : pointers_of evs = [] -> pages_touched evs = [].
Proof. unfold pages_touched. now intros ->. Qed.

Lemma pages_touched_incl evs l :
  (forall p, In p (pointers_of evs) -> In (p / XMC1_PAGE_SIZE) l) ->
  incl (pages_touched evs) l.
Proof.
  intros H x Hx. unfold pages_touched in Hx.
  apply nodup_In, in_map_iff in Hx. destruct Hx as (p & <- & Hp). auto.
Qed.

Lemma pages_touched_length evs l :
  incl (pages_touched evs) l ->
  (List.length (pages_touched evs) <= List.length l)%nat.
Proof. apply NoDup_incl_length, NoDup_nodup. Qed.

(** C2. Co-MCU flash, first attempt: for an image of twenty pages of zeros
    followed by one more 256-byte page, pointers are only set inside the
    first and the last page, so fewer than twenty pages are written, and an
    attempt that gets through the loop has sent the last page; for any
    image, an attempt that gets through the loop has sent the final page,
    and the test for skipping fails on the final page whatever it holds. *)
Theorem zero_pages_skipped_final_page_written
  {D : Type} (dev : Device D) (fuel : nat) (name : string) (d : D)
  (Hfuel : (22 <= fuel)%nat) :
  (forall last_page r d' evs,
     List.length last_page = 256%nat ->
     let plugin := (repeat x00 (20 * 256) ++ last_page)%list in
     comcu_write_attempt dev fuel plugin (Py.len plugin) name 0 d
       = (r, d', evs) ->
     r <> Diverge /\
     incl (pages_touched evs) [0; 20] /\
     (List.length (pages_touched evs) < 20)%nat /\
     (r = Val (Next tt) -> page_written evs plugin (20 * XMC1_PAGE_SIZE))) /\
  (forall plugin attempt pages d' evs,
     Py.len plugin = XMC1_PAGE_SIZE * Z.of_nat pages ->
     (1 <= pages < fuel)%nat ->
     comcu_write_attempt dev fuel plugin (Py.len plugin) name attempt d
       = (Val (Next tt), d', evs) ->
     page_written evs plugin (Py.len plugin - XMC1_PAGE_SIZE)) /\
  (forall allow skipped plugin position,
     Py.len plugin - position <= XMC1_PAGE_SIZE ->
     skip_page allow skipped plugin (Py.len plugin) position = false).
Proof.
  assert (Hfuel11 : (11 <= fuel)%nat) by lia.
  split; [|split].
  3:{ intros allow skipped plugin position Hlast.
      destruct (skip_page allow skipped plugin (Py.len plugin) position)
        eqn:Hskip; [|reflexivity].
      apply skip_page_not_last in Hskip. lia. }
  - intros last_page r d' evs Hlen plugin Hrun.
    assert (Hplen : Py.len plugin = 5376).
    { unfold Py.len, plugin. rewrite length_app, repeat_length, Hlen.
      reflexivity. }
    rewrite Hplen in Hrun.
    destruct (comcu_write_attempt_cases dev fuel Hfuel11 plugin 5376 name 0 d)
      as [(d1 & e1 & Heq & Hp) | (d1 & e1 & Hp & Hpages)].
    + assert (r = Val (Return false) /\ evs = e1) as [-> ->]
        by (split; congruence).
      rewrite (pages_touched_nil _ Hp).
      repeat split; try discriminate; cbn; try lia. intros x [].
    + destruct (write_pages dev fuel (allow_skipping 0) plugin 5376
                  (MAX_SKIPPED_PAGES + 1) 0 d1) as [[r2 d2] e2] eqn:Hwp.
      specialize (Hpages _ _ _ eq_refl).
      assert (r = r2 /\ evs = (e1 ++ e2)%list) as [-> ->]
        by (split; congruence).
      destruct (write_pages_trace dev plugin 5376 _ _ _ _ _ _ _ _ Hwp)
        as (Hin & Hdone & _ & Hend).
      change (allow_skipping 0) with true in Hin, Hdone.
      unfold plugin in Hin, Hdone at 1.
      rewrite page_plan_twenty_zero_pages in Hin, Hdone by assumption.
      assert (Hincl : incl (pages_touched (e1 ++ e2)) [0; 20]).
      { apply pages_touched_incl. intros p Hp'.
        rewrite pointers_of_app, Hp in Hp'. cbn [app] in Hp'.
        destruct (Hin _ Hp') as (q & o & Hq & Ho & Hpq).
        exact (pointer_in_two_pages p q o Hq Ho Hpq). }
      repeat split.
      * apply Hend. unfold XMC1_PAGE_SIZE. lia.
      * exact Hincl.
      * apply pages_touched_length in Hincl. cbn in Hincl. lia.
      * intros Hr. apply page_written_app_l. apply Hdone; [assumption|].
        right. left. reflexivity.
  - intros plugin attempt pages d' evs Hlen Hpages Hrun.
    destruct (comcu_write_attempt_cases dev fuel Hfuel11 plugin (Py.len plugin)
                name attempt d)
      as [(d1 & e1 & Heq & Hp) | (d1 & e1 & Hp & Hwrite)].
    + congruence.
    + destruct (write_pages dev fuel (allow_skipping attempt) plugin
                  (Py.len plugin) (MAX_SKIPPED_PAGES + 1) 0 d1)
        as [[r2 d2] e2] eqn:Hwp.
      specialize (Hwrite _ _ _ eq_refl).
      assert (r2 = Val (Next tt) /\ evs = (e1 ++ e2)%list) as [-> ->]
        by (split; congruence).
      destruct (write_pages_trace dev plugin _ _ _ _ _ _ _ _ _ Hwp)
        as (_ & Hdone & _).
      apply page_written_app_l. apply Hdone; [reflexivity|].
      apply (page_plan_last plugin (Py.len plugin) _ fuel pages); lia.
Qed.

(** ** The first page and the second attempt *)

(** The page loop starts by setting the pointer to the first page. *)
Lemma write_pages_first_request {D : Type} (dev : Device D) n allow plugin
  plugin_len d :
  0 < plugin_len ->
  exists rest,
    snd (write_pages dev (S n) allow plugin plugin_len
                     (MAX_SKIPPED_PAGES + 1) 0 d)
    = EvCall (CSetWriteFirmwarePointer 0) :: rest.
Proof.
  intros Hlen. cbn [write_pages].
  apply Z.ltb_lt in Hlen. rewrite Hlen, skip_page_over_budget.
  change (Py.range_step 0 XMC1_PAGE_SIZE 64) with block_offsets.
  destruct (write_page dev block_offsets plugin 0 d)
    as [[r d1] evs] eqn:Hrun.
  destruct (write_page_trace dev plugin 0 _ _ _ _ _ Hrun)
    as (_ & _ & Hr & Hfirst).
  destruct (Hfirst 0 [64; 128; 192] eq_refl) as (evs' & ->).
  unfold bind at 1. rewrite Hrun.
  destruct Hr as [-> | [-> | (e & -> & _)]]; run.
  - destruct (write_pages dev n allow plugin plugin_len 0 (0 + XMC1_PAGE_SIZE) d1)
      as [[r2 d2] e2].
    cbn [snd app]. eauto.
  - cbn [snd app]. eauto.
  - cbn [snd]. eauto.
Qed.

(** C9. Co-MCU flash: the skip counter starts above the budget, so the
    page loop of every attempt starts by setting the pointer to offset 0
    and an attempt that gets through the loop has sent the first page,
    whatever the page holds; an attempt other than the first one never
    skips: when it gets through the loop it has sent every page. *)
Theorem first_page_written_second_attempt_complete
  {D : Type} (dev : Device D) (fuel : nat) (name : string) (d : D)
  (Hfuel : (11 <= fuel)%nat) :
  (forall allow plugin plugin_len,
     MAX_SKIPPED_PAGES < MAX_SKIPPED_PAGES + 1 /\
     skip_page allow (MAX_SKIPPED_PAGES + 1) plugin plugin_len 0 = false) /\
  (forall allow plugin,
     0 < Py.len plugin ->
     exists rest,
       snd (write_pages dev fuel allow plugin (Py.len plugin)
                        (MAX_SKIPPED_PAGES + 1) 0 d)
       = EvCall (CSetWriteFirmwarePointer 0) :: rest) /\
  (forall plugin attempt d' evs,
     0 < Py.len plugin ->
     comcu_write_attempt dev fuel plugin (Py.len plugin) name attempt d
       = (Val (Next tt), d', evs) ->
     page_written evs plugin 0) /\
  (forall plugin attempt pages d' evs j,
     attempt <> 0 ->
     Py.len plugin = XMC1_PAGE_SIZE * Z.of_nat pages ->
     (pages < fuel)%nat ->
     comcu_write_attempt dev fuel plugin (Py.len plugin) name attempt d
       = (Val (Next tt), d', evs) ->
     (j < pages)%nat ->
     allow_skipping attempt = false /\
     page_written evs plugin (XMC1_PAGE_SIZE * Z.of_nat j)).
Proof.
  split; [|split; [|split]].
  - intros allow plugin plugin_len. split; [reflexivity|].
    apply skip_page_over_budget.
  - intros allow plugin Hlen.
    destruct fuel as [|n]; [lia|].
    now apply write_pages_first_request.
  - intros plugin attempt d' evs Hlen Hrun.
    destruct (comcu_write_attempt_cases dev fuel Hfuel plugin (Py.len plugin)
                name attempt d)
      as [(d1 & e1 & Heq & Hp) | (d1 & e1 & Hp & Hwrite)]; [congruence|].
    destruct (write_pages dev fuel (allow_skipping attempt) plugin
                (Py.len plugin) (MAX_SKIPPED_PAGES + 1) 0 d1)
      as [[r2 d2] e2] eqn:Hwp.
    specialize (Hwrite _ _ _ eq_refl).
    assert (r2 = Val (Next tt) /\ evs = (e1 ++ e2)%list) as [-> ->]
      by (split; congruence).
    destruct (write_pages_trace dev plugin _ _ _ _ _ _ _ _ _ Hwp)
      as (_ & Hdone & _).
    apply page_written_app_l. apply Hdone; [reflexivity|].
    destruct fuel as [|n]; [lia|].
    rewrite page_plan_first by assumption. now left.
  - intros plugin attempt pages d' evs j Hattempt Hlen Hpages Hrun Hj.
    split; [apply Z.eqb_neq; assumption|].
    destruct (comcu_write_attempt_cases dev fuel Hfuel plugin (Py.len plugin)
                name attempt d)
      as [(d1 & e1 & Heq & Hp) | (d1 & e1 & Hp & Hwrite)]; [congruence|].
    destruct (write_pages dev fuel (allow_skipping attempt) plugin
                (Py.len plugin) (MAX_SKIPPED_PAGES + 1) 0 d1)
      as [[r2 d2] e2] eqn:Hwp.
    specialize (Hwrite _ _ _ eq_refl).
    assert (r2 = Val (Next tt) /\ evs = (e1 ++ e2)%list) as [-> ->]
      by (split; congruence).
    destruct (write_pages_trace dev plugin _ _ _ _ _ _ _ _ _ Hwp)
      as (_ & Hdone & _).
    apply page_written_app_l. apply Hdone; [reflexivity|].
    replace (allow_skipping attempt) with false
      by (symmetry; apply Z.eqb_neq; assumption).
    replace (XMC1_PAGE_SIZE * Z.of_nat j)
      with (0 + XMC1_PAGE_SIZE * Z.of_nat j) by lia.
    apply page_plan_no_skipping; [lia|].
    unfold XMC1_PAGE_SIZE in *. lia.
Qed.

(** ** The retry on a CRC mismatch *)

Section ComcuRetry.

Context {D : Type}.
Variable dev : Device D.
Variable fuel : nat.

(** One attempt, from the runs of its two phases. *)
Lemma comcu_attempt_run plugin plugin_len name attempt d d1 e1 mode_ret d2 e2 :
  comcu_write_attempt dev fuel plugin plugin_len name attempt d
    = (Val (Next tt), d1, e1) ->
  set_comcu_bootloader_mode dev fuel BOOTLOADER_MODE_FIRMWARE d1
    = (Val mode_ret, d2, e2) ->
  comcu_attempt dev fuel plugin plugin_len name attempt d
  = (let '(r, d3, e3) := comcu_check_mode_ret mode_ret d2 in
     (r, d3, (e1 ++ leaving_bootloader attempt ++ e2 ++ e3)%list)).
Proof.
  intros Hwrite Hmode. unfold comcu_attempt.
  unfold bind at 1. rewrite Hwrite. run. rewrite Hmode.
  destruct (comcu_check_mode_ret mode_ret d2) as [[r d3] e3].
  reflexivity.
Qed.

Lemma comcu_attempts_cons plugin plugin_len name attempt rest error_str d :
  comcu_attempts dev fuel (attempt :: rest) plugin plugin_len name error_str d
  = (let '(e, d1, ev1) :=
       comcu_attempt dev fuel plugin plugin_len name attempt d in
     match e with
     | Val Break => (Val (Next (true, error_str)), d1, (ev1 ++ [])%list)
     | Val (Continue error_str') =>
         let '(r, d2, ev2) :=
           comcu_attempts dev fuel rest plugin plugin_len name
                          (Some error_str') d1 in
         (r, d2, (ev1 ++ ev2)%list)
     | Val (ReturnFrom b) => (Val (Return b), d1, (ev1 ++ [])%list)
     | Raise x => (Raise x, d1, ev1)
     | Diverge => (Diverge, d1, ev1)
     end).
Proof.
  cbn [comcu_attempts]. unfold bind at 1.
  destruct (comcu_attempt dev fuel plugin plugin_len name attempt d)
    as [[[[error_str'| |b]|x|] d1] ev1]; reflexivity.
Qed.

End ComcuRetry.

Lemma comcu_check_mode_ret_crc {D : Type} (d : D) :
  comcu_check_mode_ret (Some 5) d
  = (Val (Continue "CRC Mismatch (Error 5)"), d, []).
Proof. reflexivity. Qed.

Lemma comcu_check_mode_ret_ok {D : Type} (status : Z) (d : D) :
  status = 0 \/ status = 2 ->
  comcu_check_mode_ret (Some status) d = (Val Break, d, []).
Proof. intros [-> | ->]; reflexivity. Qed.

Lemma bind_prefix {D A B : Type} (m : M D A) (k : A -> M D B) (d : D) :
  exists r d' rest, bind m k d = (r, d', (snd (m d) ++ rest)%list).
Proof.
  unfold bind. destruct (m d) as [[[a|e|] d1] ev1]; cbn [snd].
  - destruct (k a d1) as [[r d2] ev2]. now exists r, d2, ev2.
  - exists (Raise e), d1, []. now rewrite app_nil_r.
  - exists Diverge, d1, []. now rewrite app_nil_r.
Qed.

(** A page loop that runs to its end had fuel for every page. *)
Lemma write_pages_fuel {D : Type} (dev : Device D) plugin plugin_len :
  forall n allow skipped position d d' evs,
  write_pages dev n allow plugin plugin_len skipped position d
    = (Val (Next tt), d', evs) ->
  Z.max 0 (plugin_len - position) <= XMC1_PAGE_SIZE * (Z.of_nat n - 1).
Proof.
  unfold XMC1_PAGE_SIZE.
  induction n as [|n IH]; intros allow skipped position d d' evs Hrun.
  - cbn in Hrun. discriminate.
  - cbn [write_pages] in Hrun.
    destruct (position <? plugin_len) eqn:Hpos.
    2:{ apply Z.ltb_ge in Hpos. lia. }
    apply Z.ltb_lt in Hpos.
    destruct (skip_page allow skipped plugin plugin_len position).
    + apply IH in Hrun. unfold XMC1_PAGE_SIZE in Hrun. lia.
    + unfold bind at 1 in Hrun.
      destruct (write_page dev (Py.range_step 0 XMC1_PAGE_SIZE 64) plugin
                  position d) as [[[[[]|b]|x|] d1] evs1];
        try discriminate.
      run in Hrun.
      destruct (write_pages dev n allow plugin plugin_len 0
                  (position + XMC1_PAGE_SIZE) d1) as [[r2 d2] evs2] eqn:Hrest.
      assert (Hr2 : r2 = Val (Next tt)) by congruence. subst r2.
      apply IH in Hrest. unfold XMC1_PAGE_SIZE in Hrest. lia.
Qed.

(** Every write attempt starts by asking for bootloader mode. *)
Lemma comcu_write_attempt_first_request {D : Type} (dev : Device D)
  (fuel : nat) plugin plugin_len name attempt d :
  (11 <= fuel)%nat ->
  exists rest,
    snd (comcu_write_attempt dev fuel plugin plugin_len name attempt d)
    = EvCall (CSetBootloaderMode BOOTLOADER_MODE_BOOTLOADER) :: rest.
Proof.
  intros Hfuel. unfold comcu_write_attempt.
  match goal with
  | |- context [bind (bind ?m ?k1) ?k2 d] =>
      destruct (bind_prefix (bind m k1) k2 d) as (r & d' & rest & Houter);
      destruct (bind_prefix m k1 d) as (r1 & d1 & rest1 & Hinner)
  end.
  rewrite Houter. cbn [snd]. rewrite Hinner. cbn [snd].
  unfold set_comcu_bootloader_mode.
  destruct (set_loop_trace dev fuel BOOTLOADER_MODE_BOOTLOADER 0 d)
    as (r0 & d0 & k & Hset & _); [lia|lia|].
  rewrite Hset. cbn [snd].
  destruct k as [|k]; cbn [attempts_trace app]; eauto.
Qed.

(** A write attempt after the first one that gets through the page loop
    has sent every page of the image. *)
Lemma comcu_write_attempt_complete {D : Type} (dev : Device D)
  (fuel : nat) plugin name attempt d d' evs j :
  (11 <= fuel)%nat ->
  attempt <> 0 ->
  comcu_write_attempt dev fuel plugin (Py.len plugin) name attempt d
    = (Val (Next tt), d', evs) ->
  0 <= j ->
  XMC1_PAGE_SIZE * j < Py.len plugin ->
  page_written evs plugin (XMC1_PAGE_SIZE * j).
Proof.
  intros Hfuel Hattempt Hrun Hj Hlen.
  destruct (comcu_write_attempt_cases dev fuel Hfuel plugin (Py.len plugin)
              name attempt d)
    as [(d1 & e1 & Heq & Hp) | (d1 & e1 & Hp & Hwrite)]; [congruence|].
  destruct (write_pages dev fuel (allow_skipping attempt) plugin
              (Py.len plugin) (MAX_SKIPPED_PAGES + 1) 0 d1)
    as [[r2 d2] e2] eqn:Hwp.
  specialize (Hwrite _ _ _ eq_refl).
  assert (r2 = Val (Next tt) /\ evs = (e1 ++ e2)%list) as [-> ->]
    by (split; congruence).
  pose proof (write_pages_fuel dev _ _ _ _ _ _ _ _ _ Hwp) as Henough.
  destruct (write_pages_trace dev plugin _ _ _ _ _ _ _ _ _ Hwp)
    as (_ & Hdone & _).
  apply page_written_app_l. apply Hdone; [reflexivity|].
  replace (allow_skipping attempt) with false
    by (symmetry; apply Z.eqb_neq; assumption).
  replace (XMC1_PAGE_SIZE * j)
    with (0 + XMC1_PAGE_SIZE * Z.of_nat (Z.to_nat j))
    by (rewrite Z2Nat.id by assumption; reflexivity).
  apply page_plan_no_skipping; rewrite ?Z2Nat.id by assumption;
    unfold XMC1_PAGE_SIZE in *; lia.
Qed.

(** C1. Co-MCU flash, for a firmware that passes the checks and a first
    attempt that gets through its page loop: when the change to firmware
    mode answers 5, a second write attempt is run, and it is a full one:
    it starts by asking for bootloader mode again, runs without skipping,
    and when it gets through its page loop it has sent all four blocks of
    every page of the image; when the second attempt gets the answer 5 as
    well, the operation returns [False] after reporting the CRC mismatch;
    when the first answer is 0 or 2, the loop over the attempts is left
    with [flash_success] set and no second attempt is made, nothing more
    is written, and the operation returns [True] once the device reports
    firmware mode, [False] with the report of the missing confirmation
    when it does not. *)
Theorem crc_mismatch_retried_once
  {D : Type} (dev : Device D) (fuel : nat) (plugin : Py.bytes)
  (name : string) (d d1 : D) (e1 : list event)
  (Hfuel : (11 <= fuel)%nat)
  (Hmagic : find_regular_plugin_upto plugin <> -1)
  (Hlen : Py.len plugin mod XMC1_PAGE_SIZE = 0)
  (Hfirst : comcu_write_attempt dev fuel plugin (Py.len plugin) name 0 d
            = (Val (Next tt), d1, e1)) :
  (forall d2 e2,
     set_comcu_bootloader_mode dev fuel BOOTLOADER_MODE_FIRMWARE d1
       = (Val (Some 5), d2, e2) ->
     allow_skipping 1 = false /\
     (exists r d' rest,
       comcu_flash dev fuel plugin name d
       = (r, d',
          (e1 ++ leaving_bootloader 0 ++ e2 ++
           snd (comcu_write_attempt dev fuel plugin (Py.len plugin) name 1 d2)
           ++ rest)%list)) /\
     (exists rest,
        snd (comcu_write_attempt dev fuel plugin (Py.len plugin) name 1 d2)
        = EvCall (CSetBootloaderMode BOOTLOADER_MODE_BOOTLOADER) :: rest) /\
     (forall d3 e3 j,
        comcu_write_attempt dev fuel plugin (Py.len plugin) name 1 d2
          = (Val (Next tt), d3, e3) ->
        0 <= j ->
        XMC1_PAGE_SIZE * j < Py.len plugin ->
        page_written e3 plugin (XMC1_PAGE_SIZE * j))) /\
  (forall d2 e2 d3 e3 d4 e4,
     set_comcu_bootloader_mode dev fuel BOOTLOADER_MODE_FIRMWARE d1
       = (Val (Some 5), d2, e2) ->
     comcu_write_attempt dev fuel plugin (Py.len plugin) name 1 d2
       = (Val (Next tt), d3, e3) ->
     set_comcu_bootloader_mode dev fuel BOOTLOADER_MODE_FIRMWARE d3
       = (Val (Some 5), d4, e4) ->
     comcu_flash dev fuel plugin name d
     = (Val false, d4,
        (e1 ++ leaving_bootloader 0 ++ e2 ++
         e3 ++ leaving_bootloader 1 ++ e4 ++ crc_mismatch_report)%list)) /\
  (forall status d2 e2,
     set_comcu_bootloader_mode dev fuel BOOTLOADER_MODE_FIRMWARE d1
       = (Val (Some status), d2, e2) ->
     status = 0 \/ status = 2 ->
     comcu_attempts dev fuel (Py.range 0 2) plugin (Py.len plugin) name None d
       = (Val (Next (true, None)), d2,
          (e1 ++ leaving_bootloader 0 ++ e2)%list) /\
     (forall d3 e3,
       wait_for_comcu_bootloader_mode dev fuel BOOTLOADER_MODE_FIRMWARE d2
         = (Val true, d3, e3) ->
       comcu_flash dev fuel plugin name d
         = (Val true, d3, (e1 ++ leaving_bootloader 0 ++ e2 ++ e3)%list) /\
       pointers_of (e1 ++ leaving_bootloader 0 ++ e2 ++ e3) = pointers_of e1) /\
     (forall d3 e3,
       wait_for_comcu_bootloader_mode dev fuel BOOTLOADER_MODE_FIRMWARE d2
         = (Val false, d3, e3) ->
       comcu_flash dev fuel plugin name d
         = (Val false, d3,
            (e1 ++ leaving_bootloader 0 ++ e2 ++ e3 ++
             [EvProgress cancel;
              EvPopupFail "Bricklet"
                "Device did not enter firmware mode in 2.5 seconds"])%list))).
Proof.
  rewrite comcu_flash_attempts by assumption.
  assert (Hretry : forall d2 e2,
    set_comcu_bootloader_mode dev fuel BOOTLOADER_MODE_FIRMWARE d1
      = (Val (Some 5), d2, e2) ->
    comcu_attempts dev fuel [0; 1] plugin (Py.len plugin) name None d
    = (let '(r, d3, e3) :=
         comcu_attempts dev fuel [1] plugin (Py.len plugin) name
                        (Some "CRC Mismatch (Error 5)"%string) d2 in
       (r, d3, ((e1 ++ leaving_bootloader 0 ++ e2 ++ []) ++ e3)%list))).
  { intros d2 e2 Hmode. rewrite comcu_attempts_cons.
    rewrite (comcu_attempt_run dev fuel _ _ _ _ _ _ _ _ _ _ Hfirst Hmode).
    rewrite comcu_check_mode_ret_crc. reflexivity. }
  split; [|split].
  - intros d2 e2 Hmode. split; [reflexivity|].
    split; [|split;
      [apply comcu_write_attempt_first_request; assumption
      |intros d3 e3 j Hsecond Hj Hpage;
       apply (comcu_write_attempt_complete dev fuel plugin name 1 d2 d3 e3 j);
       [assumption|discriminate|assumption|assumption|assumption]]].
    unfold bind at 1. rewrite (Hretry _ _ Hmode).
    rewrite comcu_attempts_cons. unfold comcu_attempt at 1.
    destruct (bind_prefix
                (comcu_write_attempt dev fuel plugin (Py.len plugin) name 1)
                (fun r =>
                   match r with
                   | Return b => ret (ReturnFrom b)
                   | Next _ =>
                       progress (setLabelText
                         ("Changing from bootloader mode to firmware mode" +++
                          attempt_str 1)) ;;;
                       progress (setMaximum 0) ;;;
                       progress (setValue 0) ;;;
                       progress show ;;;
                       mode_ret <- set_comcu_bootloader_mode dev fuel
                                     BOOTLOADER_MODE_FIRMWARE ;;
                       comcu_check_mode_ret mode_ret
                   end) d2) as (r & d3 & rest & Hrun).
    rewrite Hrun.
    set (second := snd (comcu_write_attempt dev fuel plugin (Py.len plugin)
                          name 1 d2)).
    destruct r as [[error_str| |b]|x|]; cbn [comcu_attempts]; run;
      try match goal with
          | |- context [comcu_after_attempts ?a ?b ?c ?s] =>
              destruct (comcu_after_attempts a b c s) as [[? ?] ?]
          end;
      rewrite ?app_nil_r, <- ?app_assoc; eexists _, _, _; reflexivity.
  - intros d2 e2 d3 e3 d4 e4 Hmode Hsecond Hmode2.
    unfold bind at 1. rewrite (Hretry _ _ Hmode).
    rewrite comcu_attempts_cons.
    rewrite (comcu_attempt_run dev fuel _ _ _ _ _ _ _ _ _ _ Hsecond Hmode2).
    rewrite comcu_check_mode_ret_crc.
    cbn [comcu_attempts]. unfold comcu_after_attempts. run. cbn [negb].
    rewrite ?app_nil_r, <- ?app_assoc. reflexivity.
  - intros status d2 e2 Hmode Hstatus.
    assert (Hloop :
      comcu_attempts dev fuel [0; 1] plugin (Py.len plugin) name None d
      = (Val (Next (true, None)), d2,
         (e1 ++ leaving_bootloader 0 ++ e2)%list)).
    { rewrite comcu_attempts_cons.
      rewrite (comcu_attempt_run dev fuel _ _ _ _ _ _ _ _ _ _ Hfirst Hmode).
      rewrite comcu_check_mode_ret_ok by assumption.
      rewrite ?app_nil_r. reflexivity. }
    split; [exact Hloop|].
    split; [|intros d3 e3 Hwait; unfold bind at 1; rewrite Hloop;
             unfold comcu_after_attempts; run; cbn [negb]; rewrite Hwait;
             cbn [negb]; rewrite ?app_nil_r, <- ?app_assoc; reflexivity].
    intros d3 e3 Hwait. split.
    + unfold bind at 1. rewrite Hloop.
      unfold comcu_after_attempts. run. cbn [negb]. rewrite Hwait. cbn [negb].
      rewrite ?app_nil_r, <- ?app_assoc. reflexivity.
    + destruct (set_loop_trace dev fuel BOOTLOADER_MODE_FIRMWARE 0 d1)
        as (r' & d' & k & Hset & _); [lia|lia|].
      destruct (wait_loop_trace dev fuel BOOTLOADER_MODE_FIRMWARE 0 d2)
        as (b' & d'' & k' & Hget & _); [lia|lia|].
      assert (He2 : e2 = attempts_trace
                           (CSetBootloaderMode BOOTLOADER_MODE_FIRMWARE) (S k))
        by (unfold set_comcu_bootloader_mode in Hmode; congruence).
      assert (He3 : e3 = attempts_trace CGetBootloaderMode (S k'))
        by (unfold wait_for_comcu_bootloader_mode in Hwait; congruence).
      rewrite !pointers_of_app, He2, He3.
      rewrite !pointers_of_attempts_trace by discriminate.
      cbn. now rewrite app_nil_r.
Qed.

(** ** The magic number *)


Lemma index_nth_error {A : Type} (l : list A) i a :
  Py.index l i = Some a -> 0 <= i /\ nth_error l (Z.to_nat i) = Some a.
Proof.
  unfold Py.index. destruct (i <? 0) eqn:Hi; [discriminate|].
  apply Z.ltb_ge in Hi. auto.
Qed.







(** ** TNG modules *)

Section Tng.

Context {D : Type}.
Variable dev : Device D.

Lemma tng_write_block_calls plugin start end_ d r d' evs :
  tng_write_block dev plugin start end_ d = (r, d', evs) ->
  ~ In CReset (calls_of evs) /\ r <> Diverge.
Proof.
  unfold tng_write_block. run.
  destruct (set_write_firmware_pointer dev start d) as [[[]|e] d1];
    [destruct (write_firmware dev (Py.slice plugin start end_) d1)
       as [[status|e] d2]|];
    intros [= <- <- <-]; cbn; intuition discriminate.
Qed.

(** The block loop never resets the device; only an exception outside
    [Exception] raised by the second try of a block gets out of it. *)
Lemma tng_write_blocks_calls plugin :
  forall index_list d r d' evs,
  tng_write_blocks dev index_list plugin d = (r, d', evs) ->
  ~ In CReset (calls_of evs) /\
  (r = Val (Next tt) \/ r = Val (Return false) \/
   exists e, r = Raise e /\ is_Exception e = false).
Proof.
  induction index_list as [|position rest IH]; intros d r d' evs.
  - cbn. intros [= <- <- <-]. cbn. intuition.
  - cbn [tng_write_blocks].
    unfold bind at 1, try_except at 1, bind at 1.
    destruct (tng_write_block dev plugin (position * 64)
                ((position + 1) * 64) d) as [[r1 d1] ev1] eqn:Hfirst.
    apply tng_write_block_calls in Hfirst. destruct Hfirst as [Hfirst Hr1].
    destruct r1 as [[]|e|]; [| |congruence].
    + run.
      destruct (tng_write_blocks dev rest plugin d1) as [[r2 d2] ev2] eqn:Hrest.
      apply IH in Hrest. destruct Hrest as [Hrest Hr2].
      intros [= <- <- <-]. split; [|assumption].
      rewrite app_nil_r, calls_of_app, calls_of_progress.
      intros H. apply in_app_or in H. tauto.
    + unfold try_except_Exception at 1, try_except at 1, bind at 1.
      destruct (tng_write_block dev plugin (position * 64)
                  ((position + 1) * 64) d1) as [[r2 d2] ev2] eqn:Hsecond.
      apply tng_write_block_calls in Hsecond.
      destruct Hsecond as [Hsecond Hr2].
      destruct r2 as [[]|e'|]; [| |congruence].
      * run.
        destruct (tng_write_blocks dev rest plugin d2)
          as [[r3 d3] ev3] eqn:Hrest.
        apply IH in Hrest. destruct Hrest as [Hrest Hr3].
        intros [= <- <- <-]. split; [|assumption].
        rewrite app_nil_r, !calls_of_app, calls_of_progress.
        intros H. apply in_app_or in H. destruct H as [H|H]; [|tauto].
        apply in_app_or in H. tauto.
      * destruct (is_Exception e') eqn:Hclass; run.
        -- intros [= <- <- <-]. split; [|tauto].
           rewrite !calls_of_app. cbn [calls_of flat_map app].
           rewrite !app_nil_r.
           intros H. apply in_app_or in H. tauto.
        -- intros [= <- <- <-]. split; [|eauto].
           rewrite !calls_of_app. cbn [calls_of flat_map app].
           rewrite !app_nil_r.
           intros H. apply in_app_or in H. tauto.
Qed.

Lemma tng_write_firmware_calls plugin name d r d' evs :
  tng_write_firmware dev plugin name d = (r, d', evs) ->
  ~ In CReset (calls_of evs) /\
  (r = Val (Next tt) \/ r = Val (Return false) \/
   exists e, r = Raise e /\ is_Exception e = false).
Proof.
  unfold tng_write_firmware. run.
  match goal with
  | |- context [tng_write_blocks dev ?l ?p d] =>
      destruct (tng_write_blocks dev l p d) as [[r1 d1] ev1] eqn:Hblocks
  end.
  apply tng_write_blocks_calls in Hblocks. destruct Hblocks as [Hcalls Hr].
  intros [= <- <- <-]. split; [|assumption].
  cbn [app]. rewrite !calls_of_progress. assumption.
Qed.

End Tng.

(** C5. TNG flash: the status of [copy_firmware] decides the outcome.
    Status 0 is followed by the request to reset, and the operation returns
    [True] when that request returns; every other status is followed by no
    request at all and by [False] with the message for that status: the
    fixed texts for 1, 2, 3 and 4 ("CRC mismatch (Error 4)"), "Error N"
    otherwise; a reset is only ever requested after status 0. *)
Theorem tng_copy_status_decides
  {D : Type} (dev : Device D) (plugin : Py.bytes) (name : string) (d : D) :
  (tng_error_str 1 = "Device identifier incorrect (Error 1)"%string /\
   tng_error_str 2 = "Magic number incorrect (Error 2)"%string /\
   tng_error_str 3 = "Length malformed (Error 3)"%string /\
   tng_error_str 4 = "CRC mismatch (Error 4)"%string /\
   forall status, ~ (1 <= status <= 4) ->
     tng_error_str status = ("Error " +++ Py.str status)) /\
  (forall d1 e1 status d2,
     tng_write_firmware dev plugin name d = (Val (Next tt), d1, e1) ->
     copy_firmware dev d1 = (Returns status, d2) ->
     (status = 0 ->
      forall d3, reset dev d2 = (Returns tt, d3) ->
        tng_flash dev plugin name d
        = (Val true, d3, (e1 ++ [EvCall CCopyFirmware; EvCall CReset])%list)) /\
     (status <> 0 ->
      tng_flash dev plugin name d
      = (Val false, d2,
         (e1 ++ [EvCall CCopyFirmware;
                 EvProgress cancel;
                 EvPopupFail "Bricklet"
                   ("Could not flash firmware: " +++ tng_error_str status)])%list))) /\
  (In CReset (calls_of (snd (tng_flash dev plugin name d))) ->
   exists d1 e1 d2,
     tng_write_firmware dev plugin name d = (Val (Next tt), d1, e1) /\
     copy_firmware dev d1 = (Returns 0, d2)).
Proof.
  split; [|split].
  - repeat split; try reflexivity.
    intros status Hstatus. unfold tng_error_str.
    destruct (status =? 1) eqn:H1; [apply Z.eqb_eq in H1; lia|].
    destruct (status =? 2) eqn:H2; [apply Z.eqb_eq in H2; lia|].
    destruct (status =? 3) eqn:H3; [apply Z.eqb_eq in H3; lia|].
    destruct (status =? 4) eqn:H4; [apply Z.eqb_eq in H4; lia|].
    reflexivity.
  - intros d1 e1 status d2 Hwrite Hcopy.
    assert (Hrun : tng_flash dev plugin name d
      = (let '(r, d3, e3) := tng_check_copy_status dev status d2 in
         (r, d3, (e1 ++ [EvCall CCopyFirmware] ++ e3)%list))).
    { unfold tng_flash. unfold bind at 1. rewrite Hwrite.
      unfold bind at 1, request at 1. rewrite Hcopy.
      destruct (tng_check_copy_status dev status d2) as [[r d3] e3].
      reflexivity. }
    rewrite Hrun. unfold tng_check_copy_status. split.
    + intros -> d3 Hreset. cbn [Z.eqb]. run. rewrite Hreset. reflexivity.
    + intros Hstatus. apply Z.eqb_neq in Hstatus. rewrite Hstatus.
      reflexivity.
  - unfold tng_flash. unfold bind at 1.
    destruct (tng_write_firmware dev plugin name d) as [[r d1] e1] eqn:Hwrite.
    destruct (tng_write_firmware_calls dev _ _ _ _ _ _ Hwrite) as [Hcalls Hr].
    destruct Hr as [-> | [-> | (e & -> & _)]].
    + unfold bind at 1, request at 1.
      destruct (copy_firmware dev d1) as [[status|e] d2] eqn:Hcopy.
      * cbv beta iota. unfold tng_check_copy_status.
        destruct (status =? 0) eqn:Hstatus.
        -- apply Z.eqb_eq in Hstatus. subst status. intros _.
           now exists d1, e1, d2.
        -- run. cbn [snd]. rewrite !calls_of_app. cbn.
           intros H. apply in_app_or in H. cbn in H. intuition discriminate.
      * cbn [snd]. rewrite !calls_of_app. cbn.
        intros H. apply in_app_or in H. cbn in H. intuition discriminate.
    + run. cbn [snd]. rewrite app_nil_r. tauto.
    + cbn [snd]. tauto.
Qed.

(** ** Classic Bricklets: chunks *)

Lemma len_app {A : Type} (l1 l2 : list A) :
  Py.len (l1 ++ l2) = Py.len l1 + Py.len l2.
Proof. unfold Py.len. rewrite length_app. lia. Qed.

Lemma len_nonneg {A : Type} (l : list A) : 0 <= Py.len l.
Proof. unfold Py.len. lia. Qed.

Lemma len_zeros n : 0 <= n -> Py.len (Py.zeros n) = n.
Proof. intros Hn. unfold Py.len, Py.zeros. rewrite repeat_length. lia. Qed.

Lemma len_skipn {A : Type} (l : list A) offset :
  0 <= offset <= Py.len l ->
  Py.len (skipn (Z.to_nat offset) l) = Py.len l - offset.
Proof. intros H. unfold Py.len in *. rewrite length_skipn. lia. Qed.

(** A chunk in the middle of the plugin is the 32 bytes at its offset. *)
Lemma chunk_at_full plugin offset :
  0 <= offset -> offset + plugin_chunk_size <= Py.len plugin ->
  chunk_at plugin offset = firstn 32 (skipn (Z.to_nat offset) plugin) /\
  Py.len (chunk_at plugin offset) = 32.
Proof.
  unfold plugin_chunk_size. intros Hoff Hlen.
  unfold chunk_at, Py.slice, plugin_chunk_size.
  replace (Z.to_nat (offset + 32 - offset)) with 32%nat by lia.
  assert (Hl : Py.len (firstn 32 (skipn (Z.to_nat offset) plugin)) = 32).
  { unfold Py.len in *. rewrite length_firstn, length_skipn. lia. }
  rewrite Hl. cbn. auto.
Qed.

(** The chunk at the end of the plugin is what is left, padded with zero
    bytes. *)
Lemma chunk_at_last plugin offset :
  0 <= offset < Py.len plugin ->
  Py.len plugin < offset + plugin_chunk_size ->
  chunk_at plugin offset
  = (skipn (Z.to_nat offset) plugin ++
     Py.zeros (offset + 32 - Py.len plugin))%list /\
  Py.len (chunk_at plugin offset) = 32.
Proof.
  unfold plugin_chunk_size. intros Hoff Hlen.
  unfold chunk_at, Py.slice, plugin_chunk_size.
  replace (Z.to_nat (offset + 32 - offset)) with 32%nat by lia.
  assert (Hl : Py.len (skipn (Z.to_nat offset) plugin) = Py.len plugin - offset)
    by (apply len_skipn; lia).
  rewrite firstn_all2 by (unfold Py.len in *; lia).
  rewrite Hl.
  assert (Hlt : (Py.len plugin - offset <? 32) = true) by (apply Z.ltb_lt; lia).
  rewrite Hlt.
  replace (32 - (Py.len plugin - offset)) with (offset + 32 - Py.len plugin)
    by lia.
  split; [reflexivity|].
  rewrite len_app, Hl, len_zeros; lia.
Qed.

Lemma ceil_step x :
  0 < x -> (Z.max 0 x + 31) / 32 = 1 + (Z.max 0 (x - 32) + 31) / 32.
Proof. intros Hx. Z.div_mod_to_equations. lia. Qed.

(** The splitting loop, with enough fuel: the number of chunks, their
    size, and their content. *)
Lemma split_chunks_spec plugin :
  forall n chunks offset,
  0 <= offset ->
  Py.len plugin - offset <= plugin_chunk_size * (Z.of_nat n - 1) ->
  0 < Z.of_nat n ->
  exists more,
    split_chunks n plugin chunks offset = Some (chunks ++ more)%list /\
    Py.len more = (Z.max 0 (Py.len plugin - offset) + 31) / 32 /\
    Forall (fun chunk => Py.len chunk = 32) more /\
    (offset <= Py.len plugin ->
     List.concat more
     = (skipn (Z.to_nat offset) plugin ++
        Py.zeros (32 * Py.len more - (Py.len plugin - offset)))%list).
Proof.
  unfold plugin_chunk_size.
  induction n as [|n IH]; intros chunks offset Hoff Hfuel Hn; [lia|].
  cbn [split_chunks].
  destruct (offset <? Py.len plugin) eqn:Hlt.
  - apply Z.ltb_lt in Hlt.
    destruct (IH (chunks ++ [chunk_at plugin offset])%list
                 (offset + plugin_chunk_size))
      as (more & Hrun & Hcount & Hsize & Hdata);
      unfold plugin_chunk_size in *; try lia.
    exists (chunk_at plugin offset :: more).
    rewrite Hrun, <- app_assoc. split; [reflexivity|].
    assert (Hcount' : Py.len (chunk_at plugin offset :: more)
                      = (Z.max 0 (Py.len plugin - offset) + 31) / 32).
    { rewrite (ceil_step (Py.len plugin - offset)) by lia.
      replace (Py.len plugin - offset - 32)
        with (Py.len plugin - (offset + 32)) by lia.
      rewrite <- Hcount. unfold Py.len. cbn [List.length]. lia. }
    split; [exact Hcount'|].
    destruct (Z_le_gt_dec (offset + 32) (Py.len plugin)) as [Hfull|Hpart].
    + destruct (chunk_at_full plugin offset) as [Hchunk Hlen];
        unfold plugin_chunk_size; try lia.
      split; [constructor; assumption|].
      intros _. cbn [List.concat]. rewrite Hdata by lia.
      rewrite Hchunk, app_assoc.
      replace (Z.to_nat (offset + 32)) with (32 + Z.to_nat offset)%nat by lia.
      rewrite <- skipn_skipn, firstn_skipn.
      f_equal. f_equal.
      unfold Py.len in *. cbn [List.length]. lia.
    + destruct (chunk_at_last plugin offset) as [Hchunk Hlen];
        unfold plugin_chunk_size; try lia.
      split; [constructor; assumption|].
      intros _.
      assert (Hmore : more = []).
      { destruct more; [reflexivity|].
        unfold Py.len in Hcount. cbn [List.length] in Hcount.
        replace (Z.max 0 (Z.of_nat (List.length plugin) - (offset + 32)))
          with 0 in Hcount by (unfold Py.len in *; lia).
        change ((0 + 31) / 32) with 0 in Hcount. lia. }
      subst more. cbn [List.concat]. rewrite app_nil_r, Hchunk.
      f_equal. f_equal. unfold Py.len. cbn [List.length]. unfold Py.len in *.
      lia.
  - apply Z.ltb_ge in Hlt. exists []. rewrite app_nil_r.
    split; [reflexivity|].
    replace (Z.max 0 (Py.len plugin - offset)) with 0 by lia.
    repeat split; try constructor.
    intros Hle. assert (offset = Py.len plugin) as -> by lia.
    replace (32 * Py.len (@nil Py.bytes) - (Py.len plugin - Py.len plugin))
      with 0 by (unfold Py.len; cbn [List.length]; lia).
    unfold Py.len. rewrite Nat2Z.id, skipn_all. reflexivity.
Qed.

(** ** Classic Bricklets: the two passes *)

Lemma calls_of_prologue name count : calls_of (classic_prologue name count) = [].
Proof. reflexivity. Qed.

Lemma calls_of_interlude name count :
  calls_of (classic_interlude name count) = [].
Proof. reflexivity. Qed.

Lemma classic_writes_length port position chunks :
  Py.len (classic_writes port position chunks) = Py.len chunks.
Proof.
  revert position. induction chunks as [|c rest IH]; intros position.
  - reflexivity.
  - unfold Py.len in *. cbn [classic_writes List.length].
    now rewrite !Nat2Z.inj_succ, IH.
Qed.

Lemma classic_reads_length port position chunks :
  Py.len (classic_reads port position chunks) = Py.len chunks.
Proof.
  revert position. induction chunks as [|c rest IH]; intros position.
  - reflexivity.
  - unfold Py.len in *. cbn [classic_reads List.length].
    now rewrite !Nat2Z.inj_succ, IH.
Qed.

Section Classic.

Context {D : Type}.
Variable dev : Device D.

(** The write pass sends the chunks in order, at positions counted from
    [position], and stops at the first failure. *)
Lemma classic_write_chunks_trace port :
  forall chunks position d r d' evs,
  classic_write_chunks dev chunks port position d = (r, d', evs) ->
  r <> Diverge /\
  r <> Val (Return true) /\
  (exists rest,
     classic_writes port position chunks = (calls_of evs ++ rest)%list) /\
  (r = Val (Next tt) -> calls_of evs = classic_writes port position chunks).
Proof.
  induction chunks as [|chunk rest IH]; intros position d r d' evs.
  - cbn. intros [= <- <- <-]. repeat split; try discriminate. now exists [].
  - cbn [classic_write_chunks classic_writes]. run.
    destruct (brick_write_bricklet_plugin dev port position chunk d)
      as [[[]|x] d1].
    + destruct (classic_write_chunks dev rest port (position + 1) d1)
        as [[r2 d2] ev2] eqn:Hrest.
      apply IH in Hrest. destruct Hrest as (Hr & Hrt & (more & Hmore) & Hdone).
      intros [= <- <- <-]. unfold calls_of in *.
      rewrite ?flat_map_app. cbn [app flat_map].
      repeat split; try assumption.
      * exists more. now rewrite Hmore.
      * intros Hnext. now rewrite (Hdone Hnext).
    + destruct x as [e|t|t]; cbv beta iota;
        [destruct (error_to_name e) as [nm|x]| |];
        (intros [= <- <- <-]; unfold calls_of in *;
         rewrite ?flat_map_app; cbn [app flat_map];
         repeat split; try discriminate; eauto).
Qed.

(** The read-back pass reads the chunks in order, at the same positions,
    and stops at the first failure or mismatch. *)
Lemma classic_verify_chunks_trace port :
  forall chunks position d r d' evs,
  classic_verify_chunks dev chunks port position d = (r, d', evs) ->
  r <> Diverge /\
  r <> Val (Return true) /\
  (exists rest,
     classic_reads port position chunks = (calls_of evs ++ rest)%list) /\
  (r = Val (Next tt) -> calls_of evs = classic_reads port position chunks).
Proof.
  induction chunks as [|chunk rest IH]; intros position d r d' evs.
  - cbn. intros [= <- <- <-]. repeat split; try discriminate. now exists [].
  - cbn [classic_verify_chunks classic_reads]. run.
    destruct (brick_read_bricklet_plugin dev port position d)
      as [[read_chunk|x] d1].
    + destruct (Py.bytes_eqb read_chunk chunk); cbn [negb].
      * destruct (classic_verify_chunks dev rest port (position + 1) d1)
          as [[r2 d2] ev2] eqn:Hrest.
        apply IH in Hrest. destruct Hrest as (Hr & Hrt & (more & Hmore) & Hdone).
        intros [= <- <- <-]. unfold calls_of in *.
      rewrite ?flat_map_app. cbn [app flat_map].
        repeat split; try assumption.
        -- exists more. now rewrite Hmore.
        -- intros Hnext. now rewrite (Hdone Hnext).
      * intros [= <- <- <-]. unfold calls_of in *.
      rewrite ?flat_map_app. cbn [app flat_map].
        repeat split; try discriminate. eauto.
    + destruct x as [e|t|t]; cbv beta iota;
        [destruct (error_to_name e) as [nm|x]| |];
        (intros [= <- <- <-]; unfold calls_of in *;
         rewrite ?flat_map_app; cbn [app flat_map];
         repeat split; try discriminate; eauto).
Qed.

(** The read-back pass after a prefix of chunks that verify. *)
Lemma classic_verify_chunks_app port :
  forall verified rest position d d1 ev1,
  classic_verify_chunks dev verified port position d
    = (Val (Next tt), d1, ev1) ->
  classic_verify_chunks dev (verified ++ rest) port position d
  = (let '(r, d2, ev2) :=
       classic_verify_chunks dev rest port (position + Py.len verified) d1 in
     (r, d2, (ev1 ++ ev2)%list)).
Proof.
  induction verified as [|chunk verified IH]; intros rest position d d1 ev1.
  - cbn. intros [= <- <-]. rewrite Z.add_0_r.
    now destruct (classic_verify_chunks dev rest port position d)
      as [[r d2] ev2].
  - cbn [classic_verify_chunks app]. run.
    destruct (brick_read_bricklet_plugin dev port position d)
      as [[read_chunk|[e|t|t]] d0];
      try discriminate; [|destruct (error_to_name e); discriminate].
    destruct (Py.bytes_eqb read_chunk chunk); cbn [negb]; [|discriminate].
    destruct (classic_verify_chunks dev verified port (position + 1) d0)
      as [[r2 d2] ev2] eqn:Hverified.
    intros [= -> <- <-].
    rewrite (IH rest _ _ _ _ Hverified).
    replace (position + 1 + Py.len verified)
      with (position + Py.len (chunk :: verified))
      by (unfold Py.len; cbn [List.length]; lia).
    destruct (classic_verify_chunks dev rest port
                (position + Py.len (chunk :: verified)) d2) as [[r3 d3] ev3].
    cbn [app]. reflexivity.
Qed.

End Classic.

(** The classic method, once the size check has passed and the plugin has
    been split. *)
Lemma write_bricklet_plugin_classic_run {D : Type} (dev : Device D) fuel
  plugin port name plugin_chunks d :
  Py.len plugin <= 4084 ->
  split_chunks fuel plugin [] 0 = Some plugin_chunks ->
  write_bricklet_plugin_classic dev fuel plugin port name d
  = (let '(r, d1, ew) := classic_write_chunks dev plugin_chunks port 0 d in
     match r with
     | Val (Next _) =>
         let '(r2, d2, ev) :=
           classic_verify_chunks dev plugin_chunks port 0 d1 in
         (match r2 with
          | Val (Next _) => Val (Some true)
          | Val (Return b) => Val (Some b)
          | Raise e => Raise e
          | Diverge => Diverge
          end, d2,
          (classic_prologue name (Py.len plugin_chunks) ++ ew ++
           classic_interlude name (Py.len plugin_chunks) ++ ev)%list)
     | Val (Return b) =>
         (Val (Some b), d1,
          (classic_prologue name (Py.len plugin_chunks) ++ ew)%list)
     | Raise e =>
         (Raise e, d1, (classic_prologue name (Py.len plugin_chunks) ++ ew)%list)
     | Diverge =>
         (Diverge, d1, (classic_prologue name (Py.len plugin_chunks) ++ ew)%list)
     end).
Proof.
  intros Hsize Hsplit. unfold write_bricklet_plugin_classic.
  assert (Hgt : (Py.len plugin >? 4084) = false)
    by (rewrite Z.gtb_ltb; apply Z.ltb_ge; lia).
  rewrite Hgt, Hsplit. run.
  destruct (classic_write_chunks dev plugin_chunks port 0 d)
    as [[[[[]|b]|e|] d1] ew]; try (cbn [app]; rewrite ?app_nil_r; reflexivity).
  destruct (classic_verify_chunks dev plugin_chunks port 0 d1)
    as [[[[[]|b]|e|] d2] ev];
    cbn [app]; rewrite ?app_nil_r, <- ?app_assoc; reflexivity.
Qed.

(** C3. Classic flash: a plugin longer than 4084 bytes is refused at once;
    the method reports the size limit and returns (without a value), and
    neither a write nor any other request reaches the device. *)
Theorem classic_size_limit
  {D : Type} (dev : Device D) (fuel : nat) (plugin : Py.bytes)
  (port name : string) (d : D)
  (Hsize : 4084 < Py.len plugin) :
  write_bricklet_plugin_classic dev fuel plugin port name d
  = (Val None, d,
     [EvProgress cancel;
      EvPopupFail "Bricklet"
        "Could not write Bricklet plugin: Plugin is larger than 4084 bytes (the maximum plugin size for classic Bricklets)."]) /\
  calls_of (snd (write_bricklet_plugin_classic dev fuel plugin port name d)) = [].
Proof.
  unfold write_bricklet_plugin_classic.
  assert (Hgt : (Py.len plugin >? 4084) = true)
    by (rewrite Z.gtb_ltb; apply Z.ltb_lt; lia).
  rewrite Hgt. split; reflexivity.
Qed.

(** C4. Classic flash: a plugin of n <= 4084 bytes is split into
    ceil(n/32) chunks of 32 bytes which together are the plugin followed
    by zero bytes; the requests of the method are a prefix of the writes
    of all chunks at positions 0, 1, ... followed by the read-backs at the
    same positions, and a run that returns [True] has issued exactly those
    ceil(n/32) writes and ceil(n/32) read-backs; the method always ends. *)
Theorem classic_chunks_written_and_read_back
  {D : Type} (dev : Device D) (fuel : nat) (plugin : Py.bytes)
  (port name : string) (d : D)
  (Hsize : Py.len plugin <= 4084)
  (Hfuel : Py.len plugin <= 32 * (Z.of_nat fuel - 1)) :
  exists plugin_chunks,
    split_chunks fuel plugin [] 0 = Some plugin_chunks /\
    Py.len plugin_chunks = (Py.len plugin + 31) / 32 /\
    Forall (fun chunk => Py.len chunk = 32) plugin_chunks /\
    List.concat plugin_chunks
    = (plugin ++ Py.zeros (32 * Py.len plugin_chunks - Py.len plugin))%list /\
    Py.len (classic_writes port 0 plugin_chunks) = (Py.len plugin + 31) / 32 /\
    Py.len (classic_reads port 0 plugin_chunks) = (Py.len plugin + 31) / 32 /\
    fst (fst (write_bricklet_plugin_classic dev fuel plugin port name d))
      <> Diverge /\
    (exists rest,
       (classic_writes port 0 plugin_chunks ++
        classic_reads port 0 plugin_chunks)%list
       = (calls_of (snd (write_bricklet_plugin_classic dev fuel plugin port
                           name d)) ++ rest)%list) /\
    (fst (fst (write_bricklet_plugin_classic dev fuel plugin port name d))
       = Val (Some true) ->
     calls_of (snd (write_bricklet_plugin_classic dev fuel plugin port name d))
     = (classic_writes port 0 plugin_chunks ++
        classic_reads port 0 plugin_chunks)%list).
Proof.
  pose proof (len_nonneg plugin) as Hnonneg.
  destruct (split_chunks_spec plugin fuel [] 0)
    as (chunks & Hsplit & Hcount & Hchunks & Hdata);
    unfold plugin_chunk_size; try lia.
  cbn [app] in Hsplit. rewrite Z.sub_0_r in Hcount, Hdata.
  replace (Z.max 0 (Py.len plugin)) with (Py.len plugin) in Hcount by lia.
  specialize (Hdata Hnonneg). cbn [Z.to_nat skipn] in Hdata.
  exists chunks.
  rewrite classic_writes_length, classic_reads_length.
  rewrite (write_bricklet_plugin_classic_run dev fuel plugin port name chunks d
             Hsize Hsplit).
  repeat (split; [assumption|]).
  destruct (classic_write_chunks dev chunks port 0 d) as [[r d1] ew] eqn:Hw.
  destruct (classic_write_chunks_trace dev port _ _ _ _ _ _ Hw)
    as (Hr & Hrt & (rest_w & Hprefix_w) & Hdone_w).
  destruct r as [[[]|b]|e|]; [| | |congruence].
  - destruct (classic_verify_chunks dev chunks port 0 d1) as [[r2 d2] ev] eqn:Hv.
    destruct (classic_verify_chunks_trace dev port _ _ _ _ _ _ Hv)
      as (Hr2 & Hrt2 & (rest_v & Hprefix_v) & Hdone_v).
    cbn [fst snd].
    rewrite !calls_of_app, calls_of_prologue, calls_of_interlude.
    cbn [app]. rewrite (Hdone_w eq_refl).
    split; [destruct r2 as [[[]|b]|e|]; congruence|].
    split.
    + exists rest_v. rewrite Hprefix_v, <- app_assoc. reflexivity.
    + intros Htrue. destruct r2 as [[[]|[]]|e|]; try discriminate;
        try congruence.
      now rewrite (Hdone_v eq_refl).
  - cbn [fst snd]. rewrite calls_of_app, calls_of_prologue. cbn [app].
    split; [discriminate|]. split.
    + exists (rest_w ++ classic_reads port 0 chunks)%list.
      rewrite Hprefix_w, <- app_assoc. reflexivity.
    + intros Htrue. destruct b; [congruence|discriminate].
  - cbn [fst snd]. rewrite calls_of_app, calls_of_prologue. cbn [app].
    split; [discriminate|]. split.
    + exists (rest_w ++ classic_reads port 0 chunks)%list.
      rewrite Hprefix_w, <- app_assoc. reflexivity.
    + discriminate.
Qed.

(** ** Classic Bricklets: the verification error *)

Lemma failures_of_app evs1 evs2 :
  failures_of (evs1 ++ evs2) = (failures_of evs1 ++ failures_of evs2)%list.
Proof. unfold failures_of. apply flat_map_app. Qed.

Lemma bytes_eqb_neq a b : a <> b -> Py.bytes_eqb a b = false.
Proof.
  intros H. unfold Py.bytes_eqb.
  now destruct (list_eq_dec byte_eq_dec a b).
Qed.

Section ClassicReports.

Context {D : Type}.
Variable dev : Device D.

(** A pass that gets to its end has reported no failure. *)
Lemma classic_write_chunks_quiet port :
  forall chunks position d d' evs,
  classic_write_chunks dev chunks port position d = (Val (Next tt), d', evs) ->
  failures_of evs = [].
Proof.
  induction chunks as [|chunk rest IH]; intros position d d' evs.
  - cbn. now intros [= <- <-].
  - cbn [classic_write_chunks]. run.
    destruct (brick_write_bricklet_plugin dev port position chunk d)
      as [[[]|[e|t|t]] d1]; try discriminate;
      [|destruct (error_to_name e); discriminate].
    destruct (classic_write_chunks dev rest port (position + 1) d1)
      as [[r2 d2] ev2] eqn:Hrest.
    intros [= -> <- <-]. apply IH in Hrest.
    unfold failures_of in *. rewrite ?flat_map_app. cbn [app flat_map].
    rewrite ?flat_map_app, ?Hrest. cbn [app flat_map]. rewrite ?Hrest.
    reflexivity.
Qed.

Lemma classic_verify_chunks_quiet port :
  forall chunks position d d' evs,
  classic_verify_chunks dev chunks port position d = (Val (Next tt), d', evs) ->
  failures_of evs = [].
Proof.
  induction chunks as [|chunk rest IH]; intros position d d' evs.
  - cbn. now intros [= <- <-].
  - cbn [classic_verify_chunks]. run.
    destruct (brick_read_bricklet_plugin dev port position d)
      as [[read_chunk|[e|t|t]] d1]; try discriminate;
      [|destruct (error_to_name e); discriminate].
    destruct (Py.bytes_eqb read_chunk chunk); cbn [negb]; [|discriminate].
    destruct (classic_verify_chunks dev rest port (position + 1) d1)
      as [[r2 d2] ev2] eqn:Hrest.
    intros [= -> <- <-]. apply IH in Hrest.
    unfold failures_of in *. rewrite ?flat_map_app. cbn [app flat_map].
    rewrite ?flat_map_app, ?Hrest. cbn [app flat_map]. rewrite ?Hrest.
    reflexivity.
Qed.

End ClassicReports.

(** The decimal rendering of an integer starts with a digit or a minus
    sign. *)
Lemma str_head z :
  exists c rest,
    Py.str z = String c rest /\
    In c (list_ascii_of_string "-0123456789").
Proof.
  unfold Py.str, NilZero.string_of_int.
  destruct (Z.to_int z) as [u|u].
  - unfold NilZero.string_of_uint.
    destruct u; cbn [NilEmpty.string_of_uint]; eexists _, _;
      (split; [reflexivity|cbn; tauto]).
  - eexists _, _. split; [reflexivity|cbn; tauto].
Qed.

Lemma prefix_head c rest s :
  String.prefix (String c rest) s = true ->
  exists s', s = String c s'.
Proof.
  destruct s as [|a s']; cbn; [discriminate|].
  destruct (ascii_dec c a) as [->|Hne]; [eauto|discriminate].
Qed.

Lemma contains_head s c rest :
  contains s (String c rest) = true -> In c (list_ascii_of_string s).
Proof.
  induction s as [|a s' IH]; cbn [contains].
  - rewrite orb_false_r. intros H. apply prefix_head in H.
    destruct H as (s'' & Hs). discriminate.
  - intros H. apply orb_prop in H. destruct H as [H|H].
    + apply prefix_head in H. destruct H as (s'' & [= -> _]). now left.
    + right. now apply IH.
Qed.

(** The text of the verification error names no chunk index. *)
Lemma verification_error_names_no_index i :
  mentions_index "Could not flash Bricklet plugin: Verification error" i
  = false.
Proof.
  unfold mentions_index.
  destruct (contains "Could not flash Bricklet plugin: Verification error"
              (Py.str i)) eqn:Hcontains; [|reflexivity].
  destruct (str_head i) as (c & rest & Hstr & Hc).
  rewrite Hstr in Hcontains. apply contains_head in Hcontains.
  cbn in Hc.
  repeat (destruct Hc as [<-|Hc];
          [cbn in Hcontains; intuition discriminate|]).
  contradiction.
Qed.

(** C8 (as the code has it). Classic flash: when all chunks have been
    written, the chunks before index i have been read back equal, and the
    read-back at position i returns other bytes than chunk i, the method
    reads no further chunk and returns [False] after one message, the fixed
    text "Could not flash Bricklet plugin: Verification error", which
    names no index; the index i only shows as the position of the last
    read-back request. *)
Theorem verification_error_is_a_fixed_message
  {D : Type} (dev : Device D) (fuel : nat) (plugin : Py.bytes)
  (port name : string) (d : D)
  (verified : list Py.bytes) (chunk : Py.bytes) (rest : list Py.bytes)
  (d1 : D) (ew : list event) (d2 : D) (ev : list event)
  (read_chunk : Py.bytes) (d3 : D)
  (Hsize : Py.len plugin <= 4084)
  (Hsplit : split_chunks fuel plugin [] 0 = Some (verified ++ chunk :: rest)%list)
  (Hwrite : classic_write_chunks dev (verified ++ chunk :: rest) port 0 d
            = (Val (Next tt), d1, ew))
  (Hverified : classic_verify_chunks dev verified port 0 d1
               = (Val (Next tt), d2, ev))
  (Hread : brick_read_bricklet_plugin dev port (Py.len verified) d2
           = (Returns read_chunk, d3))
  (Hmismatch : read_chunk <> chunk) :
  write_bricklet_plugin_classic dev fuel plugin port name d
  = (Val (Some false), d3,
     (classic_prologue name (Py.len (verified ++ chunk :: rest)) ++ ew ++
      classic_interlude name (Py.len (verified ++ chunk :: rest)) ++ ev ++
      EvCall (CReadBrickletPlugin port (Py.len verified)) ::
      verification_error_report)%list) /\
  failures_of (snd (write_bricklet_plugin_classic dev fuel plugin port name d))
  = [("Bricklet"%string,
      "Could not flash Bricklet plugin: Verification error"%string)] /\
  forall i,
    existsb (fun failure => mentions_index (snd failure) i)
      (failures_of
         (snd (write_bricklet_plugin_classic dev fuel plugin port name d)))
    = false.
Proof.
  assert (Hrun : write_bricklet_plugin_classic dev fuel plugin port name d
    = (Val (Some false), d3,
       (classic_prologue name (Py.len (verified ++ chunk :: rest)) ++ ew ++
        classic_interlude name (Py.len (verified ++ chunk :: rest)) ++ ev ++
        EvCall (CReadBrickletPlugin port (Py.len verified)) ::
        verification_error_report)%list)).
  { rewrite (write_bricklet_plugin_classic_run dev fuel plugin port name _ d
               Hsize Hsplit).
    rewrite Hwrite.
    rewrite (classic_verify_chunks_app dev port _ _ _ _ _ _ Hverified).
    cbn [classic_verify_chunks]. run. rewrite Z.add_0_l, Hread.
    rewrite (bytes_eqb_neq _ _ Hmismatch). cbn [negb app].
    reflexivity. }
  assert (Hfailures :
    failures_of
      (snd (write_bricklet_plugin_classic dev fuel plugin port name d))
    = [("Bricklet"%string,
        "Could not flash Bricklet plugin: Verification error"%string)]).
  { rewrite Hrun. cbn [snd].
    rewrite !failures_of_app.
    rewrite (classic_write_chunks_quiet dev port _ _ _ _ _ Hwrite).
    rewrite (classic_verify_chunks_quiet dev port _ _ _ _ _ Hverified).
    reflexivity. }
  split; [exact Hrun|]. split; [exact Hfailures|].
  intros i. rewrite Hfailures. cbn [existsb snd].
  now rewrite verification_error_names_no_index.
Qed.

(** ** UID *)

Lemma first_not_in_BASE58_none BASE58 chars :
  first_not_in_BASE58 BASE58 chars = None <->
  forall c, In c chars -> Py.char_in c BASE58 = true.
Proof.
  induction chars as [|c rest IH]; cbn [first_not_in_BASE58].
  - split; [intros _ c []|reflexivity].
  - destruct (Py.char_in c BASE58) eqn:Hc; cbn [negb].
    + rewrite IH. split.
      * intros H x [<-|Hx]; auto.
      * intros H x Hx. apply H. now right.
    + split; [discriminate|]. intros H.
      specialize (H c (or_introl eq_refl)). congruence.
Qed.

Lemma uid_empty uid :
  (Py.len (list_ascii_of_string uid) =? 0) = true <-> uid = ""%string.
Proof.
  destruct uid as [|c rest]; cbn.
  - split; reflexivity.
  - split; discriminate.
Qed.

Lemma read_current_uid_events {D : Type} (dev : Device D) base58encode port
  own1 own2 d r d' evs :
  read_current_uid dev base58encode port own1 own2 d = (r, d', evs) ->
  forall t m, ~ In (EvPopupOk t m) evs.
Proof.
  unfold read_current_uid. run.
  destruct (own1 || own2).
  - destruct (read_uid dev d) as [[u|e] d1]; intros [= <- <- <-] t m;
      cbn; intuition discriminate.
  - destruct (ipcon_read_bricklet_uid dev port d) as [[u|e] d1];
      intros [= <- <- <-] t m; cbn; intuition discriminate.
Qed.


(** ** The bound on polling *)

(** C7 (as the code has it). Co-MCU flash: a request for a bootloader mode
    is repeated while it raises, and the poll for the mode is repeated
    while the device does not report it, at most 11 times each, with a
    sleep of 250 ms between two consecutive attempts (so at most 10 sleeps,
    2.5 s); both loops end, and when the eleventh attempt fails as well the
    helper returns [None], respectively [False], and the operation returns
    [False] with the message about the bootloader mode. *)
Theorem polling_bounded
  {D : Type} (dev : Device D) (fuel : nat) (mode : Z) (d : D)
  (Hfuel : (11 <= fuel)%nat) :
  (exists r d' k,
     set_comcu_bootloader_mode dev fuel mode d
       = (Val r, d', attempts_trace (CSetBootloaderMode mode) k) /\
     (1 <= k <= 11)%nat /\
     (r = None -> k = 11%nat)) /\
  (exists b d' k,
     wait_for_comcu_bootloader_mode dev fuel mode d
       = (Val b, d', attempts_trace CGetBootloaderMode k) /\
     (1 <= k <= 11)%nat /\
     (b = false -> k = 11%nat)) /\
  (forall c k,
     calls_of (attempts_trace c k) = repeat c k /\
     sleeps_of (attempts_trace c k) = repeat 250 (pred k)) /\
  (forall plugin name,
     find_regular_plugin_upto plugin <> -1 ->
     Py.len plugin mod XMC1_PAGE_SIZE = 0 ->
     (forall d1 e1,
        set_comcu_bootloader_mode dev fuel BOOTLOADER_MODE_BOOTLOADER d
          = (Val None, d1, e1) ->
        comcu_flash dev fuel plugin name d
        = (Val false, d1,
           (e1 ++ [EvProgress cancel;
                   EvPopupFail "Bricklet"
                     "Device did not enter bootloader mode in 2.5 seconds"])%list)) /\
     (forall status d1 e1 d2 e2,
        set_comcu_bootloader_mode dev fuel BOOTLOADER_MODE_BOOTLOADER d
          = (Val (Some status), d1, e1) ->
        wait_for_comcu_bootloader_mode dev fuel BOOTLOADER_MODE_BOOTLOADER d1
          = (Val false, d2, e2) ->
        comcu_flash dev fuel plugin name d
        = (Val false, d2,
           (e1 ++ e2 ++
            [EvProgress cancel;
             EvPopupFail "Bricklet"
               "Device did not enter bootloader mode in 2.5 seconds"])%list))).
Proof.
  split; [|split; [|split]].
  - destruct (set_loop_trace dev fuel mode 0 d)
      as (r & d' & k & Hrun & Hk & Hr); [lia|lia|].
    exists r, d', (S k). split; [exact Hrun|]. split; [lia|].
    intros Hnone. specialize (Hr Hnone). lia.
  - destruct (wait_loop_trace dev fuel mode 0 d)
      as (b & d' & k & Hrun & Hk & Hb); [lia|lia|].
    exists b, d', (S k). split; [exact Hrun|]. split; [lia|].
    intros Hfalse. specialize (Hb Hfalse). lia.
  - intros c k. split.
    + apply attempts_trace_calls.
    + apply attempts_trace_sleeps.
  - intros plugin name Hmagic Hlen. split.
    + intros d1 e1 Hset.
      exact (comcu_flash_no_answer dev fuel plugin name d d1 e1 Hmagic Hlen Hset).
    + intros status d1 e1 d2 e2 Hset Hwait.
      exact (comcu_flash_never_confirms dev fuel plugin name d status d1 e1
               d2 e2 Hmagic Hlen Hset Hwait).
Qed.

(** * The engine on the simulated device *)

Lemma triple_eta {A B C : Type} (x : A * B * C) :
  x = (fst (fst x), snd (fst x), snd x).
Proof. now destruct x as [[a b] c]. Qed.


(** C7: an unreachable device is asked eleven times, not ten. *)
Lemma polling_makes_eleven_attempts :
  List.length
    (calls_of
       (snd (wait_for_comcu_bootloader_mode Sim.device 20
               BOOTLOADER_MODE_BOOTLOADER Sim.offline))) = 11%nat /\
  List.length
    (calls_of
       (snd (set_comcu_bootloader_mode Sim.device 20
               BOOTLOADER_MODE_BOOTLOADER Sim.offline))) = 11%nat /\
  ~ (List.length
       (calls_of
          (snd (wait_for_comcu_bootloader_mode Sim.device 20
                  BOOTLOADER_MODE_BOOTLOADER Sim.offline))) <= 10)%nat /\
  ~ (List.length
       (calls_of
          (snd (set_comcu_bootloader_mode Sim.device 20
                  BOOTLOADER_MODE_BOOTLOADER Sim.offline))) <= 10)%nat.
Proof.
  assert (Hwait : List.length
    (calls_of
       (snd (wait_for_comcu_bootloader_mode Sim.device 20
               BOOTLOADER_MODE_BOOTLOADER Sim.offline))) = 11%nat)
    by (vm_compute; reflexivity).
  assert (Hset : List.length
    (calls_of
       (snd (set_comcu_bootloader_mode Sim.device 20
               BOOTLOADER_MODE_BOOTLOADER Sim.offline))) = 11%nat)
    by (vm_compute; reflexivity).
  rewrite Hwait, Hset. repeat split; lia.
Qed.

Lemma polling_bounded_witness :
  (11 <= 20)%nat /\
  exists b d' k,
    wait_for_comcu_bootloader_mode Sim.device 20 BOOTLOADER_MODE_BOOTLOADER
      Sim.offline
    = (Val b, d', attempts_trace CGetBootloaderMode k) /\
    (1 <= k <= 11)%nat /\ (b = false -> k = 11%nat).
Proof.
  split; [lia|].
  apply (polling_bounded Sim.device 20 BOOTLOADER_MODE_BOOTLOADER Sim.offline).
  lia.
Defined.

(** C8: a mismatch at chunk 2 is reported without the index. *)
Lemma verification_error_omits_chunk_index :
  fst (fst (write_bricklet_plugin_classic Sim.device 200
              (Sim.plugin_of_size 100) "a" "Test" (Sim.corrupting 2)))
  = Val (Some false) /\
  last (calls_of
          (snd (write_bricklet_plugin_classic Sim.device 200
                  (Sim.plugin_of_size 100) "a" "Test" (Sim.corrupting 2))))
       CReset
  = CReadBrickletPlugin "a" 2 /\
  failures_of
    (snd (write_bricklet_plugin_classic Sim.device 200
            (Sim.plugin_of_size 100) "a" "Test" (Sim.corrupting 2)))
  = [("Bricklet"%string,
      "Could not flash Bricklet plugin: Verification error"%string)] /\
  existsb (fun failure => mentions_index (snd failure) 2)
    (failures_of
       (snd (write_bricklet_plugin_classic Sim.device 200
               (Sim.plugin_of_size 100) "a" "Test" (Sim.corrupting 2))))
  = false /\
  failures_of
    (snd (write_bricklet_plugin_classic Sim.device 200
            (Sim.plugin_of_size 100) "a" "Test" (Sim.corrupting 2)))
  = failures_of
      (snd (write_bricklet_plugin_classic Sim.device 200
              (Sim.plugin_of_size 100) "a" "Test" (Sim.corrupting 0))).
Proof. vm_compute. repeat split. Qed.

Lemma crc_mismatch_retried_once_witness :
  fst (fst (comcu_flash Sim.device 30 (Sim.image 1) "Test"
              (Sim.answering [5; 5]))) = Val false /\
  fst (fst (comcu_flash Sim.device 30 (Sim.image 1) "Test"
              (Sim.answering [2]))) = Val true /\
  page_written
    (snd (comcu_write_attempt Sim.device 30 (Sim.image 1)
            (Py.len (Sim.image 1)) "Test" 1
            (snd (fst (set_comcu_bootloader_mode Sim.device 30
                         BOOTLOADER_MODE_FIRMWARE
                         (snd (fst (comcu_write_attempt Sim.device 30
                                      (Sim.image 1) (Py.len (Sim.image 1))
                                      "Test" 0 (Sim.answering [5; 5])))))))))
    (Sim.image 1) (XMC1_PAGE_SIZE * 0).
Proof.
  split; [|split].
  - pose (first := comcu_write_attempt Sim.device 30 (Sim.image 1)
                     (Py.len (Sim.image 1)) "Test" 0 (Sim.answering [5; 5])).
    pose (leave := set_comcu_bootloader_mode Sim.device 30
                     BOOTLOADER_MODE_FIRMWARE (snd (fst first))).
    pose (second := comcu_write_attempt Sim.device 30 (Sim.image 1)
                      (Py.len (Sim.image 1)) "Test" 1 (snd (fst leave))).
    pose (leave2 := set_comcu_bootloader_mode Sim.device 30
                      BOOTLOADER_MODE_FIRMWARE (snd (fst second))).
    assert (Hfuel : (11 <= 30)%nat) by lia.
    assert (Hmagic : find_regular_plugin_upto (Sim.image 1) <> -1)
      by (vm_compute; discriminate).
    assert (Hlen : Py.len (Sim.image 1) mod XMC1_PAGE_SIZE = 0)
      by (vm_compute; reflexivity).
    assert (Hfirst : first = (Val (Next tt), snd (fst first), snd first))
      by (vm_compute; reflexivity).
    assert (Hleave : leave = (Val (Some 5), snd (fst leave), snd leave))
      by (vm_compute; reflexivity).
    assert (Hsecond : second = (Val (Next tt), snd (fst second), snd second))
      by (vm_compute; reflexivity).
    assert (Hleave2 : leave2 = (Val (Some 5), snd (fst leave2), snd leave2))
      by (vm_compute; reflexivity).
    destruct (crc_mismatch_retried_once Sim.device 30 (Sim.image 1) "Test"
                (Sim.answering [5; 5]) _ _ Hfuel Hmagic Hlen Hfirst)
      as (_ & Hboth & _).
    rewrite (Hboth _ _ _ _ _ _ Hleave Hsecond Hleave2). reflexivity.
  - pose (first := comcu_write_attempt Sim.device 30 (Sim.image 1)
                     (Py.len (Sim.image 1)) "Test" 0 (Sim.answering [2])).
    pose (leave := set_comcu_bootloader_mode Sim.device 30
                     BOOTLOADER_MODE_FIRMWARE (snd (fst first))).
    pose (confirm := wait_for_comcu_bootloader_mode Sim.device 30
                       BOOTLOADER_MODE_FIRMWARE (snd (fst leave))).
    assert (Hfuel : (11 <= 30)%nat) by lia.
    assert (Hmagic : find_regular_plugin_upto (Sim.image 1) <> -1)
      by (vm_compute; discriminate).
    assert (Hlen : Py.len (Sim.image 1) mod XMC1_PAGE_SIZE = 0)
      by (vm_compute; reflexivity).
    assert (Hfirst : first = (Val (Next tt), snd (fst first), snd first))
      by (vm_compute; reflexivity).
    assert (Hleave : leave = (Val (Some 2), snd (fst leave), snd leave))
      by (vm_compute; reflexivity).
    assert (Hconfirm : confirm = (Val true, snd (fst confirm), snd confirm))
      by (vm_compute; reflexivity).
    destruct (crc_mismatch_retried_once Sim.device 30 (Sim.image 1) "Test"
                (Sim.answering [2]) _ _ Hfuel Hmagic Hlen Hfirst)
      as (_ & _ & Hok).
    destruct (Hok 2 _ _ Hleave (or_intror eq_refl)) as (_ & Hflash & _).
    destruct (Hflash _ _ Hconfirm) as [Hrun _].
    rewrite Hrun. reflexivity.
  - pose (first := comcu_write_attempt Sim.device 30 (Sim.image 1)
                     (Py.len (Sim.image 1)) "Test" 0 (Sim.answering [5; 5])).
    pose (leave := set_comcu_bootloader_mode Sim.device 30
                     BOOTLOADER_MODE_FIRMWARE (snd (fst first))).
    pose (second := comcu_write_attempt Sim.device 30 (Sim.image 1)
                      (Py.len (Sim.image 1)) "Test" 1 (snd (fst leave))).
    assert (Hfuel : (11 <= 30)%nat) by lia.
    assert (Hmagic : find_regular_plugin_upto (Sim.image 1) <> -1)
      by (vm_compute; discriminate).
    assert (Hlen : Py.len (Sim.image 1) mod XMC1_PAGE_SIZE = 0)
      by (vm_compute; reflexivity).
    assert (Hfirst : first = (Val (Next tt), snd (fst first), snd first))
      by (vm_compute; reflexivity).
    assert (Hleave : leave = (Val (Some 5), snd (fst leave), snd leave))
      by (vm_compute; reflexivity).
    assert (Hsecond : second = (Val (Next tt), snd (fst second), snd second))
      by (vm_compute; reflexivity).
    destruct (crc_mismatch_retried_once Sim.device 30 (Sim.image 1) "Test"
                (Sim.answering [5; 5]) _ _ Hfuel Hmagic Hlen Hfirst)
      as (Hretry & _ & _).
    destruct (Hretry _ _ Hleave) as (_ & _ & _ & Hfull).
    apply (Hfull _ _ 0 Hsecond); [lia|vm_compute; reflexivity].
Defined.

Lemma zero_pages_skipped_final_page_written_witness :
  (List.length
     (pages_touched
        (snd (comcu_write_attempt Sim.device 30 (Sim.image 20)
                (Py.len (Sim.image 20)) "Test" 0 Sim.healthy))) < 20)%nat /\
  page_written
    (snd (comcu_write_attempt Sim.device 30 (Sim.image 20)
            (Py.len (Sim.image 20)) "Test" 0 Sim.healthy))
    (Sim.image 20) (Py.len (Sim.image 20) - XMC1_PAGE_SIZE).
Proof.
  assert (Hfuel : (22 <= 30)%nat) by lia.
  destruct (zero_pages_skipped_final_page_written Sim.device 30 "Test"
              Sim.healthy Hfuel) as (Hskipped & Hlast & _).
  split.
  - assert (Hlen : List.length (magic ++ repeat xff 252) = 256%nat)
      by reflexivity.
    exact (proj1 (proj2 (proj2
             (Hskipped (magic ++ repeat xff 252)%list _ _ _ Hlen
                (triple_eta _))))).
  - apply (Hlast (Sim.image 20) 0 21%nat
             (snd (fst (comcu_write_attempt Sim.device 30 (Sim.image 20)
                          (Py.len (Sim.image 20)) "Test" 0 Sim.healthy)))).
    + vm_compute. reflexivity.
    + lia.
    + vm_compute. reflexivity.
Defined.

Lemma classic_size_limit_witness :
  4084 < Py.len (Sim.plugin_of_size 4085) /\
  calls_of
    (snd (write_bricklet_plugin_classic Sim.device 200
            (Sim.plugin_of_size 4085) "a" "Test" Sim.healthy)) = [].
Proof.
  assert (Hsize : 4084 < Py.len (Sim.plugin_of_size 4085))
    by (vm_compute; reflexivity).
  split; [exact Hsize|].
  exact (proj2 (classic_size_limit Sim.device 200 (Sim.plugin_of_size 4085)
                  "a" "Test" Sim.healthy Hsize)).
Defined.

Lemma classic_chunks_written_and_read_back_witness :
  Py.len (Sim.plugin_of_size 100) <= 4084 /\
  Py.len (Sim.plugin_of_size 100) <= 32 * (Z.of_nat 200 - 1) /\
  exists plugin_chunks,
    split_chunks 200 (Sim.plugin_of_size 100) [] 0 = Some plugin_chunks /\
    Py.len plugin_chunks = 4 /\
    calls_of
      (snd (write_bricklet_plugin_classic Sim.device 200
              (Sim.plugin_of_size 100) "a" "Test" Sim.healthy))
    = (classic_writes "a" 0 plugin_chunks ++
       classic_reads "a" 0 plugin_chunks)%list.
Proof.
  assert (Hsize : Py.len (Sim.plugin_of_size 100) <= 4084)
    by (vm_compute; discriminate).
  assert (Hfuel : Py.len (Sim.plugin_of_size 100) <= 32 * (Z.of_nat 200 - 1))
    by (vm_compute; discriminate).
  split; [exact Hsize|]. split; [exact Hfuel|].
  destruct (classic_chunks_written_and_read_back Sim.device 200
              (Sim.plugin_of_size 100) "a" "Test" Sim.healthy Hsize Hfuel)
    as (chunks & Hsplit & Hcount & _ & _ & _ & _ & _ & _ & Hcalls).
  exists chunks. split; [exact Hsplit|]. split; [exact Hcount|].
  apply Hcalls. vm_compute. reflexivity.
Defined.

Lemma tng_copy_status_decides_witness :
  fst (fst (tng_flash Sim.device (repeat x01 100) "Test" (Sim.copying 0)))
  = Val true /\
  failures_of
    (snd (tng_flash Sim.device (repeat x01 100) "Test" (Sim.copying 4)))
  = [("Bricklet"%string,
      "Could not flash firmware: CRC mismatch (Error 4)"%string)].
Proof.
  split.
  - pose (written := tng_write_firmware Sim.device (repeat x01 100) "Test"
                       (Sim.copying 0)).
    assert (Hwritten : written
                       = (Val (Next tt), snd (fst written), snd written))
      by (vm_compute; reflexivity).
    destruct (tng_copy_status_decides Sim.device (repeat x01 100) "Test"
                (Sim.copying 0)) as (_ & Hstatus & _).
    destruct (Hstatus _ _ 0 (Sim.copying 0) Hwritten eq_refl) as [Hzero _].
    rewrite (Hzero eq_refl (Sim.copying 0) eq_refl). reflexivity.
  - pose (written := tng_write_firmware Sim.device (repeat x01 100) "Test"
                       (Sim.copying 4)).
    assert (Hwritten : written
                       = (Val (Next tt), snd (fst written), snd written))
      by (vm_compute; reflexivity).
    destruct (tng_copy_status_decides Sim.device (repeat x01 100) "Test"
                (Sim.copying 4)) as (_ & Hstatus & _).
    destruct (Hstatus _ _ 4 (Sim.copying 4) Hwritten eq_refl) as [_ Hother].
    rewrite Hother by discriminate. vm_compute. reflexivity.
Defined.


Lemma verification_error_is_a_fixed_message_witness :
  failures_of
    (snd (write_bricklet_plugin_classic Sim.device 200
            (Sim.plugin_of_size 100) "a" "Test" (Sim.corrupting 2)))
  = [("Bricklet"%string,
      "Could not flash Bricklet plugin: Verification error"%string)].
Proof.
  pose (full := repeat x2a 32).
  pose (tail := (repeat x2a 4 ++ repeat x00 28)%list).
  pose (written := classic_write_chunks Sim.device
                     ([full; full] ++ full :: [tail]) "a" 0 (Sim.corrupting 2)).
  pose (verified := classic_verify_chunks Sim.device [full; full] "a" 0
                      (snd (fst written))).
  assert (Hsize : Py.len (Sim.plugin_of_size 100) <= 4084)
    by (vm_compute; discriminate).
  assert (Hsplit : split_chunks 200 (Sim.plugin_of_size 100) [] 0
                   = Some ([full; full] ++ full :: [tail])%list)
    by (vm_compute; reflexivity).
  assert (Hwritten : written = (Val (Next tt), snd (fst written), snd written))
    by (vm_compute; reflexivity).
  assert (Hverified : verified
                      = (Val (Next tt), snd (fst verified), snd verified))
    by (vm_compute; reflexivity).
  assert (Hread : brick_read_bricklet_plugin Sim.device "a"
                    (Py.len [full; full]) (snd (fst verified))
                  = (Returns (repeat xff 32), snd (fst verified)))
    by (vm_compute; reflexivity).
  assert (Hmismatch : repeat xff 32 <> full) by (vm_compute; discriminate).
  exact (proj1 (proj2 (verification_error_is_a_fixed_message Sim.device 200
                  (Sim.plugin_of_size 100) "a" "Test" (Sim.corrupting 2)
                  [full; full] full [tail] _ _ _ _ _ _
                  Hsize Hsplit Hwritten Hverified Hread Hmismatch))).
Defined.

Lemma first_page_written_second_attempt_complete_witness :
  page_written
    (snd (comcu_write_attempt Sim.device 30 (Sim.image 2)
            (Py.len (Sim.image 2)) "Test" 0 Sim.healthy))
    (Sim.image 2) 0 /\
  page_written
    (snd (comcu_write_attempt Sim.device 30 (Sim.image 2)
            (Py.len (Sim.image 2)) "Test" 1 Sim.healthy))
    (Sim.image 2) (XMC1_PAGE_SIZE * Z.of_nat 1).
Proof.
  assert (Hfuel : (11 <= 30)%nat) by lia.
  destruct (first_page_written_second_attempt_complete Sim.device 30 "Test"
              Sim.healthy Hfuel) as (_ & _ & Hfirst & Hsecond).
  split.
  - apply (Hfirst (Sim.image 2) 0
             (snd (fst (comcu_write_attempt Sim.device 30 (Sim.image 2)
                          (Py.len (Sim.image 2)) "Test" 0 Sim.healthy)))).
    + vm_compute. reflexivity.
    + vm_compute. reflexivity.
  - apply (Hsecond (Sim.image 2) 1 3%nat
             (snd (fst (comcu_write_attempt Sim.device 30 (Sim.image 2)
                          (Py.len (Sim.image 2)) "Test" 1 Sim.healthy)))).
    + discriminate.
    + vm_compute. reflexivity.
    + lia.
    + vm_compute. reflexivity.
    + lia.
Defined.


(** * Further properties *)

(** ** Co-MCU: the block loop *)

Lemma range_0_3 : Py.range 0 3 = [0; 1; 2].
Proof. reflexivity. Qed.

Lemma pointers_of_pointer p evs :
  pointers_of (EvCall (CSetWriteFirmwarePointer p) :: evs) = p :: pointers_of evs.
Proof. reflexivity. Qed.

Lemma pointers_of_write data evs :
  pointers_of (EvCall (CWriteFirmware data) :: evs) = pointers_of evs.
Proof. reflexivity. Qed.

Lemma firmware_writes_of_pointer p evs :
  firmware_writes_of (EvCall (CSetWriteFirmwarePointer p) :: evs)
  = firmware_writes_of evs.
Proof. reflexivity. Qed.

Lemma firmware_writes_of_write data evs :
  firmware_writes_of (EvCall (CWriteFirmware data) :: evs)
  = data :: firmware_writes_of evs.
Proof. reflexivity. Qed.

(** One try of the block loop either gets through both requests or
    raises at one of them; it starts with the pointer request. *)
Lemma block_try_shape {D : Type} (dev : Device D) (plugin : Py.bytes)
  (block_start : Z) (d : D) :
  let data := Py.slice plugin block_start (block_start + 64) in
  (exists d1 d2 status,
     set_write_firmware_pointer dev block_start d = (Returns tt, d1) /\
     write_firmware dev data d1 = (Returns status, d2) /\
     block_try dev plugin block_start d
     = (Val tt, d2,
        [EvCall (CSetWriteFirmwarePointer block_start);
         EvCall (CWriteFirmware data)])) \/
  (exists d1 d2 x,
     set_write_firmware_pointer dev block_start d = (Returns tt, d1) /\
     write_firmware dev data d1 = (Raises x, d2) /\
     block_try dev plugin block_start d
     = (Raise x, d2,
        [EvCall (CSetWriteFirmwarePointer block_start);
         EvCall (CWriteFirmware data)])) \/
  (exists d1 x,
     set_write_firmware_pointer dev block_start d = (Raises x, d1) /\
     block_try dev plugin block_start d
     = (Raise x, d1, [EvCall (CSetWriteFirmwarePointer block_start)])).
Proof.
  cbv zeta. unfold block_try. run.
  destruct (set_write_firmware_pointer dev block_start d) as [[[]|x] d1]
    eqn:P1.
  - destruct (write_firmware dev
                (Py.slice plugin block_start (block_start + 64)) d1)
      as [[status|x] d2] eqn:W1.
    + left. exists d1, d2, status. rewrite W1. repeat split; reflexivity.
    + right. left. exists d1, d2, x. rewrite W1. repeat split; reflexivity.
  - right. right. exists d1, x. repeat split; reflexivity.
Qed.

(** One turn of the block loop, from the run of its try. *)
Lemma write_block_cons {D : Type} (dev : Device D) (plugin : Py.bytes)
  (block_start : Z) a rest last_exception (d : D) :
  write_block dev (a :: rest) plugin block_start (block_start + 64)
              last_exception d
  = (let '(r, d1, e1) := block_try dev plugin block_start d in
     match r with
     | Val _ => (Val None, d1, e1)
     | Raise x =>
         if is_Exception x
         then
           let '(r2, d2, e2) :=
             write_block dev rest plugin block_start (block_start + 64)
                         (Some x) d1 in
           (r2, d2, (e1 ++ e2)%list)
         else (Raise x, d1, e1)
     | Diverge => (Diverge, d1, e1)
     end).
Proof.
  cbn [write_block]. unfold block_try. run.
  destruct (set_write_firmware_pointer dev block_start d) as [[[]|x] d1].
  - destruct (write_firmware dev
                (Py.slice plugin block_start (block_start + 64)) d1)
      as [[status|x] d2].
    + reflexivity.
    + destruct (is_Exception x); [|reflexivity].
      destruct (write_block dev rest plugin block_start (block_start + 64)
                  (Some x) d2) as [[r2 d3] e2].
      reflexivity.
  - destruct (is_Exception x); [|reflexivity].
    destruct (write_block dev rest plugin block_start (block_start + 64)
                (Some x) d1) as [[r2 d3] e2].
    reflexivity.
Qed.

Lemma write_block_tries {D : Type} (dev : Device D) (plugin : Py.bytes)
  (block_start : Z) :
  forall attempts last_exception d,
  exists (r : outcome (option exn)) d' evs (tries sent : nat),
    write_block dev attempts plugin block_start (block_start + 64)
                last_exception d
      = (r, d', evs) /\
    (tries <= List.length attempts)%nat /\
    (sent <= tries)%nat /\
    pointers_of evs = repeat block_start tries /\
    firmware_writes_of evs
      = repeat (Py.slice plugin block_start (block_start + 64)) sent /\
    ((exists v, r = Val v) \/
     (exists e, r = Raise e /\ is_Exception e = false)) /\
    (attempts = [] -> r = Val last_exception) /\
    (attempts <> [] ->
     (1 <= tries)%nat /\
     (r = Val None -> block_written evs plugin block_start) /\
     (forall e, r = Val (Some e) ->
        tries = List.length attempts /\ is_Exception e = true) /\
     (forall d1 status d2,
        set_write_firmware_pointer dev block_start d = (Returns tt, d1) ->
        write_firmware dev (Py.slice plugin block_start (block_start + 64)) d1
          = (Returns status, d2) ->
        r = Val None /\ d' = d2 /\ tries = 1%nat)).
Proof.
  induction attempts as [|a rest IH]; intros last_exception d.
  - exists (Val last_exception), d, [], 0%nat, 0%nat.
    repeat split; try reflexivity; try lia; try congruence.
    left. eauto.
  - rewrite write_block_cons.
    destruct (block_try_shape dev plugin block_start d)
      as [(d1 & d2 & status & P1 & W1 & ->)
         |[(d1 & d2 & x & P1 & W1 & ->)|(d1 & x & P1 & ->)]].
    + exists (Val None), d2,
        [EvCall (CSetWriteFirmwarePointer block_start);
         EvCall (CWriteFirmware
                   (Py.slice plugin block_start (block_start + 64)))],
        1%nat, 1%nat.
      split; [reflexivity|].
      split; [cbn [List.length]; lia|].
      split; [lia|]. split; [reflexivity|]. split; [reflexivity|].
      split; [left; eauto|].
      split; [discriminate|]. intros _.
      split; [lia|]. split; [|split].
      * intros _. exists [], []. reflexivity.
      * intros e He. discriminate.
      * intros d1' st d2' H1 H2.
        assert (d1' = d1) by congruence. subst d1'.
        repeat split; congruence.
    + destruct (is_Exception x) eqn:Hclass.
      * destruct (IH (Some x) d2)
          as (r & d' & evs & tries & sent & Heq & Ht & Hs & Hp & Hw & Hr
              & Hnil & Hcons).
        rewrite Heq.
        exists r, d',
          (EvCall (CSetWriteFirmwarePointer block_start) ::
           EvCall (CWriteFirmware
                     (Py.slice plugin block_start (block_start + 64))) :: evs),
          (S tries), (S sent).
        split; [reflexivity|].
        split; [cbn [List.length]; lia|].
        split; [lia|].
        split; [rewrite pointers_of_pointer, pointers_of_write, Hp;
                reflexivity|].
        split; [rewrite firmware_writes_of_pointer, firmware_writes_of_write,
                  Hw; reflexivity|].
        split; [exact Hr|].
        split; [discriminate|]. intros _.
        split; [lia|]. split; [|split].
        -- intros _. exists [], evs. reflexivity.
        -- intros e He. destruct rest as [|b rest'].
           ++ assert (tries = 0)%nat by (cbn [List.length] in Ht; lia).
              subst tries. split; [reflexivity|].
              rewrite (Hnil eq_refl) in He. congruence.
           ++ destruct Hcons as (_ & _ & Hall & _); [discriminate|].
              destruct (Hall e He) as [-> Hclass']. split; [reflexivity|].
              exact Hclass'.
        -- intros d1' st d2' H1 H2.
           assert (d1' = d1) by congruence. subst d1'. congruence.
      * exists (Raise x), d2,
          [EvCall (CSetWriteFirmwarePointer block_start);
           EvCall (CWriteFirmware
                     (Py.slice plugin block_start (block_start + 64)))],
          1%nat, 1%nat.
        split; [reflexivity|].
        split; [cbn [List.length]; lia|].
        split; [lia|]. split; [reflexivity|]. split; [reflexivity|].
        split; [right; eauto|].
        split; [discriminate|]. intros _.
        split; [lia|]. split; [|split].
        -- discriminate.
        -- intros e He. discriminate.
        -- intros d1' st d2' H1 H2.
           assert (d1' = d1) by congruence. subst d1'. congruence.
    + destruct (is_Exception x) eqn:Hclass.
      * destruct (IH (Some x) d1)
          as (r & d' & evs & tries & sent & Heq & Ht & Hs & Hp & Hw & Hr
              & Hnil & Hcons).
        rewrite Heq.
        exists r, d', (EvCall (CSetWriteFirmwarePointer block_start) :: evs),
          (S tries), sent.
        split; [reflexivity|].
        split; [cbn [List.length]; lia|].
        split; [lia|].
        split; [rewrite pointers_of_pointer, Hp; reflexivity|].
        split; [rewrite firmware_writes_of_pointer, Hw; reflexivity|].
        split; [exact Hr|].
        split; [discriminate|]. intros _.
        split; [lia|]. split; [|split].
        -- intros Hnone. destruct rest as [|b rest'].
           ++ rewrite (Hnil eq_refl) in Hnone. discriminate.
           ++ destruct Hcons as (_ & Hblock & _); [discriminate|].
              apply block_written_cons. exact (Hblock Hnone).
        -- intros e He. destruct rest as [|b rest'].
           ++ assert (tries = 0)%nat by (cbn [List.length] in Ht; lia).
              subst tries. split; [reflexivity|].
              rewrite (Hnil eq_refl) in He. congruence.
           ++ destruct Hcons as (_ & _ & Hall & _); [discriminate|].
              destruct (Hall e He) as [-> Hclass']. split; [reflexivity|].
              exact Hclass'.
        -- intros d1' st d2' H1 H2. congruence.
      * exists (Raise x), d1,
          [EvCall (CSetWriteFirmwarePointer block_start)], 1%nat, 0%nat.
        split; [reflexivity|].
        split; [cbn [List.length]; lia|].
        split; [lia|]. split; [reflexivity|]. split; [reflexivity|].
        split; [right; eauto|].
        split; [discriminate|]. intros _.
        split; [lia|]. split; [|split].
        -- discriminate.
        -- intros e He. discriminate.
        -- intros d1' st d2' H1 H2. congruence.
Qed.

(** X1. [write_block] (the loop over [range(3)] of
    [write_bricklet_plugin_comcu]), try by try.  A try sets the pointer to
    the block and then sends the block's 64 bytes.  The loop stops at the
    first try in which neither request raises, with no exception to
    report and nothing requested after that try: at the first try, at the
    second after a first that raised, at the third after two that raised.
    A try that raises within [Exception] is followed by the next try, and
    the third such try ends the loop with its exception to report.  A try
    that raises outside [Exception] ends the loop at once, and the
    exception leaves the loop.  So a block is tried at least once and at
    most three times, every try starts by setting the pointer to the
    block, every data request carries the block's 64 bytes, and an
    exception is reported only after three tries. *)
Theorem write_block_tried_at_most_three_times
  {D : Type} (dev : Device D) (plugin : Py.bytes) (block_start : Z) (d : D) :
  (forall d1 e1,
     block_try dev plugin block_start d = (Val tt, d1, e1) ->
     write_block dev (Py.range 0 3) plugin block_start (block_start + 64)
                 None d
     = (Val None, d1, e1)) /\
  (forall x d1 e1,
     block_try dev plugin block_start d = (Raise x, d1, e1) ->
     (is_Exception x = false ->
      write_block dev (Py.range 0 3) plugin block_start (block_start + 64)
                  None d
      = (Raise x, d1, e1)) /\
     (is_Exception x = true ->
      (forall d2 e2,
         block_try dev plugin block_start d1 = (Val tt, d2, e2) ->
         write_block dev (Py.range 0 3) plugin block_start (block_start + 64)
                     None d
         = (Val None, d2, (e1 ++ e2)%list)) /\
      (forall y d2 e2,
         block_try dev plugin block_start d1 = (Raise y, d2, e2) ->
         (is_Exception y = false ->
          write_block dev (Py.range 0 3) plugin block_start
                      (block_start + 64) None d
          = (Raise y, d2, (e1 ++ e2)%list)) /\
         (is_Exception y = true ->
          (forall d3 e3,
             block_try dev plugin block_start d2 = (Val tt, d3, e3) ->
             write_block dev (Py.range 0 3) plugin block_start
                         (block_start + 64) None d
             = (Val None, d3, (e1 ++ e2 ++ e3)%list)) /\
          (forall z d3 e3,
             block_try dev plugin block_start d2 = (Raise z, d3, e3) ->
             write_block dev (Py.range 0 3) plugin block_start
                         (block_start + 64) None d
             = ((if is_Exception z then Val (Some z) else Raise z), d3,
                (e1 ++ e2 ++ e3)%list)))))) /\
  (forall d0,
     fst (fst (block_try dev plugin block_start d0)) <> Diverge /\
     (exists rest,
        snd (block_try dev plugin block_start d0)
        = EvCall (CSetWriteFirmwarePointer block_start) :: rest) /\
     (fst (fst (block_try dev plugin block_start d0)) = Val tt ->
      snd (block_try dev plugin block_start d0)
      = [EvCall (CSetWriteFirmwarePointer block_start);
         EvCall (CWriteFirmware
                   (Py.slice plugin block_start (block_start + 64)))])) /\
  (exists (r : outcome (option exn)) d' evs (tries sent : nat),
    write_block dev (Py.range 0 3) plugin block_start (block_start + 64) None d
      = (r, d', evs) /\
    (1 <= tries <= 3)%nat /\ (sent <= tries)%nat /\
    pointers_of evs = repeat block_start tries /\
    firmware_writes_of evs
      = repeat (Py.slice plugin block_start (block_start + 64)) sent /\
    ((exists v, r = Val v) \/
     (exists e, r = Raise e /\ is_Exception e = false)) /\
    (r = Val None -> block_written evs plugin block_start) /\
    (forall e, r = Val (Some e) -> tries = 3%nat /\ is_Exception e = true)).
Proof.
  rewrite range_0_3.
  split; [|split; [|split]].
  - intros d1 e1 H1. rewrite write_block_cons, H1. reflexivity.
  - intros x d1 e1 H1. split.
    + intros Hx. rewrite write_block_cons, H1, Hx. reflexivity.
    + intros Hx. split.
      * intros d2 e2 H2.
        rewrite write_block_cons, H1, Hx, write_block_cons, H2.
        reflexivity.
      * intros y d2 e2 H2. split.
        -- intros Hy.
           rewrite write_block_cons, H1, Hx, write_block_cons, H2, Hy.
           reflexivity.
        -- intros Hy. split.
           ++ intros d3 e3 H3.
              rewrite write_block_cons, H1, Hx, write_block_cons, H2, Hy,
                write_block_cons, H3.
              reflexivity.
           ++ intros z d3 e3 H3.
              rewrite write_block_cons, H1, Hx, write_block_cons, H2, Hy,
                write_block_cons, H3.
              destruct (is_Exception z).
              ** cbn [write_block]. run. now rewrite app_nil_r.
              ** reflexivity.
  - intros d0.
    destruct (block_try_shape dev plugin block_start d0)
      as [(d1 & d2 & status & _ & _ & ->)
         |[(d1 & d2 & x & _ & _ & ->)|(d1 & x & _ & ->)]];
      cbn [fst snd]; (split; [discriminate|]);
      (split; [eauto|]); try reflexivity; discriminate.
  - destruct (write_block_tries dev plugin block_start [0; 1; 2] None d)
      as (r & d' & evs & tries & sent & Heq & Ht & Hs & Hp & Hw & Hr & _
          & Hcons).
    destruct Hcons as (H1 & Hblock & Hall & _); [discriminate|].
    exists r, d', evs, tries, sent.
    cbn [List.length] in Ht.
    split; [exact Heq|]. split; [lia|]. split; [exact Hs|].
    split; [exact Hp|]. split; [exact Hw|]. split; [exact Hr|].
    split; [exact Hblock|exact Hall].
Qed.

(** ** Co-MCU: what a failed write leaves behind *)

Lemma failures_of_call c evs : failures_of (EvCall c :: evs) = failures_of evs.
Proof. reflexivity. Qed.

Lemma failures_of_progress p evs :
  failures_of (EvProgress p :: evs) = failures_of evs.
Proof. reflexivity. Qed.

Lemma failures_of_sleep ms evs :
  failures_of (EvSleep ms :: evs) = failures_of evs.
Proof. reflexivity. Qed.

Lemma failures_of_attempts_trace c k : failures_of (attempts_trace c k) = [].
Proof.
  induction k as [|[|k] IH]; try reflexivity.
  rewrite attempts_trace_S, failures_of_call, failures_of_sleep. exact IH.
Qed.

Lemma in_calls_of_app c evs1 evs2 :
  In c (calls_of (evs1 ++ evs2)) <->
  In c (calls_of evs1) \/ In c (calls_of evs2).
Proof. rewrite calls_of_app. apply in_app_iff. Qed.

Section PageReports.

Context {D : Type}.
Variable dev : Device D.
Variable plugin : Py.bytes.

Lemma write_block_events block_start :
  forall attempts last_exception d r d' evs,
  write_block dev attempts plugin block_start (block_start + 64)
              last_exception d
    = (r, d', evs) ->
  (forall c, In c (calls_of evs) -> is_write_call c) /\
  failures_of evs = [].
Proof.
  induction attempts as [|a rest IH]; intros last_exception d r d' evs Hrun.
  - cbn [write_block] in Hrun. run in Hrun.
    assert (evs = []) by congruence. subst evs.
    split; [intros c []|reflexivity].
  - rewrite write_block_cons in Hrun.
    assert (Hrest : forall x d1 e1,
      (forall c, In c (calls_of e1) -> is_write_call c) ->
      failures_of e1 = [] ->
      (if is_Exception x
       then
         let '(r2, d2, e2) :=
           write_block dev rest plugin block_start (block_start + 64)
                       (Some x) d1 in
         (r2, d2, (e1 ++ e2)%list)
       else (Raise x, d1, e1)) = (r, d', evs) ->
      (forall c, In c (calls_of evs) -> is_write_call c) /\
      failures_of evs = []).
    { intros x d1 e1 Hc1 Hf1 Heq. destruct (is_Exception x).
      - destruct (write_block dev rest plugin block_start (block_start + 64)
                    (Some x) d1) as [[r2 d2] e2] eqn:Hloop.
        destruct (IH _ _ _ _ _ Hloop) as (Hc & Hf).
        assert (evs = (e1 ++ e2)%list) by congruence. subst evs. split.
        + intros c Hin. apply in_calls_of_app in Hin.
          destruct Hin as [Hin|Hin]; [exact (Hc1 _ Hin)|exact (Hc _ Hin)].
        + rewrite failures_of_app, Hf1, Hf. reflexivity.
      - assert (evs = e1) by congruence. subst evs. now split. }
    destruct (block_try_shape dev plugin block_start d)
      as [(d1 & d2 & status & _ & _ & Htry)
         |[(d1 & d2 & x & _ & _ & Htry)|(d1 & x & _ & Htry)]];
      rewrite Htry in Hrun.
    + assert (evs = [EvCall (CSetWriteFirmwarePointer block_start);
                     EvCall (CWriteFirmware
                               (Py.slice plugin block_start
                                  (block_start + 64)))])
        by congruence.
      subst evs. split; [|reflexivity].
      intros c [<-|[<-|[]]]; exact I.
    + apply (Hrest x d2
               [EvCall (CSetWriteFirmwarePointer block_start);
                EvCall (CWriteFirmware
                          (Py.slice plugin block_start (block_start + 64)))]);
        [intros c [<-|[<-|[]]]; exact I|reflexivity|exact Hrun].
    + apply (Hrest x d1 [EvCall (CSetWriteFirmwarePointer block_start)]);
        [intros c [<-|[]]; exact I|reflexivity|exact Hrun].
Qed.

Lemma write_page_report position :
  forall offsets d r d' evs,
  write_page dev offsets plugin position d = (r, d', evs) ->
  write_report r evs /\ (forall e, r = Raise e -> failures_of evs = []).
Proof.
  induction offsets as [|o rest IH]; intros d r d' evs Hrun.
  - cbn [write_page] in Hrun. run in Hrun.
    assert (r = Val (Next tt) /\ evs = []) as [-> ->] by (split; congruence).
    split; [|discriminate].
    split; [intros c []|]. split; [reflexivity|discriminate].
  - cbn [write_page] in Hrun. unfold bind at 1 in Hrun.
    destruct (write_block dev (Py.range 0 3) plugin (position + o)
                (position + o + 64) None d) as [[rb d1] e1] eqn:Heq.
    destruct (write_block_trace dev plugin _ _ _ _ _ _ _ Heq)
      as (Hrb & _).
    destruct (write_block_events _ _ _ _ _ _ _ Heq) as (Hc & Hf).
    destruct Hrb as [(v & ->)|(x & -> & _)].
    + destruct v as [e|]; run in Hrun; cbn [app] in Hrun.
      * assert (r = Val (Return false) /\
                evs = (e1 ++ [EvProgress cancel;
                              EvPopupFail "Bricklet"
                                ("Could not write plugin: " +++ exn_text e)])%list)
          as [-> ->] by (split; congruence).
        split; [|discriminate].
        split; [|split].
        -- intros c Hin. apply in_calls_of_app in Hin.
           destruct Hin as [Hin|[]]. exact (Hc _ Hin).
        -- discriminate.
        -- intros _. exists e1, e. split; [reflexivity|exact Hf].
      * destruct (write_page dev rest plugin position d1) as [[r2 d2] e2]
          eqn:Hrest.
        destruct (IH _ _ _ _ Hrest) as ((Hc2 & Hf2 & Hfail2) & Hraise2).
        assert (r = r2 /\ evs = (e1 ++ e2)%list) as [-> ->]
          by (split; congruence).
        split.
        -- split; [|split].
           ++ intros c Hin. apply in_calls_of_app in Hin.
              destruct Hin as [Hin|Hin]; [exact (Hc _ Hin)|exact (Hc2 _ Hin)].
           ++ intros Hr. rewrite failures_of_app, Hf, (Hf2 Hr). reflexivity.
           ++ intros Hr. destruct (Hfail2 Hr) as (before & e & -> & Hb).
              exists (e1 ++ before)%list, e. split.
              ** rewrite app_assoc. reflexivity.
              ** rewrite failures_of_app, Hf, Hb. reflexivity.
        -- intros e Hr. rewrite failures_of_app, Hf, (Hraise2 e Hr).
           reflexivity.
    + assert (r = Raise x /\ evs = e1) as [-> ->] by (split; congruence).
      split; [|intros _ _; exact Hf].
      split; [exact Hc|]. split; discriminate.
Qed.

Lemma write_pages_report plugin_len :
  forall n allow skipped position d r d' evs,
  write_pages dev n allow plugin plugin_len skipped position d = (r, d', evs) ->
  write_report r evs /\ (forall e, r = Raise e -> failures_of evs = []).
Proof.
  induction n as [|n IH]; intros allow skipped position d r d' evs Hrun.
  - cbn [write_pages] in Hrun. run in Hrun.
    assert (r = Diverge /\ evs = []) as [-> ->] by (split; congruence).
    split; [|discriminate].
    split; [intros c []|]. split; [reflexivity|discriminate].
  - cbn [write_pages] in Hrun.
    destruct (position <? plugin_len).
    + destruct (skip_page allow skipped plugin plugin_len position).
      * exact (IH _ _ _ _ _ _ _ Hrun).
      * unfold bind at 1 in Hrun.
        destruct (write_page dev (Py.range_step 0 XMC1_PAGE_SIZE 64) plugin
                    position d) as [[r1 d1] e1] eqn:Hpage.
        pose proof (write_page_report _ _ _ _ _ _ Hpage)
          as ((Hc & Hf & Hfail) & Hraise).
        destruct (write_page_trace dev plugin position _ _ _ _ _ Hpage)
          as (_ & _ & Hcases & _).
        destruct Hcases as [->|[->|(x & -> & _)]]; run in Hrun;
          cbn [app] in Hrun.
        -- destruct (write_pages dev n allow plugin plugin_len 0
                       (position + XMC1_PAGE_SIZE) d1) as [[r2 d2] e2]
             eqn:Hrest.
           destruct (IH _ _ _ _ _ _ _ Hrest) as ((Hc2 & Hf2 & Hfail2) & Hraise2).
           assert (r = r2 /\
                   evs = (e1 ++ EvProgress (setValue (position + XMC1_PAGE_SIZE))
                                :: e2)%list)
             as [-> ->] by (split; congruence).
           split.
           ++ split; [|split].
              ** intros c Hin. apply in_calls_of_app in Hin.
                 rewrite calls_of_progress in Hin.
                 destruct Hin as [Hin|Hin]; [exact (Hc _ Hin)|exact (Hc2 _ Hin)].
              ** intros Hr.
                 rewrite failures_of_app, failures_of_progress, (Hf eq_refl),
                   (Hf2 Hr). reflexivity.
              ** intros Hr. destruct (Hfail2 Hr) as (before & e & -> & Hb).
                 exists (e1 ++ EvProgress (setValue (position + XMC1_PAGE_SIZE))
                            :: before)%list, e.
                 split.
                 --- rewrite <- app_assoc. reflexivity.
                 --- rewrite failures_of_app, failures_of_progress,
                       (Hf eq_refl), Hb. reflexivity.
           ++ intros e Hr.
              rewrite failures_of_app, failures_of_progress, (Hf eq_refl),
                (Hraise2 e Hr). reflexivity.
        -- assert (r = Val (Return false) /\ evs = (e1 ++ [])%list)
             as [-> ->] by (split; congruence).
           rewrite app_nil_r. split; [|discriminate].
           split; [exact Hc|]. split; [exact Hf|exact Hfail].
        -- assert (r = Raise x /\ evs = e1) as [-> ->] by (split; congruence).
           split; [|intros e _; exact (Hraise x eq_refl)].
           split; [exact Hc|]. split; discriminate.
    + run in Hrun.
      assert (r = Val (Next tt) /\ evs = []) as [-> ->] by (split; congruence).
      split; [|discriminate].
      split; [intros c []|]. split; [reflexivity|discriminate].
Qed.

End PageReports.

Section AttemptShape.

Context {D : Type}.
Variable dev : Device D.
Variable fuel : nat.
Hypothesis Hfuel : (11 <= fuel)%nat.

(** An attempt either fails to enter the bootloader, or goes on to the
    page loop; up to there it has only asked for and polled the bootloader
    mode. *)
Lemma comcu_write_attempt_shape plugin plugin_len name attempt d :
  exists entry d1,
    (forall c, In c (calls_of entry) ->
       c = CSetBootloaderMode BOOTLOADER_MODE_BOOTLOADER \/
       c = CGetBootloaderMode) /\
    failures_of entry = [] /\
    (comcu_write_attempt dev fuel plugin plugin_len name attempt d
       = (Val (Return false), d1,
          (entry ++
           [EvProgress cancel;
            EvPopupFail "Bricklet"
              ("Device did not enter bootloader mode in 2.5 seconds" +++
               attempt_str attempt)])%list) \/
     forall r d' e2,
       write_pages dev fuel (allow_skipping attempt) plugin plugin_len
                   (MAX_SKIPPED_PAGES + 1) 0 d1 = (r, d', e2) ->
       comcu_write_attempt dev fuel plugin plugin_len name attempt d
         = (r, d', (entry ++ writing_label plugin_len name attempt ++ e2)%list)).
Proof.
  unfold comcu_write_attempt, set_comcu_bootloader_mode,
    wait_for_comcu_bootloader_mode.
  destruct (set_loop_trace dev fuel BOOTLOADER_MODE_BOOTLOADER 0 d)
    as (r1 & d1 & k1 & Hset & _); [lia|lia|].
  run. rewrite Hset.
  assert (C1 : forall c,
             In c (calls_of (attempts_trace
                               (CSetBootloaderMode BOOTLOADER_MODE_BOOTLOADER)
                               (S k1))) ->
             c = CSetBootloaderMode BOOTLOADER_MODE_BOOTLOADER).
  { intros c Hin. rewrite attempts_trace_calls in Hin.
    exact (repeat_spec _ _ _ Hin). }
  destruct r1 as [status|].
  - destruct (wait_loop_trace dev fuel BOOTLOADER_MODE_BOOTLOADER 0 d1)
      as (b & d2 & k2 & Hwait & _); [lia|lia|].
    rewrite Hwait.
    assert (C2 : forall c,
               In c (calls_of (attempts_trace CGetBootloaderMode (S k2))) ->
               c = CGetBootloaderMode).
    { intros c Hin. rewrite attempts_trace_calls in Hin.
      exact (repeat_spec _ _ _ Hin). }
    exists (attempts_trace (CSetBootloaderMode BOOTLOADER_MODE_BOOTLOADER) (S k1)
            ++ attempts_trace CGetBootloaderMode (S k2))%list, d2.
    split; [|split].
    + intros c Hin. apply in_calls_of_app in Hin.
      destruct Hin as [Hin|Hin]; [left; exact (C1 _ Hin)|right; exact (C2 _ Hin)].
    + rewrite failures_of_app, !failures_of_attempts_trace. reflexivity.
    + destruct b; cbn [negb].
      * right. intros r d' e2 Hpages. rewrite Hpages.
        unfold writing_label. rewrite ?app_nil_r, <- ?app_assoc. reflexivity.
      * left. rewrite ?app_nil_r, <- ?app_assoc. reflexivity.
  - exists (attempts_trace (CSetBootloaderMode BOOTLOADER_MODE_BOOTLOADER)
              (S k1)), d1.
    split; [|split].
    + intros c Hin. left. exact (C1 _ Hin).
    + apply failures_of_attempts_trace.
    + left. rewrite ?app_nil_r. reflexivity.
Qed.

End AttemptShape.

Lemma comcu_flash_first_attempt_fails {D : Type} (dev : Device D) fuel plugin
  name d d1 e1 :
  find_regular_plugin_upto plugin <> -1 ->
  Py.len plugin mod XMC1_PAGE_SIZE = 0 ->
  comcu_write_attempt dev fuel plugin (Py.len plugin) name 0 d
    = (Val (Return false), d1, e1) ->
  comcu_flash dev fuel plugin name d = (Val false, d1, e1).
Proof.
  intros Hmagic Hlen Hfirst.
  rewrite comcu_flash_attempts by assumption.
  cbn [comcu_attempts]. unfold comcu_attempt, comcu_after_attempts.
  run. rewrite Hfirst. rewrite ?app_nil_r. reflexivity.
Qed.

(** X2. [write_bricklet_plugin_comcu], first attempt: when entering the
    bootloader fails or a block cannot be written, the whole operation ends
    there with [False].  Nothing follows the message box, which is the only
    one and reads either 'Device did not enter bootloader mode in 2.5
    seconds' or 'Could not write plugin: <exception>'; there is no second
    attempt, and the device is never asked to change to firmware mode. *)
Theorem failed_first_attempt_ends_the_operation
  {D : Type} (dev : Device D) (fuel : nat) (plugin : Py.bytes)
  (name : string) (d d1 : D) (e1 : list event)
  (Hfuel : (11 <= fuel)%nat)
  (Hmagic : find_regular_plugin_upto plugin <> -1)
  (Hlen : Py.len plugin mod XMC1_PAGE_SIZE = 0)
  (Hfirst : comcu_write_attempt dev fuel plugin (Py.len plugin) name 0 d
            = (Val (Return false), d1, e1)) :
  comcu_flash dev fuel plugin name d = (Val false, d1, e1) /\
  ~ In (CSetBootloaderMode BOOTLOADER_MODE_FIRMWARE) (calls_of e1) /\
  exists before message,
    e1 = (before ++ [EvProgress cancel; EvPopupFail "Bricklet" message])%list /\
    failures_of before = [] /\
    (message = "Device did not enter bootloader mode in 2.5 seconds"%string \/
     exists e, message = ("Could not write plugin: " +++ exn_text e)).
Proof.
  split; [exact (comcu_flash_first_attempt_fails dev fuel plugin name d d1 e1
                   Hmagic Hlen Hfirst)|].
  destruct (comcu_write_attempt_shape dev fuel Hfuel plugin (Py.len plugin)
              name 0 d) as (entry & d0 & Hcalls & Hquiet & [Hfail|Hwrite]).
  - assert (e1 = (entry ++
                  [EvProgress cancel;
                   EvPopupFail "Bricklet"
                     ("Device did not enter bootloader mode in 2.5 seconds" +++
                      attempt_str 0)])%list) by congruence.
    subst e1. split.
    + intros Hin. apply in_calls_of_app in Hin.
      destruct Hin as [Hin|[]].
      destruct (Hcalls _ Hin); discriminate.
    + exists entry, "Device did not enter bootloader mode in 2.5 seconds"%string.
      split; [reflexivity|]. split; [exact Hquiet|]. left. reflexivity.
  - destruct (write_pages dev fuel (allow_skipping 0) plugin (Py.len plugin)
                (MAX_SKIPPED_PAGES + 1) 0 d0) as [[r2 d2] e2] eqn:Hpages.
    specialize (Hwrite _ _ _ eq_refl).
    assert (r2 = Val (Return false) /\
            e1 = (entry ++ writing_label (Py.len plugin) name 0 ++ e2)%list)
      as [-> ->] by (split; congruence).
    destruct (write_pages_report dev plugin _ _ _ _ _ _ _ _ _ Hpages)
      as ((Hc & _ & Hreport) & _).
    destruct (Hreport eq_refl) as (before & e & -> & Hb).
    split.
    + intros Hin. apply in_calls_of_app in Hin.
      destruct Hin as [Hin|Hin]; [destruct (Hcalls _ Hin); discriminate|].
      apply in_calls_of_app in Hin.
      destruct Hin as [[]|Hin]. exact (Hc _ Hin).
    + exists (entry ++ writing_label (Py.len plugin) name 0 ++ before)%list,
        ("Could not write plugin: " +++ exn_text e).
      split; [rewrite <- !app_assoc; reflexivity|].
      split; [|right; exists e; reflexivity].
      rewrite !failures_of_app, Hquiet, Hb. reflexivity.
Qed.

Lemma failed_first_attempt_ends_the_operation_witness :
  fst (fst (comcu_flash Sim.device 30 (Sim.image 1) "Test" Sim.offline))
  = Val false /\
  ~ In (CSetBootloaderMode BOOTLOADER_MODE_FIRMWARE)
       (calls_of (snd (comcu_flash Sim.device 30 (Sim.image 1) "Test"
                         Sim.offline))).
Proof.
  pose (first := comcu_write_attempt Sim.device 30 (Sim.image 1)
                   (Py.len (Sim.image 1)) "Test" 0 Sim.offline).
  assert (Hfuel : (11 <= 30)%nat) by lia.
  assert (Hmagic : find_regular_plugin_upto (Sim.image 1) <> -1)
    by (vm_compute; discriminate).
  assert (Hlen : Py.len (Sim.image 1) mod XMC1_PAGE_SIZE = 0)
    by (vm_compute; reflexivity).
  assert (Hfirst : first = (Val (Return false), snd (fst first), snd first))
    by (vm_compute; reflexivity).
  destruct (failed_first_attempt_ends_the_operation Sim.device 30 (Sim.image 1)
              "Test" Sim.offline _ _ Hfuel Hmagic Hlen Hfirst)
    as (Hrun & Hnever & _).
  rewrite Hrun. split; [reflexivity|exact Hnever].
Defined.

(** ** Co-MCU: which pages are skipped *)

Lemma all_zero_slice_with_data plugin position i b :
  0 <= position -> position <= i < position + XMC1_PAGE_SIZE ->
  Py.index plugin i = Some b -> b <> x00 ->
  Py.all_zero (Py.slice plugin position (position + XMC1_PAGE_SIZE)) = false.
Proof.
  unfold XMC1_PAGE_SIZE. intros Hpos Hi Hindex Hb.
  apply index_nth_error in Hindex. destruct Hindex as [_ Hnth].
  destruct (Py.all_zero (Py.slice plugin position (position + 256)))
    eqn:Hzero; [|reflexivity].
  exfalso. apply Hb. unfold Py.all_zero in Hzero.
  rewrite forallb_forall in Hzero.
  symmetry. apply byte_dec_bl. apply Hzero.
  apply (nth_error_In _ (Z.to_nat (i - position))).
  unfold Py.slice. rewrite nth_error_firstn.
  assert (Hlt : (Z.to_nat (i - position) <? Z.to_nat (position + 256 - position))%nat
                = true) by (apply Nat.ltb_lt; lia).
  rewrite Hlt, nth_error_skipn.
  replace (Z.to_nat position + Z.to_nat (i - position))%nat with (Z.to_nat i)
    by lia.
  exact Hnth.
Qed.

Lemma page_plan_with_data plugin plugin_len allow :
  forall n j skipped position,
  (j < n)%nat ->
  position + XMC1_PAGE_SIZE * Z.of_nat j < plugin_len ->
  Py.all_zero (Py.slice plugin (position + XMC1_PAGE_SIZE * Z.of_nat j)
                 (position + XMC1_PAGE_SIZE * Z.of_nat j + XMC1_PAGE_SIZE))
    = false ->
  In (position + XMC1_PAGE_SIZE * Z.of_nat j)
     (page_plan n allow plugin plugin_len skipped position).
Proof.
  unfold XMC1_PAGE_SIZE.
  induction n as [|n IH]; intros j skipped position Hj Hlen Hdata; [lia|].
  cbn [page_plan].
  assert (Hpos : (position <? plugin_len) = true) by (apply Z.ltb_lt; lia).
  rewrite Hpos.
  destruct j as [|j].
  - replace (position + 256 * Z.of_nat 0) with position in * by lia.
    unfold skip_page, XMC1_PAGE_SIZE. rewrite Hdata, andb_false_r.
    left. reflexivity.
  - assert (Hrest : forall skipped',
               In (position + 256 * Z.of_nat (S j))
                  (page_plan n allow plugin plugin_len skipped'
                             (position + 256))).
    { intros skipped'.
      replace (position + 256 * Z.of_nat (S j))
        with ((position + 256) + 256 * Z.of_nat j) in * by lia.
      apply IH; [lia|lia|exact Hdata]. }
    unfold XMC1_PAGE_SIZE.
    destruct (skip_page allow skipped plugin plugin_len position).
    + apply Hrest.
    + right. apply Hrest.
Qed.

Lemma skip_page_within_budget allow skipped plugin plugin_len position :
  skip_page allow skipped plugin plugin_len position = true ->
  skipped < 80.
Proof.
  unfold skip_page. intros H.
  apply andb_prop in H. destruct H as [H _].
  apply andb_prop in H. destruct H as [H _].
  apply andb_prop in H. destruct H as [_ H].
  apply Z.ltb_lt in H. exact H.
Qed.

Lemma page_plan_first_written plugin plugin_len allow :
  forall n skipped position,
  0 <= skipped ->
  position + XMC1_PAGE_SIZE * Z.max 0 (80 - skipped) < plugin_len ->
  (Z.to_nat (Z.max 0 (80 - skipped)) < n)%nat ->
  exists i,
    0 <= i <= Z.max 0 (80 - skipped) /\
    In (position + XMC1_PAGE_SIZE * i)
       (page_plan n allow plugin plugin_len skipped position).
Proof.
  unfold XMC1_PAGE_SIZE.
  induction n as [|n IH]; intros skipped position Hs Hlen Hn; [lia|].
  cbn [page_plan].
  assert (Hpos : (position <? plugin_len) = true) by (apply Z.ltb_lt; lia).
  rewrite Hpos.
  destruct (skip_page allow skipped plugin plugin_len position) eqn:Hskip.
  - apply skip_page_within_budget in Hskip.
    destruct (IH (skipped + 1) (position + 256)) as (i & Hi & Hin);
      [lia|lia|lia|].
    exists (i + 1). split; [lia|].
    unfold XMC1_PAGE_SIZE.
    replace (position + 256 * (i + 1)) with (position + 256 + 256 * i) by lia.
    exact Hin.
  - exists 0. split; [lia|]. left. lia.
Qed.

Lemma page_plan_window plugin plugin_len allow :
  forall n j skipped position,
  0 <= skipped ->
  position + XMC1_PAGE_SIZE * (Z.of_nat j + 80) < plugin_len ->
  (j + 80 < n)%nat ->
  exists i,
    (i <= 80)%nat /\
    In (position + XMC1_PAGE_SIZE * Z.of_nat (j + i))
       (page_plan n allow plugin plugin_len skipped position).
Proof.
  unfold XMC1_PAGE_SIZE.
  induction n as [|n IH]; intros j skipped position Hs Hlen Hn; [lia|].
  destruct j as [|j].
  - destruct (page_plan_first_written plugin plugin_len allow (S n) skipped
                position Hs) as (i & Hi & Hin).
    + unfold XMC1_PAGE_SIZE. lia.
    + lia.
    + exists (Z.to_nat i). split; [lia|].
      unfold XMC1_PAGE_SIZE in Hin.
      replace (Z.of_nat (0 + Z.to_nat i)) with i by lia. exact Hin.
  - cbn [page_plan].
    assert (Hpos : (position <? plugin_len) = true) by (apply Z.ltb_lt; lia).
    rewrite Hpos.
    assert (Hrest : forall skipped', 0 <= skipped' ->
               exists i, (i <= 80)%nat /\
                 In (position + 256 * Z.of_nat (S j + i))
                    (page_plan n allow plugin plugin_len skipped'
                               (position + 256))).
    { intros skipped' Hs'.
      destruct (IH j skipped' (position + 256) Hs') as (i & Hi & Hin);
        [lia|lia|].
      exists i. split; [exact Hi|].
      replace (position + 256 * Z.of_nat (S j + i))
        with (position + 256 + 256 * Z.of_nat (j + i)) by lia.
      exact Hin. }
    unfold XMC1_PAGE_SIZE.
    destruct (skip_page allow skipped plugin plugin_len position).
    + apply Hrest. lia.
    + destruct (Hrest 0) as (i & Hi & Hin); [lia|].
      exists i. split; [exact Hi|]. right. exact Hin.
Qed.

(** A completed attempt has sent every page of its plan. *)
Lemma completed_attempt_follows_plan {D : Type} (dev : Device D) fuel plugin
  name attempt d d' evs q :
  (11 <= fuel)%nat ->
  comcu_write_attempt dev fuel plugin (Py.len plugin) name attempt d
    = (Val (Next tt), d', evs) ->
  In q (page_plan fuel (allow_skipping attempt) plugin (Py.len plugin)
          (MAX_SKIPPED_PAGES + 1) 0) ->
  page_written evs plugin q.
Proof.
  intros Hfuel Hrun Hin.
  destruct (comcu_write_attempt_cases dev fuel Hfuel plugin (Py.len plugin)
              name attempt d)
    as [(d1 & e1 & Heq & Hp) | (d1 & e1 & Hp & Hwrite)]; [congruence|].
  destruct (write_pages dev fuel (allow_skipping attempt) plugin
              (Py.len plugin) (MAX_SKIPPED_PAGES + 1) 0 d1)
    as [[r2 d2] e2] eqn:Hwp.
  specialize (Hwrite _ _ _ eq_refl).
  assert (r2 = Val (Next tt) /\ evs = (e1 ++ e2)%list) as [-> ->]
    by (split; congruence).
  destruct (write_pages_trace dev plugin _ _ _ _ _ _ _ _ _ Hwp)
    as (_ & Hdone & _).
  apply page_written_app_l. apply Hdone; [reflexivity|exact Hin].
Qed.

(** X3. The page loop of [write_bricklet_plugin_comcu] never skips data:
    in every attempt that gets through the loop, each page that holds a
    byte other than zero has been sent in full (all four 64-byte blocks),
    whatever the pages around it hold. *)
Theorem pages_with_data_are_never_skipped
  {D : Type} (dev : Device D) (fuel : nat) (plugin : Py.bytes)
  (name : string) (attempt : Z) (pages : nat) (d d' : D) (evs : list event)
  (j : nat) (i : Z) (b : byte)
  (Hfuel : (11 <= fuel)%nat)
  (Hlen : Py.len plugin = XMC1_PAGE_SIZE * Z.of_nat pages)
  (Hpages : (pages < fuel)%nat)
  (Hrun : comcu_write_attempt dev fuel plugin (Py.len plugin) name attempt d
          = (Val (Next tt), d', evs))
  (Hpage : XMC1_PAGE_SIZE * Z.of_nat j <= i
           < XMC1_PAGE_SIZE * Z.of_nat j + XMC1_PAGE_SIZE)
  (Hbyte : Py.index plugin i = Some b)
  (Hdata : b <> x00) :
  page_written evs plugin (XMC1_PAGE_SIZE * Z.of_nat j).
Proof.
  apply (completed_attempt_follows_plan dev fuel plugin name attempt d d' evs
           _ Hfuel Hrun).
  assert (Hi : i < Py.len plugin).
  { apply index_nth_error in Hbyte. destruct Hbyte as [H0 Hnth].
    assert (Hsome : nth_error plugin (Z.to_nat i) <> None) by congruence.
    apply nth_error_Some in Hsome. unfold Py.len. lia. }
  assert (Hj : (j < pages)%nat) by (unfold XMC1_PAGE_SIZE in *; nia).
  replace (XMC1_PAGE_SIZE * Z.of_nat j)
    with (0 + XMC1_PAGE_SIZE * Z.of_nat j) by lia.
  apply page_plan_with_data.
  - lia.
  - unfold XMC1_PAGE_SIZE in *. lia.
  - apply (all_zero_slice_with_data plugin _ i b);
      unfold XMC1_PAGE_SIZE in *; try lia; assumption.
Qed.

(** X4. The budget of the page loop of [write_bricklet_plugin_comcu]
    ([MAX_SKIPPED_PAGES], 20 KiB of zero bytes): among any 81 consecutive
    pages of the image, an attempt that gets through the loop has sent at
    least one, however many zero pages the image holds. *)
Theorem at_most_eighty_pages_skipped_in_a_row
  {D : Type} (dev : Device D) (fuel : nat) (plugin : Py.bytes)
  (name : string) (attempt : Z) (pages : nat) (d d' : D) (evs : list event)
  (j : nat)
  (Hfuel : (11 <= fuel)%nat)
  (Hlen : Py.len plugin = XMC1_PAGE_SIZE * Z.of_nat pages)
  (Hpages : (pages < fuel)%nat)
  (Hrun : comcu_write_attempt dev fuel plugin (Py.len plugin) name attempt d
          = (Val (Next tt), d', evs))
  (Hwindow : (j + 80 < pages)%nat) :
  MAX_SKIPPED_PAGES = 80 /\
  exists i, (i <= 80)%nat /\
    page_written evs plugin (XMC1_PAGE_SIZE * Z.of_nat (j + i)).
Proof.
  split; [reflexivity|].
  destruct (page_plan_window plugin (Py.len plugin) (allow_skipping attempt)
              fuel j (MAX_SKIPPED_PAGES + 1) 0) as (i & Hi & Hin).
  - discriminate.
  - unfold XMC1_PAGE_SIZE in *. lia.
  - lia.
  - exists i. split; [exact Hi|].
    apply (completed_attempt_follows_plan dev fuel plugin name attempt d d' evs
             _ Hfuel Hrun).
    replace (XMC1_PAGE_SIZE * Z.of_nat (j + i))
      with (0 + XMC1_PAGE_SIZE * Z.of_nat (j + i)) by lia.
    exact Hin.
Qed.

(** ** The firmware archive *)

Lemma find_firmware_first zf before entry after :
  (forall n, In n before -> Py.endswith n "firmware.bin" = false) ->
  Py.endswith entry "firmware.bin" = true ->
  forall name,
  find_firmware zf (before ++ entry :: after) name
  = match read zf entry with
    | Returns data => Returns (entry, Some data)
    | Raises e => Raises e
    end.
Proof.
  intros Hbefore Hentry.
  induction before as [|n before IH]; intros name.
  - cbn [app find_firmware]. rewrite Hentry. reflexivity.
  - cbn [app find_firmware].
    rewrite (Hbefore n (or_introl eq_refl)).
    apply IH. intros m Hm. apply Hbefore. right. exact Hm.
Qed.

Lemma find_firmware_none zf :
  forall names name,
  (forall n, In n names -> Py.endswith n "firmware.bin" = false) ->
  exists name', find_firmware zf names name = Returns (name', None).
Proof.
  induction names as [|n names IH]; intros name Hnone.
  - exists name. reflexivity.
  - cbn [find_firmware]. rewrite (Hnone n (or_introl eq_refl)).
    apply IH. intros m Hm. apply Hnone. right. exact Hm.
Qed.


(** ** Co-MCU: checks before the device is touched *)

(** X6. [write_bricklet_plugin_comcu] gives up with [False] before any
    request is sent to the device, with one message box each, when the
    archive cannot be opened ('Could not read *.zbin file: ...'), when it
    holds no entry ending in 'firmware.bin' ('Could not find firmware in
    *.zbin file'), and when the firmware found is not a whole number of
    256-byte pages ('Firmware size is not a multiple of the page size').
    What the open raises outside [Exception] gets no message box: the
    handler around the whole method cancels the dialog and passes it to
    the exception hook. *)
Theorem comcu_rejects_before_touching_the_device
  {D : Type} (dev : Device D) (fuel : nat)
  (zipfile_ZipFile : Py.bytes -> reply ZipFile) (zip_file : Py.bytes)
  (name : string) (d : D) :
  (forall e,
     zipfile_ZipFile zip_file = Raises e ->
     write_bricklet_plugin_comcu dev fuel zipfile_ZipFile zip_file name d
     = (Val false, d,
        (starting_bootloader_mode ++
         if is_Exception e
         then failure_report "Bricklet"
                ("Could not read *.zbin file: " +++ exn_text e)
         else [EvProgress cancel; EvExcepthook e])%list)) /\
  (forall zf,
     zipfile_ZipFile zip_file = Returns zf ->
     (forall n, In n (namelist zf) -> Py.endswith n "firmware.bin" = false) ->
     write_bricklet_plugin_comcu dev fuel zipfile_ZipFile zip_file name d
     = (Val false, d,
        (starting_bootloader_mode ++
         failure_report "Bricklet"
           "Could not find firmware in *.zbin file")%list)) /\
  (forall zf entry plugin,
     zipfile_ZipFile zip_file = Returns zf ->
     find_firmware zf (namelist zf) name = Returns (entry, Some plugin) ->
     find_regular_plugin_upto plugin <> -1 ->
     Py.len plugin mod XMC1_PAGE_SIZE <> 0 ->
     write_bricklet_plugin_comcu dev fuel zipfile_ZipFile zip_file name d
     = (Val false, d,
        (starting_bootloader_mode ++
         failure_report "Bricklet"
           "Firmware size is not a multiple of the page size")%list)) /\
  (forall title message e,
     calls_of (starting_bootloader_mode ++ failure_report title message) = [] /\
     calls_of (starting_bootloader_mode ++ [EvProgress cancel; EvExcepthook e])
     = []).
Proof.
  split; [|split; [|split]].
  - intros e Hzip. unfold write_bricklet_plugin_comcu. run.
    rewrite Hzip. unfold report_exception.
    destruct (is_Exception e); reflexivity.
  - intros zf Hzip Hnone. unfold write_bricklet_plugin_comcu. run.
    rewrite Hzip.
    destruct (find_firmware_none zf (namelist zf) name Hnone) as [name' ->].
    reflexivity.
  - intros zf entry plugin Hzip Hfind Hmagic Hlen.
    unfold write_bricklet_plugin_comcu. run.
    rewrite Hzip, Hfind. unfold comcu_flash.
    apply Z.eqb_neq in Hmagic. rewrite Hmagic.
    apply Z.eqb_neq in Hlen. rewrite Hlen. reflexivity.
  - intros title message e. split; reflexivity.
Qed.

(** ** Polling: what an answer rests on *)

Section PollingSound.

Context {D : Type}.
Variable dev : Device D.

Lemma set_loop_sound mode :
  forall n counter d r d' evs,
  set_comcu_bootloader_mode_loop dev n mode counter d = (Val r, d', evs) ->
  match r with
  | Some status =>
      exists d0 before,
        set_bootloader_mode dev mode d0 = (Returns status, d') /\
        evs = (before ++ [EvCall (CSetBootloaderMode mode)])%list
  | None =>
      exists d0 e, set_bootloader_mode dev mode d0 = (Raises e, d')
  end.
Proof.
  induction n as [|n IH]; intros counter d r d' evs Hrun.
  - discriminate.
  - cbn [set_comcu_bootloader_mode_loop] in Hrun. run in Hrun.
    destruct (set_bootloader_mode dev mode d) as [[status|e] d1] eqn:Hset;
      cbn [app] in Hrun.
    + assert (r = Some status /\ d' = d1 /\
              evs = [EvCall (CSetBootloaderMode mode)])
        as (-> & -> & ->) by (repeat split; congruence).
      exists d, []. split; [exact Hset|reflexivity].
    + destruct (counter =? 10).
      * assert (r = None /\ d' = d1) as (-> & ->) by (split; congruence).
        exists d, e. exact Hset.
      * destruct (set_comcu_bootloader_mode_loop dev n mode (counter + 1) d1)
          as [[r2 d2] e2] eqn:Hrest.
        cbn [app] in Hrun.
        assert (r2 = Val r /\ d2 = d' /\
                evs = EvCall (CSetBootloaderMode mode) :: EvSleep 250 :: e2)
          as (-> & -> & ->) by (repeat split; congruence).
        specialize (IH _ _ _ _ _ Hrest).
        destruct r as [status|]; [|exact IH].
        destruct IH as (d0 & before & Hlast & ->).
        exists d0,
          (EvCall (CSetBootloaderMode mode) :: EvSleep 250 :: before).
        split; [exact Hlast|reflexivity].
Qed.

Lemma wait_loop_sound mode :
  forall n counter d b d' evs,
  wait_for_comcu_bootloader_mode_loop dev n mode counter d = (Val b, d', evs) ->
  if b then
    exists d0 before,
      get_bootloader_mode dev d0 = (Returns mode, d') /\
      evs = (before ++ [EvCall CGetBootloaderMode])%list
  else
    exists d0 answer,
      get_bootloader_mode dev d0 = (answer, d') /\ answer <> Returns mode.
Proof.
  induction n as [|n IH]; intros counter d b d' evs Hrun.
  - discriminate.
  - cbn [wait_for_comcu_bootloader_mode_loop] in Hrun. run in Hrun.
    assert (Hagain :
      forall d1,
        (if counter =? 10 then (Val false, d1, [EvCall CGetBootloaderMode])
         else
           let '(r, d2, ev2) :=
             wait_for_comcu_bootloader_mode_loop dev n mode (counter + 1) d1 in
           (r, d2, EvCall CGetBootloaderMode :: EvSleep 250 :: ev2))
        = (Val b, d', evs) ->
        (exists answer, get_bootloader_mode dev d = (answer, d1) /\
                        answer <> Returns mode) ->
        if b then
          exists d0 before,
            get_bootloader_mode dev d0 = (Returns mode, d') /\
            evs = (before ++ [EvCall CGetBootloaderMode])%list
        else
          exists d0 answer,
            get_bootloader_mode dev d0 = (answer, d') /\
            answer <> Returns mode).
    { intros d1 Hnext (answer & Hget & Hanswer).
      destruct (counter =? 10).
      - assert (b = false /\ d' = d1) as (-> & ->) by (split; congruence).
        exists d, answer. split; assumption.
      - destruct (wait_for_comcu_bootloader_mode_loop dev n mode (counter + 1)
                    d1) as [[r2 d2] e2] eqn:Hrest.
        assert (r2 = Val b /\ d2 = d' /\
                evs = EvCall CGetBootloaderMode :: EvSleep 250 :: e2)
          as (-> & -> & ->) by (repeat split; congruence).
        specialize (IH _ _ _ _ _ Hrest).
        destruct b; [|exact IH].
        destruct IH as (d0 & before & Hlast & ->).
        exists d0, (EvCall CGetBootloaderMode :: EvSleep 250 :: before).
        split; [exact Hlast|reflexivity]. }
    destruct (get_bootloader_mode dev d) as [[current|e] d1] eqn:Hget.
    + destruct (current =? mode) eqn:Hmode; cbn [app] in Hrun.
      * apply Z.eqb_eq in Hmode. subst current.
        assert (b = true /\ d' = d1 /\ evs = [EvCall CGetBootloaderMode])
          as (-> & -> & ->) by (repeat split; congruence).
        exists d, []. split; [exact Hget|reflexivity].
      * apply (Hagain d1).
        -- destruct (counter =? 10); [exact Hrun|].
           destruct (wait_for_comcu_bootloader_mode_loop dev n mode
                       (counter + 1) d1) as [[r2 d2] e2].
           exact Hrun.
        -- exists (Returns current). split; [reflexivity|].
           apply Z.eqb_neq in Hmode. congruence.
    + cbn [app] in Hrun. apply (Hagain d1).
      * destruct (counter =? 10); [exact Hrun|].
        destruct (wait_for_comcu_bootloader_mode_loop dev n mode
                    (counter + 1) d1) as [[r2 d2] e2].
        exact Hrun.
      * exists (Raises e). split; [reflexivity|discriminate].
Qed.

End PollingSound.

(** X7. The two polling helpers answer from the device alone.
    [set_comcu_bootloader_mode] returns a status only if that status is the
    device's answer to the request it sent last, and [None] only after a
    request that raised; [wait_for_comcu_bootloader_mode] returns [True]
    only if its last request was answered with the mode waited for, and
    [False] only after a last request that raised or reported another
    mode.  Neither sends anything after the answer it returns on. *)
Theorem polling_answers_come_from_the_device
  {D : Type} (dev : Device D) (fuel : nat) (mode : Z) (d d' : D)
  (evs : list event) :
  (forall status,
     set_comcu_bootloader_mode dev fuel mode d = (Val (Some status), d', evs) ->
     exists d0 before,
       set_bootloader_mode dev mode d0 = (Returns status, d') /\
       evs = (before ++ [EvCall (CSetBootloaderMode mode)])%list) /\
  (set_comcu_bootloader_mode dev fuel mode d = (Val None, d', evs) ->
   exists d0 e, set_bootloader_mode dev mode d0 = (Raises e, d')) /\
  (wait_for_comcu_bootloader_mode dev fuel mode d = (Val true, d', evs) ->
   exists d0 before,
     get_bootloader_mode dev d0 = (Returns mode, d') /\
     evs = (before ++ [EvCall CGetBootloaderMode])%list) /\
  (wait_for_comcu_bootloader_mode dev fuel mode d = (Val false, d', evs) ->
   exists d0 answer,
     get_bootloader_mode dev d0 = (answer, d') /\ answer <> Returns mode).
Proof.
  split; [|split; [|split]].
  - intros status Hrun.
    exact (set_loop_sound dev mode fuel 0 d (Some status) d' evs Hrun).
  - intros Hrun. exact (set_loop_sound dev mode fuel 0 d None d' evs Hrun).
  - intros Hrun. exact (wait_loop_sound dev mode fuel 0 d true d' evs Hrun).
  - intros Hrun. exact (wait_loop_sound dev mode fuel 0 d false d' evs Hrun).
Qed.

(** ** Co-MCU: the operation always ends with an answer *)

Section ComcuTotal.

Context {D : Type}.
Variable dev : Device D.
Variable fuel : nat.
Hypothesis Hfuel : (11 <= fuel)%nat.
Variable plugin : Py.bytes.
Hypothesis Hsize : Py.len plugin <= XMC1_PAGE_SIZE * (Z.of_nat fuel - 1).
Variable name : string.

Lemma comcu_write_attempt_total attempt d :
  exists r d1 e1,
    comcu_write_attempt dev fuel plugin (Py.len plugin) name attempt d
      = (r, d1, e1) /\
    (r = Val (Next tt) \/ r = Val (Return false) \/ exists x, r = Raise x).
Proof.
  destruct (comcu_write_attempt_cases dev fuel Hfuel plugin (Py.len plugin)
              name attempt d)
    as [(d1 & e1 & Heq & _) | (d1 & e1 & _ & Hwrite)].
  - exists (Val (Return false)), d1, e1. split; [exact Heq|tauto].
  - destruct (write_pages dev fuel (allow_skipping attempt) plugin
                (Py.len plugin) (MAX_SKIPPED_PAGES + 1) 0 d1)
      as [[r2 d2] e2] eqn:Hwp.
    specialize (Hwrite _ _ _ eq_refl).
    destruct (write_pages_trace dev plugin _ _ _ _ _ _ _ _ _ Hwp)
      as (_ & _ & Hcases & Hend).
    exists r2, d2, (e1 ++ e2)%list. split; [exact Hwrite|].
    destruct Hcases as [->|[->|[->|(x & -> & _)]]]; eauto.
    exfalso. apply Hend; [|reflexivity].
    pose proof (len_nonneg plugin). lia.
Qed.

Lemma comcu_check_mode_ret_total mode_ret (d : D) :
  exists e evs,
    comcu_check_mode_ret mode_ret d = (Val e, d, evs) /\ e <> ReturnFrom true.
Proof.
  unfold comcu_check_mode_ret. run.
  destruct mode_ret as [status|].
  - destruct ((status =? 0) || (status =? 2)).
    + eexists _, _. split; [reflexivity|discriminate].
    + destruct (status =? 5).
      * eexists _, _. split; [reflexivity|discriminate].
      * eexists _, _. split; [reflexivity|discriminate].
  - eexists _, _. split; [reflexivity|discriminate].
Qed.

Lemma comcu_attempt_total attempt d :
  exists r d' evs,
    comcu_attempt dev fuel plugin (Py.len plugin) name attempt d
      = (r, d', evs) /\
    r <> Diverge /\ r <> Val (ReturnFrom true).
Proof.
  destruct (comcu_write_attempt_total attempt d)
    as (r & d1 & e1 & Hwrite & [->|[->|(x & ->)]]).
  - destruct (set_loop_trace dev fuel BOOTLOADER_MODE_FIRMWARE 0 d1)
      as (mode_ret & d2 & k & Hset & _); [lia|lia|].
    rewrite (comcu_attempt_run dev fuel plugin (Py.len plugin) name attempt d
               d1 e1 mode_ret d2 _ Hwrite Hset).
    destruct (comcu_check_mode_ret_total mode_ret d2) as (e & evs & -> & He).
    eexists _, _, _. split; [reflexivity|]. split; congruence.
  - unfold comcu_attempt. run. rewrite Hwrite.
    eexists _, _, _. split; [reflexivity|]. split; discriminate.
  - unfold comcu_attempt. run. rewrite Hwrite.
    eexists _, _, _. split; [reflexivity|]. split; discriminate.
Qed.

Lemma comcu_attempts_total :
  forall attempts error_str d,
  exists r d' evs,
    comcu_attempts dev fuel attempts plugin (Py.len plugin) name error_str d
      = (r, d', evs) /\
    r <> Diverge /\
    r <> Val (Return true) /\
    (r = Val (Next (false, None)) -> attempts = [] /\ error_str = None).
Proof.
  induction attempts as [|attempt rest IH]; intros error_str d.
  - exists (Val (Next (false, error_str))), d, [].
    split; [reflexivity|]. split; [discriminate|]. split; [discriminate|].
    intros H. split; congruence.
  - rewrite comcu_attempts_cons.
    destruct (comcu_attempt_total attempt d)
      as (e & d1 & ev1 & -> & Hdiv & He).
    destruct e as [[error_str'| |b]|x|]; [| | | |congruence].
    + destruct (IH (Some error_str') d1)
        as (r & d2 & ev2 & -> & Hd & Hr & Hnone).
      exists r, d2, (ev1 ++ ev2)%list.
      split; [reflexivity|]. split; [exact Hd|]. split; [exact Hr|].
      intros H. destruct (Hnone H) as [_ Habs]. discriminate.
    + eexists _, _, _. split; [reflexivity|]. repeat split; discriminate.
    + eexists _, _, _. split; [reflexivity|].
      split; [discriminate|]. split; [congruence|discriminate].
    + eexists _, _, _. split; [reflexivity|]. repeat split; discriminate.
Qed.

Lemma comcu_after_attempts_total r d :
  r <> Return true -> r <> Next (false, None) ->
  exists b d' evs,
    comcu_after_attempts dev fuel r d = (Val b, d', evs) /\
    (b = true ->
     exists d0 before,
       get_bootloader_mode dev d0 = (Returns BOOTLOADER_MODE_FIRMWARE, d') /\
       evs = (before ++ [EvCall CGetBootloaderMode])%list).
Proof.
  intros Hr Hnone. unfold comcu_after_attempts.
  destruct r as [[flash_success error_str]|b].
  - destruct flash_success; cbn [negb].
    + destruct (wait_loop_trace dev fuel BOOTLOADER_MODE_FIRMWARE 0 d)
        as (confirmed & d1 & k & Hwait & _); [lia|lia|].
      unfold wait_for_comcu_bootloader_mode. run. rewrite Hwait.
      destruct confirmed; cbn [negb].
      * eexists _, _, _. split; [reflexivity|]. intros _.
        destruct (wait_loop_sound dev _ _ _ _ _ _ _ Hwait)
          as (d0 & before & Hget & Hevs).
        exists d0, before. split; [exact Hget|].
        rewrite app_nil_r. exact Hevs.
      * eexists _, _, _. split; [reflexivity|discriminate].
    + destruct error_str as [error_str|]; [|congruence].
      run. eexists _, _, _. split; [reflexivity|discriminate].
  - destruct b; [congruence|].
    run. eexists _, _, _. split; [reflexivity|discriminate].
Qed.

Lemma comcu_flash_total d :
  exists r d' evs,
    comcu_flash dev fuel plugin name d = (r, d', evs) /\
    r <> Diverge /\
    (r = Val true ->
     exists d0 before,
       get_bootloader_mode dev d0 = (Returns BOOTLOADER_MODE_FIRMWARE, d') /\
       evs = (before ++ [EvCall CGetBootloaderMode])%list).
Proof.
  unfold comcu_flash.
  destruct (find_regular_plugin_upto plugin =? -1).
  { run. eexists _, _, _. split; [reflexivity|]. split; discriminate. }
  destruct (negb (Py.len plugin mod XMC1_PAGE_SIZE =? 0)).
  { run. eexists _, _, _. split; [reflexivity|]. split; discriminate. }
  change (Py.range 0 2) with [0; 1].
  destruct (comcu_attempts_total [0; 1] None d)
    as (r & d1 & e1 & Heq & Hdiv & Hr & Hn).
  unfold bind at 1. rewrite Heq.
  destruct r as [r|x|]; [| |congruence].
  - destruct (comcu_after_attempts_total r d1) as (b & d2 & e2 & Hafter & Hb).
    { congruence. }
    { intros H. subst r. destruct (Hn eq_refl) as [Habs _]. discriminate. }
    rewrite Hafter.
    exists (Val b), d2, (e1 ++ e2)%list. split; [reflexivity|].
    split; [discriminate|].
    intros Htrue. assert (b = true) by congruence.
    destruct (Hb H) as (d0 & before & Hget & ->).
    exists d0, (e1 ++ before)%list. split; [exact Hget|].
    rewrite app_assoc. reflexivity.
  - eexists _, _, _. split; [reflexivity|]. split; discriminate.
Qed.

End ComcuTotal.

(** X8. [write_bricklet_plugin_comcu] always comes back with [True] or
    [False]: no exception of the device or of the archive reader gets
    through, and no loop runs on, whatever the device answers.  It returns
    [True] only when the very last thing it did was a [get_bootloader_mode]
    request that the device answered with firmware mode. *)
Theorem comcu_always_answers
  {D : Type} (dev : Device D) (fuel : nat)
  (zipfile_ZipFile : Py.bytes -> reply ZipFile) (zip_file : Py.bytes)
  (name : string) (d : D)
  (Hfuel : (11 <= fuel)%nat)
  (Hsize : forall zf entry plugin,
     zipfile_ZipFile zip_file = Returns zf ->
     find_firmware zf (namelist zf) name = Returns (entry, Some plugin) ->
     Py.len plugin <= XMC1_PAGE_SIZE * (Z.of_nat fuel - 1)) :
  exists b d' evs,
    write_bricklet_plugin_comcu dev fuel zipfile_ZipFile zip_file name d
      = (Val b, d', evs) /\
    (b = true ->
     exists d0 before,
       get_bootloader_mode dev d0 = (Returns BOOTLOADER_MODE_FIRMWARE, d') /\
       evs = (before ++ [EvCall CGetBootloaderMode])%list).
Proof.
  unfold write_bricklet_plugin_comcu, report_exception. run.
  destruct (zipfile_ZipFile zip_file) as [zf|e] eqn:Hzip.
  - destruct (find_firmware zf (namelist zf) name) as [[entry [plugin|]]|e]
      eqn:Hfind.
    + destruct (comcu_flash_total dev fuel Hfuel plugin
                  (Hsize zf entry plugin eq_refl Hfind) entry d)
        as (r & d' & evs & Heq & Hdiv & Hb).
      rewrite Heq.
      destruct r as [b|x|]; [| |congruence].
      * exists b, d', (starting_bootloader_mode ++ evs)%list.
        split; [reflexivity|].
        intros Htrue. subst b.
        destruct (Hb eq_refl) as (d0 & before & Hget & ->).
        exists d0, (starting_bootloader_mode ++ before)%list.
        split; [exact Hget|]. rewrite <- app_assoc. reflexivity.
      * eexists _, _, _. split; [reflexivity|discriminate].
    + eexists _, _, _. split; [reflexivity|discriminate].
    + eexists _, _, _. split; [reflexivity|discriminate].
  - destruct (is_Exception e);
      eexists _, _, _; (split; [reflexivity|discriminate]).
Qed.

(** ** Co-MCU: answers to the change to firmware mode that are final *)

Lemma comcu_check_mode_ret_final {D : Type} (status : Z) (d : D) :
  status <> 0 -> status <> 2 -> status <> 5 ->
  comcu_check_mode_ret (Some status) d
  = (Val (ReturnFrom false), d,
     failure_report "Bricklet"
       ("Could not change from bootloader mode to firmware mode: " +++
        comcu_error_str status)).
Proof.
  intros H0 H2 H5. unfold comcu_check_mode_ret.
  apply Z.eqb_neq in H0, H2, H5. rewrite H0, H2, H5. reflexivity.
Qed.

(** X9. [write_bricklet_plugin_comcu] after a first attempt that got
    through the page loop: only a CRC mismatch (status 5) is retried.  Any
    other status but 0 and 2 ends the operation with [False] and 'Could not
    change from bootloader mode to firmware mode: <text>', the text being
    'Invalid mode (Error 1)', 'Entry function not present (Error 3)',
    'Device identifier incorrect (Error 4)' or 'Error <status>'; a request
    that is never answered, and a device that accepts (status 0 or 2) but
    never reports firmware mode, both end it with 'Device did not enter
    firmware mode in 2.5 seconds'.  In each case nothing is written
    again. *)
Theorem only_a_crc_mismatch_is_retried
  {D : Type} (dev : Device D) (fuel : nat) (plugin : Py.bytes)
  (name : string) (d d1 : D) (e1 : list event)
  (Hmagic : find_regular_plugin_upto plugin <> -1)
  (Hlen : Py.len plugin mod XMC1_PAGE_SIZE = 0)
  (Hfirst : comcu_write_attempt dev fuel plugin (Py.len plugin) name 0 d
            = (Val (Next tt), d1, e1)) :
  (forall status d2 e2,
     set_comcu_bootloader_mode dev fuel BOOTLOADER_MODE_FIRMWARE d1
       = (Val (Some status), d2, e2) ->
     status <> 0 -> status <> 2 -> status <> 5 ->
     comcu_flash dev fuel plugin name d
     = (Val false, d2,
        (e1 ++ leaving_bootloader 0 ++ e2 ++
         failure_report "Bricklet"
           ("Could not change from bootloader mode to firmware mode: " +++
            comcu_error_str status))%list)) /\
  (forall d2 e2,
     set_comcu_bootloader_mode dev fuel BOOTLOADER_MODE_FIRMWARE d1
       = (Val None, d2, e2) ->
     comcu_flash dev fuel plugin name d
     = (Val false, d2,
        (e1 ++ leaving_bootloader 0 ++ e2 ++
         failure_report "Bricklet"
           "Device did not enter firmware mode in 2.5 seconds")%list)) /\
  (forall status d2 e2 d3 e3,
     set_comcu_bootloader_mode dev fuel BOOTLOADER_MODE_FIRMWARE d1
       = (Val (Some status), d2, e2) ->
     status = 0 \/ status = 2 ->
     wait_for_comcu_bootloader_mode dev fuel BOOTLOADER_MODE_FIRMWARE d2
       = (Val false, d3, e3) ->
     comcu_flash dev fuel plugin name d
     = (Val false, d3,
        (e1 ++ leaving_bootloader 0 ++ e2 ++ e3 ++
         failure_report "Bricklet"
           "Device did not enter firmware mode in 2.5 seconds")%list)) /\
  (comcu_error_str 1 = "Invalid mode (Error 1)"%string /\
   comcu_error_str 3 = "Entry function not present (Error 3)"%string /\
   comcu_error_str 4 = "Device identifier incorrect (Error 4)"%string /\
   forall status,
     status <> 1 -> status <> 3 -> status <> 4 -> status <> 5 ->
     comcu_error_str status = ("Error " +++ Py.str status)).
Proof.
  rewrite comcu_flash_attempts by assumption.
  split; [|split; [|split]].
  - intros status d2 e2 Hmode H0 H2 H5.
    unfold bind at 1. rewrite comcu_attempts_cons.
    rewrite (comcu_attempt_run dev fuel _ _ _ _ _ _ _ _ _ _ Hfirst Hmode).
    rewrite comcu_check_mode_ret_final by assumption.
    unfold comcu_after_attempts. run.
    rewrite ?app_nil_r, <- ?app_assoc. reflexivity.
  - intros d2 e2 Hmode.
    unfold bind at 1. rewrite comcu_attempts_cons.
    rewrite (comcu_attempt_run dev fuel _ _ _ _ _ _ _ _ _ _ Hfirst Hmode).
    unfold comcu_check_mode_ret, comcu_after_attempts. run.
    rewrite ?app_nil_r, <- ?app_assoc. reflexivity.
  - intros status d2 e2 d3 e3 Hmode Hstatus Hwait.
    unfold bind at 1. rewrite comcu_attempts_cons.
    rewrite (comcu_attempt_run dev fuel _ _ _ _ _ _ _ _ _ _ Hfirst Hmode).
    rewrite comcu_check_mode_ret_ok by assumption.
    unfold comcu_after_attempts. run. cbn [negb]. rewrite Hwait. cbn [negb].
    rewrite ?app_nil_r, <- ?app_assoc. reflexivity.
  - split; [reflexivity|]. split; [reflexivity|]. split; [reflexivity|].
    intros status H1 H3 H4 H5. unfold comcu_error_str.
    apply Z.eqb_neq in H1, H3, H4, H5. rewrite H1, H3, H4, H5. reflexivity.
Qed.

(** ** TNG modules *)

Lemma pointers_of_progress p evs :
  pointers_of (EvProgress p :: evs) = pointers_of evs.
Proof. reflexivity. Qed.

Lemma pointers_of_popup_fail t m evs :
  pointers_of (EvPopupFail t m :: evs) = pointers_of evs.
Proof. reflexivity. Qed.

Lemma failures_of_popup_fail t m evs :
  failures_of (EvPopupFail t m :: evs) = (t, m) :: failures_of evs.
Proof. reflexivity. Qed.

Lemma count_occ_repeat_le (x p : Z) (k : nat) :
  (count_occ Z.eq_dec (repeat x k) p <= k)%nat.
Proof.
  induction k as [|k IH]; [reflexivity|].
  cbn [repeat count_occ]. destruct (Z.eq_dec x p); lia.
Qed.

Lemma count_occ_repeat_other (x p : Z) (k : nat) :
  x <> p -> count_occ Z.eq_dec (repeat x k) p = 0%nat.
Proof.
  intros Hx. induction k as [|k IH]; [reflexivity|].
  cbn [repeat count_occ]. destruct (Z.eq_dec x p); [contradiction|exact IH].
Qed.

Section TngBlocks.

Context {D : Type}.
Variable dev : Device D.
Variable plugin : Py.bytes.

Lemma tng_block_written position before after :
  block_written (before ++ tng_try_pointer position :: tng_try_data plugin position :: after)
                plugin (position * 64).
Proof.
  exists before, after. unfold tng_try_pointer, tng_try_data.
  replace ((position + 1) * 64) with (position * 64 + 64) by lia.
  reflexivity.
Qed.

Lemma tng_report_next position rest r prefix e2 (k : nat) :
  (forall c, In c (calls_of prefix) -> is_write_call c) ->
  pointers_of prefix = repeat (position * 64) k -> (k <= 2)%nat ->
  failures_of prefix = [] ->
  block_written prefix plugin (position * 64) ->
  tng_report rest plugin r e2 ->
  tng_report (position :: rest) plugin r
    (prefix ++ EvProgress (setValue position) :: e2).
Proof.
  intros Hcalls Hpointers Hk Hquiet Hblock (Hc & Hcount & Hnext & Hfail).
  split; [|split; [|split]].
  - intros c Hin. apply in_calls_of_app in Hin.
    rewrite calls_of_progress in Hin.
    destruct Hin as [Hin|Hin]; [exact (Hcalls _ Hin)|exact (Hc _ Hin)].
  - intros p. rewrite pointers_of_app, pointers_of_progress, Hpointers.
    rewrite count_occ_app. cbn [map count_occ]. specialize (Hcount p).
    destruct (Z.eq_dec (position * 64) p) as [Heq|Hneq].
    + pose proof (count_occ_repeat_le (position * 64) p k). lia.
    + rewrite (count_occ_repeat_other _ _ _ Hneq). lia.
  - intros Hr. destruct (Hnext Hr) as (Hq & Hall). split.
    + rewrite failures_of_app, failures_of_progress, Hquiet, Hq. reflexivity.
    + intros i [<-|Hi].
      * apply block_written_app_r. exact Hblock.
      * apply block_written_app_l, block_written_cons. exact (Hall _ Hi).
  - intros Hr. destruct (Hfail Hr) as (before & e & -> & Hb).
    exists (prefix ++ EvProgress (setValue position) :: before)%list, e.
    split; [rewrite <- app_assoc; reflexivity|].
    rewrite failures_of_app, failures_of_progress, Hquiet, Hb. reflexivity.
Qed.

Lemma tng_report_failed position rest prefix e (k : nat) :
  (forall c, In c (calls_of prefix) -> is_write_call c) ->
  pointers_of prefix = repeat (position * 64) k -> (k <= 2)%nat ->
  failures_of prefix = [] ->
  tng_report (position :: rest) plugin (Val (Return false))
    (prefix ++
     failure_report "TNG Module" ("Could not write firmware: " +++ exn_text e)).
Proof.
  intros Hcalls Hpointers Hk Hquiet.
  split; [|split; [|split]].
  - intros c Hin. apply in_calls_of_app in Hin.
    destruct Hin as [Hin|[]]. exact (Hcalls _ Hin).
  - intros p. rewrite pointers_of_app, Hpointers.
    rewrite count_occ_app. cbn [map count_occ].
    replace (pointers_of
               (failure_report "TNG Module"
                  ("Could not write firmware: " +++ exn_text e)))
      with (@nil Z) by reflexivity.
    cbn [count_occ].
    destruct (Z.eq_dec (position * 64) p) as [Heq|Hneq].
    + pose proof (count_occ_repeat_le (position * 64) p k). lia.
    + rewrite (count_occ_repeat_other _ _ _ Hneq). lia.
  - discriminate.
  - intros _. exists prefix, e. split; [reflexivity|exact Hquiet].
Qed.

Lemma tng_report_raised position rest prefix x (k : nat) :
  (forall c, In c (calls_of prefix) -> is_write_call c) ->
  pointers_of prefix = repeat (position * 64) k -> (k <= 2)%nat ->
  tng_report (position :: rest) plugin (Raise x) prefix.
Proof.
  intros Hcalls Hpointers Hk.
  split; [exact Hcalls|]. split; [|split; discriminate].
  intros p. rewrite Hpointers. cbn [map count_occ].
  destruct (Z.eq_dec (position * 64) p) as [Heq|Hneq].
  - pose proof (count_occ_repeat_le (position * 64) p k). lia.
  - rewrite (count_occ_repeat_other _ _ _ Hneq). lia.
Qed.

Lemma tng_write_blocks_report :
  forall index_list d r d' evs,
  tng_write_blocks dev index_list plugin d = (r, d', evs) ->
  tng_report index_list plugin r evs.
Proof.
  induction index_list as [|position rest IH]; intros d r d' evs Hrun.
  - cbn [tng_write_blocks] in Hrun. run in Hrun.
    injection Hrun as <- <- <-.
    split; [intros c []|]. split; [intros p; cbn; lia|].
    split; [intros _; split; [reflexivity|intros i []]|discriminate].
  - cbn [tng_write_blocks] in Hrun. unfold tng_write_block in Hrun.
    run in Hrun.
    fold (tng_try_pointer position) in Hrun. fold (tng_try_data plugin position) in Hrun.
    assert (Hnext : forall prefix (k : nat) d0,
      (forall c, In c (calls_of prefix) -> is_write_call c) ->
      pointers_of prefix = repeat (position * 64) k -> (k <= 2)%nat ->
      failures_of prefix = [] ->
      block_written prefix plugin (position * 64) ->
      (let '(r2, d2, e2) := tng_write_blocks dev rest plugin d0 in
       (r2, d2, (prefix ++ EvProgress (setValue position) :: e2)%list))
      = (r, d', evs) ->
      tng_report (position :: rest) plugin r evs).
    { intros prefix k d0 H1 H2 H3 H4 H5 Heq.
      destruct (tng_write_blocks dev rest plugin d0) as [[r2 d2] e2] eqn:Hrest.
      injection Heq as <- <- <-.
      exact (tng_report_next position rest r2 prefix e2 k H1 H2 H3 H4 H5
               (IH _ _ _ _ Hrest)). }
    destruct (set_write_firmware_pointer dev (position * 64) d)
      as [[[]|x1] d1].
    + destruct (write_firmware dev
                  (Py.slice plugin (position * 64) ((position + 1) * 64)) d1)
        as [[s1|y1] d2].
      * apply (Hnext [tng_try_pointer position; tng_try_data plugin position] 1%nat d2);
          try reflexivity; try lia.
        -- intros c [<-|[<-|[]]]; exact I.
        -- exact (tng_block_written position [] []).
        -- destruct (tng_write_blocks dev rest plugin d2) as [[r2 d3] e2].
           exact Hrun.
      * destruct (set_write_firmware_pointer dev (position * 64) d2)
          as [[[]|x2] d3].
        -- destruct (write_firmware dev
                       (Py.slice plugin (position * 64) ((position + 1) * 64))
                       d3) as [[s2|y2] d4].
           ++ apply (Hnext [tng_try_pointer position; tng_try_data plugin position;
                            tng_try_pointer position; tng_try_data plugin position] 2%nat d4);
                try reflexivity; try lia.
              ** intros c [<-|[<-|[<-|[<-|[]]]]]; exact I.
              ** exact (tng_block_written position [] _).
              ** destruct (tng_write_blocks dev rest plugin d4)
                   as [[r2 d5] e2].
                 exact Hrun.
           ++ destruct (is_Exception y2); injection Hrun as <- <- <-.
              ** apply (tng_report_failed position rest
                          [tng_try_pointer position; tng_try_data plugin position;
                           tng_try_pointer position; tng_try_data plugin position] y2 2%nat);
                   try reflexivity; try lia.
                 intros c [<-|[<-|[<-|[<-|[]]]]]; exact I.
              ** apply (tng_report_raised position rest
                          [tng_try_pointer position; tng_try_data plugin position;
                           tng_try_pointer position; tng_try_data plugin position] y2 2%nat);
                   try reflexivity; try lia.
                 intros c [<-|[<-|[<-|[<-|[]]]]]; exact I.
        -- destruct (is_Exception x2); injection Hrun as <- <- <-.
           ++ apply (tng_report_failed position rest
                       [tng_try_pointer position; tng_try_data plugin position;
                        tng_try_pointer position] x2 2%nat);
                try reflexivity; try lia.
              intros c [<-|[<-|[<-|[]]]]; exact I.
           ++ apply (tng_report_raised position rest
                       [tng_try_pointer position; tng_try_data plugin position;
                        tng_try_pointer position] x2 2%nat);
                try reflexivity; try lia.
              intros c [<-|[<-|[<-|[]]]]; exact I.
    + destruct (set_write_firmware_pointer dev (position * 64) d1)
        as [[[]|x2] d3].
      * destruct (write_firmware dev
                    (Py.slice plugin (position * 64) ((position + 1) * 64))
                    d3) as [[s2|y2] d4].
        -- apply (Hnext [tng_try_pointer position;
                         tng_try_pointer position; tng_try_data plugin position] 2%nat d4);
             try reflexivity; try lia.
           ++ intros c [<-|[<-|[<-|[]]]]; exact I.
           ++ exact (tng_block_written position [tng_try_pointer position] []).
           ++ destruct (tng_write_blocks dev rest plugin d4) as [[r2 d5] e2].
              exact Hrun.
        -- destruct (is_Exception y2); injection Hrun as <- <- <-.
           ++ apply (tng_report_failed position rest
                       [tng_try_pointer position;
                        tng_try_pointer position; tng_try_data plugin position] y2 2%nat);
                try reflexivity; try lia.
              intros c [<-|[<-|[<-|[]]]]; exact I.
           ++ apply (tng_report_raised position rest
                       [tng_try_pointer position;
                        tng_try_pointer position; tng_try_data plugin position] y2 2%nat);
                try reflexivity; try lia.
              intros c [<-|[<-|[<-|[]]]]; exact I.
      * destruct (is_Exception x2); injection Hrun as <- <- <-.
        -- apply (tng_report_failed position rest
                    [tng_try_pointer position; tng_try_pointer position] x2 2%nat);
             try reflexivity; try lia.
           intros c [<-|[<-|[]]]; exact I.
        -- apply (tng_report_raised position rest
                    [tng_try_pointer position; tng_try_pointer position] x2 2%nat);
             try reflexivity; try lia.
           intros c [<-|[<-|[]]]; exact I.
Qed.

End TngBlocks.

Lemma in_range a b i : In i (Py.range a b) <-> a <= i < b.
Proof.
  unfold Py.range. rewrite in_map_iff. split.
  - intros (k & <- & Hk). apply in_seq in Hk. lia.
  - intros Hi. exists (Z.to_nat (i - a)). split; [lia|].
    apply in_seq. lia.
Qed.

Lemma len_range a b : Py.len (Py.range a b) = Z.max 0 (b - a).
Proof. unfold Py.len, Py.range. rewrite length_map, length_seq. lia. Qed.

Lemma NoDup_range_blocks n :
  NoDup (map (fun i : Z => i * 64) (Py.range 0 n)).
Proof.
  unfold Py.range. rewrite map_map.
  generalize (Z.to_nat (n - 0)) as k. generalize 0%nat as a.
  intros a k. revert a.
  induction k as [|k IH]; intros a; cbn [seq map]; constructor.
  - rewrite in_map_iff. intros (x & Hx & Hin). apply in_seq in Hin. lia.
  - apply IH.
Qed.

Section TngFirmware.

Context {D : Type}.
Variable dev : Device D.

(** The padding of lines 1394-1396 and the block loop over the padded
    image. *)
Lemma tng_write_firmware_padded plugin name d :
  exists padding,
    0 <= padding < 64 /\
    (Py.len plugin + padding) mod 64 = 0 /\
    Py.len (plugin ++ Py.zeros padding) = Py.len plugin + padding /\
    tng_write_firmware dev plugin name d
    = (let '(r, d', evs) :=
         tng_write_blocks dev
           (Py.range 0 ((Py.len plugin + padding) / 64))
           (plugin ++ Py.zeros padding)%list d in
       (r, d',
        (tng_label name (Py.len (Py.range 0 ((Py.len plugin + padding) / 64)))
         ++ evs)%list)).
Proof.
  unfold tng_write_firmware. run.
  pose proof (Z.mod_pos_bound (Py.len plugin) 64 ltac:(lia)) as Hrest.
  destruct (Py.len plugin mod 64 =? 0) eqn:Hzero; cbn [negb].
  - apply Z.eqb_eq in Hzero. exists 0.
    split; [lia|]. split; [rewrite Z.add_0_r; exact Hzero|].
    change (Py.zeros 0) with (@nil byte). rewrite app_nil_r, Z.add_0_r.
    split; [reflexivity|].
    destruct (tng_write_blocks dev (Py.range 0 (Py.len plugin / 64)) plugin d)
      as [[r d'] evs].
    reflexivity.
  - apply Z.eqb_neq in Hzero. exists (64 - Py.len plugin mod 64).
    assert (Hlen : Py.len (plugin ++ Py.zeros (64 - Py.len plugin mod 64))
                   = Py.len plugin + (64 - Py.len plugin mod 64)).
    { rewrite len_app, len_zeros by lia. reflexivity. }
    split; [lia|]. split.
    + rewrite Z.add_sub_assoc, Zminus_mod, Zmod_mod, <- Zminus_mod.
      replace (Py.len plugin + 64 - Py.len plugin) with (1 * 64) by lia.
      apply Z_mod_mult.
    + split; [exact Hlen|]. rewrite Hlen.
      destruct (tng_write_blocks dev _ _ d) as [[r d'] evs].
      reflexivity.
Qed.

Lemma tng_write_firmware_report plugin name d r d' evs :
  tng_write_firmware dev plugin name d = (r, d', evs) ->
  exists padding,
    0 <= padding < 64 /\
    (Py.len plugin + padding) mod 64 = 0 /\
    tng_report (Py.range 0 ((Py.len plugin + padding) / 64))
               (plugin ++ Py.zeros padding) r evs.
Proof.
  intros Hrun.
  destruct (tng_write_firmware_padded plugin name d)
    as (padding & Hpad & Hmod & _ & Heq).
  exists padding. split; [exact Hpad|]. split; [exact Hmod|].
  rewrite Heq in Hrun.
  destruct (tng_write_blocks dev _ _ d) as [[r2 d2] e2] eqn:Hblocks.
  assert (r = r2 /\ d' = d2 /\
          evs = (tng_label name
                   (Py.len (Py.range 0 ((Py.len plugin + padding) / 64)))
                 ++ e2)%list)
    as (-> & -> & ->) by (repeat split; congruence).
  destruct (tng_write_blocks_report dev _ _ _ _ _ _ Hblocks)
    as (Hc & Hcount & Hnext & Hfail).
  split; [|split; [|split]].
  - intros c Hin. apply in_calls_of_app in Hin.
    destruct Hin as [[]|Hin]. exact (Hc _ Hin).
  - intros p. rewrite pointers_of_app. exact (Hcount p).
  - intros Hr. destruct (Hnext Hr) as (Hq & Hall). split.
    + rewrite failures_of_app, Hq. reflexivity.
    + intros i Hi. apply block_written_app_l. exact (Hall i Hi).
  - intros Hr. destruct (Hfail Hr) as (before & e & -> & Hb).
    eexists (_ ++ before)%list, e. split.
    + rewrite <- app_assoc. reflexivity.
    + rewrite failures_of_app, Hb. reflexivity.
Qed.

End TngFirmware.

(** X10. [write_bricklet_plugin_tng] sends the whole firmware: the image
    is filled with fewer than 64 zero bytes up to the next multiple of 64,
    and when the block loop gets through, every 64-byte block of the padded
    image has been sent (pointer to the block, then its data) and no
    failure has been reported; the write pointer is never set outside the
    padded image or off a block boundary. *)
Theorem tng_sends_every_block_of_the_padded_image
  {D : Type} (dev : Device D) (plugin : Py.bytes) (name : string) (d : D) :
  exists padding,
    0 <= padding < 64 /\
    (Py.len plugin + padding) mod 64 = 0 /\
    (forall p,
       In p (pointers_of (snd (tng_write_firmware dev plugin name d))) ->
       exists i, 0 <= i /\ p = 64 * i /\ p < Py.len plugin + padding) /\
    (forall d1 e1,
       tng_write_firmware dev plugin name d = (Val (Next tt), d1, e1) ->
       failures_of e1 = [] /\
       forall i, 0 <= i -> 64 * i < Py.len plugin + padding ->
         block_written e1 (plugin ++ Py.zeros padding) (64 * i)).
Proof.
  destruct (tng_write_firmware dev plugin name d) as [[r d'] evs] eqn:Hrun.
  destruct (tng_write_firmware_report dev plugin name d r d' evs Hrun)
    as (padding & Hpad & Hmod & Hc & Hcount & Hnext & _).
  exists padding. split; [exact Hpad|]. split; [exact Hmod|].
  pose proof (len_nonneg plugin) as Hlen.
  assert (Hdiv : Py.len plugin + padding
                 = 64 * ((Py.len plugin + padding) / 64))
    by (apply Z_div_exact_full_2; [lia|exact Hmod]).
  split.
  - cbn [snd]. intros p Hp.
    apply (count_occ_In Z.eq_dec) in Hp. specialize (Hcount p).
    assert (Hin : In p (map (fun i : Z => i * 64)
                          (Py.range 0 ((Py.len plugin + padding) / 64)))).
    { apply (count_occ_In Z.eq_dec). lia. }
    apply in_map_iff in Hin. destruct Hin as (i & <- & Hi).
    apply in_range in Hi. exists i. lia.
  - intros d1 e1 Heq.
    assert (r = Val (Next tt) /\ evs = e1) as [-> ->] by (split; congruence).
    destruct (Hnext eq_refl) as (Hq & Hall).
    split; [exact Hq|]. intros i Hi Hlt.
    replace (64 * i) with (i * 64) by lia.
    apply Hall. apply in_range. lia.
Qed.

(** X11. [write_bricklet_plugin_tng] tries a block at most twice: in no
    run is the write pointer set to the same block more than two times.
    When a block fails both times, the method reports 'Could not write
    firmware: <exception>' under the title 'TNG Module', returns [False],
    and neither [copy_firmware] nor [reset] is requested. *)
Theorem tng_block_tried_at_most_twice
  {D : Type} (dev : Device D) (plugin : Py.bytes) (name : string) (d : D) :
  (forall p,
     (count_occ Z.eq_dec (pointers_of (snd (tng_flash dev plugin name d))) p
      <= 2)%nat) /\
  (forall d1 e1,
     tng_write_firmware dev plugin name d = (Val (Return false), d1, e1) ->
     tng_flash dev plugin name d = (Val false, d1, e1) /\
     ~ In CCopyFirmware (calls_of e1) /\
     ~ In CReset (calls_of e1) /\
     exists before e,
       e1 = (before ++
             failure_report "TNG Module"
               ("Could not write firmware: " +++ exn_text e))%list /\
       failures_of before = []).
Proof.
  destruct (tng_write_firmware dev plugin name d) as [[r d'] evs] eqn:Hrun.
  destruct (tng_write_firmware_report dev plugin name d r d' evs Hrun)
    as (padding & Hpad & Hmod & Hc & Hcount & _ & Hfail).
  assert (Htwice : forall p, (count_occ Z.eq_dec (pointers_of evs) p <= 2)%nat).
  { intros p. specialize (Hcount p).
    pose proof (proj1 (NoDup_count_occ Z.eq_dec _)
                  (NoDup_range_blocks ((Py.len plugin + padding) / 64)) p).
    lia. }
  split.
  - intros p. unfold tng_flash. run. rewrite Hrun.
    destruct (tng_write_firmware_calls dev plugin name d r d' evs Hrun)
      as (_ & [->|[->|(x & -> & _)]]).
    + unfold tng_check_copy_status. run.
      destruct (copy_firmware dev d') as [[status|e] d2]; cbn [snd].
      * destruct (status =? 0).
        -- destruct (reset dev d2) as [[[]|e] d3]; cbn [snd];
             rewrite pointers_of_app, count_occ_app; cbn; specialize (Htwice p);
             lia.
        -- cbn [snd]. rewrite pointers_of_app, count_occ_app; cbn.
           specialize (Htwice p). lia.
      * rewrite pointers_of_app, count_occ_app; cbn. specialize (Htwice p).
        lia.
    + cbn [snd]. rewrite app_nil_r. exact (Htwice p).
    + cbn [snd]. exact (Htwice p).
  - intros d1 e1 Heq.
    assert (r = Val (Return false) /\ d' = d1 /\ evs = e1) as (-> & -> & ->)
      by (repeat split; congruence).
    split; [|split; [|split]].
    + unfold tng_flash. run. rewrite Hrun. rewrite app_nil_r. reflexivity.
    + intros Hin. exact (Hc _ Hin).
    + intros Hin. exact (Hc _ Hin).
    + exact (Hfail eq_refl).
Qed.

(** X12. [write_bricklet_plugin_tng] after the last block: an exception
    raised by [copy_firmware], or by [reset] after the device has accepted
    the firmware with status 0, is caught by the method-wide handler.  The
    dialog is cancelled, the exception goes to [sys.excepthook], the method
    returns [False], and no message box is shown. *)
Theorem tng_exception_after_writing_is_hooked
  {D : Type} (dev : Device D)
  (zipfile_ZipFile : Py.bytes -> reply ZipFile) (zip_file : Py.bytes)
  (name : string) (d d1 : D) (zf : ZipFile) (entry : string)
  (plugin : Py.bytes) (e1 : list event)
  (Hzip : zipfile_ZipFile zip_file = Returns zf)
  (Hfind : find_firmware zf (namelist zf) name = Returns (entry, Some plugin))
  (Hwrite : tng_write_firmware dev plugin entry d = (Val (Next tt), d1, e1)) :
  (forall e d2,
     copy_firmware dev d1 = (Raises e, d2) ->
     write_bricklet_plugin_tng dev zipfile_ZipFile zip_file name d
     = (Val false, d2,
        (starting_bootloader_mode ++ e1 ++
         [EvCall CCopyFirmware; EvProgress cancel; EvExcepthook e])%list)) /\
  (forall d2 e d3,
     copy_firmware dev d1 = (Returns 0, d2) ->
     reset dev d2 = (Raises e, d3) ->
     write_bricklet_plugin_tng dev zipfile_ZipFile zip_file name d
     = (Val false, d3,
        (starting_bootloader_mode ++ e1 ++
         [EvCall CCopyFirmware; EvCall CReset;
          EvProgress cancel; EvExcepthook e])%list)) /\
  (forall tail,
     failures_of tail = [] ->
     failures_of (starting_bootloader_mode ++ e1 ++ tail) = []).
Proof.
  split; [|split].
  - intros e d2 Hcopy.
    unfold write_bricklet_plugin_tng, report_exception, tng_flash. run.
    rewrite Hzip, Hfind, Hwrite, Hcopy.
    rewrite ?app_nil_r, <- ?app_assoc. reflexivity.
  - intros d2 e d3 Hcopy Hreset.
    unfold write_bricklet_plugin_tng, report_exception, tng_flash,
      tng_check_copy_status. run.
    rewrite Hzip, Hfind, Hwrite, Hcopy. cbn [Z.eqb]. rewrite Hreset.
    rewrite ?app_nil_r, <- ?app_assoc. reflexivity.
  - intros tail Htail.
    destruct (tng_write_firmware_report dev plugin entry d _ _ _ Hwrite)
      as (padding & _ & _ & _ & _ & Hnext & _).
    destruct (Hnext eq_refl) as (Hq & _).
    rewrite !failures_of_app, Hq, Htail. reflexivity.
Qed.

(** X13. [write_bricklet_plugin_tng] always comes back with [True] or
    [False], whatever the archive reader and the device do.  It returns
    [True] only when its last two requests were [copy_firmware] and
    [reset], and [reset] returned. *)
Theorem tng_always_answers
  {D : Type} (dev : Device D)
  (zipfile_ZipFile : Py.bytes -> reply ZipFile) (zip_file : Py.bytes)
  (name : string) (d : D) :
  exists b d' evs,
    write_bricklet_plugin_tng dev zipfile_ZipFile zip_file name d
      = (Val b, d', evs) /\
    (b = true ->
     exists d0 before,
       reset dev d0 = (Returns tt, d') /\
       evs = (before ++ [EvCall CCopyFirmware; EvCall CReset])%list).
Proof.
  unfold write_bricklet_plugin_tng, report_exception. run.
  destruct (zipfile_ZipFile zip_file) as [zf|e].
  2:{ destruct (is_Exception e);
        eexists _, _, _; (split; [reflexivity|discriminate]). }
  destruct (find_firmware zf (namelist zf) name) as [[entry [plugin|]]|e].
  2,3: eexists _, _, _; (split; [reflexivity|discriminate]).
  unfold tng_flash. run.
  destruct (tng_write_firmware dev plugin entry d) as [[r d1] e1] eqn:Hwrite.
  destruct (tng_write_firmware_calls dev plugin entry d r d1 e1 Hwrite)
    as (_ & [->|[->|(x & -> & _)]]).
  2,3: eexists _, _, _; (split; [reflexivity|discriminate]).
  destruct (copy_firmware dev d1) as [[status|e] d2].
  2:{ eexists _, _, _. split; [reflexivity|discriminate]. }
  unfold tng_check_copy_status. run.
  destruct (status =? 0).
  2:{ eexists _, _, _. split; [reflexivity|discriminate]. }
  destruct (reset dev d2) as [[[]|e] d3] eqn:Hreset.
  2:{ eexists _, _, _. split; [reflexivity|discriminate]. }
  eexists _, _, _. split; [reflexivity|]. intros _.
  exists d2, (starting_bootloader_mode ++ e1)%list.
  split; [exact Hreset|].
  rewrite ?app_nil_r, <- ?app_assoc. reflexivity.
Qed.

(** ** Classic Bricklets *)

Lemma classic_writes_only_write port :
  forall chunks position c,
  In c (classic_writes port position chunks) ->
  exists p chunk, c = CWriteBrickletPlugin port p chunk.
Proof.
  induction chunks as [|chunk rest IH]; intros position c Hin.
  - destruct Hin.
  - cbn [classic_writes] in Hin. destruct Hin as [<-|Hin].
    + eexists _, _. reflexivity.
    + exact (IH _ _ Hin).
Qed.

Lemma bytes_eqb_refl a : Py.bytes_eqb a a = true.
Proof.
  unfold Py.bytes_eqb. destruct (list_eq_dec byte_eq_dec a a); congruence.
Qed.

Section ClassicPasses.

Context {D : Type}.
Variable dev : Device D.

Lemma classic_write_chunks_app port :
  forall written rest position d d1 ev1,
  classic_write_chunks dev written port position d
    = (Val (Next tt), d1, ev1) ->
  classic_write_chunks dev (written ++ rest) port position d
  = (let '(r, d2, ev2) :=
       classic_write_chunks dev rest port (position + Py.len written) d1 in
     (r, d2, (ev1 ++ ev2)%list)).
Proof.
  induction written as [|chunk written IH]; intros rest position d d1 ev1.
  - cbn. intros [= <- <-]. rewrite Z.add_0_r.
    now destruct (classic_write_chunks dev rest port position d)
      as [[r d2] ev2].
  - cbn [classic_write_chunks app]. run.
    destruct (brick_write_bricklet_plugin dev port position chunk d)
      as [[[]|[e|t|t]] d0]; try discriminate;
      [|destruct (error_to_name e); discriminate].
    destruct (classic_write_chunks dev written port (position + 1) d0)
      as [[r2 d2] ev2] eqn:Hwritten.
    intros [= -> <- <-].
    rewrite (IH rest _ _ _ _ Hwritten).
    replace (position + 1 + Py.len written)
      with (position + Py.len (chunk :: written))
      by (unfold Py.len; cbn [List.length]; lia).
    destruct (classic_write_chunks dev rest port
                (position + Py.len (chunk :: written)) d2) as [[r3 d3] ev3].
    cbn [app]. reflexivity.
Qed.

End ClassicPasses.

(** The four values [error_to_name] has a name for; for every other value
    it raises [AttributeError]. *)
Lemma error_to_name_named (err : Error) :
  (exists text, error_to_name err = Returns text) <->
  (value err = TIMEOUT \/ value err = NOT_CONNECTED \/
   value err = INVALID_PARAMETER \/ value err = NOT_SUPPORTED).
Proof.
  unfold error_to_name. destruct (value err); split;
    try (intros _; eauto; tauto);
    try (intros [text H]; discriminate);
    intros [H|[H|[H|H]]]; discriminate.
Qed.

Lemma error_to_name_other (err : Error) code :
  value err = OTHER_ERROR code ->
  error_to_name err
  = Raises (Exception "'Error' object has no attribute 'message'").
Proof. intros H. unfold error_to_name. rewrite H. reflexivity. Qed.

(** X14. [write_bricklet_plugin_classic], write pass: a chunk whose write
    raises ends the method at once.  An [Error] of the bindings whose
    value [error_to_name] has a name for (TIMEOUT, NOT_CONNECTED,
    INVALID_PARAMETER, NOT_SUPPORTED) gives [False] and the message 'Could
    not write Bricklet plugin: <name>'.  For an [Error] with another value
    the handler cancels the dialog and [error_to_name] raises
    [AttributeError], which reaches the caller: no message box and no
    return value.  Any other exception is not caught and reaches the
    caller.  In every case no later chunk is written and nothing is read
    back. *)
Theorem classic_write_that_raises_ends_the_method
  {D : Type} (dev : Device D) (fuel : nat) (plugin : Py.bytes)
  (port name : string) (d : D)
  (written : list Py.bytes) (chunk : Py.bytes) (rest : list Py.bytes)
  (d1 : D) (ew : list event) (e : exn) (d2 : D)
  (Hsize : Py.len plugin <= 4084)
  (Hsplit : split_chunks fuel plugin [] 0 = Some (written ++ chunk :: rest)%list)
  (Hwritten : classic_write_chunks dev written port 0 d
              = (Val (Next tt), d1, ew))
  (Hraise : brick_write_bricklet_plugin dev port (Py.len written) chunk d1
            = (Raises e, d2)) :
  (forall err text,
     e = IsError err ->
     error_to_name err = Returns text ->
     write_bricklet_plugin_classic dev fuel plugin port name d
     = (Val (Some false), d2,
        (classic_prologue name (Py.len (written ++ chunk :: rest)) ++ ew ++
         EvCall (CWriteBrickletPlugin port (Py.len written) chunk) ::
         failure_report "Bricklet"
           ("Could not write Bricklet plugin: " +++ text))%list)) /\
  (forall err code,
     e = IsError err ->
     value err = OTHER_ERROR code ->
     write_bricklet_plugin_classic dev fuel plugin port name d
     = (Raise (Exception "'Error' object has no attribute 'message'"), d2,
        (classic_prologue name (Py.len (written ++ chunk :: rest)) ++ ew ++
         [EvCall (CWriteBrickletPlugin port (Py.len written) chunk);
          EvProgress cancel])%list)) /\
  ((forall err, e <> IsError err) ->
   write_bricklet_plugin_classic dev fuel plugin port name d
   = (Raise e, d2,
      (classic_prologue name (Py.len (written ++ chunk :: rest)) ++ ew ++
       [EvCall (CWriteBrickletPlugin port (Py.len written) chunk)])%list)) /\
  (forall err,
     (exists text, error_to_name err = Returns text) <->
     (value err = TIMEOUT \/ value err = NOT_CONNECTED \/
      value err = INVALID_PARAMETER \/ value err = NOT_SUPPORTED)) /\
  calls_of (snd (write_bricklet_plugin_classic dev fuel plugin port name d))
  = (classic_writes port 0 written ++
     [CWriteBrickletPlugin port (Py.len written) chunk])%list /\
  forall position,
    ~ In (CReadBrickletPlugin port position)
         (calls_of (snd (write_bricklet_plugin_classic dev fuel plugin port
                           name d))).
Proof.
  assert (Hrun : write_bricklet_plugin_classic dev fuel plugin port name d
    = (match e with
       | IsError err =>
           match error_to_name err with
           | Returns _ => Val (Some false)
           | Raises x => Raise x
           end
       | _ => Raise e
       end, d2,
       (classic_prologue name (Py.len (written ++ chunk :: rest)) ++ ew ++
        EvCall (CWriteBrickletPlugin port (Py.len written) chunk) ::
        match e with
        | IsError err =>
            EvProgress cancel ::
            match error_to_name err with
            | Returns text =>
                [EvPopupFail "Bricklet"
                   ("Could not write Bricklet plugin: " +++ text)]
            | Raises _ => []
            end
        | _ => []
        end)%list)).
  { rewrite (write_bricklet_plugin_classic_run dev fuel plugin port name _ d
               Hsize Hsplit).
    rewrite (classic_write_chunks_app dev port _ _ _ _ _ _ Hwritten).
    cbn [classic_write_chunks]. run. rewrite Z.add_0_l, Hraise.
    destruct e as [err|t|t]; [destruct (error_to_name err)| |];
      cbn [app]; reflexivity. }
  assert (Hcalls :
    calls_of (snd (write_bricklet_plugin_classic dev fuel plugin port name d))
    = (classic_writes port 0 written ++
       [CWriteBrickletPlugin port (Py.len written) chunk])%list).
  { rewrite Hrun. cbn [snd].
    rewrite !calls_of_app, calls_of_prologue, calls_of_call.
    destruct (classic_write_chunks_trace dev port _ _ _ _ _ _ Hwritten)
      as (_ & _ & _ & Hall).
    rewrite (Hall eq_refl).
    destruct e as [err|t|t]; [destruct (error_to_name err)| |]; reflexivity. }
  split; [|split; [|split; [|split; [|split]]]].
  - intros err text -> Hname. rewrite Hrun, Hname. reflexivity.
  - intros err code -> Hvalue.
    rewrite Hrun, (error_to_name_other err code Hvalue). reflexivity.
  - intros Hother. rewrite Hrun.
    destruct e as [err|t|t]; [destruct (Hother err eq_refl)| |]; reflexivity.
  - exact error_to_name_named.
  - exact Hcalls.
  - intros position Hin. rewrite Hcalls in Hin.
    apply in_app_or in Hin. destruct Hin as [Hin|[Hin|[]]].
    + apply classic_writes_only_write in Hin.
      destruct Hin as (p & c & Hc). discriminate.
    + discriminate.
Qed.

(** X15. [write_bricklet_plugin_classic], verification pass: a chunk
    whose read-back raises ends the method at once.  An [Error] of the
    bindings whose value [error_to_name] has a name for gives [False] and
    the message 'Could not read Bricklet plugin back for verification:
    <name>'.  For an [Error] with another value the handler cancels the
    dialog and [error_to_name] raises [AttributeError], which reaches the
    caller: no message box and no return value.  Any other exception is
    not caught and reaches the caller.  In every case no later chunk is
    read. *)
Theorem classic_read_back_that_raises_ends_the_method
  {D : Type} (dev : Device D) (fuel : nat) (plugin : Py.bytes)
  (port name : string) (d : D)
  (verified : list Py.bytes) (chunk : Py.bytes) (rest : list Py.bytes)
  (d1 : D) (ew : list event) (d2 : D) (ev : list event) (e : exn) (d3 : D)
  (Hsize : Py.len plugin <= 4084)
  (Hsplit : split_chunks fuel plugin [] 0 = Some (verified ++ chunk :: rest)%list)
  (Hwrite : classic_write_chunks dev (verified ++ chunk :: rest) port 0 d
            = (Val (Next tt), d1, ew))
  (Hverified : classic_verify_chunks dev verified port 0 d1
               = (Val (Next tt), d2, ev))
  (Hraise : brick_read_bricklet_plugin dev port (Py.len verified) d2
            = (Raises e, d3)) :
  (forall err text,
     e = IsError err ->
     error_to_name err = Returns text ->
     write_bricklet_plugin_classic dev fuel plugin port name d
     = (Val (Some false), d3,
        (classic_prologue name (Py.len (verified ++ chunk :: rest)) ++ ew ++
         classic_interlude name (Py.len (verified ++ chunk :: rest)) ++ ev ++
         EvCall (CReadBrickletPlugin port (Py.len verified)) ::
         failure_report "Bricklet"
           ("Could not read Bricklet plugin back for verification: " +++
            text))%list)) /\
  (forall err code,
     e = IsError err ->
     value err = OTHER_ERROR code ->
     write_bricklet_plugin_classic dev fuel plugin port name d
     = (Raise (Exception "'Error' object has no attribute 'message'"), d3,
        (classic_prologue name (Py.len (verified ++ chunk :: rest)) ++ ew ++
         classic_interlude name (Py.len (verified ++ chunk :: rest)) ++ ev ++
         [EvCall (CReadBrickletPlugin port (Py.len verified));
          EvProgress cancel])%list)) /\
  ((forall err, e <> IsError err) ->
   write_bricklet_plugin_classic dev fuel plugin port name d
   = (Raise e, d3,
      (classic_prologue name (Py.len (verified ++ chunk :: rest)) ++ ew ++
       classic_interlude name (Py.len (verified ++ chunk :: rest)) ++ ev ++
       [EvCall (CReadBrickletPlugin port (Py.len verified))])%list)) /\
  (forall err,
     (exists text, error_to_name err = Returns text) <->
     (value err = TIMEOUT \/ value err = NOT_CONNECTED \/
      value err = INVALID_PARAMETER \/ value err = NOT_SUPPORTED)) /\
  calls_of (snd (write_bricklet_plugin_classic dev fuel plugin port name d))
  = (classic_writes port 0 (verified ++ chunk :: rest) ++
     classic_reads port 0 verified ++
     [CReadBrickletPlugin port (Py.len verified)])%list.
Proof.
  assert (Hrun : write_bricklet_plugin_classic dev fuel plugin port name d
    = (match e with
       | IsError err =>
           match error_to_name err with
           | Returns _ => Val (Some false)
           | Raises x => Raise x
           end
       | _ => Raise e
       end, d3,
       (classic_prologue name (Py.len (verified ++ chunk :: rest)) ++ ew ++
        classic_interlude name (Py.len (verified ++ chunk :: rest)) ++ ev ++
        EvCall (CReadBrickletPlugin port (Py.len verified)) ::
        match e with
        | IsError err =>
            EvProgress cancel ::
            match error_to_name err with
            | Returns text =>
                [EvPopupFail "Bricklet"
                   ("Could not read Bricklet plugin back for verification: "
                    +++ text)]
            | Raises _ => []
            end
        | _ => []
        end)%list)).
  { rewrite (write_bricklet_plugin_classic_run dev fuel plugin port name _ d
               Hsize Hsplit).
    rewrite Hwrite.
    rewrite (classic_verify_chunks_app dev port _ _ _ _ _ _ Hverified).
    cbn [classic_verify_chunks]. run. rewrite Z.add_0_l, Hraise.
    destruct e as [err|t|t]; [destruct (error_to_name err)| |];
      cbn [app]; reflexivity. }
  split; [|split; [|split; [|split]]].
  - intros err text -> Hname. rewrite Hrun, Hname. reflexivity.
  - intros err code -> Hvalue.
    rewrite Hrun, (error_to_name_other err code Hvalue). reflexivity.
  - intros Hother. rewrite Hrun.
    destruct e as [err|t|t]; [destruct (Hother err eq_refl)| |]; reflexivity.
  - exact error_to_name_named.
  - rewrite Hrun. cbn [snd].
    rewrite !calls_of_app, calls_of_prologue, calls_of_interlude,
      calls_of_call.
    destruct (classic_write_chunks_trace dev port _ _ _ _ _ _ Hwrite)
      as (_ & _ & _ & Hallw).
    destruct (classic_verify_chunks_trace dev port _ _ _ _ _ _ Hverified)
      as (_ & _ & _ & Hallv).
    rewrite (Hallw eq_refl), (Hallv eq_refl).
    destruct e as [err|t|t]; [destruct (error_to_name err)| |]; reflexivity.
Qed.

(** *** A Brick that stores what it is given *)

Section ClassicStore.

Context {D : Type}.
Variable dev : Device D.
Variable port : string.

(** [good] holds of the states in which the Brick answers, [mem] is the
    plugin area of the port, chunk by chunk. *)
Variable good : D -> Prop.
Variable mem : D -> Z -> Py.bytes.

Hypothesis Hstore : forall d position chunk,
  good d ->
  exists d',
    brick_write_bricklet_plugin dev port position chunk d = (Returns tt, d') /\
    good d' /\
    mem d' position = chunk /\
    forall q, q <> position -> mem d' q = mem d q.

Hypothesis Hload : forall d position,
  good d ->
  exists d',
    brick_read_bricklet_plugin dev port position d
      = (Returns (mem d position), d') /\
    good d' /\
    forall q, mem d' q = mem d q.

Lemma classic_write_pass :
  forall chunks position d,
  good d ->
  exists d1 ew,
    classic_write_chunks dev chunks port position d = (Val (Next tt), d1, ew) /\
    good d1 /\
    (forall q, q < position -> mem d1 q = mem d q) /\
    (forall k chunk,
       nth_error chunks k = Some chunk ->
       mem d1 (position + Z.of_nat k) = chunk).
Proof.
  induction chunks as [|chunk rest IH]; intros position d Hgood.
  - exists d, []. split; [reflexivity|]. split; [exact Hgood|].
    split; [reflexivity|]. intros [|k] c H; discriminate.
  - destruct (Hstore d position chunk Hgood) as (d0 & Hw & Hgood0 & Hat & Hoff).
    destruct (IH (position + 1) d0 Hgood0) as (d1 & ew & Hrest & Hgood1 & Hlow
                                               & Hmem).
    cbn [classic_write_chunks]. run. rewrite Hw, Hrest.
    eexists _, _. split; [reflexivity|]. split; [exact Hgood1|]. split.
    + intros q Hq. rewrite Hlow by lia. apply Hoff. lia.
    + intros [|k] c Hnth.
      * cbn in Hnth. assert (c = chunk) by congruence. subst c.
        rewrite Z.add_0_r, Hlow by lia. exact Hat.
      * cbn [nth_error] in Hnth.
        replace (position + Z.of_nat (S k)) with (position + 1 + Z.of_nat k)
          by lia.
        exact (Hmem _ _ Hnth).
Qed.

Lemma classic_verify_pass :
  forall chunks position d,
  good d ->
  (forall k chunk,
     nth_error chunks k = Some chunk ->
     mem d (position + Z.of_nat k) = chunk) ->
  exists d2 ev,
    classic_verify_chunks dev chunks port position d = (Val (Next tt), d2, ev) /\
    good d2 /\
    forall q, mem d2 q = mem d q.
Proof.
  induction chunks as [|chunk rest IH]; intros position d Hgood Hmem.
  - exists d, []. split; [reflexivity|]. split; [exact Hgood|reflexivity].
  - destruct (Hload d position Hgood) as (d0 & Hr & Hgood0 & Hsame).
    assert (Hhere : mem d position = chunk).
    { rewrite <- (Hmem 0%nat chunk eq_refl). f_equal. lia. }
    destruct (IH (position + 1) d0 Hgood0) as (d2 & ev & Hrest & Hgood2 & Hsame2).
    { intros k c Hnth. rewrite Hsame.
      replace (position + 1 + Z.of_nat k) with (position + Z.of_nat (S k))
        by lia.
      exact (Hmem (S k) c Hnth). }
    cbn [classic_verify_chunks]. run. rewrite Hr, Hhere, bytes_eqb_refl.
    cbn [negb]. rewrite Hrest.
    eexists _, _. split; [reflexivity|]. split; [exact Hgood2|].
    intros q. rewrite Hsame2. apply Hsame.
Qed.

End ClassicStore.

(** X16. [write_bricklet_plugin_classic] on a Brick that stores what it
    is given (every write returns and is kept, every read returns what is
    kept): for every plugin of at most 4084 bytes the method returns
    [True] without any message box, and afterwards the plugin area holds
    the plugin in chunks of 32 bytes, in order from position 0, the last
    chunk filled up with zero bytes. *)
Theorem classic_round_trip_on_a_storing_brick
  {D : Type} (dev : Device D) (fuel : nat) (plugin : Py.bytes)
  (port name : string) (d : D)
  (good : D -> Prop) (mem : D -> Z -> Py.bytes)
  (Hstore : forall d position chunk,
     good d ->
     exists d',
       brick_write_bricklet_plugin dev port position chunk d
         = (Returns tt, d') /\
       good d' /\
       mem d' position = chunk /\
       forall q, q <> position -> mem d' q = mem d q)
  (Hload : forall d position,
     good d ->
     exists d',
       brick_read_bricklet_plugin dev port position d
         = (Returns (mem d position), d') /\
       good d' /\
       forall q, mem d' q = mem d q)
  (Hgood : good d)
  (Hsize : Py.len plugin <= 4084)
  (Hfuel : Py.len plugin <= 32 * (Z.of_nat fuel - 1)) :
  exists d' evs plugin_chunks,
    write_bricklet_plugin_classic dev fuel plugin port name d
      = (Val (Some true), d', evs) /\
    failures_of evs = [] /\
    good d' /\
    List.concat plugin_chunks
    = (plugin ++ Py.zeros (32 * Py.len plugin_chunks - Py.len plugin))%list /\
    Forall (fun chunk => Py.len chunk = 32) plugin_chunks /\
    32 * Py.len plugin_chunks - Py.len plugin < 32 /\
    forall k chunk,
      nth_error plugin_chunks k = Some chunk -> mem d' (Z.of_nat k) = chunk.
Proof.
  pose proof (len_nonneg plugin) as Hlen.
  destruct (split_chunks_spec plugin fuel [] 0) as (chunks & Hsplit & Hcount
                                                    & Hall & Hconcat);
    [lia| unfold plugin_chunk_size; lia | lia |].
  cbn [app] in Hsplit. rewrite Z.sub_0_r in *.
  specialize (Hconcat Hlen). cbn [skipn Z.to_nat] in Hconcat.
  destruct (classic_write_pass dev port good mem Hstore chunks 0 d Hgood)
    as (d1 & ew & Hw & Hgood1 & _ & Hmem).
  destruct (classic_verify_pass dev port good mem Hload chunks 0 d1 Hgood1)
    as (d2 & ev & Hv & Hgood2 & Hsame).
  { intros k c Hnth. exact (Hmem k c Hnth). }
  exists d2,
    (classic_prologue name (Py.len chunks) ++ ew ++
     classic_interlude name (Py.len chunks) ++ ev)%list, chunks.
  split.
  { rewrite (write_bricklet_plugin_classic_run dev fuel plugin port name _ d
               Hsize Hsplit).
    rewrite Hw, Hv. reflexivity. }
  split.
  { rewrite !failures_of_app.
    rewrite (classic_write_chunks_quiet dev port _ _ _ _ _ Hw).
    rewrite (classic_verify_chunks_quiet dev port _ _ _ _ _ Hv).
    reflexivity. }
  split; [exact Hgood2|]. split; [exact Hconcat|]. split; [exact Hall|].
  split.
  { rewrite Z.max_r in Hcount by lia.
    pose proof (Z.div_mod (Py.len plugin + 31) 32 ltac:(lia)).
    pose proof (Z.mod_pos_bound (Py.len plugin + 31) 32 ltac:(lia)).
    unfold Py.len, Py.bytes in *. lia. }
  intros k c Hnth. rewrite Hsame.
  rewrite <- (Hmem k c Hnth). f_equal.
Qed.

(** ** UID *)

(** X17. [uid_save_clicked] once the entered UID has passed the checks.
    An [Error] raised by the write whose value [error_to_name] has a name
    for (TIMEOUT, NOT_CONNECTED, INVALID_PARAMETER, NOT_SUPPORTED) is
    reported as 'Could not write UID: <name>' and the UID is not read
    back; such an [Error] raised by the read-back is reported as 'Could
    not read written UID: <name>'; in both cases the handler ends normally
    and never claims success.  For an [Error] with another value
    [error_to_name] raises [AttributeError] inside the handler: no message
    box is shown and the exception leaves [uid_save_clicked].  An
    exception of the write that is not an [Error] is not caught. *)
Theorem uid_errors_are_reported
  {D : Type} (dev : Device D) (BASE58 : string)
  (base58decode : string -> reply Z) (base58encode : Z -> string)
  (uid port : string) (has_comcu is_tng : bool) (d : D) (decoded : Z)
  (Hvalid : uid_valid BASE58 base58decode uid)
  (Hdecoded : base58decode uid = Returns decoded) :
  (forall err d1,
     uid_write_reply dev uid port decoded (has_comcu || is_tng) d
       = (Raises (IsError err), d1) ->
     (forall text,
        error_to_name err = Returns text ->
        uid_save_clicked dev BASE58 base58decode base58encode
          uid port has_comcu is_tng d
        = (Val tt, d1,
           [EvCall (uid_write_call uid port decoded (has_comcu || is_tng));
            EvPopupFail "Bricklet" ("Could not write UID: " +++ text)])) /\
     (forall code,
        value err = OTHER_ERROR code ->
        uid_save_clicked dev BASE58 base58decode base58encode
          uid port has_comcu is_tng d
        = (Raise (Exception "'Error' object has no attribute 'message'"), d1,
           [EvCall (uid_write_call uid port decoded (has_comcu || is_tng))])))
  /\
  (forall d1 err d2 evr,
     uid_write_reply dev uid port decoded (has_comcu || is_tng) d
       = (Returns tt, d1) ->
     read_current_uid dev base58encode port has_comcu is_tng d1
       = (Raise (IsError err), d2, evr) ->
     (forall text,
        error_to_name err = Returns text ->
        uid_save_clicked dev BASE58 base58decode base58encode
          uid port has_comcu is_tng d
        = (Val tt, d2,
           EvCall (uid_write_call uid port decoded (has_comcu || is_tng)) ::
           (evr ++
            [EvPopupFail "Bricklet"
               ("Could not read written UID: " +++ text)])%list)) /\
     (forall code,
        value err = OTHER_ERROR code ->
        uid_save_clicked dev BASE58 base58decode base58encode
          uid port has_comcu is_tng d
        = (Raise (Exception "'Error' object has no attribute 'message'"), d2,
           EvCall (uid_write_call uid port decoded (has_comcu || is_tng)) ::
           evr)) /\
     ~ In uid_written_report
          (snd (uid_save_clicked dev BASE58 base58decode base58encode
                  uid port has_comcu is_tng d))) /\
  (forall x d1,
     uid_write_reply dev uid port decoded (has_comcu || is_tng) d
       = (Raises x, d1) ->
     (forall err, x <> IsError err) ->
     uid_save_clicked dev BASE58 base58decode base58encode
       uid port has_comcu is_tng d
     = (Raise x, d1,
        [EvCall (uid_write_call uid port decoded (has_comcu || is_tng))])) /\
  (forall err,
     (exists text, error_to_name err = Returns text) <->
     (value err = TIMEOUT \/ value err = NOT_CONNECTED \/
      value err = INVALID_PARAMETER \/ value err = NOT_SUPPORTED)).
Proof.
  destruct Hvalid as (Hne & Hall & w & Hw & Hle).
  assert (w = decoded) by congruence. subst w.
  unfold uid_save_clicked.
  destruct (Py.len (list_ascii_of_string uid) =? 0) eqn:Hempty.
  { apply uid_empty in Hempty. contradiction. }
  rewrite (proj2 (first_not_in_BASE58_none BASE58 _) Hall).
  rewrite Hdecoded.
  assert (Hlong : (decoded >? 4294967295) = false)
    by (rewrite Z.gtb_ltb; apply Z.ltb_ge; exact Hle).
  unfold uid_write_reply, uid_write_call.
  split; [|split; [|split]].
  - intros err d1 Hwrite. split.
    + intros text Hname. run. rewrite Hlong.
      destruct (has_comcu || is_tng); rewrite Hwrite; cbv beta iota;
        rewrite Hname; reflexivity.
    + intros code Hvalue. run. rewrite Hlong.
      destruct (has_comcu || is_tng); rewrite Hwrite; cbv beta iota;
        rewrite (error_to_name_other err code Hvalue); reflexivity.
  - intros d1 err d2 evr Hwrite Hread.
    match goal with
    | |- (forall text, _ -> ?run = _) /\ _ =>
        assert (Hrun : run
          = (match error_to_name err with
             | Returns _ => Val tt
             | Raises x => Raise x
             end, d2,
             EvCall (if has_comcu || is_tng
                     then CWriteUid decoded else CWriteBrickletUid port uid) ::
             (evr ++
              match error_to_name err with
              | Returns text =>
                  [EvPopupFail "Bricklet"
                     ("Could not read written UID: " +++ text)]
              | Raises _ => []
              end)%list))
    end.
    { run. rewrite Hlong.
      destruct (has_comcu || is_tng); rewrite Hwrite; cbv beta iota;
        rewrite Hread; destruct (error_to_name err);
        cbn [app]; rewrite ?app_nil_r; reflexivity. }
    rewrite Hrun. split; [|split].
    + intros text Hname. rewrite Hname. reflexivity.
    + intros code Hvalue. rewrite (error_to_name_other err code Hvalue).
      rewrite app_nil_r. reflexivity.
    + cbn [snd].
      intros [Hin|Hin]; [destruct (has_comcu || is_tng); discriminate|].
      apply in_app_or in Hin. destruct Hin as [Hin|Hin].
      * exact (read_current_uid_events dev base58encode port _ _ _ _ _ _
                 Hread _ _ Hin).
      * destruct (error_to_name err); [destruct Hin as [Hin|[]]|destruct Hin].
        discriminate.
  - intros x d1 Hwrite Hother. run. rewrite Hlong.
    destruct (has_comcu || is_tng); rewrite Hwrite;
      (destruct x as [err|t|t]; [destruct (Hother err eq_refl)| |]);
      reflexivity.
  - exact error_to_name_named.
Qed.

(** ** Devices that answer every request *)

Section Cooperative.

Context {D : Type}.
Variable dev : Device D.

(** [good] holds of the states in which the device answers, [mode_of] is
    the bootloader mode it is in. *)
Variable good : D -> Prop.
Variable mode_of : D -> Z.

Hypothesis Hset : forall d mode,
  good d ->
  exists d',
    set_bootloader_mode dev mode d = (Returns 0, d') /\
    good d' /\ mode_of d' = mode.

Hypothesis Hget : forall d,
  good d ->
  exists d',
    get_bootloader_mode dev d = (Returns (mode_of d), d') /\
    good d' /\ mode_of d' = mode_of d.

Hypothesis Hpointer : forall d pointer,
  good d ->
  exists d', set_write_firmware_pointer dev pointer d = (Returns tt, d') /\
             good d'.

Hypothesis Hdata : forall d data,
  good d ->
  exists status d', write_firmware dev data d = (Returns status, d') /\
                    good d'.

Lemma cooperative_set fuel mode d :
  good d ->
  exists d',
    set_comcu_bootloader_mode dev (S fuel) mode d
      = (Val (Some 0), d', [EvCall (CSetBootloaderMode mode)]) /\
    good d' /\ mode_of d' = mode.
Proof.
  intros Hgood. destruct (Hset d mode Hgood) as (d' & Heq & Hgood' & Hmode).
  exists d'. split; [|split; assumption].
  unfold set_comcu_bootloader_mode. cbn [set_comcu_bootloader_mode_loop].
  run. rewrite Heq. reflexivity.
Qed.

Lemma cooperative_wait fuel mode d :
  good d -> mode_of d = mode ->
  exists d',
    wait_for_comcu_bootloader_mode dev (S fuel) mode d
      = (Val true, d', [EvCall CGetBootloaderMode]) /\
    good d' /\ mode_of d' = mode.
Proof.
  intros Hgood Hmode. destruct (Hget d Hgood) as (d' & Heq & Hgood' & Hmode').
  exists d'. split; [|split; [assumption|congruence]].
  unfold wait_for_comcu_bootloader_mode.
  cbn [wait_for_comcu_bootloader_mode_loop].
  run. rewrite Heq, Hmode, Z.eqb_refl. reflexivity.
Qed.

Lemma cooperative_page plugin position :
  forall offsets d,
  good d ->
  exists d' evs,
    write_page dev offsets plugin position d = (Val (Next tt), d', evs) /\
    good d' /\
    failures_of evs = [] /\
    calls_of evs
    = flat_map
        (fun block_offset =>
           [CSetWriteFirmwarePointer (position + block_offset);
            CWriteFirmware (Py.slice plugin (position + block_offset)
                              (position + block_offset + 64))])
        offsets.
Proof.
  induction offsets as [|o rest IH]; intros d Hgood.
  - exists d, []. repeat split; try reflexivity. exact Hgood.
  - destruct (Hpointer d (position + o) Hgood) as (d1 & Hp & Hgood1).
    destruct (Hdata d1 (Py.slice plugin (position + o) (position + o + 64))
                Hgood1) as (status & d2 & Hw & Hgood2).
    destruct (IH d2 Hgood2) as (d3 & evs & Hrest & Hgood3 & Hquiet & Hcalls).
    cbn [write_page]. rewrite range_0_3. cbn [write_block]. run.
    rewrite Hp, Hw, Hrest.
    eexists _, _. split; [reflexivity|]. split; [exact Hgood3|].
    cbn [app flat_map]. rewrite !failures_of_call, !calls_of_call, Hquiet, Hcalls.
    split; reflexivity.
Qed.

Lemma cooperative_pages plugin plugin_len allow :
  forall n skipped position d,
  good d ->
  Z.max 0 (plugin_len - position) <= XMC1_PAGE_SIZE * (Z.of_nat n - 1) ->
  exists d' evs,
    write_pages dev n allow plugin plugin_len skipped position d
      = (Val (Next tt), d', evs) /\
    good d' /\
    failures_of evs = [] /\
    calls_of evs
    = flat_map (page_calls plugin)
               (page_plan n allow plugin plugin_len skipped position).
Proof.
  unfold XMC1_PAGE_SIZE.
  induction n as [|n IH]; intros skipped position d Hgood Hfuel; [lia|].
  cbn [write_pages page_plan].
  destruct (position <? plugin_len) eqn:Hpos.
  - apply Z.ltb_lt in Hpos.
    destruct (skip_page allow skipped plugin plugin_len position).
    + apply IH; [exact Hgood|unfold XMC1_PAGE_SIZE; lia].
    + destruct (cooperative_page plugin position
                  (Py.range_step 0 XMC1_PAGE_SIZE 64) d Hgood)
        as (d1 & e1 & Hpage & Hgood1 & Hquiet1 & Hcalls1).
      destruct (IH 0 (position + XMC1_PAGE_SIZE) d1 Hgood1)
        as (d2 & e2 & Hrest & Hgood2 & Hquiet2 & Hcalls2);
        [unfold XMC1_PAGE_SIZE; lia|].
      run. rewrite Hpage, Hrest.
      eexists _, _. split; [reflexivity|]. split; [exact Hgood2|].
      cbn [flat_map].
      rewrite failures_of_app, calls_of_app. cbn [app].
      rewrite failures_of_progress, calls_of_progress.
      rewrite Hquiet1, Hquiet2, Hcalls1, Hcalls2.
      split; reflexivity.
  - run. exists d, []. repeat split; try reflexivity. exact Hgood.
Qed.

Lemma cooperative_attempt fuel plugin name attempt d :
  good d ->
  Py.len plugin <= XMC1_PAGE_SIZE * Z.of_nat fuel ->
  exists d' evs,
    comcu_write_attempt dev (S fuel) plugin (Py.len plugin) name attempt d
      = (Val (Next tt), d', evs) /\
    good d' /\
    failures_of evs = [] /\
    calls_of evs
    = (CSetBootloaderMode BOOTLOADER_MODE_BOOTLOADER :: CGetBootloaderMode ::
       flat_map (page_calls plugin)
         (page_plan (S fuel) (allow_skipping attempt) plugin (Py.len plugin)
                    (MAX_SKIPPED_PAGES + 1) 0))%list.
Proof.
  intros Hgood Hfuel.
  destruct (cooperative_set fuel BOOTLOADER_MODE_BOOTLOADER d Hgood)
    as (d1 & Hs & Hgood1 & Hmode1).
  destruct (cooperative_wait fuel BOOTLOADER_MODE_BOOTLOADER d1 Hgood1 Hmode1)
    as (d2 & Hw & Hgood2 & _).
  destruct (cooperative_pages plugin (Py.len plugin) (allow_skipping attempt)
              (S fuel) (MAX_SKIPPED_PAGES + 1) 0 d2 Hgood2)
    as (d3 & e3 & Hp & Hgood3 & Hquiet & Hcalls).
  { pose proof (len_nonneg plugin). unfold XMC1_PAGE_SIZE in *. lia. }
  unfold comcu_write_attempt. run. rewrite Hs, Hw. cbn [negb]. rewrite Hp.
  eexists _, _. split; [reflexivity|]. split; [exact Hgood3|].
  cbn [app]. rewrite !failures_of_call, !failures_of_progress.
  rewrite !calls_of_call, !calls_of_progress, Hquiet, Hcalls.
  split; reflexivity.
Qed.

End Cooperative.

(** X18. [write_bricklet_plugin_comcu] on a device that answers every
    request, accepts each change of mode with status 0 and reports the mode
    it was last asked for: for every firmware that holds the magic number
    and is a whole number of pages, the method returns [True] on the first
    attempt without any message box, leaving the device in firmware mode.
    Its requests are exactly: one change to bootloader mode, one poll, the
    four blocks of each page of the first attempt's plan, in order and each
    block once, one change to firmware mode, one poll. *)
Theorem comcu_on_a_cooperative_device
  {D : Type} (dev : Device D) (fuel : nat) (plugin : Py.bytes)
  (name : string) (d : D)
  (good : D -> Prop) (mode_of : D -> Z)
  (Hset : forall d mode,
     good d ->
     exists d',
       set_bootloader_mode dev mode d = (Returns 0, d') /\
       good d' /\ mode_of d' = mode)
  (Hget : forall d,
     good d ->
     exists d',
       get_bootloader_mode dev d = (Returns (mode_of d), d') /\
       good d' /\ mode_of d' = mode_of d)
  (Hpointer : forall d pointer,
     good d ->
     exists d', set_write_firmware_pointer dev pointer d = (Returns tt, d') /\
                good d')
  (Hdata : forall d data,
     good d ->
     exists status d', write_firmware dev data d = (Returns status, d') /\
                       good d')
  (Hgood : good d)
  (Hmagic : find_regular_plugin_upto plugin <> -1)
  (Hlen : Py.len plugin mod XMC1_PAGE_SIZE = 0)
  (Hfuel : Py.len plugin <= XMC1_PAGE_SIZE * Z.of_nat fuel) :
  exists d' evs,
    comcu_flash dev (S fuel) plugin name d = (Val true, d', evs) /\
    good d' /\
    mode_of d' = BOOTLOADER_MODE_FIRMWARE /\
    failures_of evs = [] /\
    calls_of evs
    = ([CSetBootloaderMode BOOTLOADER_MODE_BOOTLOADER; CGetBootloaderMode] ++
       flat_map (page_calls plugin)
         (page_plan (S fuel) true plugin (Py.len plugin)
                    (MAX_SKIPPED_PAGES + 1) 0) ++
       [CSetBootloaderMode BOOTLOADER_MODE_FIRMWARE; CGetBootloaderMode])%list.
Proof.
  destruct (cooperative_attempt dev good mode_of Hset Hget Hpointer Hdata fuel
              plugin name 0 d Hgood Hfuel)
    as (d1 & e1 & Hfirst & Hgood1 & Hquiet1 & Hcalls1).
  destruct (cooperative_set dev good mode_of Hset fuel BOOTLOADER_MODE_FIRMWARE
              d1 Hgood1) as (d2 & Hleave & Hgood2 & Hmode2).
  destruct (cooperative_wait dev good mode_of Hget fuel BOOTLOADER_MODE_FIRMWARE
              d2 Hgood2 Hmode2) as (d3 & Hconfirm & Hgood3 & Hmode3).
  exists d3,
    (e1 ++ leaving_bootloader 0 ++
     [EvCall (CSetBootloaderMode BOOTLOADER_MODE_FIRMWARE)] ++
     [EvCall CGetBootloaderMode])%list.
  split.
  { rewrite comcu_flash_attempts by assumption.
    unfold bind at 1. rewrite comcu_attempts_cons.
    rewrite (comcu_attempt_run dev (S fuel) _ _ _ _ _ _ _ _ _ _ Hfirst Hleave).
    rewrite comcu_check_mode_ret_ok by (left; reflexivity).
    unfold comcu_after_attempts. run. cbn [negb]. rewrite Hconfirm. cbn [negb].
    rewrite ?app_nil_r, <- ?app_assoc. reflexivity. }
  split; [exact Hgood3|]. split; [exact Hmode3|].
  rewrite !failures_of_app, !calls_of_app, Hquiet1, Hcalls1.
  split; reflexivity.
Qed.

Section CooperativeTng.

Context {D : Type}.
Variable dev : Device D.
Variable good : D -> Prop.

Hypothesis Hpointer : forall d pointer,
  good d ->
  exists d', set_write_firmware_pointer dev pointer d = (Returns tt, d') /\
             good d'.

Hypothesis Hdata : forall d data,
  good d ->
  exists status d', write_firmware dev data d = (Returns status, d') /\
                    good d'.

Lemma cooperative_tng_blocks plugin :
  forall index_list d,
  good d ->
  exists d' evs,
    tng_write_blocks dev index_list plugin d = (Val (Next tt), d', evs) /\
    good d' /\
    failures_of evs = [] /\
    calls_of evs = flat_map (tng_block_calls plugin) index_list.
Proof.
  induction index_list as [|position rest IH]; intros d Hgood.
  - exists d, []. repeat split; try reflexivity. exact Hgood.
  - destruct (Hpointer d (position * 64) Hgood) as (d1 & Hp & Hgood1).
    destruct (Hdata d1 (Py.slice plugin (position * 64) ((position + 1) * 64))
                Hgood1) as (status & d2 & Hw & Hgood2).
    destruct (IH d2 Hgood2) as (d3 & evs & Hrest & Hgood3 & Hquiet & Hcalls).
    cbn [tng_write_blocks]. unfold tng_write_block. run.
    rewrite Hp, Hw, Hrest.
    eexists _, _. split; [reflexivity|]. split; [exact Hgood3|].
    cbn [app flat_map]. unfold tng_block_calls at 1. cbn [app].
    rewrite !failures_of_call, !calls_of_call.
    rewrite failures_of_progress, calls_of_progress, Hquiet, Hcalls.
    split; reflexivity.
Qed.

End CooperativeTng.

(** X19. [write_bricklet_plugin_tng] on a module that answers every
    request, accepts the firmware ([copy_firmware] returns 0) and resets:
    the method returns [True] without any message box.  Its requests are
    exactly the pointer setting and the data of each 64-byte block of the
    zero-padded image, in order and each block once, then [copy_firmware],
    then [reset]. *)
Theorem tng_on_a_cooperative_module
  {D : Type} (dev : Device D) (plugin : Py.bytes) (name : string) (d : D)
  (good : D -> Prop)
  (Hpointer : forall d pointer,
     good d ->
     exists d', set_write_firmware_pointer dev pointer d = (Returns tt, d') /\
                good d')
  (Hdata : forall d data,
     good d ->
     exists status d', write_firmware dev data d = (Returns status, d') /\
                       good d')
  (Hcopy : forall d,
     good d -> exists d', copy_firmware dev d = (Returns 0, d') /\ good d')
  (Hreset : forall d,
     good d -> exists d', reset dev d = (Returns tt, d') /\ good d')
  (Hgood : good d) :
  exists padding d' evs,
    0 <= padding < 64 /\
    (Py.len plugin + padding) mod 64 = 0 /\
    tng_flash dev plugin name d = (Val true, d', evs) /\
    good d' /\
    failures_of evs = [] /\
    calls_of evs
    = (flat_map (tng_block_calls (plugin ++ Py.zeros padding))
         (Py.range 0 ((Py.len plugin + padding) / 64)) ++
       [CCopyFirmware; CReset])%list.
Proof.
  destruct (tng_write_firmware_padded dev plugin name d)
    as (padding & Hpad & Hmod & _ & Heq).
  destruct (cooperative_tng_blocks dev good Hpointer Hdata
              (plugin ++ Py.zeros padding)
              (Py.range 0 ((Py.len plugin + padding) / 64)) d Hgood)
    as (d1 & e1 & Hblocks & Hgood1 & Hquiet & Hcalls).
  rewrite Hblocks in Heq.
  destruct (Hcopy d1 Hgood1) as (d2 & Hc & Hgood2).
  destruct (Hreset d2 Hgood2) as (d3 & Hr & Hgood3).
  exists padding, d3,
    ((tng_label name (Py.len (Py.range 0 ((Py.len plugin + padding) / 64)))
      ++ e1) ++ [EvCall CCopyFirmware; EvCall CReset])%list.
  split; [exact Hpad|]. split; [exact Hmod|]. split.
  { unfold tng_flash, tng_check_copy_status. run. rewrite Heq, Hc.
    cbn [Z.eqb]. rewrite Hr. rewrite ?app_nil_r. reflexivity. }
  split; [exact Hgood3|].
  rewrite !failures_of_app, !calls_of_app, Hquiet, Hcalls.
  split; reflexivity.
Qed.

(** ** Co-MCU: writes stay inside the image *)

Lemma firmware_writes_of_app evs1 evs2 :
  firmware_writes_of (evs1 ++ evs2)
  = (firmware_writes_of evs1 ++ firmware_writes_of evs2)%list.
Proof.
  unfold firmware_writes_of. rewrite calls_of_app. apply flat_map_app.
Qed.

Lemma firmware_writes_of_progress p evs :
  firmware_writes_of (EvProgress p :: evs) = firmware_writes_of evs.
Proof. reflexivity. Qed.

Lemma firmware_writes_of_polling evs :
  (forall c, In c (calls_of evs) ->
     c = CSetBootloaderMode BOOTLOADER_MODE_BOOTLOADER \/
     c = CGetBootloaderMode) ->
  firmware_writes_of evs = [].
Proof.
  unfold firmware_writes_of. generalize (calls_of evs) as calls.
  induction calls as [|c calls IH]; intros Hall; [reflexivity|].
  cbn [flat_map].
  destruct (Hall c (or_introl eq_refl)) as [-> | ->]; cbn [app];
    apply IH; intros c' Hc'; apply Hall; right; exact Hc'.
Qed.

Lemma pointers_of_polling evs :
  (forall c, In c (calls_of evs) ->
     c = CSetBootloaderMode BOOTLOADER_MODE_BOOTLOADER \/
     c = CGetBootloaderMode) ->
  pointers_of evs = [].
Proof.
  unfold pointers_of. generalize (calls_of evs) as calls.
  induction calls as [|c calls IH]; intros Hall; [reflexivity|].
  cbn [flat_map].
  destruct (Hall c (or_introl eq_refl)) as [-> | ->]; cbn [app];
    apply IH; intros c' Hc'; apply Hall; right; exact Hc'.
Qed.

Lemma page_plan_range plugin plugin_len allow :
  forall n skipped position q,
  In q (page_plan n allow plugin plugin_len skipped position) ->
  position <= q < plugin_len /\
  exists k, q = position + XMC1_PAGE_SIZE * Z.of_nat k.
Proof.
  unfold XMC1_PAGE_SIZE.
  induction n as [|n IH]; intros skipped position q Hin; [destruct Hin|].
  cbn [page_plan] in Hin.
  destruct (position <? plugin_len) eqn:Hpos; [|destruct Hin].
  apply Z.ltb_lt in Hpos.
  assert (Hrest : forall skipped',
             In q (page_plan n allow plugin plugin_len skipped'
                             (position + XMC1_PAGE_SIZE)) ->
             position <= q < plugin_len /\
             exists k, q = position + 256 * Z.of_nat k).
  { intros skipped' Hq. destruct (IH _ _ _ Hq) as (Hrange & k & Hk).
    unfold XMC1_PAGE_SIZE in *. split; [lia|]. exists (S k). lia. }
  destruct (skip_page allow skipped plugin plugin_len position).
  - exact (Hrest _ Hin).
  - destruct Hin as [<-|Hin]; [|exact (Hrest _ Hin)].
    split; [lia|]. exists 0%nat. lia.
Qed.

Section PageData.

Context {D : Type}.
Variable dev : Device D.
Variable plugin : Py.bytes.

Lemma write_page_data position :
  forall offsets d r d' evs,
  write_page dev offsets plugin position d = (r, d', evs) ->
  forall data, In data (firmware_writes_of evs) ->
    exists o, In o offsets /\
      data = Py.slice plugin (position + o) (position + o + 64).
Proof.
  induction offsets as [|o rest IH]; intros d r d' evs Hrun data Hin.
  - cbn [write_page] in Hrun. run in Hrun.
    assert (evs = []) by congruence. subst evs. destruct Hin.
  - cbn [write_page] in Hrun. unfold bind at 1 in Hrun.
    destruct (write_block_tries dev plugin (position + o) (Py.range 0 3) None d)
      as (rb & d1 & e1 & tries & sent & Heq & _ & _ & _ & Hw & Hrb & _).
    rewrite Heq in Hrun.
    assert (Hhere : forall data', In data' (firmware_writes_of e1) ->
               data' = Py.slice plugin (position + o) (position + o + 64)).
    { intros data' Hd. rewrite Hw in Hd. exact (repeat_spec _ _ _ Hd). }
    destruct Hrb as [(v & ->)|(x & -> & _)].
    + destruct v as [e|]; run in Hrun; cbn [app] in Hrun.
      * assert (evs = (e1 ++ [EvProgress cancel;
                              EvPopupFail "Bricklet"
                                ("Could not write plugin: " +++ exn_text e)])%list)
          by congruence.
        subst evs. rewrite firmware_writes_of_app in Hin.
        apply in_app_or in Hin. destruct Hin as [Hin|[]].
        exists o. split; [now left|exact (Hhere _ Hin)].
      * destruct (write_page dev rest plugin position d1) as [[r2 d2] e2]
          eqn:Hrest.
        assert (evs = (e1 ++ e2)%list) by congruence. subst evs.
        rewrite firmware_writes_of_app in Hin.
        apply in_app_or in Hin. destruct Hin as [Hin|Hin].
        -- exists o. split; [now left|exact (Hhere _ Hin)].
        -- destruct (IH _ _ _ _ Hrest _ Hin) as (o' & Ho' & Hdata).
           exists o'. split; [now right|exact Hdata].
    + assert (evs = e1) by congruence. subst evs.
      exists o. split; [now left|exact (Hhere _ Hin)].
Qed.

Lemma write_pages_data plugin_len :
  forall n allow skipped position d r d' evs,
  write_pages dev n allow plugin plugin_len skipped position d = (r, d', evs) ->
  forall data, In data (firmware_writes_of evs) ->
    exists q o,
      In q (page_plan n allow plugin plugin_len skipped position) /\
      In o block_offsets /\
      data = Py.slice plugin (q + o) (q + o + 64).
Proof.
  induction n as [|n IH]; intros allow skipped position d r d' evs Hrun data
                                 Hin.
  - cbn [write_pages] in Hrun. run in Hrun.
    assert (evs = []) by congruence. subst evs. destruct Hin.
  - cbn [write_pages page_plan] in *.
    destruct (position <? plugin_len).
    2:{ run in Hrun. assert (evs = []) by congruence. subst evs.
        destruct Hin. }
    destruct (skip_page allow skipped plugin plugin_len position).
    + exact (IH _ _ _ _ _ _ _ Hrun _ Hin).
    + change (Py.range_step 0 XMC1_PAGE_SIZE 64) with block_offsets in Hrun.
      unfold bind at 1 in Hrun.
      destruct (write_page dev block_offsets plugin position d)
        as [[r1 d1] e1] eqn:Hpage.
      pose proof (write_page_data _ _ _ _ _ _ Hpage) as Hhere.
      destruct (write_page_trace dev plugin position _ _ _ _ _ Hpage)
        as (_ & _ & Hcases & _).
      destruct Hcases as [->|[->|(x & -> & _)]]; run in Hrun;
        cbn [app] in Hrun.
      * destruct (write_pages dev n allow plugin plugin_len 0
                    (position + XMC1_PAGE_SIZE) d1) as [[r2 d2] e2] eqn:Hrest.
        assert (evs = (e1 ++ EvProgress (setValue (position + XMC1_PAGE_SIZE))
                          :: e2)%list) by congruence.
        subst evs. rewrite firmware_writes_of_app in Hin.
        rewrite firmware_writes_of_progress in Hin.
        apply in_app_or in Hin. destruct Hin as [Hin|Hin].
        -- destruct (Hhere _ Hin) as (o & Ho & Hdata).
           exists position, o. split; [now left|]. split; assumption.
        -- destruct (IH _ _ _ _ _ _ _ Hrest _ Hin) as (q & o & Hq & Ho & Hdata).
           exists q, o. split; [now right|]. split; assumption.
      * assert (evs = (e1 ++ [])%list) by congruence. subst evs.
        rewrite app_nil_r in Hin.
        destruct (Hhere _ Hin) as (o & Ho & Hdata).
        exists position, o. split; [now left|]. split; assumption.
      * assert (evs = e1) by congruence. subst evs.
        destruct (Hhere _ Hin) as (o & Ho & Hdata).
        exists position, o. split; [now left|]. split; assumption.
Qed.

End PageData.

Lemma len_slice_inside {A : Type} (l : list A) i j :
  0 <= i -> i <= j -> j <= Py.len l -> Py.len (Py.slice l i j) = j - i.
Proof.
  intros Hi Hij Hj. unfold Py.slice, Py.len in *.
  rewrite length_firstn, length_skipn. lia.
Qed.

Lemma block_inside_image plugin_len q o :
  plugin_len mod XMC1_PAGE_SIZE = 0 ->
  0 <= q < plugin_len -> (exists k, q = 0 + XMC1_PAGE_SIZE * Z.of_nat k) ->
  In o block_offsets ->
  0 <= q + o /\ q + o + 64 <= plugin_len /\ (q + o) mod 64 = 0.
Proof.
  unfold XMC1_PAGE_SIZE. intros Hlen Hq (k & Hk) Ho.
  apply Z.mod_divide in Hlen; [|lia]. destruct Hlen as (m & Hm).
  assert (Hmod : (q + o) mod 64 = 0).
  { destruct Ho as [<-|[<-|[<-|[<-|[]]]]]; subst q;
      [replace (0 + 256 * Z.of_nat k + 0) with ((4 * Z.of_nat k) * 64) by lia
      |replace (0 + 256 * Z.of_nat k + 64)
         with ((4 * Z.of_nat k + 1) * 64) by lia
      |replace (0 + 256 * Z.of_nat k + 128)
         with ((4 * Z.of_nat k + 2) * 64) by lia
      |replace (0 + 256 * Z.of_nat k + 192)
         with ((4 * Z.of_nat k + 3) * 64) by lia];
      apply Z_mod_mult. }
  split; [|split; [|exact Hmod]].
  - destruct Ho as [<-|[<-|[<-|[<-|[]]]]]; lia.
  - destruct Ho as [<-|[<-|[<-|[<-|[]]]]]; lia.
Qed.

(** X20. The page loop of [write_bricklet_plugin_comcu] never writes
    outside the firmware: for an image that is a whole number of pages,
    and whatever the device answers, every write pointer set during an
    attempt is a multiple of 64 with the whole 64-byte block inside the
    image, and every data request carries exactly the 64 bytes of the image
    at such a block. *)
Theorem comcu_writes_stay_inside_the_image
  {D : Type} (dev : Device D) (fuel : nat) (plugin : Py.bytes)
  (name : string) (attempt : Z) (d : D)
  (Hfuel : (11 <= fuel)%nat)
  (Hlen : Py.len plugin mod XMC1_PAGE_SIZE = 0) :
  (forall p,
     In p (pointers_of
             (snd (comcu_write_attempt dev fuel plugin (Py.len plugin) name
                     attempt d))) ->
     0 <= p /\ p + 64 <= Py.len plugin /\ p mod 64 = 0) /\
  (forall data,
     In data (firmware_writes_of
                (snd (comcu_write_attempt dev fuel plugin (Py.len plugin) name
                        attempt d))) ->
     Py.len data = 64 /\
     exists p,
       0 <= p /\ p + 64 <= Py.len plugin /\ p mod 64 = 0 /\
       data = Py.slice plugin p (p + 64)).
Proof.
  destruct (comcu_write_attempt_shape dev fuel Hfuel plugin (Py.len plugin)
              name attempt d) as (entry & d0 & Hcalls & _ & Hcases).
  pose proof (pointers_of_polling entry Hcalls) as Hp0.
  pose proof (firmware_writes_of_polling entry Hcalls) as Hw0.
  assert (Hinside : forall q o,
             In q (page_plan fuel (allow_skipping attempt) plugin
                     (Py.len plugin) (MAX_SKIPPED_PAGES + 1) 0) ->
             In o block_offsets ->
             0 <= q + o /\ q + o + 64 <= Py.len plugin /\ (q + o) mod 64 = 0).
  { intros q o Hq Ho.
    destruct (page_plan_range _ _ _ _ _ _ _ Hq) as (Hrange & Hk).
    exact (block_inside_image (Py.len plugin) q o Hlen Hrange Hk Ho). }
  destruct Hcases as [Hfail|Hwrite].
  - rewrite Hfail. cbn [snd]. split.
    + intros p Hp. rewrite pointers_of_app, Hp0 in Hp. destruct Hp.
    + intros data Hd. rewrite firmware_writes_of_app, Hw0 in Hd. destruct Hd.
  - destruct (write_pages dev fuel (allow_skipping attempt) plugin
                (Py.len plugin) (MAX_SKIPPED_PAGES + 1) 0 d0)
      as [[r2 d2] e2] eqn:Hpages.
    rewrite (Hwrite _ _ _ eq_refl). cbn [snd]. split.
    + intros p Hp. rewrite !pointers_of_app, Hp0 in Hp.
      cbn [app] in Hp.
      change (pointers_of (writing_label (Py.len plugin) name attempt))
        with (@nil Z) in Hp. cbn [app] in Hp.
      destruct (write_pages_trace dev plugin _ _ _ _ _ _ _ _ _ Hpages)
        as (Hin & _).
      destruct (Hin _ Hp) as (q & o & Hq & Ho & ->).
      exact (Hinside q o Hq Ho).
    + intros data Hd. rewrite !firmware_writes_of_app, Hw0 in Hd.
      cbn [app] in Hd.
      change (firmware_writes_of (writing_label (Py.len plugin) name attempt))
        with (@nil Py.bytes) in Hd. cbn [app] in Hd.
      destruct (write_pages_data dev plugin _ _ _ _ _ _ _ _ _ Hpages _ Hd)
        as (q & o & Hq & Ho & ->).
      destruct (Hinside q o Hq Ho) as (H0 & Hend & Hmod).
      split.
      * rewrite len_slice_inside by lia. lia.
      * exists (q + o). repeat split; assumption.
Qed.

(** ** Co-MCU: the second attempt *)

(** X21. [write_bricklet_plugin_comcu] after a CRC mismatch: when the
    second attempt cannot enter the bootloader or cannot write a block, the
    operation ends with [False] right after that attempt's one message box,
    which reads 'Device did not enter bootloader mode in 2.5 seconds
    (attempt 2)' or 'Could not write plugin: <exception>'; the change to
    firmware mode is not requested again. *)
Theorem failed_second_attempt_is_final
  {D : Type} (dev : Device D) (fuel : nat) (plugin : Py.bytes)
  (name : string) (d d1 d2 d3 : D) (e1 e2 e3 : list event)
  (Hfuel : (11 <= fuel)%nat)
  (Hmagic : find_regular_plugin_upto plugin <> -1)
  (Hlen : Py.len plugin mod XMC1_PAGE_SIZE = 0)
  (Hfirst : comcu_write_attempt dev fuel plugin (Py.len plugin) name 0 d
            = (Val (Next tt), d1, e1))
  (Hcrc : set_comcu_bootloader_mode dev fuel BOOTLOADER_MODE_FIRMWARE d1
          = (Val (Some 5), d2, e2))
  (Hsecond : comcu_write_attempt dev fuel plugin (Py.len plugin) name 1 d2
             = (Val (Return false), d3, e3)) :
  comcu_flash dev fuel plugin name d
  = (Val false, d3, (e1 ++ leaving_bootloader 0 ++ e2 ++ e3)%list) /\
  ~ In (CSetBootloaderMode BOOTLOADER_MODE_FIRMWARE) (calls_of e3) /\
  exists before message,
    e3 = (before ++ failure_report "Bricklet" message)%list /\
    failures_of before = [] /\
    (message
     = "Device did not enter bootloader mode in 2.5 seconds (attempt 2)"%string
     \/ exists e, message = ("Could not write plugin: " +++ exn_text e)).
Proof.
  split.
  { rewrite comcu_flash_attempts by assumption.
    unfold bind at 1. rewrite comcu_attempts_cons.
    rewrite (comcu_attempt_run dev fuel _ _ _ _ _ _ _ _ _ _ Hfirst Hcrc).
    rewrite comcu_check_mode_ret_crc.
    cbn [comcu_attempts]. unfold comcu_attempt, comcu_after_attempts. run.
    rewrite Hsecond. rewrite ?app_nil_r, <- ?app_assoc. reflexivity. }
  destruct (comcu_write_attempt_shape dev fuel Hfuel plugin (Py.len plugin)
              name 1 d2) as (entry & d0 & Hcalls & Hquiet & [Hfail|Hwrite]).
  - assert (e3 = (entry ++
                  [EvProgress cancel;
                   EvPopupFail "Bricklet"
                     ("Device did not enter bootloader mode in 2.5 seconds" +++
                      attempt_str 1)])%list) by congruence.
    subst e3. split.
    + intros Hin. apply in_calls_of_app in Hin.
      destruct Hin as [Hin|[]].
      destruct (Hcalls _ Hin); discriminate.
    + exists entry,
        "Device did not enter bootloader mode in 2.5 seconds (attempt 2)"%string.
      split; [reflexivity|]. split; [exact Hquiet|]. left. reflexivity.
  - destruct (write_pages dev fuel (allow_skipping 1) plugin (Py.len plugin)
                (MAX_SKIPPED_PAGES + 1) 0 d0) as [[r4 d4] e4] eqn:Hpages.
    specialize (Hwrite _ _ _ eq_refl).
    assert (r4 = Val (Return false) /\
            e3 = (entry ++ writing_label (Py.len plugin) name 1 ++ e4)%list)
      as [-> ->] by (split; congruence).
    destruct (write_pages_report dev plugin _ _ _ _ _ _ _ _ _ Hpages)
      as ((Hc & _ & Hreport) & _).
    destruct (Hreport eq_refl) as (before & e & -> & Hb).
    split.
    + intros Hin. apply in_calls_of_app in Hin.
      destruct Hin as [Hin|Hin]; [destruct (Hcalls _ Hin); discriminate|].
      apply in_calls_of_app in Hin.
      destruct Hin as [[]|Hin]. exact (Hc _ Hin).
    + exists (entry ++ writing_label (Py.len plugin) name 1 ++ before)%list,
        ("Could not write plugin: " +++ exn_text e).
      split; [unfold failure_report; rewrite <- !app_assoc; reflexivity|].
      split; [|right; exists e; reflexivity].
      rewrite !failures_of_app, Hquiet, Hb. reflexivity.
Qed.

(** ** Who reports success *)

Lemma oks_of_app evs1 evs2 :
  oks_of (evs1 ++ evs2) = (oks_of evs1 ++ oks_of evs2)%list.
Proof. unfold oks_of. apply flat_map_app. Qed.

Section Quiet.

Context {D : Type}.

Lemma quiet_ret {A : Type} (a : A) : quiet (@ret D A a).
Proof. intros d. reflexivity. Qed.

Lemma quiet_raise {A : Type} (e : exn) : quiet (@raise D A e).
Proof. intros d. reflexivity. Qed.

Lemma quiet_diverge {A : Type} : quiet (@diverge D A).
Proof. intros d. reflexivity. Qed.

Lemma quiet_request {A : Type} (c : call) (f : D -> reply A * D) :
  quiet (request c f).
Proof. intros d. unfold request. destruct (f d) as [[a|e] d1]; reflexivity. Qed.

Lemma quiet_progress (p : progress_op) : quiet (@progress D p).
Proof. intros d. reflexivity. Qed.

Lemma quiet_sleep (ms : Z) : quiet (@sleep D ms).
Proof. intros d. reflexivity. Qed.

Lemma quiet_popup_fail (title message : string) :
  quiet (@popup_fail D title message).
Proof. intros d. reflexivity. Qed.

Lemma quiet_excepthook (e : exn) : quiet (@emit D (EvExcepthook e)).
Proof. intros d. reflexivity. Qed.

Lemma quiet_process_events : quiet (@emit D EvProcessEvents).
Proof. intros d. reflexivity. Qed.

Lemma quiet_set_response_expected function_id flag :
  quiet (@emit D (EvSetResponseExpected function_id flag)).
Proof. intros d. reflexivity. Qed.

Lemma quiet_bind {A B : Type} (m : M D A) (k : A -> M D B) :
  quiet m -> (forall a, quiet (k a)) -> quiet (bind m k).
Proof.
  intros Hm Hk d. unfold bind. specialize (Hm d).
  destruct (m d) as [[[a|e|] d1] ev1]; cbn [snd] in *; try exact Hm.
  specialize (Hk a d1). destruct (k a d1) as [[r d2] ev2]. cbn [snd] in *.
  rewrite oks_of_app, Hm, Hk. reflexivity.
Qed.

Lemma quiet_try_except {A : Type} (m : M D A) (handler : exn -> M D A) :
  quiet m -> (forall e, quiet (handler e)) -> quiet (try_except m handler).
Proof.
  intros Hm Hh d. unfold try_except. specialize (Hm d).
  destruct (m d) as [[[a|e|] d1] ev1]; cbn [snd] in *; try exact Hm.
  specialize (Hh e d1). destruct (handler e d1) as [[r d2] ev2].
  cbn [snd] in *. rewrite oks_of_app, Hm, Hh. reflexivity.
Qed.

Lemma quiet_try_except_Error {A : Type} (m : M D A)
  (handler : Error -> M D A) :
  quiet m -> (forall e, quiet (handler e)) -> quiet (try_except_Error m handler).
Proof.
  intros Hm Hh. unfold try_except_Error. apply quiet_try_except; [exact Hm|].
  intros [err|text|text]; [apply Hh|apply quiet_raise|apply quiet_raise].
Qed.

Lemma quiet_try_except_Exception {A : Type} (m : M D A)
  (handler : exn -> M D A) :
  quiet m -> (forall e, quiet (handler e)) ->
  quiet (try_except_Exception m handler).
Proof.
  intros Hm Hh. unfold try_except_Exception.
  apply quiet_try_except; [exact Hm|].
  intros e. destruct (is_Exception e); [apply Hh|apply quiet_raise].
Qed.

Lemma quiet_eval {A : Type} (r : reply A) : quiet (@eval D A r).
Proof. destruct r; intros d; reflexivity. Qed.

End Quiet.

(** Breaks a computation of the engine down to its requests and dialog
    updates. *)
Ltac quiet_step :=
  first
    [ assumption
    | apply quiet_ret | apply quiet_raise | apply quiet_diverge
    | apply quiet_request | apply quiet_progress | apply quiet_sleep
    | apply quiet_popup_fail | apply quiet_excepthook
    | apply quiet_process_events | apply quiet_set_response_expected
    | apply quiet_eval
    | apply quiet_bind | apply quiet_try_except_Error
    | apply quiet_try_except_Exception | apply quiet_try_except
    | progress intros
    | match goal with
      | |- quiet (match ?x with _ => _ end) => destruct x
      | |- quiet (if ?b then _ else _) => destruct b
      end ].

Ltac quiet_all := repeat quiet_step.

Section QuietEngine.

Context {D : Type}.
Variable dev : Device D.
Variable fuel : nat.
Variable zipfile_ZipFile : Py.bytes -> reply ZipFile.

Lemma set_loop_quiet mode :
  forall n counter, quiet (set_comcu_bootloader_mode_loop dev n mode counter).
Proof.
  induction n as [|n IH]; intros counter; cbn [set_comcu_bootloader_mode_loop];
    quiet_all.
  apply IH.
Qed.

Lemma wait_loop_quiet mode :
  forall n counter,
  quiet (wait_for_comcu_bootloader_mode_loop dev n mode counter).
Proof.
  induction n as [|n IH]; intros counter;
    cbn [wait_for_comcu_bootloader_mode_loop]; quiet_all; try apply IH.
Qed.

Lemma write_block_quiet plugin block_start block_end :
  forall attempts last_exception,
  quiet (write_block dev attempts plugin block_start block_end last_exception).
Proof.
  induction attempts as [|a rest IH]; intros last_exception;
    cbn [write_block]; quiet_all; try apply IH.
Qed.

Lemma write_page_quiet plugin position :
  forall offsets, quiet (write_page dev offsets plugin position).
Proof.
  induction offsets as [|o rest IH]; cbn [write_page]; quiet_all.
Qed.

Lemma write_pages_quiet plugin plugin_len allow :
  forall n skipped position,
  quiet (write_pages dev n allow plugin plugin_len skipped position).
Proof.
  induction n as [|n IH]; intros skipped position; cbn [write_pages];
    quiet_all; try apply IH.
Qed.

Lemma comcu_check_mode_ret_quiet mode_ret :
  quiet (@comcu_check_mode_ret D mode_ret).
Proof. unfold comcu_check_mode_ret. cbv zeta. quiet_all. Qed.

Lemma comcu_write_attempt_quiet plugin plugin_len name attempt :
  quiet (comcu_write_attempt dev fuel plugin plugin_len name attempt).
Proof.
  unfold comcu_write_attempt, set_comcu_bootloader_mode,
    wait_for_comcu_bootloader_mode.
  repeat first [apply set_loop_quiet | apply wait_loop_quiet
               | apply write_pages_quiet | quiet_step].
Qed.

Lemma comcu_attempt_quiet plugin plugin_len name attempt :
  quiet (comcu_attempt dev fuel plugin plugin_len name attempt).
Proof.
  unfold comcu_attempt, set_comcu_bootloader_mode.
  repeat first [apply comcu_write_attempt_quiet | apply set_loop_quiet
               | apply comcu_check_mode_ret_quiet | quiet_step].
Qed.

Lemma comcu_attempts_quiet plugin plugin_len name :
  forall attempts error_str,
  quiet (comcu_attempts dev fuel attempts plugin plugin_len name error_str).
Proof.
  induction attempts as [|attempt rest IH]; intros error_str;
    cbn [comcu_attempts];
    repeat first [apply IH | apply comcu_attempt_quiet | quiet_step].
Qed.

Lemma comcu_after_attempts_quiet r :
  quiet (comcu_after_attempts dev fuel r).
Proof.
  unfold comcu_after_attempts, wait_for_comcu_bootloader_mode.
  repeat first [apply wait_loop_quiet | quiet_step].
Qed.

Lemma comcu_flash_quiet plugin name : quiet (comcu_flash dev fuel plugin name).
Proof.
  unfold comcu_flash. cbv zeta.
  repeat first [apply comcu_attempts_quiet | apply comcu_after_attempts_quiet
               | quiet_step].
Qed.

Lemma write_bricklet_plugin_comcu_quiet plugin name :
  quiet (write_bricklet_plugin_comcu dev fuel zipfile_ZipFile plugin name).
Proof.
  unfold write_bricklet_plugin_comcu, report_exception.
  repeat first [apply comcu_flash_quiet | quiet_step].
Qed.

Lemma tng_write_blocks_quiet plugin :
  forall index_list, quiet (tng_write_blocks dev index_list plugin).
Proof.
  induction index_list as [|position rest IH]; cbn [tng_write_blocks];
    unfold tng_write_block; cbv zeta; quiet_all.
Qed.

Lemma tng_flash_quiet plugin name : quiet (tng_flash dev plugin name).
Proof.
  unfold tng_flash, tng_write_firmware, tng_check_copy_status. cbv zeta.
  repeat first [apply tng_write_blocks_quiet | quiet_step].
Qed.

Lemma write_bricklet_plugin_tng_quiet plugin name :
  quiet (write_bricklet_plugin_tng dev zipfile_ZipFile plugin name).
Proof.
  unfold write_bricklet_plugin_tng, report_exception.
  repeat first [apply tng_flash_quiet | quiet_step].
Qed.

Lemma classic_write_chunks_silent port :
  forall chunks position,
  quiet (classic_write_chunks dev chunks port position).
Proof.
  induction chunks as [|chunk rest IH]; intros position;
    cbn [classic_write_chunks]; cbv zeta;
    repeat first [apply IH | quiet_step].
Qed.

Lemma classic_verify_chunks_silent port :
  forall chunks position,
  quiet (classic_verify_chunks dev chunks port position).
Proof.
  induction chunks as [|chunk rest IH]; intros position;
    cbn [classic_verify_chunks]; cbv zeta;
    repeat first [apply IH | quiet_step].
Qed.

Lemma write_bricklet_plugin_classic_quiet plugin port name :
  quiet (write_bricklet_plugin_classic dev fuel plugin port name).
Proof.
  unfold write_bricklet_plugin_classic.
  repeat first [apply classic_write_chunks_silent
               | apply classic_verify_chunks_silent | quiet_step].
Qed.

Lemma write_bricklet_plugin_quiet plugin port name has_comcu is_tng :
  quiet (write_bricklet_plugin dev fuel zipfile_ZipFile plugin port name
           has_comcu is_tng).
Proof.
  unfold write_bricklet_plugin.
  repeat first [apply write_bricklet_plugin_comcu_quiet
               | apply write_bricklet_plugin_tng_quiet
               | apply write_bricklet_plugin_classic_quiet | quiet_step].
Qed.

End QuietEngine.

Lemma in_oks_of t m evs : In (EvPopupOk t m) evs -> In (t, m) (oks_of evs).
Proof.
  intros Hin. unfold oks_of. apply in_flat_map.
  exists (EvPopupOk t m). split; [exact Hin|now left].
Qed.

Lemma engine_reports_no_success {D : Type} (dev : Device D) fuel
  zipfile_ZipFile plugin port name has_comcu is_tng d t m :
  ~ In (Engine (EvPopupOk t m))
       (map Engine
          (snd (write_bricklet_plugin dev fuel zipfile_ZipFile plugin port
                  name has_comcu is_tng d))).
Proof.
  intros Hin. apply in_map_iff in Hin. destruct Hin as (e & He & Hin).
  assert (e = EvPopupOk t m) by congruence. subst e.
  apply in_oks_of in Hin.
  rewrite (write_bricklet_plugin_quiet dev fuel zipfile_ZipFile plugin port
             name has_comcu is_tng d) in Hin.
  destruct Hin.
Qed.

(** X22. [plugin_save_clicked], once the plugin is at hand: the box
    'Successfully flashed ...' is shown exactly when
    [write_bricklet_plugin] returned [True], as the last event after
    [progress.cancel()], and every success box of a run is that one; after
    [False] or [None] (the classic size limit) the handler adds nothing to
    what the engine reported.  For a Co-MCU Bricklet the box therefore
    appears only after the device itself has reported firmware mode, in the
    last request sent. *)
Theorem success_is_reported_only_after_the_engine_succeeded
  {D : Type} (dev : Device D) (fuel : nat)
  (zipfile_ZipFile : Py.bytes -> reply ZipFile) (basename : string -> string)
  (choice : plugin_choice) (plugin : Py.bytes) (port : string)
  (has_comcu is_tng : bool) (d : D) :
  let name :=
    match choice with
    | CUSTOM plugin_file_name => basename plugin_file_name
    | OFFICIAL name _ => name
    end in
  let engine :=
    write_bricklet_plugin dev fuel zipfile_ZipFile plugin port name
      has_comcu is_tng d in
  let handler :=
    plugin_save_flash dev fuel zipfile_ZipFile basename choice plugin port
      has_comcu is_tng d in
  (forall t m,
     In (Engine (EvPopupOk t m)) (snd handler) ->
     fst (fst engine) = Val (Some true) /\
     t = "Bricklet"%string /\ m = flashed_message choice has_comcu) /\
  (fst (fst engine) = Val (Some true) ->
   handler
   = (Val tt, snd (fst engine),
      (HideCancelButton :: map Engine (snd engine) ++
       [Engine (EvProgress cancel);
        Engine (EvPopupOk "Bricklet" (flashed_message choice has_comcu))])%list))
  /\
  (forall b,
     fst (fst engine) = Val b -> b <> Some true ->
     handler = (Val tt, snd (fst engine),
                HideCancelButton :: map Engine (snd engine))) /\
  (has_comcu = true ->
   (11 <= fuel)%nat ->
   (forall zf entry firmware,
      zipfile_ZipFile plugin = Returns zf ->
      find_firmware zf (namelist zf) name = Returns (entry, Some firmware) ->
      Py.len firmware <= XMC1_PAGE_SIZE * (Z.of_nat fuel - 1)) ->
   forall t m,
     In (Engine (EvPopupOk t m)) (snd handler) ->
     exists d0 before,
       get_bootloader_mode dev d0
       = (Returns BOOTLOADER_MODE_FIRMWARE, snd (fst handler)) /\
       calls_of (snd engine) = (before ++ [CGetBootloaderMode])%list).
Proof.
  intros name engine handler.
  assert (Hown : forall t m,
             In (Engine (EvPopupOk t m)) (snd handler) ->
             fst (fst engine) = Val (Some true) /\
             t = "Bricklet"%string /\ m = flashed_message choice has_comcu).
  { intros t m Hin.
    pose proof (engine_reports_no_success dev fuel zipfile_ZipFile plugin port
                  name has_comcu is_tng d t m) as Hnone.
    fold engine in Hnone.
    unfold handler, plugin_save_flash in Hin. fold name in Hin.
    fold engine in Hin.
    destruct engine as [[[[[|]|]|e|] d1] evs]; cbn [fst snd] in *;
      try (destruct Hin as [Hin|Hin]; [discriminate|contradiction]).
    destruct Hin as [Hin|Hin]; [discriminate|].
    apply in_app_or in Hin. destruct Hin as [Hin|Hin]; [contradiction|].
    destruct Hin as [Hin|[Hin|[]]]; [discriminate|].
    split; [reflexivity|]. split; congruence. }
  split; [exact Hown|]. split; [|split].
  - intros Htrue. unfold handler, plugin_save_flash. fold name. fold engine.
    destruct engine as [[r d1] evs]. cbn [fst snd] in *. subst r.
    reflexivity.
  - intros b Hb Hnot. unfold handler, plugin_save_flash. fold name.
    fold engine.
    destruct engine as [[r d1] evs]. cbn [fst snd] in *. subst r.
    destruct b as [[|]|]; [congruence|reflexivity|reflexivity].
  - intros Hcomcu Hfuel Hsize t m Hin.
    destruct (Hown t m Hin) as (Htrue & _).
    assert (Htotal : exists b d' evs,
               write_bricklet_plugin_comcu dev fuel zipfile_ZipFile plugin
                 name d = (Val b, d', evs) /\
               (b = true ->
                exists d0 before,
                  get_bootloader_mode dev d0
                  = (Returns BOOTLOADER_MODE_FIRMWARE, d') /\
                  evs = (before ++ [EvCall CGetBootloaderMode])%list)).
    { unfold write_bricklet_plugin_comcu, report_exception. run.
      destruct (zipfile_ZipFile plugin) as [zf|e] eqn:Hzip;
        [|destruct (is_Exception e);
          eexists _, _, _; (split; [reflexivity|discriminate])].
      destruct (find_firmware zf (namelist zf) name)
        as [[entry [firmware|]]|e] eqn:Hfind;
        try (eexists _, _, _; split; [reflexivity|discriminate]).
      destruct (comcu_flash_total dev fuel Hfuel firmware
                  (Hsize zf entry firmware eq_refl Hfind) entry d)
        as (r & d' & evs & Heq & Hdiv & Hb).
      rewrite Heq.
      destruct r as [b|x|]; [| |congruence].
      - exists b, d', (starting_bootloader_mode ++ evs)%list.
        split; [reflexivity|].
        intros Hyes. subst b.
        destruct (Hb eq_refl) as (d0 & before & Hget & ->).
        exists d0, (starting_bootloader_mode ++ before)%list.
        split; [exact Hget|]. rewrite <- app_assoc. reflexivity.
      - eexists _, _, _. split; [reflexivity|discriminate]. }
    destruct Htotal as (b & d' & evs & Heq & Hb).
    assert (Hengine : engine = (Val (Some b), d', (evs ++ [])%list)).
    { unfold engine, write_bricklet_plugin. rewrite Hcomcu.
      unfold bind, ret. rewrite Heq. reflexivity. }
    rewrite Hengine in Htrue. cbn [fst] in Htrue.
    assert (b = true) by congruence. subst b.
    destruct (Hb eq_refl) as (d0 & before & Hget & ->).
    exists d0, (calls_of before).
    unfold handler, plugin_save_flash. fold name. fold engine.
    rewrite Hengine. cbn [fst snd].
    split; [exact Hget|].
    rewrite app_nil_r, calls_of_app. reflexivity.
Qed.

(** ** Which device functions a method uses *)

Section Confined.

Context {D : Type}.
Variable allowed : event -> bool.

Lemma confined_ret {A : Type} (a : A) : confined allowed (@ret D A a).
Proof. intros d. reflexivity. Qed.

Lemma confined_raise {A : Type} (e : exn) : confined allowed (@raise D A e).
Proof. intros d. reflexivity. Qed.

Lemma confined_diverge {A : Type} : confined allowed (@diverge D A).
Proof. intros d. reflexivity. Qed.

Lemma confined_emit (e : event) :
  allowed e = true -> confined allowed (@emit D e).
Proof. intros He d. cbn. rewrite He. reflexivity. Qed.

Lemma confined_request {A : Type} (c : call) (f : D -> reply A * D) :
  allowed (EvCall c) = true -> confined allowed (request c f).
Proof.
  intros Hc d. unfold request.
  destruct (f d) as [[a|e] d1]; cbn; rewrite Hc; reflexivity.
Qed.

Lemma confined_bind {A B : Type} (m : M D A) (k : A -> M D B) :
  confined allowed m -> (forall a, confined allowed (k a)) ->
  confined allowed (bind m k).
Proof.
  intros Hm Hk d. unfold bind. specialize (Hm d).
  destruct (m d) as [[[a|e|] d1] ev1]; cbn [snd] in *; try exact Hm.
  specialize (Hk a d1). destruct (k a d1) as [[r d2] ev2]. cbn [snd] in *.
  rewrite forallb_app, Hm, Hk. reflexivity.
Qed.

Lemma confined_try_except {A : Type} (m : M D A) (handler : exn -> M D A) :
  confined allowed m -> (forall e, confined allowed (handler e)) ->
  confined allowed (try_except m handler).
Proof.
  intros Hm Hh d. unfold try_except. specialize (Hm d).
  destruct (m d) as [[[a|e|] d1] ev1]; cbn [snd] in *; try exact Hm.
  specialize (Hh e d1). destruct (handler e d1) as [[r d2] ev2].
  cbn [snd] in *. rewrite forallb_app, Hm, Hh. reflexivity.
Qed.

Lemma confined_try_except_Error {A : Type} (m : M D A)
  (handler : Error -> M D A) :
  confined allowed m -> (forall e, confined allowed (handler e)) ->
  confined allowed (try_except_Error m handler).
Proof.
  intros Hm Hh. unfold try_except_Error.
  apply confined_try_except; [exact Hm|].
  intros [err|text|text]; [apply Hh|apply confined_raise|apply confined_raise].
Qed.

Lemma confined_try_except_Exception {A : Type} (m : M D A)
  (handler : exn -> M D A) :
  confined allowed m -> (forall e, confined allowed (handler e)) ->
  confined allowed (try_except_Exception m handler).
Proof.
  intros Hm Hh. unfold try_except_Exception.
  apply confined_try_except; [exact Hm|].
  intros e. destruct (is_Exception e); [apply Hh|apply confined_raise].
Qed.

Lemma confined_eval {A : Type} (r : reply A) : confined allowed (@eval D A r).
Proof. destruct r; intros d; reflexivity. Qed.

Lemma confined_calls {A : Type} (m : M D A) (d : D) (c : call) :
  confined allowed m -> In c (calls_of (snd (m d))) ->
  allowed (EvCall c) = true.
Proof.
  intros Hm Hin. specialize (Hm d). rewrite forallb_forall in Hm.
  apply Hm. unfold calls_of in Hin. apply in_flat_map in Hin.
  destruct Hin as (e & He & Hc).
  destruct e; cbn in Hc; try contradiction.
  destruct Hc as [<-|[]]. exact He.
Qed.

End Confined.

(** Breaks a computation of the engine down to its events and checks
    each. *)
Ltac confined_step :=
  first
    [ assumption
    | apply confined_ret | apply confined_raise | apply confined_diverge
    | apply confined_request; reflexivity
    | apply confined_emit; reflexivity
    | apply confined_eval
    | apply confined_bind | apply confined_try_except_Error
    | apply confined_try_except_Exception | apply confined_try_except
    | progress intros
    | match goal with
      | |- confined _ (match ?x with _ => _ end) => destruct x
      | |- confined _ (if ?b then _ else _) => destruct b
      end ].

Section ConfinedEngine.

Context {D : Type}.
Variable dev : Device D.
Variable fuel : nat.
Variable zipfile_ZipFile : Py.bytes -> reply ZipFile.

Lemma set_loop_confined mode :
  forall n counter,
  confined comcu_function (set_comcu_bootloader_mode_loop dev n mode counter).
Proof.
  induction n as [|n IH]; intros counter; cbn [set_comcu_bootloader_mode_loop];
    unfold sleep; repeat first [apply IH | confined_step].
Qed.

Lemma wait_loop_confined mode :
  forall n counter,
  confined comcu_function
    (wait_for_comcu_bootloader_mode_loop dev n mode counter).
Proof.
  induction n as [|n IH]; intros counter;
    cbn [wait_for_comcu_bootloader_mode_loop];
    unfold sleep; repeat first [apply IH | confined_step].
Qed.

Lemma write_block_confined plugin block_start block_end :
  forall attempts last_exception,
  confined comcu_function
    (write_block dev attempts plugin block_start block_end last_exception).
Proof.
  induction attempts as [|a rest IH]; intros last_exception;
    cbn [write_block]; repeat first [apply IH | confined_step].
Qed.

Lemma write_page_confined plugin position :
  forall offsets,
  confined comcu_function (write_page dev offsets plugin position).
Proof.
  induction offsets as [|o rest IH]; cbn [write_page];
    unfold progress, popup_fail;
    repeat first [apply IH | apply write_block_confined | confined_step].
Qed.

Lemma write_pages_confined plugin plugin_len allow :
  forall n skipped position,
  confined comcu_function
    (write_pages dev n allow plugin plugin_len skipped position).
Proof.
  induction n as [|n IH]; intros skipped position; cbn [write_pages];
    unfold progress;
    repeat first [apply IH | apply write_page_confined | confined_step].
Qed.

Lemma comcu_check_mode_ret_confined mode_ret :
  confined comcu_function (@comcu_check_mode_ret D mode_ret).
Proof.
  unfold comcu_check_mode_ret, progress, popup_fail. cbv zeta.
  repeat confined_step.
Qed.

Lemma comcu_attempt_confined plugin plugin_len name attempt :
  confined comcu_function
    (comcu_attempt dev fuel plugin plugin_len name attempt).
Proof.
  unfold comcu_attempt, comcu_write_attempt, set_comcu_bootloader_mode,
    wait_for_comcu_bootloader_mode, progress, popup_fail.
  repeat first [apply set_loop_confined | apply wait_loop_confined
               | apply write_pages_confined
               | apply comcu_check_mode_ret_confined | confined_step].
Qed.

Lemma comcu_attempts_confined plugin plugin_len name :
  forall attempts error_str,
  confined comcu_function
    (comcu_attempts dev fuel attempts plugin plugin_len name error_str).
Proof.
  induction attempts as [|attempt rest IH]; intros error_str;
    cbn [comcu_attempts];
    repeat first [apply IH | apply comcu_attempt_confined | confined_step].
Qed.

Lemma comcu_after_attempts_confined r :
  confined comcu_function (comcu_after_attempts dev fuel r).
Proof.
  unfold comcu_after_attempts, wait_for_comcu_bootloader_mode, progress,
    popup_fail.
  repeat first [apply wait_loop_confined | confined_step].
Qed.

Lemma write_bricklet_plugin_comcu_confined plugin name :
  confined comcu_function
    (write_bricklet_plugin_comcu dev fuel zipfile_ZipFile plugin name).
Proof.
  unfold write_bricklet_plugin_comcu, report_exception, comcu_flash, progress,
    popup_fail. cbv zeta.
  repeat first [apply comcu_attempts_confined
               | apply comcu_after_attempts_confined | confined_step].
Qed.

Lemma tng_write_blocks_confined plugin :
  forall index_list,
  confined tng_function (tng_write_blocks dev index_list plugin).
Proof.
  induction index_list as [|position rest IH]; cbn [tng_write_blocks];
    unfold tng_write_block, progress, popup_fail; cbv zeta;
    repeat first [apply IH | confined_step].
Qed.

Lemma write_bricklet_plugin_tng_confined plugin name :
  confined tng_function
    (write_bricklet_plugin_tng dev zipfile_ZipFile plugin name).
Proof.
  unfold write_bricklet_plugin_tng, report_exception, tng_flash,
    tng_write_firmware, tng_check_copy_status, progress, popup_fail.
  cbv zeta.
  repeat first [apply tng_write_blocks_confined | confined_step].
Qed.

Lemma classic_write_chunks_confined port :
  forall chunks position,
  confined (classic_function port)
    (classic_write_chunks dev chunks port position).
Proof.
  induction chunks as [|chunk rest IH]; intros position;
    cbn [classic_write_chunks]; unfold progress, popup_fail, sleep; cbv zeta;
    repeat first [apply IH
                 | apply confined_request; cbn; apply String.eqb_refl
                 | confined_step].
Qed.

Lemma classic_verify_chunks_confined port :
  forall chunks position,
  confined (classic_function port)
    (classic_verify_chunks dev chunks port position).
Proof.
  induction chunks as [|chunk rest IH]; intros position;
    cbn [classic_verify_chunks]; unfold progress, popup_fail, sleep; cbv zeta;
    repeat first [apply IH
                 | apply confined_request; cbn; apply String.eqb_refl
                 | confined_step].
Qed.

Lemma write_bricklet_plugin_classic_confined plugin port name :
  confined (classic_function port)
    (write_bricklet_plugin_classic dev fuel plugin port name).
Proof.
  unfold write_bricklet_plugin_classic, progress, popup_fail, sleep.
  repeat first [apply classic_write_chunks_confined
               | apply classic_verify_chunks_confined | confined_step].
Qed.

End ConfinedEngine.

(** X23. Each flashing method uses only the device functions of its own
    protocol, whatever happens: [write_bricklet_plugin_comcu] only
    [set_bootloader_mode], [get_bootloader_mode],
    [set_write_firmware_pointer] and [write_firmware] (it never sends
    [copy_firmware] or [reset]); [write_bricklet_plugin_tng] only
    [set_write_firmware_pointer], [write_firmware], [copy_firmware] and
    [reset]; [write_bricklet_plugin_classic] only the Brick's
    [write_bricklet_plugin] and [read_bricklet_plugin], and only for the
    port it was given.  [write_bricklet_plugin] takes the Co-MCU method
    whenever the Bricklet has a Co-MCU, also when it counts as TNG. *)
Theorem methods_keep_to_their_own_functions
  {D : Type} (dev : Device D) (fuel : nat)
  (zipfile_ZipFile : Py.bytes -> reply ZipFile) (plugin : Py.bytes)
  (port name : string) (d : D) (c : call) :
  (In c (calls_of (snd (write_bricklet_plugin_comcu dev fuel zipfile_ZipFile
                          plugin name d))) ->
   comcu_function (EvCall c) = true) /\
  (In c (calls_of (snd (write_bricklet_plugin_tng dev zipfile_ZipFile
                          plugin name d))) ->
   tng_function (EvCall c) = true) /\
  (In c (calls_of (snd (write_bricklet_plugin_classic dev fuel plugin port
                          name d))) ->
   classic_function port (EvCall c) = true) /\
  (forall is_tng,
     In c (calls_of (snd (write_bricklet_plugin dev fuel zipfile_ZipFile plugin
                            port name true is_tng d))) ->
     comcu_function (EvCall c) = true) /\
  (comcu_function (EvCall CCopyFirmware) = false /\
   comcu_function (EvCall CReset) = false /\
   forall mode, tng_function (EvCall (CSetBootloaderMode mode)) = false).
Proof.
  split; [|split; [|split; [|split]]].
  - apply confined_calls. apply write_bricklet_plugin_comcu_confined.
  - apply confined_calls. apply write_bricklet_plugin_tng_confined.
  - apply confined_calls. apply write_bricklet_plugin_classic_confined.
  - intros is_tng.
    apply (confined_calls comcu_function
             (write_bricklet_plugin dev fuel zipfile_ZipFile plugin port name
                true is_tng)).
    unfold write_bricklet_plugin.
    repeat first [apply write_bricklet_plugin_comcu_confined | confined_step].
  - repeat split.
Qed.

(** ** TNG: checks before the module is touched *)

(** X24. [write_bricklet_plugin_tng] gives up with [False] before any
    request is sent to the module when the archive cannot be opened
    (message 'Could not read *.zbin file: ...' under the title 'Bricklet'),
    when it holds no entry ending in 'firmware.bin' ('Could not find
    firmware in *.zbin file' under the title 'TNG Module'), and when
    reading the firmware entry raises: then the exception goes to
    [sys.excepthook] and no message box is shown.  What the open raises
    outside [Exception] gets no message box either: the handler around the
    whole method cancels the dialog and passes it to the exception
    hook. *)
Theorem tng_rejects_before_touching_the_module
  {D : Type} (dev : Device D)
  (zipfile_ZipFile : Py.bytes -> reply ZipFile) (zip_file : Py.bytes)
  (name : string) (d : D) :
  (forall e,
     zipfile_ZipFile zip_file = Raises e ->
     write_bricklet_plugin_tng dev zipfile_ZipFile zip_file name d
     = (Val false, d,
        (starting_bootloader_mode ++
         if is_Exception e
         then failure_report "Bricklet"
                ("Could not read *.zbin file: " +++ exn_text e)
         else [EvProgress cancel; EvExcepthook e])%list)) /\
  (forall zf,
     zipfile_ZipFile zip_file = Returns zf ->
     (forall n, In n (namelist zf) -> Py.endswith n "firmware.bin" = false) ->
     write_bricklet_plugin_tng dev zipfile_ZipFile zip_file name d
     = (Val false, d,
        (starting_bootloader_mode ++
         failure_report "TNG Module"
           "Could not find firmware in *.zbin file")%list)) /\
  (forall zf before entry after e,
     zipfile_ZipFile zip_file = Returns zf ->
     namelist zf = (before ++ entry :: after)%list ->
     (forall n, In n before -> Py.endswith n "firmware.bin" = false) ->
     Py.endswith entry "firmware.bin" = true ->
     read zf entry = Raises e ->
     write_bricklet_plugin_tng dev zipfile_ZipFile zip_file name d
     = (Val false, d,
        (starting_bootloader_mode ++
         [EvProgress cancel; EvExcepthook e])%list)) /\
  (forall tail,
     calls_of tail = [] -> calls_of (starting_bootloader_mode ++ tail) = []).
Proof.
  split; [|split; [|split]].
  - intros e Hzip. unfold write_bricklet_plugin_tng. run.
    rewrite Hzip. unfold report_exception.
    destruct (is_Exception e); reflexivity.
  - intros zf Hzip Hnone. unfold write_bricklet_plugin_tng. run.
    rewrite Hzip.
    destruct (find_firmware_none zf (namelist zf) name Hnone) as [name' ->].
    reflexivity.
  - intros zf before entry after e Hzip Hnames Hbefore Hentry Hread.
    unfold write_bricklet_plugin_tng, report_exception. run.
    rewrite Hzip, Hnames.
    rewrite (find_firmware_first zf before entry after Hbefore Hentry), Hread.
    reflexivity.
  - intros tail Htail. rewrite calls_of_app, Htail. reflexivity.
Qed.

(** ** The properties on the simulated device *)

Lemma sim_stores port (s : Sim.state) position chunk :
  Bench.keeps s ->
  exists s',
    brick_write_bricklet_plugin Sim.device port position chunk s
      = (Returns tt, s') /\
    Bench.keeps s' /\
    Bench.held s' position = chunk /\
    forall q, q <> position -> Bench.held s' q = Bench.held s q.
Proof.
  intros [Hon Hcor].
  exists (Sim.with_memory s ((position, chunk) :: Sim.memory s)).
  split; [|split; [|split]].
  - cbn [brick_write_bricklet_plugin Sim.device]. unfold Sim.guarded.
    rewrite Hon. reflexivity.
  - split; assumption.
  - unfold Bench.held. cbn [Sim.memory Sim.with_memory Sim.lookup].
    rewrite Z.eqb_refl. reflexivity.
  - intros q Hq. unfold Bench.held.
    cbn [Sim.memory Sim.with_memory Sim.lookup].
    assert (Hneq : (position =? q) = false) by (apply Z.eqb_neq; congruence).
    rewrite Hneq. reflexivity.
Qed.

Lemma sim_loads port (s : Sim.state) position :
  Bench.keeps s ->
  exists s',
    brick_read_bricklet_plugin Sim.device port position s
      = (Returns (Bench.held s position), s') /\
    Bench.keeps s' /\
    forall q, Bench.held s' q = Bench.held s q.
Proof.
  intros [Hon Hcor]. exists s.
  split; [|split; [split; assumption|reflexivity]].
  cbn [brick_read_bricklet_plugin Sim.device].
  unfold Sim.sim_read_bricklet_plugin, Sim.guarded.
  rewrite Hon, Hcor. reflexivity.
Qed.

Lemma sim_sets (s : Sim.state) mode :
  Bench.cooperates s ->
  exists s',
    set_bootloader_mode Sim.device mode s = (Returns 0, s') /\
    Bench.cooperates s' /\ Sim.mode s' = mode.
Proof.
  intros (Hon & Hst & Hboots & Hcopy).
  cbn [set_bootloader_mode Sim.device].
  unfold Sim.sim_set_bootloader_mode, Sim.guarded.
  rewrite Hon, Hst, Hboots. cbn [hd tl Z.eqb orb andb].
  destruct (mode =? BOOTLOADER_MODE_FIRMWARE) eqn:Hmode.
  - apply Z.eqb_eq in Hmode. eexists. split; [reflexivity|].
    split; [|symmetry; exact Hmode].
    repeat split; assumption.
  - eexists. split; [reflexivity|]. split; [|reflexivity].
    repeat split; assumption.
Qed.

Lemma sim_gets (s : Sim.state) :
  Bench.cooperates s ->
  exists s',
    get_bootloader_mode Sim.device s = (Returns (Sim.mode s), s') /\
    Bench.cooperates s' /\ Sim.mode s' = Sim.mode s.
Proof.
  intros Hgood. exists s. split; [|split; [exact Hgood|reflexivity]].
  destruct Hgood as (Hon & _).
  cbn [get_bootloader_mode Sim.device]. unfold Sim.guarded.
  rewrite Hon. reflexivity.
Qed.

Lemma sim_points (s : Sim.state) pointer :
  Bench.cooperates s ->
  exists s',
    set_write_firmware_pointer Sim.device pointer s = (Returns tt, s') /\
    Bench.cooperates s'.
Proof.
  intros Hgood. exists s. split; [|exact Hgood].
  destruct Hgood as (Hon & _).
  cbn [set_write_firmware_pointer Sim.device]. unfold Sim.guarded.
  rewrite Hon. reflexivity.
Qed.

Lemma sim_takes (s : Sim.state) data :
  Bench.cooperates s ->
  exists status s',
    write_firmware Sim.device data s = (Returns status, s') /\
    Bench.cooperates s'.
Proof.
  intros Hgood. exists 0, s. split; [|exact Hgood].
  destruct Hgood as (Hon & _).
  cbn [write_firmware Sim.device]. unfold Sim.guarded.
  rewrite Hon. reflexivity.
Qed.

Lemma sim_copies (s : Sim.state) :
  Bench.cooperates s ->
  exists s', copy_firmware Sim.device s = (Returns 0, s') /\
             Bench.cooperates s'.
Proof.
  intros Hgood. exists s. split; [|exact Hgood].
  destruct Hgood as (Hon & _ & _ & Hcopy).
  cbn [copy_firmware Sim.device]. unfold Sim.guarded.
  rewrite Hon, Hcopy. reflexivity.
Qed.

Lemma sim_resets (s : Sim.state) :
  Bench.cooperates s ->
  exists s', reset Sim.device s = (Returns tt, s') /\ Bench.cooperates s'.
Proof.
  intros Hgood. exists s. split; [|exact Hgood].
  destruct Hgood as (Hon & _).
  cbn [reset Sim.device]. unfold Sim.guarded.
  rewrite Hon. reflexivity.
Qed.

Lemma archive_holds_one_firmware firmware zip_file zf entry plugin name :
  Sim.archive_of firmware zip_file = Returns zf ->
  find_firmware zf (namelist zf) name = Returns (entry, Some plugin) ->
  plugin = firmware.
Proof.
  intros Hzip Hfind.
  assert (zf = Bench.archive firmware)
    by (unfold Sim.archive_of in Hzip; unfold Bench.archive; congruence).
  subst zf.
  change (find_firmware (Bench.archive firmware)
            (namelist (Bench.archive firmware)) name)
    with (Returns ("bricklet_firmware.bin"%string, Some firmware)) in Hfind.
  congruence.
Qed.

Lemma write_block_tried_at_most_three_times_witness :
  write_block Bench.loses_requests (Py.range 0 3) (Sim.image 1) 0 (0 + 64)
    None (Sim.answering [5])
  = (Val None, Sim.answering [],
     ([EvCall (CSetWriteFirmwarePointer 0);
       EvCall (CWriteFirmware (Py.slice (Sim.image 1) 0 (0 + 64)))] ++
      [EvCall (CSetWriteFirmwarePointer 0);
       EvCall (CWriteFirmware (Py.slice (Sim.image 1) 0 (0 + 64)))])%list) /\
  write_block Bench.interrupted (Py.range 0 3) (Sim.image 1) 0 (0 + 64)
    None Sim.healthy
  = (Raise (BaseException "KeyboardInterrupt"), Sim.healthy,
     [EvCall (CSetWriteFirmwarePointer 0);
      EvCall (CWriteFirmware (Py.slice (Sim.image 1) 0 (0 + 64)))]).
Proof.
  split.
  - destruct (write_block_tried_at_most_three_times Bench.loses_requests
                (Sim.image 1) 0 (Sim.answering [5])) as (_ & Hraised & _).
    destruct (Hraised Sim.timeout (Sim.answering [])
                [EvCall (CSetWriteFirmwarePointer 0);
                 EvCall (CWriteFirmware (Py.slice (Sim.image 1) 0 (0 + 64)))]
                eq_refl) as (_ & Hnext).
    destruct (Hnext eq_refl) as (Hsecond & _).
    exact (Hsecond (Sim.answering [])
             [EvCall (CSetWriteFirmwarePointer 0);
              EvCall (CWriteFirmware (Py.slice (Sim.image 1) 0 (0 + 64)))]
             eq_refl).
  - destruct (write_block_tried_at_most_three_times Bench.interrupted
                (Sim.image 1) 0 Sim.healthy) as (_ & Hraised & _).
    destruct (Hraised (BaseException "KeyboardInterrupt") Sim.healthy
                [EvCall (CSetWriteFirmwarePointer 0);
                 EvCall (CWriteFirmware (Py.slice (Sim.image 1) 0 (0 + 64)))]
                eq_refl) as (Hout & _).
    exact (Hout eq_refl).
Defined.

Lemma pages_with_data_are_never_skipped_witness :
  page_written
    (snd (comcu_write_attempt Sim.device 30 (Sim.image 3)
            (Py.len (Sim.image 3)) "Test" 0 Sim.healthy))
    (Sim.image 3) (XMC1_PAGE_SIZE * Z.of_nat 3).
Proof.
  pose (first := comcu_write_attempt Sim.device 30 (Sim.image 3)
                   (Py.len (Sim.image 3)) "Test" 0 Sim.healthy).
  assert (Hfuel : (11 <= 30)%nat) by lia.
  assert (Hlen : Py.len (Sim.image 3) = XMC1_PAGE_SIZE * Z.of_nat 4)
    by (vm_compute; reflexivity).
  assert (Hpages : (4 < 30)%nat) by lia.
  assert (Hfirst : first = (Val (Next tt), snd (fst first), snd first))
    by (vm_compute; reflexivity).
  assert (Hpage : XMC1_PAGE_SIZE * Z.of_nat 3 <= 768
                  < XMC1_PAGE_SIZE * Z.of_nat 3 + XMC1_PAGE_SIZE)
    by (vm_compute; split; [discriminate|reflexivity]).
  assert (Hbyte : Py.index (Sim.image 3) 768 = Some x78)
    by (vm_compute; reflexivity).
  assert (Hdata : x78 <> x00) by discriminate.
  exact (pages_with_data_are_never_skipped Sim.device 30 (Sim.image 3) "Test"
           0 4 Sim.healthy _ _ 3 768 x78 Hfuel Hlen Hpages Hfirst Hpage Hbyte
           Hdata).
Defined.

Lemma at_most_eighty_pages_skipped_in_a_row_witness :
  exists i, (i <= 80)%nat /\
    page_written
      (snd (comcu_write_attempt Sim.device 120 (Sim.image 100)
              (Py.len (Sim.image 100)) "Test" 0 Sim.healthy))
      (Sim.image 100) (XMC1_PAGE_SIZE * Z.of_nat (5 + i)).
Proof.
  pose (first := comcu_write_attempt Sim.device 120 (Sim.image 100)
                   (Py.len (Sim.image 100)) "Test" 0 Sim.healthy).
  assert (Hfuel : (11 <= 120)%nat) by lia.
  assert (Hlen : Py.len (Sim.image 100) = XMC1_PAGE_SIZE * Z.of_nat 101)
    by (vm_compute; reflexivity).
  assert (Hpages : (101 < 120)%nat) by lia.
  assert (Hfirst : first = (Val (Next tt), snd (fst first), snd first))
    by (vm_compute; reflexivity).
  assert (Hwindow : (5 + 80 < 101)%nat) by lia.
  exact (proj2 (at_most_eighty_pages_skipped_in_a_row Sim.device 120
                  (Sim.image 100) "Test" 0 101 Sim.healthy _ _ 5 Hfuel Hlen
                  Hpages Hfirst Hwindow)).
Defined.


Lemma comcu_rejects_before_touching_the_device_witness :
  write_bricklet_plugin_comcu Sim.device 30 Bench.unreadable [] "Test"
    Sim.healthy
  = (Val false, Sim.healthy,
     (starting_bootloader_mode ++
      failure_report "Bricklet"
        "Could not read *.zbin file: File is not a zip file")%list) /\
  fst (fst (write_bricklet_plugin_comcu Sim.device 30
              (Sim.archive_of (Sim.image 1 ++ [x00])) [] "Test" Sim.healthy))
  = Val false /\
  write_bricklet_plugin_comcu Sim.device 30 Bench.interrupted_open [] "Test"
    Sim.healthy
  = (Val false, Sim.healthy,
     (starting_bootloader_mode ++
      [EvProgress cancel;
       EvExcepthook (BaseException "KeyboardInterrupt")])%list).
Proof.
  split; [|split].
  - apply (proj1 (comcu_rejects_before_touching_the_device Sim.device 30
                    Bench.unreadable [] "Test" Sim.healthy)
             (Exception "File is not a zip file")).
    reflexivity.
  - assert (Hzip : Sim.archive_of (Sim.image 1 ++ [x00]) []
                   = Returns (Bench.archive (Sim.image 1 ++ [x00])))
      by reflexivity.
    assert (Hfind : find_firmware (Bench.archive (Sim.image 1 ++ [x00]))
                      (namelist (Bench.archive (Sim.image 1 ++ [x00])))
                      "Test"
                    = Returns ("bricklet_firmware.bin"%string,
                               Some (Sim.image 1 ++ [x00])%list))
      by reflexivity.
    assert (Hmagic : find_regular_plugin_upto (Sim.image 1 ++ [x00]) <> -1)
      by (vm_compute; discriminate).
    assert (Hlen : Py.len (Sim.image 1 ++ [x00]) mod XMC1_PAGE_SIZE <> 0)
      by (vm_compute; discriminate).
    rewrite (proj1 (proj2 (proj2
               (comcu_rejects_before_touching_the_device Sim.device 30
                  (Sim.archive_of (Sim.image 1 ++ [x00])) [] "Test"
                  Sim.healthy)))
               _ _ _ Hzip Hfind Hmagic Hlen).
    reflexivity.
  - apply (proj1 (comcu_rejects_before_touching_the_device Sim.device 30
                    Bench.interrupted_open [] "Test" Sim.healthy)
             (BaseException "KeyboardInterrupt") eq_refl).
Defined.

Lemma polling_answers_come_from_the_device_witness :
  exists d0 before,
    get_bootloader_mode Sim.device d0
    = (Returns BOOTLOADER_MODE_FIRMWARE, Sim.healthy) /\
    snd (wait_for_comcu_bootloader_mode Sim.device 30 BOOTLOADER_MODE_FIRMWARE
           Sim.healthy)
    = (before ++ [EvCall CGetBootloaderMode])%list.
Proof.
  assert (Hrun : wait_for_comcu_bootloader_mode Sim.device 30
                   BOOTLOADER_MODE_FIRMWARE Sim.healthy
                 = (Val true, Sim.healthy, [EvCall CGetBootloaderMode]))
    by (vm_compute; reflexivity).
  destruct (proj1 (proj2 (proj2
              (polling_answers_come_from_the_device Sim.device 30
                 BOOTLOADER_MODE_FIRMWARE Sim.healthy Sim.healthy
                 [EvCall CGetBootloaderMode]))) Hrun)
    as (d0 & before & Hget & Hevs).
  exists d0, before. split; [exact Hget|]. rewrite Hrun. exact Hevs.
Defined.

Lemma comcu_always_answers_witness :
  exists b,
    fst (fst (write_bricklet_plugin_comcu Sim.device 30
                (Sim.archive_of (Sim.image 1)) [] "Test" Sim.healthy))
    = Val b.
Proof.
  assert (Hfuel : (11 <= 30)%nat) by lia.
  assert (Hsize : forall zf entry plugin,
             Sim.archive_of (Sim.image 1) [] = Returns zf ->
             find_firmware zf (namelist zf) "Test"
               = Returns (entry, Some plugin) ->
             Py.len plugin <= XMC1_PAGE_SIZE * (Z.of_nat 30 - 1)).
  { intros zf entry plugin Hzip Hfind.
    rewrite (archive_holds_one_firmware _ _ _ _ _ _ Hzip Hfind).
    vm_compute. discriminate. }
  destruct (comcu_always_answers Sim.device 30 (Sim.archive_of (Sim.image 1))
              [] "Test" Sim.healthy Hfuel Hsize) as (b & d' & evs & Heq & _).
  exists b. rewrite Heq. reflexivity.
Defined.

Lemma only_a_crc_mismatch_is_retried_witness :
  fst (fst (comcu_flash Sim.device 30 (Sim.image 1) "Test"
              (Sim.answering [3]))) = Val false /\
  failures_of (snd (comcu_flash Sim.device 30 (Sim.image 1) "Test"
                      (Sim.answering [3])))
  = [("Bricklet"%string,
      "Could not change from bootloader mode to firmware mode: Entry function not present (Error 3)"%string)].
Proof.
  pose (first := comcu_write_attempt Sim.device 30 (Sim.image 1)
                   (Py.len (Sim.image 1)) "Test" 0 (Sim.answering [3])).
  pose (leave := set_comcu_bootloader_mode Sim.device 30
                   BOOTLOADER_MODE_FIRMWARE (snd (fst first))).
  assert (Hmagic : find_regular_plugin_upto (Sim.image 1) <> -1)
    by (vm_compute; discriminate).
  assert (Hlen : Py.len (Sim.image 1) mod XMC1_PAGE_SIZE = 0)
    by (vm_compute; reflexivity).
  assert (Hfirst : first = (Val (Next tt), snd (fst first), snd first))
    by (vm_compute; reflexivity).
  assert (Hleave : leave = (Val (Some 3), snd (fst leave), snd leave))
    by (vm_compute; reflexivity).
  destruct (only_a_crc_mismatch_is_retried Sim.device 30 (Sim.image 1) "Test"
              (Sim.answering [3]) _ _ Hmagic Hlen Hfirst)
    as (Hfinal & _).
  rewrite (Hfinal 3 _ _ Hleave) by discriminate.
  split; [reflexivity|]. vm_compute. reflexivity.
Defined.

Lemma tng_sends_every_block_of_the_padded_image_witness :
  exists padding,
    0 <= padding < 64 /\
    (Py.len (Sim.plugin_of_size 100) + padding) mod 64 = 0 /\
    block_written
      (snd (tng_write_firmware Sim.device (Sim.plugin_of_size 100) "Test"
              Sim.healthy))
      (Sim.plugin_of_size 100 ++ Py.zeros padding) (64 * 1).
Proof.
  pose (blocks := tng_write_firmware Sim.device (Sim.plugin_of_size 100)
                    "Test" Sim.healthy).
  assert (Hblocks : blocks = (Val (Next tt), snd (fst blocks), snd blocks))
    by (vm_compute; reflexivity).
  destruct (tng_sends_every_block_of_the_padded_image Sim.device
              (Sim.plugin_of_size 100) "Test" Sim.healthy)
    as (padding & Hpad & Hmod & _ & Hall).
  exists padding. split; [exact Hpad|]. split; [exact Hmod|].
  destruct (Hall _ _ Hblocks) as (_ & Hwritten).
  apply Hwritten; [lia|].
  assert (Py.len (Sim.plugin_of_size 100) = 100) by reflexivity. lia.
Defined.

Lemma tng_block_tried_at_most_twice_witness :
  fst (fst (tng_flash Sim.device (Sim.plugin_of_size 100) "Test" Sim.offline))
  = Val false /\
  ~ In CCopyFirmware
       (calls_of (snd (tng_flash Sim.device (Sim.plugin_of_size 100) "Test"
                         Sim.offline))).
Proof.
  pose (blocks := tng_write_firmware Sim.device (Sim.plugin_of_size 100)
                    "Test" Sim.offline).
  assert (Hblocks : blocks
                    = (Val (Return false), snd (fst blocks), snd blocks))
    by (vm_compute; reflexivity).
  destruct (proj2 (tng_block_tried_at_most_twice Sim.device
                     (Sim.plugin_of_size 100) "Test" Sim.offline)
              _ _ Hblocks) as (Hrun & Hcopy & _).
  rewrite Hrun. split; [reflexivity|exact Hcopy].
Defined.

Lemma tng_exception_after_writing_is_hooked_witness :
  fst (fst (write_bricklet_plugin_tng Bench.copy_raises
              (Sim.archive_of (Sim.plugin_of_size 100)) [] "Test"
              Sim.healthy))
  = Val false.
Proof.
  pose (blocks := tng_write_firmware Bench.copy_raises
                    (Sim.plugin_of_size 100) "bricklet_firmware.bin"
                    Sim.healthy).
  assert (Hzip : Sim.archive_of (Sim.plugin_of_size 100) []
                 = Returns (Bench.archive (Sim.plugin_of_size 100)))
    by reflexivity.
  assert (Hfind : find_firmware (Bench.archive (Sim.plugin_of_size 100))
                    (namelist (Bench.archive (Sim.plugin_of_size 100)))
                    "Test"
                  = Returns ("bricklet_firmware.bin"%string,
                             Some (Sim.plugin_of_size 100)))
    by reflexivity.
  assert (Hblocks : blocks = (Val (Next tt), snd (fst blocks), snd blocks))
    by (vm_compute; reflexivity).
  assert (Hcopy : copy_firmware Bench.copy_raises (snd (fst blocks))
                  = (Raises Sim.timeout, snd (fst blocks)))
    by reflexivity.
  rewrite (proj1 (tng_exception_after_writing_is_hooked Bench.copy_raises
                    (Sim.archive_of (Sim.plugin_of_size 100)) [] "Test"
                    Sim.healthy _ _ _ _ _ Hzip Hfind Hblocks)
             _ _ Hcopy).
  reflexivity.
Defined.

Lemma tng_always_answers_witness :
  exists b,
    fst (fst (write_bricklet_plugin_tng Sim.device
                (Sim.archive_of (Sim.plugin_of_size 100)) [] "Test"
                Sim.healthy))
    = Val b.
Proof.
  destruct (tng_always_answers Sim.device
              (Sim.archive_of (Sim.plugin_of_size 100)) [] "Test" Sim.healthy)
    as (b & d' & evs & Heq & _).
  exists b. rewrite Heq. reflexivity.
Defined.

Lemma classic_write_that_raises_ends_the_method_witness :
  write_bricklet_plugin_classic Sim.device 200 (Sim.plugin_of_size 40) "a"
    "Test" Sim.offline
  = (Val (Some false), Sim.offline,
     (classic_prologue "Test" 2 ++
      EvCall (CWriteBrickletPlugin "a" 0 (repeat x2a 32)) ::
      failure_report "Bricklet" "Could not write Bricklet plugin: Timeout")%list).
Proof.
  pose (tail := (repeat x2a 8 ++ repeat x00 24)%list).
  assert (Hsize : Py.len (Sim.plugin_of_size 40) <= 4084)
    by (vm_compute; discriminate).
  assert (Hsplit : split_chunks 200 (Sim.plugin_of_size 40) [] 0
                   = Some ([] ++ repeat x2a 32 :: [tail])%list)
    by (vm_compute; reflexivity).
  assert (Hwritten : classic_write_chunks Sim.device [] "a" 0 Sim.offline
                     = (Val (Next tt), Sim.offline, []))
    by reflexivity.
  assert (Hraise : brick_write_bricklet_plugin Sim.device "a"
                     (Py.len (@nil Py.bytes)) (repeat x2a 32) Sim.offline
                   = (Raises Sim.timeout, Sim.offline))
    by reflexivity.
  rewrite (proj1 (classic_write_that_raises_ends_the_method Sim.device 200
                    (Sim.plugin_of_size 40) "a" "Test" Sim.offline
                    [] (repeat x2a 32) [tail] _ _ _ _
                    Hsize Hsplit Hwritten Hraise)
             _ "Timeout"%string eq_refl eq_refl).
  reflexivity.
Defined.

Lemma classic_read_back_that_raises_ends_the_method_witness :
  fst (fst (write_bricklet_plugin_classic Bench.read_back_raises 200
              (Sim.plugin_of_size 40) "a" "Test" Sim.healthy))
  = Val (Some false) /\
  failures_of
    (snd (write_bricklet_plugin_classic Bench.read_back_raises 200
            (Sim.plugin_of_size 40) "a" "Test" Sim.healthy))
  = [("Bricklet"%string,
      "Could not read Bricklet plugin back for verification: Timeout"%string)].
Proof.
  pose (tail := (repeat x2a 8 ++ repeat x00 24)%list).
  pose (written := classic_write_chunks Bench.read_back_raises
                     ([] ++ repeat x2a 32 :: [tail]) "a" 0 Sim.healthy).
  assert (Hsize : Py.len (Sim.plugin_of_size 40) <= 4084)
    by (vm_compute; discriminate).
  assert (Hsplit : split_chunks 200 (Sim.plugin_of_size 40) [] 0
                   = Some ([] ++ repeat x2a 32 :: [tail])%list)
    by (vm_compute; reflexivity).
  assert (Hwritten : written = (Val (Next tt), snd (fst written), snd written))
    by (vm_compute; reflexivity).
  assert (Hverified : classic_verify_chunks Bench.read_back_raises [] "a" 0
                        (snd (fst written))
                      = (Val (Next tt), snd (fst written), []))
    by reflexivity.
  assert (Hraise : brick_read_bricklet_plugin Bench.read_back_raises "a"
                     (Py.len (@nil Py.bytes)) (snd (fst written))
                   = (Raises Sim.timeout, snd (fst written)))
    by reflexivity.
  rewrite (proj1 (classic_read_back_that_raises_ends_the_method
                    Bench.read_back_raises 200 (Sim.plugin_of_size 40) "a"
                    "Test" Sim.healthy [] (repeat x2a 32) [tail] _ _ _ _ _ _
                    Hsize Hsplit Hwritten Hverified Hraise)
             _ "Timeout"%string eq_refl eq_refl).
  split; [reflexivity|]. vm_compute. reflexivity.
Defined.

Lemma classic_round_trip_on_a_storing_brick_witness :
  fst (fst (write_bricklet_plugin_classic Sim.device 200
              (Sim.plugin_of_size 100) "a" "Test" Sim.healthy))
  = Val (Some true).
Proof.
  assert (Hgood : Bench.keeps Sim.healthy) by (split; reflexivity).
  assert (Hsize : Py.len (Sim.plugin_of_size 100) <= 4084)
    by (vm_compute; discriminate).
  assert (Hfuel : Py.len (Sim.plugin_of_size 100) <= 32 * (Z.of_nat 200 - 1))
    by (vm_compute; discriminate).
  destruct (classic_round_trip_on_a_storing_brick Sim.device 200
              (Sim.plugin_of_size 100) "a" "Test" Sim.healthy
              Bench.keeps Bench.held (sim_stores "a") (sim_loads "a")
              Hgood Hsize Hfuel) as (d' & evs & chunks & Heq & _).
  rewrite Heq. reflexivity.
Defined.

Lemma uid_errors_are_reported_witness :
  uid_save_clicked Sim.device Sim.BASE58 Sim.base58decode Sim.base58encode
    "6Dct25" "a" true false Sim.offline
  = (Val tt, Sim.offline,
     [EvCall (CWriteUid 3702731314);
      EvPopupFail "Bricklet" "Could not write UID: Timeout"]) /\
  uid_save_clicked Bench.write_uid_raises Sim.BASE58 Sim.base58decode
    Sim.base58encode "6Dct25" "a" true false Sim.healthy
  = (Raise (Exception "'Error' object has no attribute 'message'"),
     Sim.healthy, [EvCall (CWriteUid 3702731314)]).
Proof.
  assert (Hvalid : uid_valid Sim.BASE58 Sim.base58decode "6Dct25").
  { split; [discriminate|]. split.
    - intros c Hc. cbn in Hc.
      repeat (destruct Hc as [<-|Hc]; [reflexivity|]). contradiction.
    - exists 3702731314. split; [vm_compute; reflexivity|lia]. }
  assert (Hdecoded : Sim.base58decode "6Dct25" = Returns 3702731314)
    by (vm_compute; reflexivity).
  split.
  - assert (Hwrite : uid_write_reply Sim.device "6Dct25" "a" 3702731314
                       (true || false) Sim.offline
                     = (Raises Sim.timeout, Sim.offline))
      by reflexivity.
    rewrite (proj1 (proj1 (uid_errors_are_reported Sim.device Sim.BASE58
                             Sim.base58decode Sim.base58encode "6Dct25" "a"
                             true false Sim.offline 3702731314 Hvalid Hdecoded)
                      _ _ Hwrite)
               "Timeout"%string eq_refl).
    reflexivity.
  - assert (Hwrite : uid_write_reply Bench.write_uid_raises "6Dct25" "a"
                       3702731314 (true || false) Sim.healthy
                     = (Raises (IsError Bench.unnamed_error), Sim.healthy))
      by reflexivity.
    rewrite (proj2 (proj1 (uid_errors_are_reported Bench.write_uid_raises
                             Sim.BASE58 Sim.base58decode Sim.base58encode
                             "6Dct25" "a" true false Sim.healthy 3702731314
                             Hvalid Hdecoded)
                      _ _ Hwrite)
               (-13) eq_refl).
    reflexivity.
Defined.

Lemma comcu_on_a_cooperative_device_witness :
  fst (fst (comcu_flash Sim.device 30 (Sim.image 1) "Test" Sim.healthy))
  = Val true.
Proof.
  assert (Hgood : Bench.cooperates Sim.healthy)
    by (repeat split; reflexivity).
  assert (Hmagic : find_regular_plugin_upto (Sim.image 1) <> -1)
    by (vm_compute; discriminate).
  assert (Hlen : Py.len (Sim.image 1) mod XMC1_PAGE_SIZE = 0)
    by (vm_compute; reflexivity).
  assert (Hfuel : Py.len (Sim.image 1) <= XMC1_PAGE_SIZE * Z.of_nat 29)
    by (vm_compute; discriminate).
  destruct (comcu_on_a_cooperative_device Sim.device 29 (Sim.image 1) "Test"
              Sim.healthy Bench.cooperates Sim.mode sim_sets sim_gets
              sim_points sim_takes Hgood Hmagic Hlen Hfuel)
    as (d' & evs & Heq & _).
  rewrite Heq. reflexivity.
Defined.

Lemma tng_on_a_cooperative_module_witness :
  fst (fst (tng_flash Sim.device (Sim.plugin_of_size 100) "Test" Sim.healthy))
  = Val true.
Proof.
  assert (Hgood : Bench.cooperates Sim.healthy)
    by (repeat split; reflexivity).
  destruct (tng_on_a_cooperative_module Sim.device (Sim.plugin_of_size 100)
              "Test" Sim.healthy Bench.cooperates sim_points sim_takes
              sim_copies sim_resets Hgood)
    as (padding & d' & evs & _ & _ & Heq & _).
  rewrite Heq. reflexivity.
Defined.

Lemma comcu_writes_stay_inside_the_image_witness :
  Forall (fun p => 0 <= p /\ p + 64 <= Py.len (Sim.image 1) /\ p mod 64 = 0)
    (pointers_of
       (snd (comcu_write_attempt Sim.device 30 (Sim.image 1)
               (Py.len (Sim.image 1)) "Test" 0 Sim.healthy))).
Proof.
  assert (Hfuel : (11 <= 30)%nat) by lia.
  assert (Hlen : Py.len (Sim.image 1) mod XMC1_PAGE_SIZE = 0)
    by (vm_compute; reflexivity).
  apply Forall_forall.
  exact (proj1 (comcu_writes_stay_inside_the_image Sim.device 30 (Sim.image 1)
                  "Test" 0 Sim.healthy Hfuel Hlen)).
Defined.

Lemma failed_second_attempt_is_final_witness :
  fst (fst (comcu_flash Bench.crc_then_silent 30 (Sim.image 1) "Test"
              Sim.healthy))
  = Val false /\
  failures_of (snd (comcu_flash Bench.crc_then_silent 30 (Sim.image 1) "Test"
                      Sim.healthy))
  = [("Bricklet"%string,
      "Device did not enter bootloader mode in 2.5 seconds (attempt 2)"%string)].
Proof.
  pose (first := comcu_write_attempt Bench.crc_then_silent 30 (Sim.image 1)
                   (Py.len (Sim.image 1)) "Test" 0 Sim.healthy).
  pose (leave := set_comcu_bootloader_mode Bench.crc_then_silent 30
                   BOOTLOADER_MODE_FIRMWARE (snd (fst first))).
  pose (second := comcu_write_attempt Bench.crc_then_silent 30 (Sim.image 1)
                    (Py.len (Sim.image 1)) "Test" 1 (snd (fst leave))).
  assert (Hfuel : (11 <= 30)%nat) by lia.
  assert (Hmagic : find_regular_plugin_upto (Sim.image 1) <> -1)
    by (vm_compute; discriminate).
  assert (Hlen : Py.len (Sim.image 1) mod XMC1_PAGE_SIZE = 0)
    by (vm_compute; reflexivity).
  assert (Hfirst : first = (Val (Next tt), snd (fst first), snd first))
    by (vm_compute; reflexivity).
  assert (Hleave : leave = (Val (Some 5), snd (fst leave), snd leave))
    by (vm_compute; reflexivity).
  assert (Hsecond : second = (Val (Return false), snd (fst second), snd second))
    by (vm_compute; reflexivity).
  destruct (failed_second_attempt_is_final Bench.crc_then_silent 30
              (Sim.image 1) "Test" Sim.healthy _ _ _ _ _ _ Hfuel Hmagic Hlen
              Hfirst Hleave Hsecond) as (Hrun & _).
  rewrite Hrun. split; [reflexivity|]. vm_compute. reflexivity.
Defined.

Lemma success_is_reported_only_after_the_engine_succeeded_witness :
  In (Engine (EvPopupOk "Bricklet"
                (flashed_message (CUSTOM "plugin.bin") false)))
     (snd (plugin_save_flash Sim.device 200 (Sim.archive_of [])
             (fun file => file) (CUSTOM "plugin.bin") (Sim.plugin_of_size 100)
             "a" false false Sim.healthy)).
Proof.
  assert (Hengine :
    fst (fst (write_bricklet_plugin Sim.device 200 (Sim.archive_of [])
                (Sim.plugin_of_size 100) "a" "plugin.bin" false false
                Sim.healthy))
    = Val (Some true)) by (vm_compute; reflexivity).
  rewrite (proj1 (proj2 (success_is_reported_only_after_the_engine_succeeded
                           Sim.device 200 (Sim.archive_of []) (fun file => file)
                           (CUSTOM "plugin.bin") (Sim.plugin_of_size 100) "a"
                           false false Sim.healthy)) Hengine).
  cbn [snd]. right. apply in_or_app. right. right. left. reflexivity.
Defined.

Lemma methods_keep_to_their_own_functions_witness :
  forallb (fun c => comcu_function (EvCall c))
    (calls_of (snd (write_bricklet_plugin_comcu Sim.device 30
                      (Sim.archive_of (Sim.image 1)) [] "Test" Sim.healthy)))
  = true.
Proof.
  apply forallb_forall. intros c Hc.
  exact (proj1 (methods_keep_to_their_own_functions Sim.device 30
                  (Sim.archive_of (Sim.image 1)) [] "a" "Test" Sim.healthy c)
           Hc).
Defined.

Lemma tng_rejects_before_touching_the_module_witness :
  write_bricklet_plugin_tng Sim.device Bench.unreadable [] "Test" Sim.healthy
  = (Val false, Sim.healthy,
     (starting_bootloader_mode ++
      failure_report "Bricklet"
        "Could not read *.zbin file: File is not a zip file")%list) /\
  write_bricklet_plugin_tng Sim.device Bench.interrupted_open [] "Test"
    Sim.healthy
  = (Val false, Sim.healthy,
     (starting_bootloader_mode ++
      [EvProgress cancel;
       EvExcepthook (BaseException "KeyboardInterrupt")])%list).
Proof.
  split.
  - apply (proj1 (tng_rejects_before_touching_the_module Sim.device
                    Bench.unreadable [] "Test" Sim.healthy)
             (Exception "File is not a zip file")).
    reflexivity.
  - apply (proj1 (tng_rejects_before_touching_the_module Sim.device
                    Bench.interrupted_open [] "Test" Sim.healthy)
             (BaseException "KeyboardInterrupt") eq_refl).
Defined.
